(** * gis-city: the browser-side POI map client

    A shallow embedding of the two client scripts of the repository:

    - [static/js/map.js], the read-only viewer ([Module Viewer]);
    - the edit-capable script with the draw control, the creation form and
      the delete handler ([Module Editor]).

    Both scripts share [createPopupContent], [getPolygonColor] and
    [getPolygonStyle] verbatim; these are embedded once.

    Conventions of the embedding.
    - Values received from the backend are JSON values; a JavaScript value is
      an [option JSON], [None] standing for [undefined].
    - JSON numbers are modelled by integers (identifiers and counts), the
      colour cursor by a natural number; strings are byte strings (UTF-8).
    - Something a script can throw is a [result]: [Ok v] or [Threw e].
    - The page (layer groups, overlay, pending drawing, colour cursor, the
      DOM elements the scripts touch) is a record [World]; what the page
      does to the outside (requests, dialogs, console) is its [trace].
    - Script functions are programs of the free monad [Prog]; every [await]
      of the source is an [Await] or [Yield] node, and a call of an
      asynchronous function whose promise is dropped is a [Spawn] node.
    - The browser and Leaflet are a parameter [Host] of the scripts; the user
      and the backend are a parameter [Env] of a run. *)

From Stdlib Require Import List String Ascii ZArith QArith Lia Bool.
From Stdlib Require Import DecimalString.
Import ListNotations.
Local Open Scope string_scope.
Local Open Scope nat_scope.
Local Open Scope list_scope.

Set Implicit Arguments.

(* ================================================================== *)
(** * JavaScript values *)
(* ================================================================== *)

Module JS.

#[local] Set Warnings "-register-all".
Local Open Scope string_scope.

(** A parsed JSON document.  Objects keep their keys in insertion order,
    which is the order of [Object.keys] and of [JSON.stringify]. *)
Inductive JSON : Type :=
| JNull
| JBool (b : bool)
| JNum (z : Z)
| JStr (s : string)
| JArr (items : list JSON)
| JObj (fields : list (string * JSON)).

(** A JavaScript value as the scripts see it: [None] is [undefined]. *)
Definition Value : Type := option JSON.

Definition undefined : Value := None.

(** A thrown JavaScript error: its constructor name and its [message]. *)
Record Exn : Type := mkExn { exn_name : string; message : string }.

Definition TypeError (msg : string) : Exn := mkExn "TypeError" msg.
Definition SyntaxError (msg : string) : Exn := mkExn "SyntaxError" msg.
Definition Error (msg : string) : Exn := mkExn "Error" msg.

(** The completion of an expression or statement that may throw. *)
Inductive result (A : Type) : Type :=
| Ok (a : A)
| Threw (e : Exn).

Arguments Ok {A} a.
Arguments Threw {A} e.

Definition rbind {A B} (r : result A) (f : A -> result B) : result B :=
  match r with
  | Ok a => f a
  | Threw e => Threw e
  end.

(** The double quote character, for markup and for JSON text. *)
Definition dq : string := String (ascii_of_nat 34) EmptyString.

(** The line feed of an indented JSON text. *)
Definition newline : string := String (ascii_of_nat 10) EmptyString.

(** [ToBoolean]. *)
Definition truthy (v : Value) : bool :=
  match v with
  | None => false
  | Some JNull => false
  | Some (JBool b) => b
  | Some (JNum z) => negb (Z.eqb z 0)
  | Some (JStr s) => negb (String.eqb s EmptyString)
  | Some (JArr _) => true
  | Some (JObj _) => true
  end.

(** [a || b]. *)
Definition js_or (a b : Value) : Value := if truthy a then a else b.

(** Own-property lookup in an object. *)
Fixpoint lookup (key : string) (fields : list (string * JSON)) : Value :=
  match fields with
  | [] => None
  | (k, v) :: rest => if String.eqb k key then Some v else lookup key rest
  end.

(** [v.key] for the property names the scripts read ([features],
    [properties], [geom_type], [name], [poi_type], [address], [id],
    [length]).  Reading a property of [undefined] or [null] throws; an
    object answers with its own property; arrays and strings answer
    [length] only (a string with its number of bytes, which is zero exactly
    when its number of UTF-16 units is); every other read is [undefined]. *)
Definition get_prop (v : Value) (key : string) : result Value :=
  match v with
  | None =>
      Threw (TypeError ("Cannot read properties of undefined (reading '" ++ key ++ "')"))
  | Some JNull =>
      Threw (TypeError ("Cannot read properties of null (reading '" ++ key ++ "')"))
  | Some (JObj fields) => Ok (lookup key fields)
  | Some (JArr items) =>
      if String.eqb key "length" then Ok (Some (JNum (Z.of_nat (List.length items))))
      else Ok None
  | Some (JStr s) =>
      if String.eqb key "length" then Ok (Some (JNum (Z.of_nat (String.length s))))
      else Ok None
  | Some (JBool _) => Ok None
  | Some (JNum _) => Ok None
  end.

(** [a === b] where one side is a literal: objects and arrays are compared
    by reference and never equal a fresh literal. *)
Definition strict_eq (a b : Value) : bool :=
  match a, b with
  | None, None => true
  | Some JNull, Some JNull => true
  | Some (JBool x), Some (JBool y) => Bool.eqb x y
  | Some (JNum x), Some (JNum y) => Z.eqb x y
  | Some (JStr x), Some (JStr y) => String.eqb x y
  | _, _ => false
  end.

(** Decimal text of an integer, as [Number.prototype.toString] prints it. *)
Definition show_Z (z : Z) : string := NilZero.string_of_int (Z.to_int z).

Fixpoint join (sep : string) (parts : list string) : string :=
  match parts with
  | [] => EmptyString
  | [p] => p
  | p :: rest => p ++ sep ++ join sep rest
  end.

(** The completions of successive evaluations: the values in order, or
    the first error. *)
Fixpoint in_order {A} (rs : list (result A)) : result (list A) :=
  match rs with
  | [] => Ok []
  | r :: rest =>
      rbind r (fun a => rbind (in_order rest) (fun others => Ok (a :: others)))
  end.

(** The error of [ToPrimitive] on an object that yields no primitive. *)
Definition not_primitive : Exn :=
  TypeError "Cannot convert object to primitive value".

(** [ToString] of a JSON value, the conversion of a template literal
    [`${v}`].  An array prints through [join]: its elements in order,
    separated by commas, [null] elements as the empty string.  An object is
    converted through its [toString] and [valueOf] properties: without a
    key [toString] of its own it prints through [Object.prototype.toString];
    with such a key, whose value comes from JSON and is no function,
    neither property yields a primitive and the conversion throws. *)
Fixpoint json_to_string (j : JSON) : result string :=
  match j with
  | JNull => Ok "null"
  | JBool true => Ok "true"
  | JBool false => Ok "false"
  | JNum z => Ok (show_Z z)
  | JStr s => Ok s
  | JArr items =>
      rbind (in_order (map (fun x => match x with
                                     | JNull => Ok EmptyString
                                     | _ => json_to_string x
                                     end) items))
            (fun parts => Ok (join "," parts))
  | JObj fields =>
      match lookup "toString" fields with
      | Some _ => Threw not_primitive
      | None => Ok "[object Object]"
      end
  end.

Definition to_string (v : Value) : result string :=
  match v with
  | None => Ok "undefined"
  | Some j => json_to_string j
  end.

(** [Object.keys(v)]: the own enumerable keys; it throws on [undefined]
    and [null].  A string has one key per byte here, per UTF-16 unit in
    JavaScript; the scripts only test whether there is a key. *)
Definition Object_keys (v : Value) : result (list string) :=
  match v with
  | None => Threw (TypeError "Cannot convert undefined or null to object")
  | Some JNull => Threw (TypeError "Cannot convert undefined or null to object")
  | Some (JObj fields) => Ok (map fst fields)
  | Some (JArr items) =>
      Ok (map (fun i => show_Z (Z.of_nat i)) (seq 0 (List.length items)))
  | Some (JStr s) =>
      Ok (map (fun i => show_Z (Z.of_nat i)) (seq 0 (String.length s)))
  | Some (JBool _) => Ok []
  | Some (JNum _) => Ok []
  end.

(** ** [JSON.stringify] *)

Definition hex_digit (n : nat) : string :=
  String (ascii_of_nat (if Nat.ltb n 10 then 48 + n else 87 + n)) EmptyString.

(** One character of a quoted JSON string. *)
Definition quote_char (c : ascii) : string :=
  let n := nat_of_ascii c in
  if Nat.eqb n 34 then "\" ++ dq
  else if Nat.eqb n 92 then "\\"
  else if Nat.eqb n 8 then "\b"
  else if Nat.eqb n 12 then "\f"
  else if Nat.eqb n 10 then "\n"
  else if Nat.eqb n 13 then "\r"
  else if Nat.eqb n 9 then "\t"
  else if Nat.ltb n 32 then "\u00" ++ hex_digit (n / 16) ++ hex_digit (n mod 16)
  else String c EmptyString.

Fixpoint quote_chars (s : string) : string :=
  match s with
  | EmptyString => EmptyString
  | String c rest => quote_char c ++ quote_chars rest
  end.

Definition quote (s : string) : string := dq ++ quote_chars s ++ dq.

(** The bracketed, separated text of an array or object whose members are
    already serialised; [gap] is the indentation unit, [stepback] the
    indentation of the enclosing level. *)
Definition bracket (opening closing gap stepback : string)
    (members : list string) : string :=
  match members with
  | [] => opening ++ closing
  | _ =>
      if String.eqb gap EmptyString
      then opening ++ join "," members ++ closing
      else
        let indent := stepback ++ gap in
        opening ++ newline ++ indent ++ join ("," ++ newline ++ indent) members
                ++ newline ++ stepback ++ closing
  end.

Fixpoint serialize (gap stepback : string) (j : JSON) : string :=
  match j with
  | JNull => "null"
  | JBool true => "true"
  | JBool false => "false"
  | JNum z => show_Z z
  | JStr s => quote s
  | JArr items =>
      bracket "[" "]" gap stepback
        (map (serialize gap (stepback ++ gap)) items)
  | JObj fields =>
      bracket "{" "}" gap stepback
        (map (fun kv =>
                match kv with
                | (k, v) =>
                    quote k ++ (if String.eqb gap EmptyString then ":" else ": ")
                            ++ serialize gap (stepback ++ gap) v
                end) fields)
  end.

Fixpoint spaces (n : nat) : string :=
  match n with
  | O => EmptyString
  | S m => " " ++ spaces m
  end.

(** [JSON.stringify(j, null, n)] for [n <= 10]; [JSON.stringify(j)] is
    [JSON_stringify j 0]. *)
Definition JSON_stringify (j : JSON) (n : nat) : string :=
  serialize (spaces n) EmptyString j.

(** ** [String.prototype.trim] *)

(** The white space and line terminators that [trim] strips, as UTF-8 byte
    sequences: TAB, LF, VT, FF, CR, SP, U+00A0, U+1680, U+2000 to U+200A,
    U+2028, U+2029, U+202F, U+205F, U+3000, U+FEFF. *)
Definition white_space : list (list nat) :=
  [[9]; [10]; [11]; [12]; [13]; [32]; [194; 160]; [225; 154; 128];
   [226; 128; 128]; [226; 128; 129]; [226; 128; 130]; [226; 128; 131];
   [226; 128; 132]; [226; 128; 133]; [226; 128; 134]; [226; 128; 135];
   [226; 128; 136]; [226; 128; 137]; [226; 128; 138]; [226; 128; 168];
   [226; 128; 169]; [226; 128; 175]; [226; 129; 159]; [227; 128; 128];
   [239; 187; 191]].

Fixpoint drop_prefix (pre : list nat) (s : string) : option string :=
  match pre with
  | [] => Some s
  | c :: pre' =>
      match s with
      | String d s' => if Nat.eqb c (nat_of_ascii d) then drop_prefix pre' s' else None
      | EmptyString => None
      end
  end.

Fixpoint drop_one (seqs : list (list nat)) (s : string) : option string :=
  match seqs with
  | [] => None
  | pre :: rest =>
      match drop_prefix pre s with
      | Some s' => Some s'
      | None => drop_one rest s
      end
  end.

Fixpoint drop_all (fuel : nat) (seqs : list (list nat)) (s : string) : string :=
  match fuel with
  | O => s
  | S fuel' =>
      match drop_one seqs s with
      | Some s' => drop_all fuel' seqs s'
      | None => s
      end
  end.

Fixpoint reverse (s acc : string) : string :=
  match s with
  | EmptyString => acc
  | String c rest => reverse rest (String c acc)
  end.

Definition trimStart (s : string) : string :=
  drop_all (String.length s) white_space s.

Definition trimEnd (s : string) : string :=
  reverse (drop_all (String.length s) (map (@rev nat) white_space)
             (reverse s EmptyString)) EmptyString.

Definition trim (s : string) : string := trimEnd (trimStart s).

End JS.

Import JS.

Notation "x <-! r ;; k" := (rbind r (fun x => k))
  (at level 61, r at next level, right associativity).

(* ================================================================== *)
(** * Popup renderer (both scripts) *)
(* ================================================================== *)

Local Open Scope string_scope.

(** [createPopupContent(feature)]. *)
Definition createPopupContent (feature : Value) : result string :=
  props <-! get_prop feature "properties" ;;
  let html := "<div class=" ++ dq ++ "popup-content" ++ dq ++ ">" in
  name <-! get_prop props "name" ;;
  name_text <-! to_string (js_or name (Some (JStr "Unnamed POI"))) ;;
  let html := html ++ "<h3>" ++ name_text ++ "</h3>" in
  poi_type <-! get_prop props "poi_type" ;;
  html <-! (if truthy poi_type
            then
              type_text <-! to_string poi_type ;;
              Ok (html ++ "<p><strong>Type:</strong> " ++ type_text ++ "</p>")
            else Ok html) ;;
  address <-! get_prop props "address" ;;
  html <-! (if truthy address
            then
              address_text <-! to_string address ;;
              Ok (html ++ "<p><strong>Address:</strong> " ++ address_text ++ "</p>")
            else Ok html) ;;
  id <-! get_prop props "id" ;;
  id_text <-! to_string id ;;
  let html := html ++ "<p><strong>ID:</strong> " ++ id_text ++ "</p>" in
  geom_type <-! get_prop props "geom_type" ;;
  geom_text <-! to_string geom_type ;;
  let html := html ++ "<p><strong>Geometry:</strong> " ++ geom_text ++ "</p>" in
  extra <-! get_prop props "properties" ;;
  has_extra <-! (if truthy extra
                 then keys <-! Object_keys extra ;; Ok (Nat.ltb 0 (List.length keys))
                 else Ok false) ;;
  let html :=
    if has_extra
    then
      let html := html ++ "<div class=" ++ dq ++ "properties" ++ dq ++ ">" in
      let html := html ++ "<strong>Additional Properties:</strong><br>" in
      let html :=
        html ++ "<pre>"
             ++ match extra with Some j => JSON_stringify j 2 | None => "undefined" end
             ++ "</pre>" in
      html ++ "</div>"
    else html in
  let html := html ++ "</div>" in
  Ok html.

Local Open Scope list_scope.

(* ================================================================== *)
(** * The page: map, layer groups, form, trace *)
(* ================================================================== *)

(** Leaflet path options, as far as the scripts set them. *)
Record Style : Type := mkStyle {
  radius : option Z;
  fillColor : option string;
  color : option string;
  weight : option Z;
  opacity : option Q;
  fillOpacity : option Q
}.

Definition no_style : Style := mkStyle None None None None None None.

(** What Leaflet builds for one geometry: a marker for a single position
    (or whatever [pointToLayer] returns for it), a path for a line or a
    polygon, a feature group for a collection (a MultiPoint or a
    GeometryCollection).  The members of such a feature group are no layers
    of the [L.geoJSON] instance: its [eachLayer] visits the group, not
    them, and they are not modelled. *)
Inductive ShapeKind : Type := Marker | Path | Collection.

(** One layer that [L.geoJSON] builds: what Leaflet sets [layer.feature]
    to ([asFeature] of the GeoJSON object the layer is built from), the
    geometry of the layer, and its kind. *)
Record Shape : Type := mkShape {
  shape_feature : Value;
  shape_geometry : Value;
  kind : ShapeKind
}.

(** A Leaflet layer.  [stamp] is Leaflet's internal id ([L.stamp]);
    [feature] is [layer.feature]; [geometry] is what [toGeoJSON().geometry]
    answers; [options] are the path options of the layer itself (a
    feature group has none). *)
Record Layer : Type := mkLayer {
  stamp : nat;
  shape : ShapeKind;
  feature : Value;
  geometry : Value;
  options : Style
}.

(** An [L.geoJSON(...)] instance added to one of the layer groups: the
    GeoJSON it was built from, the layers it holds, its popup. *)
Record Group : Type := mkGroup {
  source : Value;
  children : list Layer;
  popup : option string
}.

(** The four inputs of the creation form. *)
Record Form : Type := mkForm {
  poi_name : string;
  poi_type : string;
  poi_address : string;
  poi_properties : string
}.

Record Request : Type := mkRequest {
  method : string;
  url : string;
  headers : list (string * string);
  body : option string
}.

(** A response as the scripts use it: [ok], [status] and the completion of
    [response.json()]. *)
Record Response : Type := mkResponse {
  ok : bool;
  status : Z;
  json : result JSON
}.

(** The completion of [fetch(...)]: rejected on a network failure. *)
Inductive FetchOutcome : Type :=
| Rejected (e : Exn)
| Resolved (r : Response).

(** What the page does to the outside, in order. *)
Inductive Event : Type :=
| Requested (req : Request)
| Alerted (msg : string)
| Confirmed (msg : string) (answer : bool)
| ConsoleLog (text : string) (arg : Value)
| ConsoleError (text : string) (e : Exn)
| FitBounds (padding : Z * Z).

Record World : Type := mkWorld {
  pointLayer : list Group;
  lineLayer : list Group;
  polygonLayer : list Group;
  drawnItems : list Layer;
  currentDrawing : option Layer;
  colorIndex : nat;
  poi_count : string;        (* textContent of #poi-count *)
  modal_display : string;    (* style.display of #poi-modal *)
  focused : string;          (* id of the focused element *)
  form : Form;               (* current values of the form's inputs *)
  next_stamp : nat;          (* Leaflet's id counter *)
  trace : list Event
}.

Definition set_pointLayer v w :=
  mkWorld v (lineLayer w) (polygonLayer w) (drawnItems w) (currentDrawing w)
    (colorIndex w) (poi_count w) (modal_display w) (focused w) (form w)
    (next_stamp w) (trace w).
Definition set_lineLayer v w :=
  mkWorld (pointLayer w) v (polygonLayer w) (drawnItems w) (currentDrawing w)
    (colorIndex w) (poi_count w) (modal_display w) (focused w) (form w)
    (next_stamp w) (trace w).
Definition set_polygonLayer v w :=
  mkWorld (pointLayer w) (lineLayer w) v (drawnItems w) (currentDrawing w)
    (colorIndex w) (poi_count w) (modal_display w) (focused w) (form w)
    (next_stamp w) (trace w).
Definition set_drawnItems v w :=
  mkWorld (pointLayer w) (lineLayer w) (polygonLayer w) v (currentDrawing w)
    (colorIndex w) (poi_count w) (modal_display w) (focused w) (form w)
    (next_stamp w) (trace w).
Definition set_currentDrawing v w :=
  mkWorld (pointLayer w) (lineLayer w) (polygonLayer w) (drawnItems w) v
    (colorIndex w) (poi_count w) (modal_display w) (focused w) (form w)
    (next_stamp w) (trace w).
Definition set_colorIndex v w :=
  mkWorld (pointLayer w) (lineLayer w) (polygonLayer w) (drawnItems w)
    (currentDrawing w) v (poi_count w) (modal_display w) (focused w) (form w)
    (next_stamp w) (trace w).
Definition set_poi_count v w :=
  mkWorld (pointLayer w) (lineLayer w) (polygonLayer w) (drawnItems w)
    (currentDrawing w) (colorIndex w) v (modal_display w) (focused w) (form w)
    (next_stamp w) (trace w).
Definition set_modal_display v w :=
  mkWorld (pointLayer w) (lineLayer w) (polygonLayer w) (drawnItems w)
    (currentDrawing w) (colorIndex w) (poi_count w) v (focused w) (form w)
    (next_stamp w) (trace w).
Definition set_focused v w :=
  mkWorld (pointLayer w) (lineLayer w) (polygonLayer w) (drawnItems w)
    (currentDrawing w) (colorIndex w) (poi_count w) (modal_display w) v (form w)
    (next_stamp w) (trace w).
Definition set_form v w :=
  mkWorld (pointLayer w) (lineLayer w) (polygonLayer w) (drawnItems w)
    (currentDrawing w) (colorIndex w) (poi_count w) (modal_display w) (focused w) v
    (next_stamp w) (trace w).
Definition set_next_stamp v w :=
  mkWorld (pointLayer w) (lineLayer w) (polygonLayer w) (drawnItems w)
    (currentDrawing w) (colorIndex w) (poi_count w) (modal_display w) (focused w)
    (form w) v (trace w).
Definition set_trace v w :=
  mkWorld (pointLayer w) (lineLayer w) (polygonLayer w) (drawnItems w)
    (currentDrawing w) (colorIndex w) (poi_count w) (modal_display w) (focused w)
    (form w) (next_stamp w) v.

(** The page as the scripts find it when they start: the statements at the
    top of each script. *)
Definition initial_world (f : Form) : World :=
  mkWorld [] [] [] [] None 0 EmptyString EmptyString EmptyString f 0 [].

(** What the scripts take from their host: the browser's [JSON.parse],
    Leaflet's reading of a GeoJSON object (the layers [L.geoJSON] builds
    for it, in order, and the error it stops on, if any), and the default
    values of the form's inputs in the page's markup. *)
Record Host : Type := mkHost {
  JSON_parse : string -> result JSON;
  geoJSON_shapes : Value -> list Shape * option Exn;
  form_defaults : Form
}.

(* ================================================================== *)
(** * Programs *)
(* ================================================================== *)

(** A script function as a tree of its interactions: reads and updates of
    the page, [confirm(...)], [await fetch(...)], [await] of a promise that
    is already settled by the response ([Yield]), and the call of an
    asynchronous function whose promise is dropped ([Spawn]). *)
Inductive Prog (A : Type) : Type :=
| Ret (a : A)
| Throw (e : Exn)
| Get (k : World -> Prog A)
| Modify (f : World -> World) (k : Prog A)
| Confirm (msg : string) (k : bool -> Prog A)
| Await (req : Request) (k : FetchOutcome -> Prog A)
| Yield (k : Prog A)
| Spawn (child : Prog unit) (k : Prog A).

Arguments Ret {A} a.
Arguments Throw {A} e.
Arguments Get {A} k.
Arguments Modify {A} f k.
Arguments Confirm {A} msg k.
Arguments Await {A} req k.
Arguments Yield {A} k.
Arguments Spawn {A} child k.

Fixpoint bind {A B} (p : Prog A) (f : A -> Prog B) : Prog B :=
  match p with
  | Ret a => f a
  | Throw e => Throw e
  | Get k => Get (fun w => bind (k w) f)
  | Modify g k => Modify g (bind k f)
  | Confirm msg k => Confirm msg (fun b => bind (k b) f)
  | Await req k => Await req (fun o => bind (k o) f)
  | Yield k => Yield (bind k f)
  | Spawn child k => Spawn child (bind k f)
  end.

(** [try { p } catch (error) { h error }] inside an asynchronous function.
    A spawned call does not throw into its caller. *)
Fixpoint try_catch {A} (p : Prog A) (h : Exn -> Prog A) : Prog A :=
  match p with
  | Ret a => Ret a
  | Throw e => h e
  | Get k => Get (fun w => try_catch (k w) h)
  | Modify g k => Modify g (try_catch k h)
  | Confirm msg k => Confirm msg (fun b => try_catch (k b) h)
  | Await req k => Await req (fun o => try_catch (k o) h)
  | Yield k => Yield (try_catch k h)
  | Spawn child k => Spawn child (try_catch k h)
  end.

Declare Scope prog_scope.
Delimit Scope prog_scope with prog.
Bind Scope prog_scope with Prog.

Notation "x <- p ;; k" := (bind p (fun x => k))
  (at level 61, p at next level, right associativity) : prog_scope.
Notation "p ;; k" := (bind p (fun _ => k))
  (at level 61, right associativity) : prog_scope.

Local Open Scope prog_scope.

Definition modify (f : World -> World) : Prog unit :=
  Modify f (Ret tt).

Definition gets {A} (f : World -> A) : Prog A :=
  Get (fun w => Ret (f w)).

(** A synchronous expression that may throw. *)
Definition lift {A} (r : result A) : Prog A :=
  match r with
  | Ok a => Ret a
  | Threw e => Throw e
  end.

Definition emit (ev : Event) : Prog unit :=
  modify (fun w => set_trace (trace w ++ [ev]) w).

Definition alert (msg : string) : Prog unit := emit (Alerted msg).
Definition console_log (text : string) (arg : Value) : Prog unit :=
  emit (ConsoleLog text arg).
Definition console_error (text : string) (e : Exn) : Prog unit :=
  emit (ConsoleError text e).

(** [await fetch(url, init)]. *)
Definition fetch (req : Request) : Prog Response :=
  Await req (fun o =>
    match o with
    | Rejected e => Throw e
    | Resolved r => Ret r
    end).

(** [await response.json()]. *)
Definition response_json (r : Response) : Prog JSON :=
  Yield (lift (json r)).

(** [xs.forEach(body)]. *)
Fixpoint for_each {X} (xs : list X) (body : X -> Prog unit) : Prog unit :=
  match xs with
  | [] => Ret tt
  | x :: rest => body x ;; for_each rest body
  end.

(** [xs.forEach(body)] where [body] updates local variables [s]. *)
Fixpoint for_each_with {X S} (xs : list X) (body : X -> S -> Prog S) (s : S)
    : Prog S :=
  match xs with
  | [] => Ret s
  | x :: rest => s' <- body x s ;; for_each_with rest body s'
  end.

(* ================================================================== *)
(** * Running programs *)
(* ================================================================== *)

(** The outside of the page: the user answering a [confirm] dialog and the
    backend answering a request, each knowing everything that happened
    before. *)
Record Env : Type := mkEnv {
  user : list Event -> string -> bool;
  server : list Event -> Request -> FetchOutcome
}.

(** A suspended asynchronous call: waiting for a response, or for a
    promise that is already settled. *)
Inductive Suspension (A : Type) : Type :=
| OnFetch (req : Request) (k : FetchOutcome -> Prog A)
| OnTick (k : Prog A).

Inductive Paused (A : Type) : Type :=
| Finished (r : result A)
| Suspended (s : Suspension A).

Arguments OnFetch {A} req k.
Arguments OnTick {A} k.
Arguments Finished {A} r.
Arguments Suspended {A} s.

(** The page together with the asynchronous calls that are suspended. *)
Definition Config : Type := (World * list (Suspension unit))%type.

Definition log (ev : Event) (c : Config) : Config :=
  (set_trace (trace (fst c) ++ [ev]) (fst c), snd c).

(** A dropped promise: the call stays suspended in the pool, or is over. *)
Definition park (st : Paused unit) (c : Config) : Config :=
  match st with
  | Finished _ => c
  | Suspended s => (fst c, snd c ++ [s])
  end.

(** Synchronous execution: up to the first [await] of the program. *)
Fixpoint exec {A : Type} (env : Env) (p : Prog A) (c : Config) : Config * Paused A :=
  match p with
  | Ret a => (c, Finished (Ok a))
  | Throw e => (c, Finished (Threw e))
  | Get k => exec env (k (fst c)) c
  | Modify f k => exec env k (f (fst c), snd c)
  | Confirm msg k =>
      let b := user env (trace (fst c)) msg in
      exec env (k b) (log (Confirmed msg b) c)
  | Await req k => (log (Requested req) c, Suspended (OnFetch req k))
  | Yield k => (c, Suspended (OnTick k))
  | Spawn child k =>
      let (c1, st) := exec env child c in
      exec env k (park st c1)
  end.

(** Execution to the end, when nothing else happens on the page while the
    program waits: each request is answered by [server env] at once. *)
Fixpoint run {A : Type} (env : Env) (p : Prog A) (c : Config) : Config * result A :=
  match p with
  | Ret a => (c, Ok a)
  | Throw e => (c, Threw e)
  | Get k => run env (k (fst c)) c
  | Modify f k => run env k (f (fst c), snd c)
  | Confirm msg k =>
      let b := user env (trace (fst c)) msg in
      run env (k b) (log (Confirmed msg b) c)
  | Await req k =>
      run env (k (server env (trace (fst c)) req)) (log (Requested req) c)
  | Yield k => run env k c
  | Spawn child k =>
      let (c1, st) := exec env child c in
      run env k (park st c1)
  end.

(** One turn of the event loop: a suspended call is resumed, with any
    outcome for a request, and runs up to its next [await]. *)
Inductive resume (env : Env) : Config -> Config -> Prop :=
| resume_fetch w before req k after o c st :
    exec env (k o) (w, before ++ after) = (c, st) ->
    resume env (w, before ++ OnFetch req k :: after) (park st c)
| resume_tick w before k after c st :
    exec env k (w, before ++ after) = (c, st) ->
    resume env (w, before ++ OnTick k :: after) (park st c).

Inductive resumes (env : Env) : Config -> Config -> Prop :=
| resumes_refl c : resumes env c c
| resumes_step c1 c2 c3 :
    resume env c1 c2 -> resumes env c2 c3 -> resumes env c1 c3.

(* ================================================================== *)
(** * Style selector and Leaflet glue (both scripts) *)
(* ================================================================== *)

Definition polygonColors : list string :=
  ["#FF6B6B"; "#4ECDC4"; "#45B7D1"; "#FFA07A"; "#98D8C8";
   "#F7DC6F"; "#BB8FCE"; "#85C1E2"; "#F8B739"; "#52B788"].

(** [getPolygonColor()]; an index outside the palette would answer
    [undefined], here [None]. *)
Definition getPolygonColor : Prog (option string) :=
  i <- gets colorIndex ;;
  let color := nth_error polygonColors (i mod List.length polygonColors) in
  modify (fun w => set_colorIndex (S (colorIndex w)) w) ;;
  Ret color.

(** [getPolygonStyle(feature)]. *)
Definition getPolygonStyle (feature : Value) : Prog Style :=
  color <- getPolygonColor ;;
  Ret (mkStyle None color color (Some 2%Z) (Some (4 # 5)%Q) (Some (1 # 2)%Q)).

(** The [style] option of [L.geoJSON]: absent, an object, or a function of
    the feature. *)
Inductive StyleOption : Type :=
| StyleAbsent
| StyleObject (s : Style)
| StyleFunction (f : Value -> Prog Style).

(** The options the scripts pass to [L.geoJSON].  [pointToLayer], when
    given, builds [L.circleMarker(latlng, o)]; [o] is recorded. *)
Record GeoJSONOptions : Type := mkOptions {
  style : StyleOption;
  pointToLayer : option Style
}.

(** [layer.setStyle(s)]: the given options override. *)
Definition merge_style (base s : Style) : Style :=
  let pick {X} (a b : option X) := match b with Some _ => b | None => a end in
  mkStyle (pick (radius base) (radius s)) (pick (fillColor base) (fillColor s))
          (pick (color base) (color s)) (pick (weight base) (weight s))
          (pick (opacity base) (opacity s)) (pick (fillOpacity base) (fillOpacity s)).

(** A layer has [setStyle] unless it is a plain [L.Marker]. *)
Definition has_setStyle (k : ShapeKind) (opts : GeoJSONOptions) : bool :=
  match k, pointToLayer opts with
  | Marker, None => false
  | _, _ => true
  end.

(** [layer.setStyle(s)] on a layer of kind [k].  A path or a circle marker
    takes the options; a feature group hands them to those of its members
    that have [setStyle] and keeps no option itself. *)
Definition setStyle (k : ShapeKind) (base s : Style) : Style :=
  match k with
  | Collection => base
  | _ => merge_style base s
  end.

(** Leaflet's [addData] for one layer: build it, attach the feature, apply
    the [style] option (a [style] function is called for every layer that
    has [setStyle]), add it to the group (which stamps it). *)
Definition add_shape (opts : GeoJSONOptions) (sh : Shape) (acc : list Layer)
    : Prog (list Layer) :=
  let base :=
    match kind sh, pointToLayer opts with
    | Marker, Some o => o
    | _, _ => no_style
    end in
  let feat := shape_feature sh in
  applied <-
    (if has_setStyle (kind sh) opts
     then
       match style opts with
       | StyleAbsent => Ret base
       | StyleObject s => Ret (setStyle (kind sh) base s)
       | StyleFunction f => s <- f feat ;; Ret (setStyle (kind sh) base s)
       end
     else Ret base) ;;
  id <- gets next_stamp ;;
  modify (set_next_stamp (S id)) ;;
  Ret (acc ++ [mkLayer id (kind sh) feat (shape_geometry sh) applied]).

(** [L.geoJSON(geojson, opts)]; the group carries no popup yet. *)
Definition L_geoJSON (h : Host) (geojson : Value) (opts : GeoJSONOptions)
    : Prog Group :=
  let (shapes, err) := geoJSON_shapes h geojson in
  layers <- for_each_with shapes (add_shape opts) [] ;;
  match err with
  | Some e => Throw e
  | None => Ret (mkGroup geojson layers None)
  end.

(** [group.bindPopup(html)]. *)
Definition bindPopup (g : Group) (html : string) : Group :=
  mkGroup (source g) (children g) (Some html).

(** All layers rendered in the given layer groups. *)
Definition rendered (groups : list Group) : list Layer :=
  flat_map children groups.

(** [features.forEach]: only an array has it. *)
Definition as_array (v : Value) (what : string) : result (list JSON) :=
  match v with
  | Some (JArr items) => Ok items
  | _ => Threw (TypeError (what ++ " is not a function"))
  end.

Definition circle_options : Style :=
  mkStyle (Some 8%Z) (Some "#3388ff") (Some "#fff") (Some 2%Z) (Some 1%Q) (Some (4 # 5)%Q).

Definition line_options : Style :=
  mkStyle None None (Some "#00ff00") (Some 4%Z) (Some (4 # 5)%Q) None.

(** [`Total POIs: ${features.length}`] and the emptiness test of the
    loader, shared by both scripts. *)
Definition no_features (features : Value) : result bool :=
  if negb (truthy features) then Ok true
  else len <-! get_prop features "length" ;; Ok (strict_eq len (Some (JNum 0))).

Definition get_request (u : string) : Request := mkRequest "GET" u [] None.

(** The error of [layer.getLatLng()] on a layer that has no such method. *)
Definition no_getLatLng : Exn := TypeError "layer.getLatLng is not a function".

(** [L.featureGroup(members).getBounds().isValid()] where the members are
    layer groups of the page.  [getBounds] extends the bounds by
    [layer.getBounds ? layer.getBounds() : layer.getLatLng()] for each
    member in turn; the layer groups are [L.layerGroup()] objects, which
    have neither method, so the call throws on the first member, whatever
    the groups hold.  A feature group without members has empty bounds,
    which are not valid. *)
Definition getBounds_isValid (members : nat) : result bool :=
  match members with
  | O => Ok false
  | S _ => Threw no_getLatLng
  end.

(** The statements [// Fit map to show all features] of [loadPOIs];
    [members] is the number of layer groups put in [allLayers]. *)
Definition fit_bounds (members : nat) : Prog unit :=
  valid <- lift (getBounds_isValid members) ;;
  if valid
  then emit (FitBounds (50, 50)%Z)
  else Ret tt.

Definition count_text (n : nat) : string := show_Z (Z.of_nat n).

(* ================================================================== *)
(** * The viewer: [static/js/map.js] *)
(* ================================================================== *)

Module Viewer.

(** The body of the first [forEach] of [loadPOIs]: [points] and [polygons]
    are its two local arrays. *)
Definition classify (feature : JSON) (acc : list JSON * list JSON)
    : Prog (list JSON * list JSON) :=
  let (points, polygons) := acc in
  props <- lift (get_prop (Some feature) "properties") ;;
  geomType <- lift (get_prop props "geom_type") ;;
  if strict_eq geomType (Some (JStr "ST_Point"))
  then Ret (points ++ [feature], polygons)
  else Ret (points, polygons ++ [feature]).

Definition add_point (h : Host) (feature : JSON) : Prog unit :=
  marker <- L_geoJSON h (Some feature) (mkOptions StyleAbsent (Some circle_options)) ;;
  html <- lift (createPopupContent (Some feature)) ;;
  let marker := bindPopup marker html in
  modify (fun w => set_pointLayer (pointLayer w ++ [marker]) w).

Definition add_polygon (h : Host) (feature : JSON) : Prog unit :=
  polygon <- L_geoJSON h (Some feature) (mkOptions (StyleFunction getPolygonStyle) None) ;;
  html <- lift (createPopupContent (Some feature)) ;;
  let polygon := bindPopup polygon html in
  modify (fun w => set_polygonLayer (polygonLayer w ++ [polygon]) w).

(** The statements of [loadPOIs] from [// Separate points and polygons]
    to the end of its [try] block. *)
Definition render (h : Host) (features : Value) : Prog unit :=
  items <- lift (as_array features "geojson.features.forEach") ;;
  sorted <- for_each_with items classify ([], []) ;;
  let (points, polygons) := sorted in
  for_each points (add_point h) ;;
  for_each polygons (add_polygon h) ;;
  fit_bounds 2 ;;
  console_log ("Loaded " ++ count_text (List.length points) ++ " points and "
                 ++ count_text (List.length polygons) ++ " polygons") None.

(** [loadPOIs()]. *)
Definition loadPOIs (h : Host) : Prog unit :=
  try_catch
    (response <- fetch (get_request "/api/pois") ;;
     geojson <- response_json response ;;
     features <- lift (get_prop (Some geojson) "features") ;;
     empty <- lift (no_features features) ;;
     if empty
     then modify (set_poi_count "No POIs found in database")
     else
       len <- lift (get_prop features "length") ;;
       len_text <- lift (to_string len) ;;
       modify (set_poi_count ("Total POIs: " ++ len_text)) ;;
       render h features)
    (fun error =>
       console_error "Error loading POIs:" error ;;
       modify (set_poi_count "Error loading POIs")).

(** The statements that run when the script is loaded: [loadPOIs()], its
    promise dropped. *)
Definition on_load (h : Host) : Prog unit :=
  Spawn (loadPOIs h) (Ret tt).

End Viewer.

(* ================================================================== *)
(** * The editor: the script with the draw control *)
(* ================================================================== *)

Module Editor.

(** [group.addLayer(layer)]: a Leaflet group keeps one entry per stamp. *)
Definition addLayer (l : Layer) (ls : list Layer) : list Layer :=
  if existsb (fun x => Nat.eqb (stamp x) (stamp l)) ls
  then map (fun x => if Nat.eqb (stamp x) (stamp l) then l else x) ls
  else ls ++ [l].

(** [group.removeLayer(layer)]. *)
Definition removeLayer (l : Layer) (ls : list Layer) : list Layer :=
  filter (fun x => negb (Nat.eqb (stamp x) (stamp l))) ls.

(** [layer.feature = feature] on a layer that a group already holds: the
    assignment shows wherever the layer is held. *)
Definition attach (feature : Value) (target : Layer) (l : Layer) : Layer :=
  if Nat.eqb (stamp l) (stamp target)
  then mkLayer (stamp l) (shape l) feature (geometry l) (options l)
  else l.

Definition attach_in_groups (feature : Value) (target : Layer) (gs : list Group)
    : list Group :=
  map (fun g => mkGroup (source g) (map (attach feature target) (children g)) (popup g)) gs.

Definition set_layer_feature (feature : Value) (target : Layer) (w : World) : World :=
  mkWorld (attach_in_groups feature target (pointLayer w))
          (attach_in_groups feature target (lineLayer w))
          (attach_in_groups feature target (polygonLayer w))
          (map (attach feature target) (drawnItems w))
          (option_map (attach feature target) (currentDrawing w))
          (colorIndex w) (poi_count w) (modal_display w) (focused w) (form w)
          (next_stamp w) (trace w).

(** The callback of [group.eachLayer] in [loadPOIs]:
    [layer.feature = feature; drawnItems.addLayer(layer)]. *)
Definition make_editable (feature : JSON) (layer : Layer) : Prog unit :=
  modify (set_layer_feature (Some feature) layer) ;;
  modify (fun w => set_drawnItems (addLayer (attach (Some feature) layer layer) (drawnItems w)) w).

Definition add_line (h : Host) (feature : JSON) : Prog unit :=
  line <- L_geoJSON h (Some feature) (mkOptions (StyleObject line_options) None) ;;
  html <- lift (createPopupContent (Some feature)) ;;
  let line := bindPopup line html in
  modify (fun w => set_lineLayer (lineLayer w ++ [line]) w) ;;
  for_each (children line) (make_editable feature).

(** The body of the first [forEach] of [loadPOIs]: [points] and [polygons]
    are its two local arrays; a line is rendered on the spot. *)
Definition classify (h : Host) (feature : JSON) (acc : list JSON * list JSON)
    : Prog (list JSON * list JSON) :=
  let (points, polygons) := acc in
  props <- lift (get_prop (Some feature) "properties") ;;
  geomType <- lift (get_prop props "geom_type") ;;
  if strict_eq geomType (Some (JStr "ST_Point"))
  then Ret (points ++ [feature], polygons)
  else if strict_eq geomType (Some (JStr "ST_LineString"))
          || strict_eq geomType (Some (JStr "ST_MultiLineString"))
  then add_line h feature ;; Ret (points, polygons)
  else Ret (points, polygons ++ [feature]).

Definition add_point (h : Host) (feature : JSON) : Prog unit :=
  marker <- L_geoJSON h (Some feature) (mkOptions StyleAbsent (Some circle_options)) ;;
  html <- lift (createPopupContent (Some feature)) ;;
  let marker := bindPopup marker html in
  modify (fun w => set_pointLayer (pointLayer w ++ [marker]) w) ;;
  for_each (children marker) (make_editable feature).

Definition add_polygon (h : Host) (feature : JSON) : Prog unit :=
  polygon <- L_geoJSON h (Some feature) (mkOptions (StyleFunction getPolygonStyle) None) ;;
  html <- lift (createPopupContent (Some feature)) ;;
  let polygon := bindPopup polygon html in
  modify (fun w => set_polygonLayer (polygonLayer w ++ [polygon]) w) ;;
  for_each (children polygon) (make_editable feature).

(** The [filter] callback that counts the lines. *)
Definition is_line (f : JSON) : result bool :=
  props <-! get_prop (Some f) "properties" ;;
  t <-! get_prop props "geom_type" ;;
  if strict_eq t (Some (JStr "ST_LineString")) then Ok true
  else
    props' <-! get_prop (Some f) "properties" ;;
    t' <-! get_prop props' "geom_type" ;;
    Ok (strict_eq t' (Some (JStr "ST_MultiLineString"))).

Fixpoint count_lines (fs : list JSON) : result nat :=
  match fs with
  | [] => Ok 0
  | f :: rest =>
      b <-! is_line f ;;
      n <-! count_lines rest ;;
      Ok (if b then S n else n)
  end.

(** The statements of [loadPOIs] from [// Separate points and polygons]
    to the end of its [try] block. *)
Definition render (h : Host) (features : Value) : Prog unit :=
  items <- lift (as_array features "geojson.features.forEach") ;;
  sorted <- for_each_with items (classify h) ([], []) ;;
  let (points, polygons) := sorted in
  for_each points (add_point h) ;;
  for_each polygons (add_polygon h) ;;
  fit_bounds 3 ;;
  items' <- lift (as_array features "geojson.features.filter") ;;
  lineCount <- lift (count_lines items') ;;
  console_log ("Loaded " ++ count_text (List.length points) ++ " points, "
                 ++ count_text lineCount ++ " lines, and "
                 ++ count_text (List.length polygons) ++ " polygons") None.

(** [loadPOIs()]. *)
Definition loadPOIs (h : Host) : Prog unit :=
  try_catch
    (response <- fetch (get_request "/api/pois") ;;
     geojson <- response_json response ;;
     features <- lift (get_prop (Some geojson) "features") ;;
     empty <- lift (no_features features) ;;
     if empty
     then modify (set_poi_count "No POIs found in database")
     else
       len <- lift (get_prop features "length") ;;
       len_text <- lift (to_string len) ;;
       modify (set_poi_count ("Total POIs: " ++ len_text)) ;;
       render h features)
    (fun error =>
       console_error "Error loading POIs:" error ;;
       modify (set_poi_count "Error loading POIs")).

(** [clearLayers()]. *)
Definition clearLayers : Prog unit :=
  modify (set_pointLayer []) ;;
  modify (set_lineLayer []) ;;
  modify (set_polygonLayer []) ;;
  modify (set_drawnItems []) ;;
  modify (set_colorIndex 0).

(** [openModal()]. *)
Definition openModal : Prog unit :=
  modify (set_modal_display "block") ;;
  modify (set_focused "poi-name").

(** [closeModal()]. *)
Definition closeModal (h : Host) : Prog unit :=
  modify (set_modal_display "none") ;;
  modify (set_form (form_defaults h)) ;;
  cur <- gets currentDrawing ;;
  match cur with
  | Some drawing =>
      modify (fun w => set_drawnItems (removeLayer drawing (drawnItems w)) w) ;;
      modify (set_currentDrawing None)
  | None => Ret tt
  end.

(** The handler of [L.Draw.Event.CREATED]; [layer] is [event.layer]. *)
Definition on_draw_created (layer : Layer) : Prog unit :=
  modify (set_currentDrawing (Some layer)) ;;
  modify (fun w => set_drawnItems (addLayer layer (drawnItems w)) w) ;;
  openModal.

(** [deletePOI(poiId)]. *)
Definition deletePOI (h : Host) (poiId : Value) : Prog unit :=
  sure <- Confirm "Are you sure you want to delete this POI?" Ret ;;
  if negb sure then Ret tt
  else
    try_catch
      (id_text <- lift (to_string poiId) ;;
       response <- fetch (mkRequest "DELETE" ("/api/pois/" ++ id_text) [] None) ;;
       (if negb (ok response)
        then Throw (Error ("HTTP error! status: " ++ show_Z (status response)))
        else Ret tt) ;;
       console_log "POI deleted:" poiId ;;
       clearLayers ;;
       loadPOIs h)
      (fun error =>
         console_error "Error deleting POI:" error ;;
         alert ("Failed to delete POI: " ++ message error)).

(** [layer.feature && layer.feature.properties.id]. *)
Definition backend_id (layer : Layer) : result Value :=
  if truthy (feature layer)
  then props <-! get_prop (feature layer) "properties" ;; get_prop props "id"
  else Ok (feature layer).

(** The handler of [L.Draw.Event.DELETED]; [layers] is what
    [event.layers.eachLayer] visits.  The promise of each [deletePOI] call
    is dropped. *)
Definition on_draw_deleted (h : Host) (layers : list Layer) : Prog unit :=
  for_each layers (fun layer =>
    guard <- lift (backend_id layer) ;;
    if truthy guard
    then
      props <- lift (get_prop (feature layer) "properties") ;;
      id <- lift (get_prop props "id") ;;
      Spawn (deletePOI h id) (Ret tt)
    else Ret tt).

(** The fields of the object posted to the backend; a key whose value is
    [undefined] is left out by [JSON.stringify]. *)
Definition poi_object (name poiType address : string) (geom : Value)
    (properties : JSON) : JSON :=
  JObj ([("name", JStr name); ("poi_type", JStr poiType); ("address", JStr address)]
          ++ match geom with Some g => [("geometry", g)] | None => [] end
          ++ [("properties", properties)]).

(** The part of the submit handler that parses the properties text;
    [None] stands for the [return] of its [catch] block. *)
Definition parse_properties (h : Host) (propertiesText : string)
    : Prog (option JSON) :=
  if negb (String.eqb (trim propertiesText) EmptyString)
  then
    try_catch
      (properties <- lift (JSON_parse h propertiesText) ;; Ret (Some properties))
      (fun e => alert "Invalid JSON in properties field" ;; Ret None)
  else Ret (Some JNull).

(** The [submit] handler of [#poi-form]. *)
Definition on_submit (h : Host) : Prog unit :=
  cur <- gets currentDrawing ;;
  match cur with
  | None => alert "No geometry drawn"
  | Some _ =>
      name <- gets (fun w => poi_name (form w)) ;;
      poiType <- gets (fun w => poi_type (form w)) ;;
      address <- gets (fun w => poi_address (form w)) ;;
      propertiesText <- gets (fun w => poi_properties (form w)) ;;
      parsed <- parse_properties h propertiesText ;;
      match parsed with
      | None => Ret tt
      | Some properties =>
          drawing <- gets currentDrawing ;;
          let geom := match drawing with Some l => geometry l | None => None end in
          let poi := poi_object name poiType address geom properties in
          try_catch
            (response <- fetch (mkRequest "POST" "/api/pois"
                                  [("Content-Type", "application/json")]
                                  (Some (JSON_stringify poi 0))) ;;
             (if negb (ok response)
              then Throw (Error ("HTTP error! status: " ++ show_Z (status response)))
              else Ret tt) ;;
             created <- response_json response ;;
             console_log "POI created:" (Some created) ;;
             closeModal h ;;
             modify (set_currentDrawing None) ;;
             clearLayers ;;
             loadPOIs h ;;
             alert "POI created successfully!")
            (fun error =>
               console_error "Error creating POI:" error ;;
               alert ("Failed to create POI: " ++ message error))
      end
  end.

(** [window.onclick]; [on_backdrop] is [event.target === modal]. *)
Definition window_onclick (h : Host) (on_backdrop : bool) : Prog unit :=
  if on_backdrop then closeModal h else Ret tt.

(** The statements that run when the script is loaded: [loadPOIs()], its
    promise dropped. *)
Definition on_load (h : Host) : Prog unit :=
  Spawn (loadPOIs h) (Ret tt).

End Editor.

Unset Implicit Arguments.

(* ================================================================== *)
(** * A page for the examples *)
(* ================================================================== *)

(** A host for the examples.  Its [JSON.parse] knows three texts and
    rejects every other one; its Leaflet builds one layer for each geometry
    type it knows, none for a feature without geometry, and throws on
    anything else. *)
Definition demo_parse (text : string) : result JSON :=
  if String.eqb (trim text) "null" then Ok JNull
  else if String.eqb (trim text) "{}" then Ok (JObj [])
  else if String.eqb (trim text) "[]" then Ok (JArr [])
  else Threw (SyntaxError "Unexpected token").

Definition demo_kind (geometry_type : string) : option ShapeKind :=
  if String.eqb geometry_type "Point" then Some Marker
  else if String.eqb geometry_type "LineString" then Some Path
  else if String.eqb geometry_type "MultiLineString" then Some Path
  else if String.eqb geometry_type "Polygon" then Some Path
  else if String.eqb geometry_type "MultiPolygon" then Some Path
  else if String.eqb geometry_type "MultiPoint" then Some Collection
  else None.

Definition demo_shapes (v : Value) : list Shape * option Exn :=
  match get_prop v "geometry" with
  | Ok (Some (JObj g)) =>
      match lookup "type" g with
      | Some (JStr t) =>
          match demo_kind t with
          | Some k => ([mkShape v (Some (JObj g)) k], None)
          | None => ([], Some (Error "Invalid GeoJSON object."))
          end
      | _ => ([], Some (Error "Invalid GeoJSON object."))
      end
  | Ok (Some JNull) => ([], None)
  | Ok None => ([], None)
  | _ => ([], Some (Error "Invalid GeoJSON object."))
  end.

Definition empty_form : Form :=
  mkForm EmptyString EmptyString EmptyString EmptyString.

Definition demo_host : Host :=
  mkHost demo_parse demo_shapes empty_form.

(** A feature as the backend serves it. *)
Definition demo_feature (id : Z) (geometry_type geom_type : string) : JSON :=
  JObj [("type", JStr "Feature");
        ("geometry", JObj [("type", JStr geometry_type); ("coordinates", JArr [])]);
        ("properties", JObj [("id", JNum id); ("geom_type", JStr geom_type)])].

Definition demo_items : list JSON :=
  [demo_feature 1 "Polygon" "ST_Polygon";
   demo_feature 2 "Point" "ST_Point";
   demo_feature 3 "LineString" "ST_LineString";
   demo_feature 4 "MultiPolygon" "ST_MultiPolygon";
   demo_feature 5 "MultiLineString" "ST_MultiLineString"].

Definition demo_collection : JSON :=
  JObj [("type", JStr "FeatureCollection"); ("features", JArr demo_items)].

Definition empty_collection : JSON :=
  JObj [("type", JStr "FeatureCollection"); ("features", JArr [])].

(** An outside where the user gives the same answer to every dialog and the
    backend the same outcome to every request. *)
Definition constant_env (answer : bool) (o : FetchOutcome) : Env :=
  mkEnv (fun _ _ => answer) (fun _ _ => o).

Definition serving (j : JSON) : FetchOutcome :=
  Resolved (mkResponse true 200 (Ok j)).

(** A 2xx response without a JSON body. *)
Definition created_without_body : FetchOutcome :=
  Resolved (mkResponse true 201 (Threw (SyntaxError "Unexpected end of JSON input"))).

(** A shape the user has just drawn, and the page holding it with the
    creation form open and [text] typed in the properties input. *)
Definition drawn : Layer :=
  mkLayer 0 Path None
    (Some (JObj [("type", JStr "Polygon"); ("coordinates", JArr [])])) no_style.

Definition drawing_page (text : string) : World :=
  mkWorld [] [] [] [drawn] (Some drawn) 0 EmptyString "block" "poi-name"
    (mkForm "Cafe" "food" EmptyString text) 1 [].

(** A rendered shape of the POI with id 7, and a drawn one without id. *)
Definition stored : Layer :=
  mkLayer 3 Path (Some (demo_feature 7 "Polygon" "ST_Polygon")) None no_style.

Definition blank_page : World := initial_world empty_form.

(** A backend that answers every request with the status [code] and no
    JSON body. *)
Definition refusing (code : Z) : FetchOutcome :=
  Resolved (mkResponse false code (Threw (SyntaxError "Unexpected end of JSON input"))).

(** A removed shape whose feature has no properties. *)
Definition bare : Layer := mkLayer 5 Path (Some (JObj [])) None no_style.

(** A backend that stores what is posted and then goes away: a POST is
    answered 201 with a JSON body, every other request is rejected. *)
Definition offline_after_post : Env :=
  mkEnv (fun _ _ => true)
        (fun _ req =>
           if String.eqb (method req) "POST"
           then Resolved (mkResponse true 201 (Ok (JObj [("id", JNum 9)])))
           else Rejected (TypeError "Failed to fetch")).

(** A collection whose second feature has no properties. *)
Definition broken_items : list JSON :=
  [demo_feature 3 "LineString" "ST_LineString"; JObj []].

Definition broken_collection : JSON :=
  JObj [("type", JStr "FeatureCollection"); ("features", JArr broken_items)].

(* ================================================================== *)
(** * Vocabulary of the statements *)
(* ================================================================== *)

(* ================================================================== *)
(** * The popup markup, as the specification words it *)
(* ================================================================== *)

Module PopupSpec.

Local Open Scope string_scope.

(** The text a value is shown as; a value that cannot be converted to a
    string has none. *)
Definition shown (v : Value) : string :=
  match to_string v with
  | Ok text => text
  | Threw _ => EmptyString
  end.

(** A labelled line of the popup. *)
Definition line (label : string) (v : Value) : string :=
  "<p><strong>" ++ label ++ ":</strong> " ++ shown v ++ "</p>".

(** A line that is shown only for a field that is there (and not empty). *)
Definition optional_line (label : string) (v : Value) : string :=
  if truthy v then line label v else EmptyString.

(** The name shown: the feature's, or the default. *)
Definition shown_name (props : list (string * JSON)) : string :=
  match lookup "name" props with
  | None => "Unnamed POI"
  | Some n => if truthy (Some n) then shown (Some n) else "Unnamed POI"
  end.

Definition heading (props : list (string * JSON)) : string :=
  "<h3>" ++ shown_name props ++ "</h3>".

Definition type_line (props : list (string * JSON)) : string :=
  optional_line "Type" (lookup "poi_type" props).

Definition address_line (props : list (string * JSON)) : string :=
  optional_line "Address" (lookup "address" props).

Definition id_line (props : list (string * JSON)) : string :=
  line "ID" (lookup "id" props).

Definition geometry_line (props : list (string * JSON)) : string :=
  line "Geometry" (lookup "geom_type" props).

(** The extra properties mapping is there and has at least one entry. *)
Definition non_empty (extra : Value) : bool :=
  match extra with
  | Some (JObj (_ :: _)) => true
  | Some (JArr (_ :: _)) => true
  | Some (JStr (String _ _)) => true
  | _ => false
  end.

(** The pretty-printed dump of the extra properties. *)
Definition dump (props : list (string * JSON)) : string :=
  match lookup "properties" props with
  | Some extra =>
      if non_empty (Some extra)
      then "<div class=" ++ dq ++ "properties" ++ dq ++ ">"
             ++ "<strong>Additional Properties:</strong><br>"
             ++ "<pre>" ++ JSON_stringify extra 2 ++ "</pre>"
             ++ "</div>"
      else EmptyString
  | None => EmptyString
  end.

Definition popup_markup (props : list (string * JSON)) : string :=
  "<div class=" ++ dq ++ "popup-content" ++ dq ++ ">"
    ++ heading props
    ++ type_line props
    ++ address_line props
    ++ id_line props
    ++ geometry_line props
    ++ dump props
    ++ "</div>".

End PopupSpec.

(** [feature.properties] cannot be used: it is [undefined] or [null], or
    the feature itself is. *)
Definition properties_absent (feature : Value) : Prop :=
  match get_prop feature "properties" with
  | Ok (Some JNull) => True
  | Ok (Some _) => False
  | Ok None => True
  | Threw _ => True
  end.

(** [p.key] for properties [p] that are not [null]. *)
Definition field (p : JSON) (key : string) : Value :=
  match get_prop (Some p) key with
  | Ok v => v
  | Threw _ => None
  end.

(** A value that a template literal can print. *)
Definition printable (v : Value) : Prop := exists text, to_string v = Ok text.

(** The fields that the popup prints of the properties [p] can be
    printed: the name, the type and the address when they are truthy, the
    id and the tag. *)
Definition printable_fields (p : JSON) : Prop :=
  (truthy (field p "name") = true -> printable (field p "name"))
  /\ (truthy (field p "poi_type") = true -> printable (field p "poi_type"))
  /\ (truthy (field p "address") = true -> printable (field p "address"))
  /\ printable (field p "id")
  /\ printable (field p "geom_type").

(** What is left of [bind p f] when [p] is suspended. *)
Definition and_then {A B} (s : Suspension A) (f : A -> Prog B) : Suspension B :=
  match s with
  | OnFetch req k => OnFetch req (fun o => bind (k o) f)
  | OnTick k => OnTick (bind k f)
  end.

Definition pois_request : Request := get_request "/api/pois".

(** The page after an empty answer: the count text and the request in the
    trace, nothing else. *)
Definition reported_empty (w : World) : World :=
  set_poi_count "No POIs found in database"
    (set_trace (trace w ++ [Requested pois_request]) w).

Definition reported_error (e : Exn) (w : World) : World :=
  set_poi_count "Error loading POIs"
    (set_trace (trace w ++ [Requested pois_request;
                            ConsoleError "Error loading POIs:" e]) w).

(** [p] ends by returning along every path of its interactions: whatever
    the page holds, whatever the user and the backend answer, and whenever
    it is resumed, it does not end by throwing (as an asynchronous function:
    its promise is not rejected). *)
Fixpoint never_throws {A : Type} (p : Prog A) : Prop :=
  match p with
  | Ret _ => True
  | Throw _ => False
  | Get k => forall w, never_throws (k w)
  | Modify _ k => never_throws k
  | Confirm _ k => forall b, never_throws (k b)
  | Await _ k => forall o, never_throws (k o)
  | Yield k => never_throws k
  | Spawn _ k => never_throws k
  end.

(** The fetch failed: [fetch] rejected, or the body is not JSON. *)
Definition fetch_failed (o : FetchOutcome) (e : Exn) : Prop :=
  o = Rejected e \/ exists r, o = Resolved r /\ json r = Threw e.

Fixpoint requests_of (t : list Event) : list Request :=
  match t with
  | [] => []
  | Requested req :: rest => req :: requests_of rest
  | _ :: rest => requests_of rest
  end.

(** The page after one alert and nothing else. *)
Definition alerted (msg : string) (w : World) : World :=
  set_trace (trace w ++ [Alerted msg]) w.

Definition confirm_text : string := "Are you sure you want to delete this POI?".

(** The request of [deletePOI(poiId)], when the id can be put in its url. *)
Definition delete_request (poiId : Value) : result Request :=
  id_text <-! to_string poiId ;;
  Ok (mkRequest "DELETE" ("/api/pois/" ++ id_text) [] None).

(** The requests for the ids that can be put in a url. *)
Definition delete_requests (ids : list Value) : list Request :=
  flat_map (fun id => match delete_request id with
                      | Ok req => [req]
                      | Threw _ => []
                      end) ids.

(** The palette colour of the [i]-th polygon. *)
Definition palette (i : nat) : option string :=
  nth_error polygonColors (i mod 10).

(** A layer on which the [style] function of the polygon path was called:
    every layer but a plain marker. *)
Definition painted (l : Layer) : bool :=
  match shape l with
  | Marker => false
  | _ => true
  end.

(** The fill and stroke colours of a layer. *)
Definition paint (l : Layer) : option string * option string :=
  (fillColor (options l), color (options l)).

(** The colours of the layers of the given groups for which the [style]
    function was called, in order. *)
Definition paints (gs : list Group) : list (option string * option string) :=
  map paint (filter painted (rendered gs)).

(** The colours that the [i]-th call of the [style] function leaves on a
    layer of kind [k]: the [i]-th palette colour on a path, none on a
    feature group. *)
Definition tint (i : nat) (k : ShapeKind) : option string * option string :=
  match k with
  | Collection => (None, None)
  | _ => (palette i, palette i)
  end.

(** The colours of successive layers of the kinds [ks], the first taking
    the [start]-th call of the [style] function. *)
Fixpoint cycle (start : nat) (ks : list ShapeKind)
    : list (option string * option string) :=
  match ks with
  | [] => []
  | k :: rest => tint start k :: cycle (S start) rest
  end.

(** What the proofs observe of a page: the features behind the groups of
    each layer group, the colours of the polygons, the colour cursor, the
    requests sent, the suspended calls. *)
Record Obs : Type := mkObs {
  seen_points : list Value;
  seen_lines : list Value;
  seen_polygons : list Value;
  seen_paints : list (option string * option string);
  cursor : nat;
  sent : list Request;
  waiting : list (Suspension unit)
}.

Definition obs (c : Config) : Obs :=
  mkObs (map source (pointLayer (fst c)))
        (map source (lineLayer (fst c)))
        (map source (polygonLayer (fst c)))
        (paints (polygonLayer (fst c)))
        (colorIndex (fst c))
        (requests_of (trace (fst c)))
        (snd c).

(** [o] after groups for [pts], [lns] and [pgs] were added, the layers of
    the polygons among them, of the kinds [ks], taking the next colours. *)
Definition extend (o : Obs) (pts lns pgs : list Value) (ks : list ShapeKind)
    : Obs :=
  mkObs (seen_points o ++ pts) (seen_lines o ++ lns) (seen_polygons o ++ pgs)
        (seen_paints o ++ cycle (cursor o) ks) (cursor o + List.length ks)
        (sent o) (waiting o).

(** The [geom_type] tag of a feature, when it can be read. *)
Definition tag (f : JSON) : result Value :=
  props <-! get_prop (Some f) "properties" ;; get_prop props "geom_type".

(** A feature the loader can render: its tag can be read, its popup can
    be written and Leaflet accepts its GeoJSON. *)
Definition renderable (h : Host) (f : JSON) : Prop :=
  (exists t, tag f = Ok t)
  /\ (exists html, createPopupContent (Some f) = Ok html)
  /\ snd (geoJSON_shapes h (Some f)) = None.

(** A layer of the polygon path on which Leaflet calls the [style]
    function: every layer but a plain marker. *)
Definition takes_colour (sh : Shape) : bool :=
  match kind sh with Marker => false | _ => true end.

(** The kinds of the layers of a GeoJSON object that take a polygon
    colour. *)
Definition styled (h : Host) (v : Value) : list ShapeKind :=
  map kind (filter takes_colour (fst (geoJSON_shapes h v))).

(** The options of [L.geoJSON] on the polygon path. *)
Definition polygon_options : GeoJSONOptions :=
  mkOptions (StyleFunction getPolygonStyle) None.

(** The class a [geom_type] tag selects. *)
Inductive Class : Type := Points | Lines | Polygons.

Definition class_of (t : Value) : Class :=
  match t with
  | Some (JStr "ST_Point") => Points
  | Some (JStr "ST_LineString") => Lines
  | Some (JStr "ST_MultiLineString") => Lines
  | _ => Polygons
  end.

Definition class_eqb (a b : Class) : bool :=
  match a, b with
  | Points, Points => true
  | Lines, Lines => true
  | Polygons, Polygons => true
  | _, _ => false
  end.

(** The features of [items] whose tag selects class [cl]. *)
Definition of_class (cl : Class) (f : JSON) : bool :=
  match tag f with
  | Ok t => class_eqb (class_of t) cl
  | Threw _ => false
  end.

(** [o'] is [o] after a load stopped on an error: the polygons rendered
    so far took the next colours, no request was sent. *)
Definition stalled (o o' : Obs) : Prop :=
  exists ks,
    seen_paints o' = seen_paints o ++ cycle (cursor o) ks /\
    sent o' = sent o /\ waiting o' = waiting o.

(** The kinds of the layers that take a colour when the polygons of a list
    of features are rendered. *)
Definition colours_taken (h : Host) (fs : list JSON) : list ShapeKind :=
  flat_map (fun f => styled h (Some f)) fs.

Definition tagged (f : JSON) : Prop := exists t, tag f = Ok t.

(** The DELETE requests of a trace. *)
Definition deletes_of (t : list Event) : list Request :=
  filter (fun r => String.eqb (method r) "DELETE") (requests_of t).

(** [p] never sends a DELETE request, however it is resumed, and never
    rewrites the requests of the trace. *)
Fixpoint no_delete {A : Type} (p : Prog A) : Prop :=
  match p with
  | Ret _ => True
  | Throw _ => True
  | Get k => forall w, no_delete (k w)
  | Modify f k =>
      (forall w, deletes_of (trace (f w)) = deletes_of (trace w)) /\ no_delete k
  | Confirm _ k => forall b, no_delete (k b)
  | Await req k => method req <> "DELETE"%string /\ forall o, no_delete (k o)
  | Yield k => no_delete k
  | Spawn child k => no_delete child /\ no_delete k
  end.

(** A suspended call that sends no DELETE request once resumed. *)
Definition quiet {A : Type} (s : Suspension A) : Prop :=
  match s with
  | OnFetch _ k => forall o, no_delete (k o)
  | OnTick k => no_delete k
  end.

(** [p] has no [await] of its own: it runs to its end at once (the calls
    it spawns may wait). *)
Fixpoint immediate {A : Type} (p : Prog A) : Prop :=
  match p with
  | Ret _ => True
  | Throw _ => True
  | Get k => forall w, immediate (k w)
  | Modify _ k => immediate k
  | Confirm _ k => forall b, immediate (k b)
  | Await _ _ => False
  | Yield _ => False
  | Spawn _ k => immediate k
  end.

(** Whatever [p] leaves suspended, itself or a call it spawns, is quiet. *)
Fixpoint calm {A : Type} (p : Prog A) : Prop :=
  match p with
  | Ret _ => True
  | Throw _ => True
  | Get k => forall w, calm (k w)
  | Modify _ k => calm k
  | Confirm _ k => forall b, calm (k b)
  | Await _ k => forall o, no_delete (k o)
  | Yield k => no_delete k
  | Spawn child k => calm child /\ calm k
  end.

(** The handlers of the editor script, each with what its event carries. *)
Inductive handler (h : Host) : Prog unit -> Prop :=
| handles_load : handler h (Editor.on_load h)
| handles_created layer : handler h (Editor.on_draw_created layer)
| handles_deleted layers : handler h (Editor.on_draw_deleted h layers)
| handles_submit : handler h (Editor.on_submit h)
| handles_click on_backdrop : handler h (Editor.window_onclick h on_backdrop).

(** One turn of the page: an event starts a handler, which runs up to its
    first [await]; a suspended call is resumed; or the user or the draw
    control changes the page itself. *)
Inductive turn (env : Env) (h : Host) : Config -> Config -> Prop :=
| turn_event p c c' st :
    handler h p -> exec env p c = (c', st) -> turn env h c (park st c')
| turn_resume c c' : resume env c c' -> turn env h c c'
| turn_page w w' pool :
    trace w' = trace w -> turn env h (w, pool) (w', pool).

(** The configurations the page can be in, from a page with nothing
    suspended. *)
Inductive reachable (env : Env) (h : Host) : Config -> Prop :=
| reachable_start w : reachable env h (w, [])
| reachable_turn c c' : reachable env h c -> turn env h c c' -> reachable env h c'.

(** What a confirmed [deletePOI(id)] adds to the trace before it waits or
    ends: the DELETE request or, for an id that cannot be put in the url,
    the report of the failure. *)
Definition confirmed_events (id : Value) : list Event :=
  match delete_request id with
  | Ok req => [Requested req]
  | Threw e => [ConsoleError "Error deleting POI:" e;
                Alerted ("Failed to delete POI: " ++ message e)]
  end.

(** The events of the delete handler, shape by shape: nothing for a shape
    without id; for a shape with an id the dialog, and the DELETE request
    when the user confirms. *)
Fixpoint deletion_trace (env : Env) (t : list Event) (layers : list Layer)
    : list Event :=
  match layers with
  | [] => t
  | l :: rest =>
      match Editor.backend_id l with
      | Ok id =>
          if truthy id
          then
            if user env t confirm_text
            then deletion_trace env
                   (t ++ Confirmed confirm_text true :: confirmed_events id)
                   rest
            else deletion_trace env (t ++ [Confirmed confirm_text false]) rest
          else deletion_trace env t rest
      | Threw _ => t
      end
  end.

(** A removed shape whose guard [layer.feature && layer.feature.properties.id]
    can be evaluated. *)
Definition guarded (l : Layer) : Prop := exists id, Editor.backend_id l = Ok id.

(** The backend ids of the removed shapes that carry one. *)
Definition ids_of (layers : list Layer) : list Value :=
  flat_map (fun l => match Editor.backend_id l with
                     | Ok id => if truthy id then [id] else []
                     | Threw _ => []
                     end) layers.

(** The page right after a successful creation, before the reload: the
    modal closed, the form reset, every layer group and the overlay empty,
    the colour cursor at zero, the POST and the log line in the trace. *)
Definition closed_and_cleared (h : Host) (req : Request) (created : JSON)
    (w : World) : World :=
  mkWorld [] [] [] [] None 0 (poi_count w) "none" (focused w) (form_defaults h)
    (next_stamp w)
    (trace w ++ [Requested req; ConsoleLog "POI created:" (Some created)]).

(** The properties text is blank or parses. *)
Definition properties_parse (h : Host) (text : string) : Prop :=
  trim text = EmptyString \/ exists j, JSON_parse h text = Ok j.

(** ** Vocabulary of the further properties *)

(** The value the properties input stands for: [null] when the text is
    blank, what [JSON.parse] makes of it otherwise. *)
Definition typed_properties (h : Host) (text : string) : result JSON :=
  if String.eqb (trim text) EmptyString then Ok JNull else JSON_parse h text.

(** The request of the creation form for the page [w]. *)
Definition creation_request (w : World) (properties : JSON) : Request :=
  mkRequest "POST" "/api/pois" [("Content-Type", "application/json")]
    (Some (JSON_stringify
             (Editor.poi_object (poi_name (form w)) (poi_type (form w))
                (poi_address (form w))
                (match currentDrawing w with
                 | Some l => geometry l
                 | None => None
                 end)
                properties) 0)).

(** The error of a request that only needs a 2xx status: [fetch] rejected,
    or the status is not 2xx. *)
Definition status_error (o : FetchOutcome) : option Exn :=
  match o with
  | Rejected e => Some e
  | Resolved r =>
      if ok r then None
      else Some (Error ("HTTP error! status: " ++ show_Z (status r)))
  end.

(** The error of a creation: as above, or the 2xx body is not JSON. *)
Definition creation_error (o : FetchOutcome) : option Exn :=
  match status_error o, o with
  | Some e, _ => Some e
  | None, Resolved r => match json r with Threw e => Some e | Ok _ => None end
  | None, Rejected e => Some e
  end.

(** The page after a failure was reported: the request, the console line
    and the alert in the trace, nothing else. *)
Definition reported_failure (req : Request) (what told : string) (e : Exn)
    (w : World) : World :=
  set_trace (trace w ++ [Requested req; ConsoleError what e;
                         Alerted (told ++ message e)]) w.

(** The page right after a confirmed deletion sent as [req], before the
    reload. *)
Definition cleared_after_delete (poiId : Value) (req : Request) (w : World)
    : World :=
  mkWorld [] [] [] [] (currentDrawing w) 0 (poi_count w) (modal_display w)
    (focused w) (form w) (next_stamp w)
    (trace w ++ [Confirmed confirm_text true; Requested req;
                 ConsoleLog "POI deleted:" poiId]).

(** The page after the form was dismissed. *)
Definition dismissed (h : Host) (w : World) : World :=
  set_currentDrawing None
    (set_form (form_defaults h) (set_modal_display "none" w)).

(** The page after the form was opened for [layer]. *)
Definition opened_for (layer : Layer) (w : World) : World :=
  set_focused "poi-name"
    (set_modal_display "block"
       (set_drawnItems (Editor.addLayer layer (drawnItems w))
          (set_currentDrawing (Some layer) w))).

(** No layer of the overlay has the Leaflet id of [layer]. *)
Definition unseen (layer : Layer) (w : World) : Prop :=
  Forall (fun x => stamp x <> stamp layer) (drawnItems w).

(** The page after an event was added to its trace. *)
Definition logged (ev : Event) (w : World) : World :=
  set_trace (trace w ++ [ev]) w.

(** [p] keeps the page property [I] at each of its steps, and what it
    returns satisfies [Q]: along every path of its interactions, whatever
    page satisfying [I] it finds when it reads or when it is resumed. *)
Fixpoint ensures {A : Type} (I : World -> Prop) (Q : A -> Prop) (p : Prog A)
    : Prop :=
  match p with
  | Ret a => Q a
  | Throw _ => True
  | Get k => forall w, I w -> ensures I Q (k w)
  | Modify f k => (forall w, I w -> I (f w)) /\ ensures I Q k
  | Confirm msg k =>
      forall b, (forall w, I w -> I (logged (Confirmed msg b) w))
                /\ ensures I Q (k b)
  | Await req k =>
      (forall w, I w -> I (logged (Requested req) w))
      /\ forall o, ensures I Q (k o)
  | Yield k => ensures I Q k
  | Spawn child k => ensures I (fun _ => True) child /\ ensures I Q k
  end.

(** A suspended call that keeps [I] once resumed. *)
Definition keeps {A : Type} (I : World -> Prop) (Q : A -> Prop)
    (s : Suspension A) : Prop :=
  match s with
  | OnFetch _ k => forall o, ensures I Q (k o)
  | OnTick k => ensures I Q k
  end.

(** What a program that stopped has ensured. *)
Definition settled {A : Type} (I : World -> Prop) (Q : A -> Prop)
    (st : Paused A) : Prop :=
  match st with
  | Finished (Ok a) => Q a
  | Finished (Threw _) => True
  | Suspended s => keeps I Q s
  end.

Definition anything {A : Type} (_ : A) : Prop := True.

(** Every shape of the overlay has a guard that can be evaluated. *)
Definition overlay_guarded (w : World) : Prop := Forall guarded (drawnItems w).

(** The path options of a layer that [L.geoJSON] builds with options whose
    [style] is not a function. *)
Definition fixed_style (opts : GeoJSONOptions) (k : ShapeKind) : Style :=
  let base :=
    match k, pointToLayer opts with
    | Marker, Some o => o
    | _, _ => no_style
    end in
  if has_setStyle k opts
  then match style opts with
       | StyleObject s => setStyle k base s
       | _ => base
       end
  else base.

Definition wears (opts : GeoJSONOptions) (l : Layer) : Prop :=
  match style opts with
  | StyleFunction _ => True
  | _ => options l = fixed_style opts (shape l)
  end.

(** Every layer of the group has the options that [opts] fix. *)
Definition dressed (opts : GeoJSONOptions) (g : Group) : Prop :=
  Forall (wears opts) (children g).

(** The [style] option calls nothing that breaks [I]. *)
Definition tame (I : World -> Prop) (opts : GeoJSONOptions) : Prop :=
  match style opts with
  | StyleFunction f => forall x, ensures I anything (f x)
  | _ => True
  end.

(** A feature whose popup can be built. *)
Definition presentable (f : JSON) : Prop :=
  exists html, createPopupContent (Some f) = Ok html.

(** [g] is the group of feature [f], with the popup of [f]. *)
Definition shows (g : Group) (f : JSON) : Prop :=
  source g = Some f
  /\ exists html, createPopupContent (Some f) = Ok html /\ popup g = Some html.

(** The options of [L.geoJSON] on the point path and on the line path. *)
Definition point_options : GeoJSONOptions :=
  mkOptions StyleAbsent (Some circle_options).

Definition path_options : GeoJSONOptions :=
  mkOptions (StyleObject line_options) None.

(** The two local arrays of the loader after the features [fs] were
    classified, in the editor and in the viewer. *)
Definition sorted_editor (fs : list JSON) (acc : list JSON * list JSON)
    : list JSON * list JSON :=
  (fst acc ++ filter (of_class Points) fs, snd acc ++ filter (of_class Polygons) fs).

Definition sorted_viewer (fs : list JSON) (acc : list JSON * list JSON)
    : list JSON * list JSON :=
  (fst acc ++ filter (of_class Points) fs,
   snd acc ++ filter (fun f => negb (of_class Points f)) fs).

(** Every group of the three layer groups carries the popup of the feature
    it was built from. *)
Definition labelled (w : World) : Prop :=
  Forall (fun g => exists f, shows g f)
    (pointLayer w ++ lineLayer w ++ polygonLayer w).

(** How the delete handler ends: it throws at the first removed shape whose
    guard cannot be evaluated. *)
Fixpoint deletion_result (layers : list Layer) : result unit :=
  match layers with
  | [] => Ok tt
  | l :: rest =>
      match Editor.backend_id l with
      | Ok _ => deletion_result rest
      | Threw e => Threw e
      end
  end.

(** What a group shows: the feature it was built from and its popup. *)
Definition label (g : Group) : Value * option string := (source g, popup g).

(** Every layer group of [w] starts with the groups [w0] has, in order. *)
Definition extends_page (w0 w : World) : Prop :=
  (exists more, map label (pointLayer w) = map label (pointLayer w0) ++ more)
  /\ (exists more, map label (lineLayer w) = map label (lineLayer w0) ++ more)
  /\ (exists more, map label (polygonLayer w) = map label (polygonLayer w0) ++ more).

(** The [fitBounds] calls of a trace, by their padding. *)
Fixpoint fits_of (t : list Event) : list (Z * Z) :=
  match t with
  | [] => []
  | FitBounds padding :: rest => padding :: fits_of rest
  | _ :: rest => fits_of rest
  end.

(** Rendering touches neither the count text nor the trace. *)
Definition silent (s : string) (t : list Event) (w : World) : Prop :=
  poi_count w = s /\ trace w = t.

(** The page after a load that found nothing to render, and after a load
    that ended in its [catch] block on the error [e]: the count text, and
    the request (and the console line) in the trace. *)
Definition found_nothing (w w' : World) : Prop :=
  poi_count w' = "No POIs found in database"
  /\ trace w' = trace w ++ [Requested pois_request].

Definition ended_on (e : Exn) (w w' : World) : Prop :=
  poi_count w' = "Error loading POIs"
  /\ trace w' = trace w ++ [Requested pois_request;
                            ConsoleError "Error loading POIs:" e].

(** The layer group of a class, and a group added to it. *)
Definition slot (cl : Class) (w : World) : list Group :=
  match cl with
  | Points => pointLayer w
  | Lines => lineLayer w
  | Polygons => polygonLayer w
  end.

Definition put (cl : Class) (g : Group) (w : World) : World :=
  match cl with
  | Points => set_pointLayer (pointLayer w ++ [g]) w
  | Lines => set_lineLayer (lineLayer w ++ [g]) w
  | Polygons => set_polygonLayer (polygonLayer w ++ [g]) w
  end.

(** The options of [L.geoJSON] for each class in the editor. *)
Definition class_options (cl : Class) : GeoJSONOptions :=
  match cl with
  | Points => mkOptions StyleAbsent (Some circle_options)
  | Lines => mkOptions (StyleObject line_options) None
  | Polygons => polygon_options
  end.

(** The common shape of [add_point], [add_line] and [add_polygon] in the
    editor. *)
Definition add_as (h : Host) (cl : Class) (feature : JSON) : Prog unit :=
  bind (L_geoJSON h (Some feature) (class_options cl)) (fun g =>
  bind (lift (createPopupContent (Some feature))) (fun html =>
  bind (modify (put cl (bindPopup g html))) (fun _ =>
  for_each (children (bindPopup g html)) (Editor.make_editable feature)))).

(** [layer.feature = v]. *)
Definition with_feature (v : Value) (l : Layer) : Layer :=
  mkLayer (stamp l) (shape l) v (geometry l) (options l).

(** Every layer the page holds was stamped by Leaflet before now. *)
Definition stamped (w : World) : Prop :=
  Forall (fun l => stamp l < next_stamp w)
    (drawnItems w ++ rendered (pointLayer w ++ lineLayer w ++ polygonLayer w)).

(** [g] is the group of feature [f], each of its layers carrying [f]. *)
Definition owns (g : Group) (f : JSON) : Prop :=
  source g = Some f /\ Forall (fun l => feature l = Some f) (children g).

(** What [L.geoJSON] leaves alone. *)
Definition same_layers (w w' : World) : Prop :=
  pointLayer w' = pointLayer w /\ lineLayer w' = lineLayer w
  /\ polygonLayer w' = polygonLayer w /\ drawnItems w' = drawnItems w.

(** What rendering leaves alone of the creation form. *)
Definition untouched (w w' : World) : Prop :=
  currentDrawing w' = currentDrawing w /\ modal_display w' = modal_display w
  /\ form w' = form w.

(** The layers [ls] were stamped by Leaflet on the page [w] or later. *)
Definition fresh_since (w : World) (ls : list Layer) : Prop :=
  Forall (fun l => next_stamp w <= stamp l) ls.

(** From [w] to [w'] Leaflet's counter did not go back, the form was not
    touched, and a pending shape stamped before [w] is still the pending
    shape. *)
Definition keeps_pending (w w' : World) : Prop :=
  next_stamp w <= next_stamp w'
  /\ modal_display w' = modal_display w
  /\ form w' = form w
  /\ forall d, currentDrawing w = Some d -> stamp d < next_stamp w ->
               currentDrawing w' = Some d.

(** [layer.feature = v] on the layers with one of the given Leaflet ids. *)
Definition adopt (v : Value) (stamps : list nat) (l : Layer) : Layer :=
  if existsb (Nat.eqb (stamp l)) stamps then with_feature v l else l.

Definition adopt_in_groups (v : Value) (stamps : list nat) (gs : list Group)
    : list Group :=
  map (fun g => mkGroup (source g) (map (adopt v stamps) (children g)) (popup g)) gs.

(** [w'] is [w] after the groups [gs] were added to the layer group of
    class [cl] and their layers to the overlay. *)
Definition registers (cl : Class) (gs : list Group) (w w' : World) : Prop :=
  slot cl w' = slot cl w ++ gs
  /\ (forall cl', cl' <> cl -> slot cl' w' = slot cl' w)
  /\ drawnItems w' = drawnItems w ++ rendered gs.

(** A rendering step from [w] to [w'] that added the groups [gs]: their
    layers are new, and the pending shape is kept. *)
Definition renders (gs : list Group) (w w' : World) : Prop :=
  stamped w' /\ keeps_pending w w' /\ fresh_since w (rendered gs).

(** [w'] is [w] after a load rendered [items]: the groups [L], [P] and [G]
    were added for the lines, the points and the polygons, each group
    owning its feature, and their layers were added to the overlay in the
    order the loader renders them. *)
Definition loaded (items : list JSON) (L P G : list Group) (w w' : World)
    : Prop :=
  lineLayer w' = lineLayer w ++ L
  /\ pointLayer w' = pointLayer w ++ P
  /\ polygonLayer w' = polygonLayer w ++ G
  /\ drawnItems w' = drawnItems w ++ rendered L ++ rendered P ++ rendered G
  /\ Forall2 owns L (filter (of_class Lines) items)
  /\ Forall2 owns P (filter (of_class Points) items)
  /\ Forall2 owns G (filter (of_class Polygons) items).

(** The markers of the point layer group are the circle markers of the
    scripts; the paths of the line layer group have the line style. *)
Definition class_styles (w : World) : Prop :=
  Forall (fun l => shape l = Marker -> options l = circle_options)
    (rendered (pointLayer w))
  /\ Forall (fun l => shape l = Path -> options l = line_options)
       (rendered (lineLayer w)).

(** The page after a load was given up on the error [e]. *)
Definition gave_up (e : Exn) (w : World) : World :=
  set_poi_count "Error loading POIs"
    (set_trace (trace w ++ [ConsoleError "Error loading POIs:" e]) w).

(** The creation form is closed and holds [f], and no shape is pending. *)
Definition closed (f : Form) (w : World) : Prop :=
  currentDrawing w = None /\ modal_display w = "none" /\ form w = f.

(** The options that a path wears after [setStyle] with what
    [getPolygonStyle] answers at the colour cursor [i]. *)
Definition polygon_style (i : nat) : Style :=
  mkStyle None (palette i) (palette i) (Some 2%Z) (Some (4 # 5)%Q) (Some (1 # 2)%Q).

(** Leaflet draws the feature as one path. *)
Definition drawn_as_path (h : Host) (f : JSON) : Prop :=
  exists sh, fst (geoJSON_shapes h (Some f)) = [sh] /\ kind sh = Path.

(** [g] is the group of the polygon [f]: one path, painted with the
    [i]-th palette colour. *)
Definition painted_as (i : nat) (g : Group) (f : JSON) : Prop :=
  source g = Some f
  /\ exists l, children g = [l] /\ shape l = Path /\ options l = polygon_style i.

(** The groups [gs] are those of the polygons [fs], in order, painted with
    the successive palette colours from the [start]-th on. *)
Fixpoint coloured (start : nat) (gs : list Group) (fs : list JSON) : Prop :=
  match gs, fs with
  | [], [] => True
  | g :: gs', f :: fs' => painted_as start g f /\ coloured (S start) gs' fs'
  | _, _ => False
  end.

(** What is left of a call that waits for a response, once the response
    is there; what is left of a call that waits for a settled promise. *)
Definition answered (p : Prog unit) (o : FetchOutcome) : Prog unit :=
  match p with
  | Await _ k => k o
  | _ => p
  end.

Definition ticked (p : Prog unit) : Prog unit :=
  match p with
  | Yield k => k
  | _ => p
  end.

Import PopupSpec.

Section StringFacts.
Local Open Scope string_scope.

Lemma append_assoc (a b c : string) : (a ++ b) ++ c = a ++ (b ++ c).
Proof. induction a as [|x a IH]; simpl; [reflexivity | now rewrite IH]. Qed.

Lemma append_empty_r (a : string) : a ++ EmptyString = a.
Proof. induction a as [|x a IH]; simpl; [reflexivity | now rewrite IH]. Qed.

End StringFacts.

Lemma has_keys_non_empty (extra : Value) :
  (if truthy extra
   then keys <-! Object_keys extra ;; Ok (Nat.ltb 0 (List.length keys))
   else Ok false) = Ok (non_empty extra).
Proof.
  destruct extra as [[| b | z | s | items | fields]|]; simpl; try reflexivity.
  - now destruct b.
  - now destruct (negb (z =? 0)%Z).
  - destruct s; reflexivity.
  - destruct items; reflexivity.
  - destruct fields; reflexivity.
Qed.

Lemma json_to_string_throws : forall (j : JSON) (e : Exn),
  json_to_string j = Threw e -> e = not_primitive.
Proof.
  fix IH 1. intros j e. destruct j as [| [|] | z | s | items | fields];
    cbn [json_to_string]; try discriminate.
  - assert (Hitems : forall e',
      in_order (map (fun x => match x with
                              | JNull => Ok EmptyString
                              | _ => json_to_string x
                              end) items) = Threw e' -> e' = not_primitive).
    { induction items as [|x items IHitems]; intros e'; cbn [map in_order];
        [discriminate|].
      destruct (match x with JNull => Ok EmptyString | _ => json_to_string x end)
        as [p|e0] eqn:E0; cbn [rbind].
      - destruct (in_order _) as [ps|e1]; cbn [rbind]; [discriminate|].
        intros [= <-]. now apply IHitems.
      - intros [= <-]. apply (IH x). revert E0. clear.
        destruct x; try discriminate; auto. }
    destruct (in_order _) as [parts|e']; cbn [rbind]; [discriminate|].
    intros [= <-]. now apply Hitems.
  - destruct (lookup "toString" fields); [|discriminate]. now intros [= <-].
Qed.

Lemma to_string_throws (v : Value) (e : Exn) :
  to_string v = Threw e -> e = not_primitive.
Proof. destruct v as [j|]; [apply json_to_string_throws | discriminate]. Qed.

Lemma printable_dec (v : Value) : printable v \/ to_string v = Threw not_primitive.
Proof.
  destruct (to_string v) as [text|e] eqn:E.
  - left. now exists text.
  - right. now rewrite (to_string_throws v e E).
Qed.

Lemma field_get (p : JSON) (key : string) :
  p <> JNull -> get_prop (Some p) key = Ok (field p key).
Proof.
  intros Hn. unfold field. destruct p; try congruence; cbn [get_prop];
    try reflexivity; now destruct (String.eqb key "length").
Qed.

Lemma shown_printable (v : Value) (text : string) :
  to_string v = Ok text -> shown v = text.
Proof. unfold shown. now intros ->. Qed.

(** The popup of properties that are there: written when the printed
    fields can be printed, and failing with the error of the conversion
    otherwise. *)
Lemma createPopupContent_fields (feature : Value) (p : JSON) :
  get_prop feature "properties" = Ok (Some p) ->
  p <> JNull ->
  (printable_fields p -> exists html, createPopupContent feature = Ok html)
  /\ (~ printable_fields p -> createPopupContent feature = Threw not_primitive).
Proof.
  intros Hp Hn. unfold createPopupContent, printable_fields. rewrite Hp.
  cbn [rbind]. rewrite !(field_get p _ Hn). cbn [rbind]. unfold js_or.
  rewrite has_keys_non_empty. cbn [rbind].
  destruct (truthy (field p "name")) eqn:T1;
    [destruct (printable_dec (field p "name")) as [[t1 P1]|P1]; rewrite P1
    | cbn [to_string json_to_string]]; cbn [rbind];
  try (split; [intros (H & _); destruct (H eq_refl) as [x Hx]; congruence
              | reflexivity]);
  (destruct (truthy (field p "poi_type")) eqn:T2;
    [destruct (printable_dec (field p "poi_type")) as [[t2 P2]|P2]; rewrite P2|];
    cbn [rbind];
   try (split; [intros (_ & H & _); destruct (H eq_refl) as [x Hx]; congruence
               | reflexivity]));
  (destruct (truthy (field p "address")) eqn:T3;
    [destruct (printable_dec (field p "address")) as [[t3 P3]|P3]; rewrite P3|];
    cbn [rbind];
   try (split; [intros (_ & _ & H & _); destruct (H eq_refl) as [x Hx]; congruence
               | reflexivity]));
  (destruct (printable_dec (field p "id")) as [[t4 P4]|P4]; rewrite P4; cbn [rbind];
   try (split; [intros (_ & _ & _ & [x Hx] & _); congruence | reflexivity]));
  (destruct (printable_dec (field p "geom_type")) as [[t5 P5]|P5]; rewrite P5;
   cbn [rbind];
   try (split; [intros (_ & _ & _ & _ & [x Hx]); congruence | reflexivity]));
  (split; [intros _; eexists; reflexivity|]);
  intros Hnot; exfalso; apply Hnot;
  repeat split; try discriminate; intros; eexists; eassumption.
Qed.

Lemma createPopupContent_object (feature : Value) (props : list (string * JSON)) :
  get_prop feature "properties" = Ok (Some (JObj props)) ->
  printable_fields (JObj props) ->
  createPopupContent feature = Ok (popup_markup props).
Proof.
  intros Hp (H1 & H2 & H3 & [t4 H4] & [t5 H5]).
  unfold field in *. cbn [get_prop] in *.
  unfold createPopupContent. rewrite Hp. cbn [rbind get_prop].
  rewrite has_keys_non_empty.
  unfold popup_markup, heading, type_line, address_line, id_line, geometry_line,
    dump, optional_line, line, shown_name, js_or.
  rewrite (shown_printable _ _ H4), (shown_printable _ _ H5), H4, H5.
  destruct (lookup "name" props) as [n|];
    [destruct (truthy (Some n));
     [destruct (H1 eq_refl) as [t1 E1]; rewrite (shown_printable _ _ E1), E1|]|];
    (destruct (truthy (lookup "poi_type" props));
     [destruct (H2 eq_refl) as [t2 E2]; rewrite (shown_printable _ _ E2), E2|]);
    (destruct (truthy (lookup "address" props));
     [destruct (H3 eq_refl) as [t3 E3]; rewrite (shown_printable _ _ E3), E3|]);
    destruct (lookup "properties" props) as [extra|];
    try destruct (non_empty (Some extra));
    cbn [non_empty truthy to_string json_to_string rbind]; f_equal;
    repeat rewrite append_assoc; repeat rewrite append_empty_r; reflexivity.
Qed.

(* ================================================================== *)
(** * Facts about running programs *)
(* ================================================================== *)

Section RunFacts.

Variable env : Env.

Lemma run_bind : forall {A B} (p : Prog A) (f : A -> Prog B) (c : Config),
  run env (bind p f) c =
  match run env p c with
  | (c', Ok a) => run env (f a) c'
  | (c', Threw e) => (c', Threw e)
  end.
Proof.
  intros A B p. revert B.
  induction p as [A a | A e | A k IH | A w k IH | A msg k IH | A req k IH
                  | A k IH | A child IHc k IH]; intros B f c; simpl; auto.
  destruct (exec env child c) as [c1 st]. apply IH.
Qed.

Lemma run_try_catch : forall {A} (p : Prog A) (h : Exn -> Prog A) (c : Config),
  run env (try_catch p h) c =
  match run env p c with
  | (c', Ok a) => (c', Ok a)
  | (c', Threw e) => run env (h e) c'
  end.
Proof.
  intros A p.
  induction p as [A a | A e | A k IH | A w k IH | A msg k IH | A req k IH
                  | A k IH | A child IHc k IH]; intros h c; simpl; auto.
  destruct (exec env child c) as [c1 st]. apply IH.
Qed.

Lemma run_ret {A} (a : A) (c : Config) : run env (Ret a) c = (c, Ok a).
Proof. reflexivity. Qed.

Lemma run_throw {A} (e : Exn) (c : Config) : run env (@Throw A e) c = (c, Threw e).
Proof. reflexivity. Qed.

Lemma run_modify (f : World -> World) (c : Config) :
  run env (modify f) c = ((f (fst c), snd c), Ok tt).
Proof. reflexivity. Qed.

Lemma run_gets {A} (f : World -> A) (c : Config) :
  run env (gets f) c = (c, Ok (f (fst c))).
Proof. reflexivity. Qed.

Lemma run_lift {A} (r : result A) (c : Config) :
  run env (lift r) c = (c, r).
Proof. destruct r; reflexivity. Qed.

Lemma run_emit (ev : Event) (c : Config) :
  run env (emit ev) c = (log ev c, Ok tt).
Proof. reflexivity. Qed.

Lemma run_fetch (req : Request) (c : Config) :
  run env (fetch req) c =
  (log (Requested req) c,
   match server env (trace (fst c)) req with
   | Rejected e => Threw e
   | Resolved r => Ok r
   end).
Proof.
  unfold fetch. simpl. destruct (server env (trace (fst c)) req); reflexivity.
Qed.

Lemma run_response_json (r : Response) (c : Config) :
  run env (response_json r) c = (c, json r).
Proof. unfold response_json. simpl. apply run_lift. Qed.

End RunFacts.

(** ** Synchronous execution *)

Section ExecFacts.

Variable env : Env.

Lemma exec_bind : forall {A B} (p : Prog A) (f : A -> Prog B) (c : Config),
  exec env (bind p f) c =
  match exec env p c with
  | (c', Finished (Ok a)) => exec env (f a) c'
  | (c', Finished (Threw e)) => (c', Finished (Threw e))
  | (c', Suspended s) => (c', Suspended (and_then s f))
  end.
Proof.
  intros A B p. revert B.
  induction p as [A a | A e | A k IH | A w k IH | A msg k IH | A req k IH
                  | A k IH | A child IHc k IH]; intros B f c; simpl; auto.
  destruct (exec env child c) as [c1 st]. apply IH.
Qed.

Lemma exec_lift {A} (r : result A) (c : Config) :
  exec env (lift r) c = (c, Finished r).
Proof. destruct r; reflexivity. Qed.

End ExecFacts.

Ltac run_simp :=
  repeat (first
    [ rewrite run_bind | rewrite run_try_catch | rewrite run_fetch
    | rewrite run_response_json | rewrite run_lift | rewrite run_modify
    | rewrite run_gets | rewrite run_emit | rewrite run_ret | rewrite run_throw ];
    cbn [fst snd]).

(* ================================================================== *)
(** * The loader *)
(* ================================================================== *)

Section Loader.

Variables (env : Env) (h : Host).

Lemma viewer_load_empty (w : World) pool r fields :
  server env (trace w) pois_request = Resolved r ->
  json r = Ok (JObj fields) ->
  lookup "features" fields = None \/ lookup "features" fields = Some (JArr []) ->
  run env (Viewer.loadPOIs h) (w, pool) = ((reported_empty w, pool), Ok tt).
Proof.
  intros Hs Hj Hf. unfold Viewer.loadPOIs, pois_request in *.
  run_simp. rewrite Hs. run_simp. rewrite Hj. run_simp. cbn [get_prop]. run_simp.
  destruct Hf as [Hf|Hf]; rewrite Hf; reflexivity.
Qed.

Lemma editor_load_empty (w : World) pool r fields :
  server env (trace w) pois_request = Resolved r ->
  json r = Ok (JObj fields) ->
  lookup "features" fields = None \/ lookup "features" fields = Some (JArr []) ->
  run env (Editor.loadPOIs h) (w, pool) = ((reported_empty w, pool), Ok tt).
Proof.
  intros Hs Hj Hf. unfold Editor.loadPOIs, pois_request in *.
  run_simp. rewrite Hs. run_simp. rewrite Hj. run_simp. cbn [get_prop]. run_simp.
  destruct Hf as [Hf|Hf]; rewrite Hf; reflexivity.
Qed.

Lemma viewer_load_failed (w : World) pool e :
  fetch_failed (server env (trace w) pois_request) e ->
  run env (Viewer.loadPOIs h) (w, pool) = ((reported_error e w, pool), Ok tt).
Proof.
  intros Hf. unfold Viewer.loadPOIs, pois_request in *. run_simp.
  destruct Hf as [Hf | (r & Hf & Hj)]; rewrite Hf; run_simp; try rewrite Hj;
    run_simp; unfold reported_error; simpl; now rewrite <- app_assoc.
Qed.

Lemma editor_load_failed (w : World) pool e :
  fetch_failed (server env (trace w) pois_request) e ->
  run env (Editor.loadPOIs h) (w, pool) = ((reported_error e w, pool), Ok tt).
Proof.
  intros Hf. unfold Editor.loadPOIs, pois_request in *. run_simp.
  destruct Hf as [Hf | (r & Hf & Hj)]; rewrite Hf; run_simp; try rewrite Hj;
    run_simp; unfold reported_error; simpl; now rewrite <- app_assoc.
Qed.

(** A [try] whose handler always returns always returns. *)
Lemma never_throws_try_catch : forall {A} (p : Prog A) (handler : Exn -> Prog A),
  (forall e, never_throws (handler e)) -> never_throws (try_catch p handler).
Proof.
  intros A p.
  induction p as [A a | A e | A k IH | A g k IH | A msg k IH | A req k IH
                  | A k IH | A child IHc k IH]; intros handler Hh; simpl; auto.
Qed.

Lemma never_throws_run : forall {A} (p : Prog A) (c : Config),
  never_throws p -> exists a, snd (run env p c) = Ok a.
Proof.
  intros A p.
  induction p as [A a | A e | A k IH | A g k IH | A msg k IH | A req k IH
                  | A k IH | A child IHc k IH]; intros c Hp; simpl in *; auto.
  - now exists a.
  - contradiction.
  - destruct (exec env child c) as [c1 st]. auto.
Qed.

Lemma never_throws_exec : forall {A} (p : Prog A) (c : Config),
  never_throws p ->
  match snd (exec env p c) with
  | Finished (Ok _) => True
  | Finished (Threw _) => False
  | Suspended (OnFetch _ k) => forall o, never_throws (k o)
  | Suspended (OnTick k) => never_throws k
  end.
Proof.
  intros A p.
  induction p as [A a | A e | A k IH | A g k IH | A msg k IH | A req k IH
                  | A k IH | A child IHc k IH]; intros c Hp; cbn [exec never_throws] in *.
  - exact I.
  - contradiction.
  - apply IH, Hp.
  - apply IH, Hp.
  - apply IH, Hp.
  - exact Hp.
  - exact Hp.
  - destruct (exec env child c) as [c1 st]. apply IH, Hp.
Qed.

Lemma load_never_throws :
  never_throws (Viewer.loadPOIs h) /\ never_throws (Editor.loadPOIs h).
Proof.
  split; apply never_throws_try_catch; intros e; exact I.
Qed.

(** A [try] whose handler cannot throw never throws. *)
Lemma guarded_never_throws (p : Prog unit) (handler : Exn -> Prog unit) :
  (forall e c, snd (run env (handler e) c) = Ok tt) ->
  forall c, snd (run env (try_catch p handler) c) = Ok tt.
Proof.
  intros Hh c. rewrite run_try_catch.
  destruct (run env p c) as [c' [[]|e]]; [reflexivity | apply Hh].
Qed.

Lemma viewer_load_never_throws (c : Config) :
  snd (run env (Viewer.loadPOIs h) c) = Ok tt.
Proof. apply guarded_never_throws. intros e c'. reflexivity. Qed.

Lemma editor_load_never_throws (c : Config) :
  snd (run env (Editor.loadPOIs h) c) = Ok tt.
Proof. apply guarded_never_throws. intros e c'. reflexivity. Qed.

End Loader.

(* ================================================================== *)
(** * Requests in the trace *)
(* ================================================================== *)

Lemma requests_of_app (a b : list Event) :
  requests_of (a ++ b) = requests_of a ++ requests_of b.
Proof.
  induction a as [|ev a IH]; simpl; [reflexivity|].
  destruct ev; simpl; now rewrite IH.
Qed.

(* ================================================================== *)
(** * The creation form *)
(* ================================================================== *)

Section Submit.

Variables (env : Env) (h : Host).

Lemma submit_without_drawing (w : World) pool :
  currentDrawing w = None ->
  run env (Editor.on_submit h) (w, pool)
  = ((alerted "No geometry drawn" w, pool), Ok tt).
Proof.
  intros Hc. unfold Editor.on_submit. run_simp. rewrite Hc. reflexivity.
Qed.

Lemma submit_invalid_json (w : World) pool drawing e :
  currentDrawing w = Some drawing ->
  trim (poi_properties (form w)) <> EmptyString ->
  JSON_parse h (poi_properties (form w)) = Threw e ->
  run env (Editor.on_submit h) (w, pool)
  = ((alerted "Invalid JSON in properties field" w, pool), Ok tt).
Proof.
  intros Hc Ht Hp. unfold Editor.on_submit, Editor.parse_properties.
  run_simp. rewrite Hc. run_simp.
  destruct (String.eqb_spec (trim (poi_properties (form w))) EmptyString) as [E|_];
    [contradiction|].
  cbn [negb]. run_simp. rewrite Hp. run_simp. reflexivity.
Qed.

End Submit.

(* ================================================================== *)
(** * Deleting *)
(* ================================================================== *)

Section Delete.

Variables (env : Env) (h : Host).

Lemma deletePOI_declined (poiId : Value) (c : Config) :
  user env (trace (fst c)) confirm_text = false ->
  exec env (Editor.deletePOI h poiId) c
  = (log (Confirmed confirm_text false) c, Finished (Ok tt)).
Proof.
  intros Hu. unfold Editor.deletePOI. simpl. fold confirm_text.
  rewrite Hu. reflexivity.
Qed.

Lemma deletePOI_declined_run (poiId : Value) (c : Config) :
  user env (trace (fst c)) confirm_text = false ->
  run env (Editor.deletePOI h poiId) c
  = (log (Confirmed confirm_text false) c, Ok tt).
Proof.
  intros Hu. unfold Editor.deletePOI. simpl. fold confirm_text.
  rewrite Hu. reflexivity.
Qed.

Lemma delete_request_text (poiId : Value) :
  delete_request poiId
  = match to_string poiId with
    | Ok id_text => Ok (mkRequest "DELETE" ("/api/pois/" ++ id_text) [] None)
    | Threw e => Threw e
    end.
Proof. unfold delete_request. now destruct (to_string poiId). Qed.

Lemma deletePOI_confirmed (poiId : Value) (req : Request) (c : Config) :
  user env (trace (fst c)) confirm_text = true ->
  delete_request poiId = Ok req ->
  exists k,
    exec env (Editor.deletePOI h poiId) c
    = (log (Requested req) (log (Confirmed confirm_text true) c),
       Suspended (OnFetch req k)).
Proof.
  intros Hu Hr. rewrite delete_request_text in Hr.
  unfold Editor.deletePOI. simpl. fold confirm_text.
  rewrite Hu. simpl. destruct (to_string poiId) as [id_text|e]; [|discriminate].
  injection Hr as <-. simpl. eexists. reflexivity.
Qed.

(** An id that cannot be put in the url: the failure is reported at once,
    and no request is sent. *)
Lemma deletePOI_unprintable (poiId : Value) (e : Exn) (c : Config) :
  user env (trace (fst c)) confirm_text = true ->
  delete_request poiId = Threw e ->
  exec env (Editor.deletePOI h poiId) c
  = (log (Alerted ("Failed to delete POI: " ++ message e))
       (log (ConsoleError "Error deleting POI:" e)
          (log (Confirmed confirm_text true) c)),
     Finished (Ok tt)).
Proof.
  intros Hu Hr. rewrite delete_request_text in Hr.
  unfold Editor.deletePOI. simpl. fold confirm_text.
  rewrite Hu. simpl. destruct (to_string poiId) as [id_text|e']; [discriminate|].
  injection Hr as <-. reflexivity.
Qed.

End Delete.

(* ================================================================== *)
(** * What a load does to the page *)
(* ================================================================== *)

Section LoadFacts.

Variables (env : Env) (h : Host).

Lemma cycle_app (start : nat) (a b : list ShapeKind) :
  cycle start a ++ cycle (start + List.length a) b = cycle start (a ++ b).
Proof.
  revert start. induction a as [|k a IH]; intros start; cbn [cycle app List.length].
  - now rewrite Nat.add_0_r.
  - rewrite <- IH. replace (S start + List.length a) with (start + S (List.length a)) by lia.
    reflexivity.
Qed.

Lemma extend_nothing (o : Obs) : extend o [] [] [] [] = o.
Proof.
  destruct o. unfold extend. simpl.
  now rewrite !app_nil_r, Nat.add_0_r.
Qed.

Lemma extend_extend (o : Obs) a b d k a' b' d' k' :
  extend (extend o a b d k) a' b' d' k'
  = extend o (a ++ a') (b ++ b') (d ++ d') (k ++ k').
Proof.
  unfold extend. simpl.
  now rewrite <- !app_assoc, cycle_app, length_app, Nat.add_assoc.
Qed.

(** ** Building the layers of one GeoJSON object *)

Lemma add_shapes_plain (opts : GeoJSONOptions) (shapes : list Shape) :
  (forall f, style opts <> StyleFunction f) ->
  forall acc w pool,
  exists layers,
    run env (for_each_with shapes (add_shape opts) acc) (w, pool)
    = ((set_next_stamp (next_stamp w + List.length shapes) w, pool),
       Ok (acc ++ layers)).
Proof.
  intros Hs. induction shapes as [|sh shapes IH]; intros acc w pool.
  - exists []. simpl. rewrite app_nil_r, Nat.add_0_r.
    destruct w; reflexivity.
  - cbn [for_each_with]. rewrite run_bind.
    assert (Hstep : exists l,
      run env (add_shape opts sh acc) (w, pool)
      = ((set_next_stamp (S (next_stamp w)) w, pool), Ok (acc ++ [l]))).
    { unfold add_shape.
      destruct (has_setStyle (kind sh) opts);
        [destruct (style opts) as [| s | f] eqn:E; [| | now destruct (Hs f)] |];
        eexists; reflexivity. }
    destruct Hstep as [l Hstep]. rewrite Hstep.
    destruct (IH (acc ++ [l]) (set_next_stamp (S (next_stamp w)) w) pool)
      as [layers Hl].
    rewrite Hl. exists (l :: layers). f_equal.
    + f_equal. destruct w; simpl. unfold set_next_stamp; simpl.
      f_equal. lia.
    + now rewrite <- app_assoc.
Qed.

Lemma add_shapes_polygon (shapes : list Shape) :
  forall acc w pool,
  exists layers,
    run env (for_each_with shapes (add_shape polygon_options) acc) (w, pool)
    = ((set_next_stamp (next_stamp w + List.length shapes)
          (set_colorIndex (colorIndex w + List.length (filter takes_colour shapes)) w),
        pool),
       Ok (acc ++ layers))
    /\ map paint (filter painted layers)
       = cycle (colorIndex w) (map kind (filter takes_colour shapes)).
Proof.
  induction shapes as [|sh shapes IH]; intros acc w pool.
  - exists []. simpl. rewrite app_nil_r, !Nat.add_0_r.
    split; [destruct w; reflexivity | reflexivity].
  - cbn [for_each_with]. rewrite run_bind.
    assert (Hstep : exists l,
      run env (add_shape polygon_options sh acc) (w, pool)
      = ((set_next_stamp (S (next_stamp w))
            (set_colorIndex (colorIndex w + (if takes_colour sh then 1 else 0)) w),
          pool), Ok (acc ++ [l]))
      /\ painted l = takes_colour sh
      /\ (takes_colour sh = true -> paint l = tint (colorIndex w) (kind sh))).
    { unfold add_shape, takes_colour, has_setStyle, polygon_options, painted, paint.
      cbn [pointToLayer style].
      destruct (kind sh) eqn:K; eexists;
        rewrite ?Nat.add_0_r, ?Nat.add_1_r;
        (split; [reflexivity | split; [reflexivity |]]);
        try discriminate;
        intros _; unfold tint, palette;
        cbn [options fillColor color merge_style setStyle no_style fst];
        change (List.length polygonColors) with 10;
        try destruct (nth_error polygonColors (colorIndex w mod 10)); reflexivity. }
    destruct Hstep as (l & Hstep & Hp & Hc). rewrite Hstep.
    set (w1 := set_next_stamp (S (next_stamp w))
                 (set_colorIndex (colorIndex w + (if takes_colour sh then 1 else 0)) w)).
    destruct (IH (acc ++ [l]) w1 pool) as (layers & Hl & Hpaint).
    rewrite Hl. exists (l :: layers). split.
    + f_equal.
      * f_equal. subst w1. unfold set_next_stamp, set_colorIndex; simpl.
        destruct (takes_colour sh); simpl; f_equal; lia.
      * now rewrite <- app_assoc.
    + cbn [filter]. rewrite Hp. subst w1.
      cbn [colorIndex set_next_stamp set_colorIndex] in Hpaint.
      destruct (takes_colour sh) eqn:T; cbn [map List.length cycle].
      * rewrite Hpaint, (Hc eq_refl). now rewrite Nat.add_1_r.
      * now rewrite Hpaint, Nat.add_0_r.
Qed.

End LoadFacts.

Section RenderFacts.

Variables (env : Env) (h : Host).

Lemma strict_eq_str (t : Value) (s : string) :
  strict_eq t (Some (JStr s)) = true <-> t = Some (JStr s).
Proof.
  destruct t as [[| b | z | s' | items | fields]|]; simpl;
    try (split; [discriminate | discriminate]).
  rewrite String.eqb_eq. split; [now intros -> | now intros [= ->]].
Qed.

Lemma class_of_point (t : Value) :
  strict_eq t (Some (JStr "ST_Point")) = true -> class_of t = Points.
Proof. intros H. apply strict_eq_str in H. now subst. Qed.

Lemma class_of_line (t : Value) :
  strict_eq t (Some (JStr "ST_Point")) = false ->
  strict_eq t (Some (JStr "ST_LineString"))
  || strict_eq t (Some (JStr "ST_MultiLineString")) = true ->
  class_of t = Lines.
Proof.
  intros _ H. apply orb_true_iff in H.
  destruct H as [H|H]; apply strict_eq_str in H; now subst.
Qed.

Lemma class_of_polygon (t : Value) :
  strict_eq t (Some (JStr "ST_Point")) = false ->
  strict_eq t (Some (JStr "ST_LineString"))
  || strict_eq t (Some (JStr "ST_MultiLineString")) = false ->
  class_of t = Polygons.
Proof.
  intros H1 H2. apply orb_false_iff in H2. destruct H2 as [H2 H3].
  destruct t as [[| b | z | s | items | fields]|]; try reflexivity.
  simpl in H1, H2, H3.
  apply String.eqb_neq in H1, H2, H3.
  unfold class_of.
  repeat match goal with
         | |- context [match ?x with _ => _ end] => destruct x; try reflexivity
         end; congruence.
Qed.

Lemma class_of_not_point (t : Value) :
  strict_eq t (Some (JStr "ST_Point")) = false -> class_of t <> Points.
Proof.
  intros H.
  destruct (strict_eq t (Some (JStr "ST_LineString"))
            || strict_eq t (Some (JStr "ST_MultiLineString"))) eqn:E.
  - rewrite (class_of_line _ H E). discriminate.
  - rewrite (class_of_polygon _ H E). discriminate.
Qed.

(** ** [L.geoJSON] *)

Lemma L_geoJSON_plain (opts : GeoJSONOptions) (v : Value) (w : World) pool :
  (forall f, style opts <> StyleFunction f) ->
  exists n layers,
    run env (L_geoJSON h v opts) (w, pool)
    = ((set_next_stamp n w, pool),
       match snd (geoJSON_shapes h v) with
       | Some e => Threw e
       | None => Ok (mkGroup v layers None)
       end).
Proof.
  intros Hs. unfold L_geoJSON.
  destruct (geoJSON_shapes h v) as [shapes err]. rewrite run_bind.
  destruct (add_shapes_plain env opts shapes Hs [] w pool) as [layers Hl].
  rewrite Hl. exists (next_stamp w + List.length shapes), layers.
  cbn [snd]. destruct err; reflexivity.
Qed.

Lemma L_geoJSON_polygon (v : Value) (w : World) pool :
  exists n layers,
    run env (L_geoJSON h v polygon_options) (w, pool)
    = ((set_next_stamp n
          (set_colorIndex (colorIndex w + List.length (styled h v)) w), pool),
       match snd (geoJSON_shapes h v) with
       | Some e => Threw e
       | None => Ok (mkGroup v layers None)
       end)
    /\ map paint (filter painted layers) = cycle (colorIndex w) (styled h v).
Proof.
  unfold L_geoJSON, styled.
  destruct (geoJSON_shapes h v) as [shapes err]. rewrite run_bind.
  destruct (add_shapes_polygon env shapes [] w pool) as (layers & Hl & Hp).
  rewrite Hl. exists (next_stamp w + List.length shapes), layers.
  cbn [fst snd]. rewrite length_map.
  split; [destruct err; reflexivity | exact Hp].
Qed.

(** ** Attaching a feature changes neither sources nor colours *)

Lemma attach_paint feature target l :
  paint (Editor.attach feature target l) = paint l
  /\ painted (Editor.attach feature target l) = painted l.
Proof.
  unfold Editor.attach. destruct (Nat.eqb (stamp l) (stamp target)); split; reflexivity.
Qed.

Lemma sources_attach feature target gs :
  map source (Editor.attach_in_groups feature target gs) = map source gs.
Proof.
  unfold Editor.attach_in_groups. rewrite map_map. reflexivity.
Qed.

Lemma paints_attach feature target gs :
  paints (Editor.attach_in_groups feature target gs) = paints gs.
Proof.
  unfold paints, rendered, Editor.attach_in_groups.
  induction gs as [|g gs IH]; [reflexivity|].
  cbn [map flat_map children]. rewrite !filter_app, !map_app, IH. f_equal.
  induction (children g) as [|l ls IHl]; [reflexivity|].
  cbn [map filter].
  destruct (attach_paint feature target l) as [Hp Hq]. rewrite Hq.
  destruct (painted l); cbn [map]; now rewrite ?Hp, IHl.
Qed.

Lemma paints_app gs g :
  paints (gs ++ [g]) = paints gs ++ map paint (filter painted (children g)).
Proof.
  unfold paints, rendered. rewrite flat_map_app, filter_app, map_app.
  cbn [flat_map]. now rewrite app_nil_r.
Qed.

Lemma make_editable_obs (f : JSON) (ls : list Layer) (c : Config) :
  exists c', run env (for_each ls (Editor.make_editable f)) c = (c', Ok tt)
             /\ obs c' = obs c.
Proof.
  revert c. induction ls as [|l ls IH]; intros c.
  - exists c. split; reflexivity.
  - cbn [for_each]. rewrite run_bind. unfold Editor.make_editable at 1.
    run_simp.
    match goal with |- context [run env (for_each ls _) ?c1] =>
      destruct (IH c1) as (c' & Hr & Ho); exists c'; split; [exact Hr|];
      rewrite Ho
    end.
    unfold obs. cbn [fst snd Editor.set_layer_feature set_drawnItems
      pointLayer lineLayer polygonLayer colorIndex trace].
    now rewrite !sources_attach, paints_attach.
Qed.

End RenderFacts.

Ltac obs_eq :=
  unfold obs, extend, log;
  cbn [fst snd pointLayer lineLayer polygonLayer colorIndex trace
       set_pointLayer set_lineLayer set_polygonLayer set_next_stamp
       set_colorIndex set_trace set_poi_count
       seen_points seen_lines seen_polygons seen_paints cursor sent waiting
       cycle List.length map source bindPopup children];
  rewrite ?map_app, ?paints_app, ?requests_of_app;
  cbn [map source bindPopup children requests_of];
  rewrite ?app_nil_r, ?Nat.add_0_r;
  try reflexivity.

Section AddFacts.

Variables (env : Env) (h : Host).

Lemma stalled_same (o o' : Obs) :
  seen_paints o' = seen_paints o -> sent o' = sent o -> waiting o' = waiting o ->
  stalled o o'.
Proof.
  intros Hp Hs Hw. exists []. simpl. now rewrite app_nil_r.
Qed.

Lemma extend_is_stalled (o : Obs) a b d k : stalled o (extend o a b d k).
Proof. exists k. repeat split. Qed.

Lemma extend_stalled (o o' : Obs) a b d k :
  stalled (extend o a b d k) o' -> stalled o o'.
Proof.
  intros (k' & Hp & Hs & Hw). exists (k ++ k'). simpl in *.
  rewrite Hp, <- app_assoc, cycle_app. auto.
Qed.

Lemma not_renderable_shapes (f : JSON) (e : Exn) :
  snd (geoJSON_shapes h (Some f)) = Some e -> ~ renderable h f.
Proof. intros E (_ & _ & H). congruence. Qed.

Lemma not_renderable_popup (f : JSON) (e : Exn) :
  createPopupContent (Some f) = Threw e -> ~ renderable h f.
Proof. intros P (_ & [html Hh] & _). congruence. Qed.

Lemma plain_line : forall f, style (mkOptions (StyleObject line_options) None) <> StyleFunction f.
Proof. intros f. discriminate. Qed.

Lemma plain_point : forall f, style (mkOptions StyleAbsent (Some circle_options)) <> StyleFunction f.
Proof. intros f. discriminate. Qed.

Lemma editor_add_line_spec (f : JSON) (c : Config) :
  match run env (Editor.add_line h f) c with
  | (c', Ok _) => obs c' = extend (obs c) [] [Some f] [] []
  | (c', Threw e) => stalled (obs c) (obs c') /\ ~ renderable h f
  end.
Proof.
  destruct c as [w pool]. unfold Editor.add_line. rewrite run_bind.
  destruct (L_geoJSON_plain env h _ (Some f) w pool plain_line) as (n & layers & Hr).
  rewrite Hr. destruct (snd (geoJSON_shapes h (Some f))) as [e|] eqn:E.
  - split; [apply stalled_same; reflexivity | eapply not_renderable_shapes; eauto].
  - run_simp. destruct (createPopupContent (Some f)) as [html|e] eqn:P; run_simp.
    + match goal with |- context [run env (for_each ?ls _) ?c1] =>
        destruct (make_editable_obs env f ls c1) as (c' & Hm & Ho)
      end.
      rewrite Hm, Ho. obs_eq.
    + split; [apply stalled_same; reflexivity | eapply not_renderable_popup; eauto].
Qed.

Lemma editor_add_point_spec (f : JSON) (c : Config) :
  match run env (Editor.add_point h f) c with
  | (c', Ok _) => obs c' = extend (obs c) [Some f] [] [] []
  | (c', Threw e) => stalled (obs c) (obs c') /\ ~ renderable h f
  end.
Proof.
  destruct c as [w pool]. unfold Editor.add_point. rewrite run_bind.
  destruct (L_geoJSON_plain env h _ (Some f) w pool plain_point) as (n & layers & Hr).
  rewrite Hr. destruct (snd (geoJSON_shapes h (Some f))) as [e|] eqn:E.
  - split; [apply stalled_same; reflexivity | eapply not_renderable_shapes; eauto].
  - run_simp. destruct (createPopupContent (Some f)) as [html|e] eqn:P; run_simp.
    + match goal with |- context [run env (for_each ?ls _) ?c1] =>
        destruct (make_editable_obs env f ls c1) as (c' & Hm & Ho)
      end.
      rewrite Hm, Ho. obs_eq.
    + split; [apply stalled_same; reflexivity | eapply not_renderable_popup; eauto].
Qed.

Lemma editor_add_polygon_spec (f : JSON) (c : Config) :
  match run env (Editor.add_polygon h f) c with
  | (c', Ok _) => obs c' = extend (obs c) [] [] [Some f] (styled h (Some f))
  | (c', Threw e) => stalled (obs c) (obs c') /\ ~ renderable h f
  end.
Proof.
  destruct c as [w pool]. unfold Editor.add_polygon. rewrite run_bind.
  fold polygon_options.
  destruct (L_geoJSON_polygon env h (Some f) w pool) as (n & layers & Hr & Hp).
  rewrite Hr. destruct (snd (geoJSON_shapes h (Some f))) as [e|] eqn:E.
  - split; [apply stalled_same; reflexivity | eapply not_renderable_shapes; eauto].
  - run_simp. destruct (createPopupContent (Some f)) as [html|e] eqn:P; run_simp.
    + match goal with |- context [run env (for_each ?ls _) ?c1] =>
        destruct (make_editable_obs env f ls c1) as (c' & Hm & Ho)
      end.
      rewrite Hm, Ho. obs_eq. now rewrite Hp.
    + split; [apply stalled_same; reflexivity | eapply not_renderable_popup; eauto].
Qed.

Lemma viewer_add_point_spec (f : JSON) (c : Config) :
  match run env (Viewer.add_point h f) c with
  | (c', Ok _) => obs c' = extend (obs c) [Some f] [] [] []
  | (c', Threw e) => stalled (obs c) (obs c') /\ ~ renderable h f
  end.
Proof.
  destruct c as [w pool]. unfold Viewer.add_point. rewrite run_bind.
  destruct (L_geoJSON_plain env h _ (Some f) w pool plain_point) as (n & layers & Hr).
  rewrite Hr. destruct (snd (geoJSON_shapes h (Some f))) as [e|] eqn:E.
  - split; [apply stalled_same; reflexivity | eapply not_renderable_shapes; eauto].
  - run_simp. destruct (createPopupContent (Some f)) as [html|e] eqn:P; run_simp.
    + obs_eq.
    + split; [apply stalled_same; reflexivity | eapply not_renderable_popup; eauto].
Qed.

Lemma viewer_add_polygon_spec (f : JSON) (c : Config) :
  match run env (Viewer.add_polygon h f) c with
  | (c', Ok _) => obs c' = extend (obs c) [] [] [Some f] (styled h (Some f))
  | (c', Threw e) => stalled (obs c) (obs c') /\ ~ renderable h f
  end.
Proof.
  destruct c as [w pool]. unfold Viewer.add_polygon. rewrite run_bind.
  fold polygon_options.
  destruct (L_geoJSON_polygon env h (Some f) w pool) as (n & layers & Hr & Hp).
  rewrite Hr. destruct (snd (geoJSON_shapes h (Some f))) as [e|] eqn:E.
  - split; [apply stalled_same; reflexivity | eapply not_renderable_shapes; eauto].
  - run_simp. destruct (createPopupContent (Some f)) as [html|e] eqn:P; run_simp.
    + obs_eq. now rewrite Hp.
    + split; [apply stalled_same; reflexivity | eapply not_renderable_popup; eauto].
Qed.

End AddFacts.

Section LoopFacts.

Variables (env : Env) (h : Host).

Lemma renderable_tagged (f : JSON) : renderable h f -> tagged f.
Proof. now intros [H _]. Qed.

Lemma renderable_popup (f : JSON) :
  renderable h f -> exists html, createPopupContent (Some f) = Ok html.
Proof. now intros (_ & H & _). Qed.

Lemma editor_classify_spec (f : JSON) (pts pls : list JSON) (c : Config) :
  match run env (Editor.classify h f (pts, pls)) c with
  | (c', Ok (pts', pls')) =>
      exists t, tag f = Ok t /\
        match class_of t with
        | Points => pts' = pts ++ [f] /\ pls' = pls /\ obs c' = obs c
        | Lines =>
            pts' = pts /\ pls' = pls /\ obs c' = extend (obs c) [] [Some f] [] []
        | Polygons => pts' = pts /\ pls' = pls ++ [f] /\ obs c' = obs c
        end
  | (c', Threw e) => stalled (obs c) (obs c') /\ ~ renderable h f
  end.
Proof.
  unfold Editor.classify. run_simp.
  destruct (get_prop (Some f) "properties") as [props|e] eqn:Ep.
  2:{ split; [apply stalled_same; reflexivity|].
      intros [[t Ht] _]. unfold tag in Ht. rewrite Ep in Ht. discriminate. }
  run_simp.
  destruct (get_prop props "geom_type") as [t|e] eqn:Et.
  2:{ split; [apply stalled_same; reflexivity|].
      intros [[t Ht] _]. unfold tag in Ht. rewrite Ep in Ht. cbn [rbind] in Ht.
      congruence. }
  assert (Ht : tag f = Ok t) by (unfold tag; rewrite Ep; exact Et).
  destruct (strict_eq t (Some (JStr "ST_Point"))) eqn:E1.
  { cbn [run]. exists t. split; [exact Ht|].
    rewrite (class_of_point t E1). auto. }
  destruct (strict_eq t (Some (JStr "ST_LineString"))
            || strict_eq t (Some (JStr "ST_MultiLineString"))) eqn:E2.
  - run_simp. pose proof (editor_add_line_spec env h f c) as Hl.
    destruct (run env (Editor.add_line h f) c) as [c' [u|e]].
    + cbn [run]. exists t. split; [exact Ht|].
      rewrite (class_of_line t E1 E2). auto.
    + exact Hl.
  - cbn [run]. exists t. split; [exact Ht|].
    rewrite (class_of_polygon t E1 E2). auto.
Qed.

Lemma viewer_classify_spec (f : JSON) (pts pls : list JSON) (c : Config) :
  match run env (Viewer.classify f (pts, pls)) c with
  | (c', Ok (pts', pls')) =>
      c' = c /\
      exists t, tag f = Ok t /\
        match class_of t with
        | Points => pts' = pts ++ [f] /\ pls' = pls
        | _ => pts' = pts /\ pls' = pls ++ [f]
        end
  | (c', Threw e) => stalled (obs c) (obs c') /\ ~ renderable h f
  end.
Proof.
  unfold Viewer.classify. run_simp.
  destruct (get_prop (Some f) "properties") as [props|e] eqn:Ep.
  2:{ split; [apply stalled_same; reflexivity|].
      intros [[t Ht] _]. unfold tag in Ht. rewrite Ep in Ht. discriminate. }
  run_simp.
  destruct (get_prop props "geom_type") as [t|e] eqn:Et.
  2:{ split; [apply stalled_same; reflexivity|].
      intros [[t Ht] _]. unfold tag in Ht. rewrite Ep in Ht. cbn [rbind] in Ht.
      congruence. }
  assert (Ht : tag f = Ok t) by (unfold tag; rewrite Ep; exact Et).
  destruct (strict_eq t (Some (JStr "ST_Point"))) eqn:E1; cbn [run].
  - split; [reflexivity|]. exists t. split; [exact Ht|].
    rewrite (class_of_point t E1). auto.
  - split; [reflexivity|]. exists t. split; [exact Ht|].
    pose proof (class_of_not_point t E1) as Hn.
    destruct (class_of t); [congruence | auto | auto].
Qed.

Lemma of_class_tag (cl : Class) (f : JSON) (t : Value) :
  tag f = Ok t -> of_class cl f = class_eqb (class_of t) cl.
Proof. intros Ht. unfold of_class. now rewrite Ht. Qed.

Lemma editor_classify_loop (items : list JSON) :
  forall pts pls c,
  match run env (for_each_with items (Editor.classify h) (pts, pls)) c with
  | (c', Ok (pts', pls')) =>
      pts' = pts ++ filter (of_class Points) items /\
      pls' = pls ++ filter (of_class Polygons) items /\
      obs c' = extend (obs c) [] (map Some (filter (of_class Lines) items)) [] [] /\
      Forall tagged items
  | (c', Threw e) => stalled (obs c) (obs c') /\ ~ Forall (renderable h) items
  end.
Proof.
  induction items as [|f items IH]; intros pts pls c.
  - cbn [for_each_with run filter map]. rewrite !app_nil_r, extend_nothing. auto.
  - cbn [for_each_with]. rewrite run_bind.
    pose proof (editor_classify_spec f pts pls c) as Hf.
    destruct (run env (Editor.classify h f (pts, pls)) c) as [c1 [[pts1 pls1]|e]].
    2:{ destruct Hf as [Hs Hn]. split; [exact Hs|].
        intros HF. inversion HF; subst. contradiction. }
    destruct Hf as (t & Ht & Hc).
    specialize (IH pts1 pls1 c1).
    destruct (run env (for_each_with items (Editor.classify h) (pts1, pls1)) c1)
      as [c2 [[pts2 pls2]|e]].
    + destruct IH as (Hp & Hq & Ho & Hall).
      cbn [filter]. rewrite !(of_class_tag _ f t Ht).
      destruct (class_of t); cbn [class_eqb map];
        destruct Hc as (-> & -> & Hc1); rewrite Hp, Hq, Ho, Hc1, ?extend_extend;
        rewrite <- ?app_assoc; cbn [app];
        (repeat split; [reflexivity .. | constructor; [now exists t | exact Hall]]).
    + destruct IH as [Hs Hn]. split.
      * destruct (class_of t); destruct Hc as (_ & _ & Hc1); rewrite Hc1 in Hs;
          [exact Hs | eapply extend_stalled; exact Hs | exact Hs].
      * intros HF. inversion HF; subst. contradiction.
Qed.

Lemma viewer_classify_loop (items : list JSON) :
  forall pts pls c,
  match run env (for_each_with items Viewer.classify (pts, pls)) c with
  | (c', Ok (pts', pls')) =>
      c' = c /\
      pts' = pts ++ filter (of_class Points) items /\
      pls' = pls ++ filter (fun f => negb (of_class Points f)) items /\
      Forall tagged items
  | (c', Threw e) => stalled (obs c) (obs c') /\ ~ Forall (renderable h) items
  end.
Proof.
  induction items as [|f items IH]; intros pts pls c.
  - cbn [for_each_with run filter]. rewrite !app_nil_r. auto.
  - cbn [for_each_with]. rewrite run_bind.
    pose proof (viewer_classify_spec f pts pls c) as Hf.
    destruct (run env (Viewer.classify f (pts, pls)) c) as [c1 [[pts1 pls1]|e]].
    2:{ destruct Hf as [Hs Hn]. split; [exact Hs|].
        intros HF. inversion HF; subst. contradiction. }
    destruct Hf as (-> & t & Ht & Hc).
    specialize (IH pts1 pls1 c).
    destruct (run env (for_each_with items Viewer.classify (pts1, pls1)) c)
      as [c2 [[pts2 pls2]|e]].
    + destruct IH as (-> & Hp & Hq & Hall).
      cbn [filter]. rewrite !(of_class_tag _ f t Ht).
      destruct (class_of t); cbn [class_eqb negb];
        destruct Hc as (-> & ->); rewrite Hp, Hq, <- ?app_assoc; cbn [app];
        (repeat split; [reflexivity .. | constructor; [now exists t | exact Hall]]).
    + destruct IH as [Hs Hn]. split; [exact Hs|].
      intros HF. inversion HF; subst. contradiction.
Qed.

Lemma editor_points_loop (pts : list JSON) :
  forall c,
  match run env (for_each pts (Editor.add_point h)) c with
  | (c', Ok _) => obs c' = extend (obs c) (map Some pts) [] [] []
  | (c', Threw e) => stalled (obs c) (obs c') /\ ~ Forall (renderable h) pts
  end.
Proof.
  induction pts as [|f pts IH]; intros c.
  - cbn [for_each run map]. now rewrite extend_nothing.
  - cbn [for_each]. rewrite run_bind.
    pose proof (editor_add_point_spec env h f c) as Hf.
    destruct (run env (Editor.add_point h f) c) as [c1 [u|e]].
    2:{ destruct Hf as [Hs Hn]. split; [exact Hs|].
        intros HF. inversion HF; subst. contradiction. }
    specialize (IH c1).
    destruct (run env (for_each pts (Editor.add_point h)) c1) as [c2 [u'|e]].
    + rewrite IH, Hf, extend_extend. reflexivity.
    + destruct IH as [Hs Hn]. rewrite Hf in Hs. split.
      * eapply extend_stalled; exact Hs.
      * intros HF. inversion HF; subst. contradiction.
Qed.

Lemma editor_polygons_loop (pls : list JSON) :
  forall c,
  match run env (for_each pls (Editor.add_polygon h)) c with
  | (c', Ok _) => obs c' = extend (obs c) [] [] (map Some pls) (colours_taken h pls)
  | (c', Threw e) => stalled (obs c) (obs c') /\ ~ Forall (renderable h) pls
  end.
Proof.
  induction pls as [|f pls IH]; intros c.
  - cbn [for_each run map]. unfold colours_taken. cbn [flat_map].
    now rewrite extend_nothing.
  - cbn [for_each]. rewrite run_bind.
    pose proof (editor_add_polygon_spec env h f c) as Hf.
    destruct (run env (Editor.add_polygon h f) c) as [c1 [u|e]].
    2:{ destruct Hf as [Hs Hn]. split; [exact Hs|].
        intros HF. inversion HF; subst. contradiction. }
    specialize (IH c1).
    destruct (run env (for_each pls (Editor.add_polygon h)) c1) as [c2 [u'|e]].
    + rewrite IH, Hf, extend_extend. reflexivity.
    + destruct IH as [Hs Hn]. rewrite Hf in Hs. split.
      * eapply extend_stalled; exact Hs.
      * intros HF. inversion HF; subst. contradiction.
Qed.

Lemma viewer_points_loop (pts : list JSON) :
  forall c,
  match run env (for_each pts (Viewer.add_point h)) c with
  | (c', Ok _) => obs c' = extend (obs c) (map Some pts) [] [] []
  | (c', Threw e) => stalled (obs c) (obs c') /\ ~ Forall (renderable h) pts
  end.
Proof.
  induction pts as [|f pts IH]; intros c.
  - cbn [for_each run map]. now rewrite extend_nothing.
  - cbn [for_each]. rewrite run_bind.
    pose proof (viewer_add_point_spec env h f c) as Hf.
    destruct (run env (Viewer.add_point h f) c) as [c1 [u|e]].
    2:{ destruct Hf as [Hs Hn]. split; [exact Hs|].
        intros HF. inversion HF; subst. contradiction. }
    specialize (IH c1).
    destruct (run env (for_each pts (Viewer.add_point h)) c1) as [c2 [u'|e]].
    + rewrite IH, Hf, extend_extend. reflexivity.
    + destruct IH as [Hs Hn]. rewrite Hf in Hs. split.
      * eapply extend_stalled; exact Hs.
      * intros HF. inversion HF; subst. contradiction.
Qed.

Lemma viewer_polygons_loop (pls : list JSON) :
  forall c,
  match run env (for_each pls (Viewer.add_polygon h)) c with
  | (c', Ok _) => obs c' = extend (obs c) [] [] (map Some pls) (colours_taken h pls)
  | (c', Threw e) => stalled (obs c) (obs c') /\ ~ Forall (renderable h) pls
  end.
Proof.
  induction pls as [|f pls IH]; intros c.
  - cbn [for_each run map]. unfold colours_taken. cbn [flat_map].
    now rewrite extend_nothing.
  - cbn [for_each]. rewrite run_bind.
    pose proof (viewer_add_polygon_spec env h f c) as Hf.
    destruct (run env (Viewer.add_polygon h f) c) as [c1 [u|e]].
    2:{ destruct Hf as [Hs Hn]. split; [exact Hs|].
        intros HF. inversion HF; subst. contradiction. }
    specialize (IH c1).
    destruct (run env (for_each pls (Viewer.add_polygon h)) c1) as [c2 [u'|e]].
    + rewrite IH, Hf, extend_extend. reflexivity.
    + destruct IH as [Hs Hn]. rewrite Hf in Hs. split.
      * eapply extend_stalled; exact Hs.
      * intros HF. inversion HF; subst. contradiction.
Qed.

End LoopFacts.

Section RenderSpec.

Variables (env : Env) (h : Host).

Lemma Forall_filter {X} (P : X -> Prop) (keep : X -> bool) (xs : list X) :
  Forall P xs -> Forall P (filter keep xs).
Proof.
  induction 1 as [|x xs Hx _ IH]; cbn [filter]; [constructor|].
  destruct (keep x); [constructor; assumption | assumption].
Qed.

Lemma count_lines_tagged (items : list JSON) :
  Forall tagged items -> exists n, Editor.count_lines items = Ok n.
Proof.
  induction 1 as [|f items [t Ht] _ [n IH]]; [exists 0; reflexivity|].
  cbn [Editor.count_lines]. unfold Editor.is_line.
  unfold tag in Ht.
  destruct (get_prop (Some f) "properties") as [props|e]; [|discriminate].
  cbn [rbind] in *. rewrite Ht. cbn [rbind].
  destruct (strict_eq t (Some (JStr "ST_LineString"))); cbn [rbind];
    rewrite IH; cbn [rbind]; eexists; reflexivity.
Qed.

Lemma fit_bounds_throws (members : nat) (c : Config) :
  run env (fit_bounds (S members)) c = (c, Threw no_getLatLng).
Proof. reflexivity. Qed.

(** Rendering ends on the error of [getBounds], when it gets that far. *)
Lemma editor_render_spec (items : list JSON) (c : Config) :
  exists c' e,
    run env (Editor.render h (Some (JArr items))) c = (c', Threw e)
    /\ stalled (obs c) (obs c')
    /\ (Forall (renderable h) items ->
        e = no_getLatLng
        /\ obs c' = extend (obs c) (map Some (filter (of_class Points) items))
                      (map Some (filter (of_class Lines) items))
                      (map Some (filter (of_class Polygons) items))
                      (colours_taken h (filter (of_class Polygons) items))).
Proof.
  unfold Editor.render. run_simp. cbn [as_array]. run_simp.
  pose proof (editor_classify_loop env h items [] [] c) as Hc.
  destruct (run env (for_each_with items (Editor.classify h) ([], [])) c)
    as [c1 [[pts pls]|e]].
  2:{ exists c1, e. split; [reflexivity|]. destruct Hc as [Hs Hn].
      split; [exact Hs | contradiction]. }
  destruct Hc as (-> & -> & Ho1 & Hall). cbn [app].
  rewrite run_bind.
  pose proof (editor_points_loop env h (filter (of_class Points) items) c1) as Hp.
  destruct (run env (for_each (filter (of_class Points) items) (Editor.add_point h)) c1)
    as [c2 [u|e]].
  2:{ exists c2, e. split; [reflexivity|].
      destruct Hp as [Hs Hn]. rewrite Ho1 in Hs. split.
      - eapply extend_stalled; exact Hs.
      - intros HF. destruct Hn. now apply Forall_filter. }
  rewrite run_bind.
  pose proof (editor_polygons_loop env h (filter (of_class Polygons) items) c2) as Hq.
  destruct (run env (for_each (filter (of_class Polygons) items) (Editor.add_polygon h)) c2)
    as [c3 [u'|e]].
  2:{ exists c3, e. split; [reflexivity|].
      destruct Hq as [Hs Hn]. rewrite Hp, Ho1, extend_extend in Hs. split.
      - eapply extend_stalled; exact Hs.
      - intros HF. destruct Hn. now apply Forall_filter. }
  rewrite run_bind, fit_bounds_throws.
  exists c3, no_getLatLng. split; [reflexivity|].
  assert (Ho3 : obs c3 = extend (obs c) (map Some (filter (of_class Points) items))
                           (map Some (filter (of_class Lines) items))
                           (map Some (filter (of_class Polygons) items))
                           (colours_taken h (filter (of_class Polygons) items))).
  { rewrite Hq, Hp, Ho1, !extend_extend. cbn [app]. now rewrite !app_nil_r. }
  split; [rewrite Ho3; apply extend_is_stalled | auto].
Qed.

Lemma filter_not_points (items : list JSON) :
  Forall tagged items ->
  filter (fun f => negb (of_class Points f)) items
  = filter (fun f => of_class Lines f || of_class Polygons f) items.
Proof.
  induction 1 as [|f items [t Ht] _ IH]; [reflexivity|].
  cbn [filter]. rewrite IH, !(of_class_tag _ f t Ht).
  destruct (class_of t); reflexivity.
Qed.

Lemma viewer_render_spec (items : list JSON) (c : Config) :
  exists c' e,
    run env (Viewer.render h (Some (JArr items))) c = (c', Threw e)
    /\ stalled (obs c) (obs c')
    /\ (Forall (renderable h) items ->
        e = no_getLatLng
        /\ obs c' = extend (obs c) (map Some (filter (of_class Points) items)) []
                      (map Some (filter (fun f => negb (of_class Points f)) items))
                      (colours_taken h
                         (filter (fun f => negb (of_class Points f)) items))).
Proof.
  unfold Viewer.render. run_simp. cbn [as_array]. run_simp.
  pose proof (viewer_classify_loop env h items [] [] c) as Hc.
  destruct (run env (for_each_with items Viewer.classify ([], [])) c)
    as [c1 [[pts pls]|e]].
  2:{ exists c1, e. split; [reflexivity|]. destruct Hc as [Hs Hn].
      split; [exact Hs | contradiction]. }
  destruct Hc as (-> & -> & -> & Hall). cbn [app].
  rewrite run_bind.
  pose proof (viewer_points_loop env h (filter (of_class Points) items) c) as Hp.
  destruct (run env (for_each (filter (of_class Points) items) (Viewer.add_point h)) c)
    as [c2 [u|e]].
  2:{ exists c2, e. split; [reflexivity|].
      destruct Hp as [Hs Hn]. split; [exact Hs|].
      intros HF. destruct Hn. now apply Forall_filter. }
  rewrite run_bind.
  pose proof (viewer_polygons_loop env h
                (filter (fun f => negb (of_class Points f)) items) c2) as Hq.
  destruct (run env (for_each (filter (fun f => negb (of_class Points f)) items)
                       (Viewer.add_polygon h)) c2) as [c3 [u'|e]].
  2:{ exists c3, e. split; [reflexivity|].
      destruct Hq as [Hs Hn]. rewrite Hp in Hs. split.
      - eapply extend_stalled; exact Hs.
      - intros HF. destruct Hn. now apply Forall_filter. }
  rewrite run_bind, fit_bounds_throws.
  exists c3, no_getLatLng. split; [reflexivity|].
  assert (Ho3 : obs c3 = extend (obs c) (map Some (filter (of_class Points) items)) []
                  (map Some (filter (fun f => negb (of_class Points f)) items))
                  (colours_taken h
                     (filter (fun f => negb (of_class Points f)) items))).
  { rewrite Hq, Hp, !extend_extend. cbn [app]. now rewrite ?app_nil_r. }
  split; [rewrite Ho3; apply extend_is_stalled | auto].
Qed.

Lemma render_not_array_editor (features : Value) (c : Config) :
  (forall items, features <> Some (JArr items)) ->
  exists e, run env (Editor.render h features) c = (c, Threw e).
Proof.
  intros Hn. unfold Editor.render. run_simp.
  destruct features as [[| b | z | s | items | fields]|]; cbn [as_array];
    try (eexists; reflexivity).
  now destruct (Hn items).
Qed.

Lemma render_not_array_viewer (features : Value) (c : Config) :
  (forall items, features <> Some (JArr items)) ->
  exists e, run env (Viewer.render h features) c = (c, Threw e).
Proof.
  intros Hn. unfold Viewer.render. run_simp.
  destruct features as [[| b | z | s | items | fields]|]; cbn [as_array];
    try (eexists; reflexivity).
  now destruct (Hn items).
Qed.

End RenderSpec.

Section LoadSpec.

Variables (env : Env) (h : Host).

Lemma is_array_dec (v : Value) :
  (exists items, v = Some (JArr items)) \/ (forall items, v <> Some (JArr items)).
Proof.
  destruct v as [[| b | z | s | items | fields]|];
    try (right; intros items' H; discriminate).
  left. now exists items.
Qed.

Lemma obs_counted (s : string) (w : World) pool :
  obs (set_poi_count s w, pool) = obs (w, pool).
Proof. reflexivity. Qed.

Lemma obs_console_error (s : string) (e : Exn) (w : World) pool :
  obs (set_trace (trace w ++ [ConsoleError s e]) w, pool) = obs (w, pool).
Proof. obs_eq. Qed.

Lemma obs_pair (c : Config) : obs (fst c, snd c) = obs c.
Proof. now destruct c. Qed.

Ltac settle := unfold log; cbn [fst snd];
  rewrite ?obs_counted, ?obs_console_error, ?obs_pair.

Ltac caught :=
  run_simp; eexists; split; [reflexivity|];
  apply stalled_same; settle; reflexivity.

Lemma editor_load_outline (c : Config) :
  exists c', run env (Editor.loadPOIs h) c = (c', Ok tt)
             /\ stalled (obs (log (Requested pois_request) c)) (obs c').
Proof.
  unfold Editor.loadPOIs. rewrite run_try_catch, run_bind, run_fetch.
  fold pois_request. set (c0 := log (Requested pois_request) c).
  destruct (server env (trace (fst c)) pois_request) as [e|r]; [caught|].
  rewrite run_bind, run_response_json.
  destruct (json r) as [geojson|e]; [|caught].
  rewrite run_bind, run_lift.
  destruct (get_prop (Some geojson) "features") as [features|e]; [|caught].
  rewrite run_bind, run_lift.
  destruct (no_features features) as [[|]|e]; [caught | | caught].
  rewrite run_bind, run_lift.
  destruct (get_prop features "length") as [len|e]; [|caught].
  rewrite run_bind, run_lift.
  destruct (to_string len) as [len_text|e]; [|caught].
  rewrite run_bind, run_modify.
  set (c1 := (set_poi_count _ (fst c0), snd c0)).
  assert (H1 : obs c1 = obs c0) by (subst c1; now settle).
  destruct (is_array_dec features) as [[items ->]|Hn].
  - destruct (editor_render_spec env h items c1) as (c2 & e & Hr & Hs & _).
    rewrite Hr. rewrite H1 in Hs. run_simp.
    eexists. split; [reflexivity|].
    destruct Hs as (k & Hp & Hs & Hw). exists k. settle. auto.
  - destruct (render_not_array_editor env h features c1 Hn) as [e He].
    rewrite He. run_simp. eexists. split; [reflexivity|].
    apply stalled_same; settle; rewrite H1; reflexivity.
Qed.

Lemma viewer_load_outline (c : Config) :
  exists c', run env (Viewer.loadPOIs h) c = (c', Ok tt)
             /\ stalled (obs (log (Requested pois_request) c)) (obs c').
Proof.
  unfold Viewer.loadPOIs. rewrite run_try_catch, run_bind, run_fetch.
  fold pois_request. set (c0 := log (Requested pois_request) c).
  destruct (server env (trace (fst c)) pois_request) as [e|r]; [caught|].
  rewrite run_bind, run_response_json.
  destruct (json r) as [geojson|e]; [|caught].
  rewrite run_bind, run_lift.
  destruct (get_prop (Some geojson) "features") as [features|e]; [|caught].
  rewrite run_bind, run_lift.
  destruct (no_features features) as [[|]|e]; [caught | | caught].
  rewrite run_bind, run_lift.
  destruct (get_prop features "length") as [len|e]; [|caught].
  rewrite run_bind, run_lift.
  destruct (to_string len) as [len_text|e]; [|caught].
  rewrite run_bind, run_modify.
  set (c1 := (set_poi_count _ (fst c0), snd c0)).
  assert (H1 : obs c1 = obs c0) by (subst c1; now settle).
  destruct (is_array_dec features) as [[items ->]|Hn].
  - destruct (viewer_render_spec env h items c1) as (c2 & e & Hr & Hs & _).
    rewrite Hr. rewrite H1 in Hs. run_simp.
    eexists. split; [reflexivity|].
    destruct Hs as (k & Hp & Hs & Hw). exists k. settle. auto.
  - destruct (render_not_array_viewer env h features c1 Hn) as [e He].
    rewrite He. run_simp. eexists. split; [reflexivity|].
    apply stalled_same; settle; rewrite H1; reflexivity.
Qed.

Lemma no_features_array (items : list JSON) :
  no_features (Some (JArr items))
  = Ok (match items with [] => true | _ => false end).
Proof. destruct items; reflexivity. Qed.

Lemma editor_load_renders (c : Config) r fields items :
  server env (trace (fst c)) pois_request = Resolved r ->
  json r = Ok (JObj fields) ->
  lookup "features" fields = Some (JArr items) ->
  Forall (renderable h) items ->
  exists c', run env (Editor.loadPOIs h) c = (c', Ok tt)
    /\ obs c' = extend (obs (log (Requested pois_request) c))
                  (map Some (filter (of_class Points) items))
                  (map Some (filter (of_class Lines) items))
                  (map Some (filter (of_class Polygons) items))
                  (colours_taken h (filter (of_class Polygons) items)).
Proof.
  intros Hs Hj Hf Hall.
  unfold Editor.loadPOIs. rewrite run_try_catch, run_bind, run_fetch.
  fold pois_request. rewrite Hs.
  set (c0 := log (Requested pois_request) c).
  rewrite run_bind, run_response_json, Hj, run_bind, run_lift.
  cbn [get_prop]. rewrite Hf, run_bind, run_lift, no_features_array.
  destruct items as [|f items].
  - rewrite run_modify. eexists. split; [reflexivity|].
    cbn [filter map]. unfold colours_taken. cbn [flat_map].
    rewrite extend_nothing. now settle.
  - rewrite run_bind, run_lift. cbn [get_prop String.eqb Ascii.eqb Bool.eqb].
    rewrite run_bind, run_lift. cbn [to_string json_to_string].
    rewrite run_bind, run_modify.
    set (c1 := (set_poi_count _ (fst c0), snd c0)).
    assert (H1 : obs c1 = obs c0) by (subst c1; now settle).
    destruct (editor_render_spec env h (f :: items) c1) as (c2 & e & Hr & _ & Ho).
    destruct (Ho Hall) as [-> Ho2].
    rewrite Hr. run_simp. eexists. split; [reflexivity|].
    settle. now rewrite Ho2, H1.
Qed.

Lemma viewer_load_renders (c : Config) r fields items :
  server env (trace (fst c)) pois_request = Resolved r ->
  json r = Ok (JObj fields) ->
  lookup "features" fields = Some (JArr items) ->
  Forall (renderable h) items ->
  exists c', run env (Viewer.loadPOIs h) c = (c', Ok tt)
    /\ obs c' = extend (obs (log (Requested pois_request) c))
                  (map Some (filter (of_class Points) items)) []
                  (map Some (filter (fun f => negb (of_class Points f)) items))
                  (colours_taken h (filter (fun f => negb (of_class Points f)) items)).
Proof.
  intros Hs Hj Hf Hall.
  unfold Viewer.loadPOIs. rewrite run_try_catch, run_bind, run_fetch.
  fold pois_request. rewrite Hs.
  set (c0 := log (Requested pois_request) c).
  rewrite run_bind, run_response_json, Hj, run_bind, run_lift.
  cbn [get_prop]. rewrite Hf, run_bind, run_lift, no_features_array.
  destruct items as [|f items].
  - rewrite run_modify. eexists. split; [reflexivity|].
    cbn [filter map]. unfold colours_taken. cbn [flat_map].
    rewrite extend_nothing. now settle.
  - rewrite run_bind, run_lift. cbn [get_prop String.eqb Ascii.eqb Bool.eqb].
    rewrite run_bind, run_lift. cbn [to_string json_to_string].
    rewrite run_bind, run_modify.
    set (c1 := (set_poi_count _ (fst c0), snd c0)).
    assert (H1 : obs c1 = obs c0) by (subst c1; now settle).
    destruct (viewer_render_spec env h (f :: items) c1) as (c2 & e & Hr & _ & Ho).
    destruct (Ho Hall) as [-> Ho2].
    rewrite Hr. run_simp. eexists. split; [reflexivity|].
    settle. now rewrite Ho2, H1.
Qed.

End LoadSpec.

(* ================================================================== *)
(** * Delete requests over the event loop *)
(* ================================================================== *)

Section Quiet.

Variables (env : Env) (h : Host).

Lemma no_delete_bind : forall {A B} (p : Prog A) (f : A -> Prog B),
  no_delete p -> (forall a, no_delete (f a)) -> no_delete (bind p f).
Proof.
  intros A B p. revert B.
  induction p as [A a | A e | A k IH | A g k IH | A msg k IH | A req k IH
                  | A k IH | A child IHc k IH]; intros B f Hp Hf; simpl in *; auto.
  - destruct Hp as [Hm Hk]. split; auto.
  - destruct Hp as [Hm Hk]. split; auto.
  - destruct Hp as [Hc Hk]. split; auto.
Qed.

Lemma no_delete_try_catch : forall {A} (p : Prog A) (handler : Exn -> Prog A),
  no_delete p -> (forall e, no_delete (handler e)) -> no_delete (try_catch p handler).
Proof.
  intros A p.
  induction p as [A a | A e | A k IH | A g k IH | A msg k IH | A req k IH
                  | A k IH | A child IHc k IH]; intros handler Hp Hh; simpl in *; auto.
  - destruct Hp as [Hm Hk]. split; auto.
  - destruct Hp as [Hm Hk]. split; auto.
  - destruct Hp as [Hc Hk]. split; auto.
Qed.

Lemma no_delete_lift {A} (r : result A) : no_delete (lift r).
Proof. destruct r; exact I. Qed.

Lemma no_delete_for_each {X} (xs : list X) (body : X -> Prog unit) :
  (forall x, no_delete (body x)) -> no_delete (for_each xs body).
Proof.
  intros Hb. induction xs as [|x xs IH]; [exact I|].
  cbn [for_each]. apply no_delete_bind; auto.
Qed.

Lemma no_delete_for_each_with {X S} (xs : list X) (body : X -> S -> Prog S) :
  (forall x s, no_delete (body x s)) -> forall s, no_delete (for_each_with xs body s).
Proof.
  intros Hb. induction xs as [|x xs IH]; intros s; [exact I|].
  cbn [for_each_with]. apply no_delete_bind; auto.
Qed.

Lemma deletes_of_app (a b : list Event) :
  deletes_of (a ++ b) = deletes_of a ++ deletes_of b.
Proof. unfold deletes_of. now rewrite requests_of_app, filter_app. Qed.

Lemma deletes_of_other (t : list Event) (ev : Event) :
  (forall req, ev = Requested req -> method req <> "DELETE"%string) ->
  deletes_of (t ++ [ev]) = deletes_of t.
Proof.
  intros Hev. rewrite deletes_of_app.
  destruct ev as [req| | | | |]; try (cbn; now rewrite app_nil_r).
  unfold deletes_of at 2. cbn [requests_of filter].
  destruct (String.eqb_spec (method req) "DELETE") as [E|E].
  - now destruct (Hev req eq_refl).
  - apply app_nil_r.
Qed.

Lemma no_delete_emit (ev : Event) :
  (forall req, ev <> Requested req) -> no_delete (emit ev).
Proof.
  intros Hev. cbn. split; [|exact I]. intros w. cbn [trace set_trace].
  apply deletes_of_other. intros req E. now destruct (Hev req).
Qed.

End Quiet.

Ltac quiet :=
  repeat match goal with
  | |- True => exact I
  | |- _ /\ _ => split
  | |- forall _, _ => intro
  | |- _ <> _ => discriminate
  | |- deletes_of _ = deletes_of _ => reflexivity
  | |- no_delete (bind _ _) => apply no_delete_bind
  | |- no_delete (try_catch _ _) => apply no_delete_try_catch
  | |- no_delete (lift _) => apply no_delete_lift
  | |- no_delete (for_each _ _) => apply no_delete_for_each
  | |- no_delete (for_each_with _ _ _) => apply no_delete_for_each_with
  | |- no_delete (emit _) => apply no_delete_emit
  | |- no_delete (alert _) => apply no_delete_emit
  | |- no_delete (console_log _ _) => apply no_delete_emit
  | |- no_delete (console_error _ _) => apply no_delete_emit
  | |- no_delete (modify _) => cbn [modify no_delete]
  | |- no_delete (gets _) => cbn [gets no_delete]
  | |- no_delete (fetch _) => cbn [fetch no_delete]
  | |- no_delete (response_json _) => cbn [response_json no_delete]
  | |- no_delete (Ret _) => exact I
  | |- no_delete (Throw _) => exact I
  | |- no_delete (Get _) => cbn [no_delete]
  | |- no_delete (if ?b then _ else _) => destruct b eqn:?
  | |- no_delete (match ?x with _ => _ end) => destruct x eqn:?
  | |- no_delete (let (_, _) := ?x in _) => destruct x eqn:?
  end.

Section QuietPrograms.

Variables (env : Env) (h : Host).

Lemma no_delete_style (x : Value) : no_delete (getPolygonStyle x).
Proof. unfold getPolygonStyle, getPolygonColor. quiet. Qed.

Lemma no_delete_L_geoJSON (v : Value) (opts : GeoJSONOptions) :
  (forall f x, style opts = StyleFunction f -> no_delete (f x)) ->
  no_delete (L_geoJSON h v opts).
Proof.
  intros Hs. unfold L_geoJSON, add_shape. quiet.
  apply Hs. reflexivity.
Qed.

Lemma no_delete_editable (f : JSON) (l : Layer) : no_delete (Editor.make_editable f l).
Proof. unfold Editor.make_editable. quiet. Qed.

Lemma no_delete_add_line (f : JSON) : no_delete (Editor.add_line h f).
Proof.
  unfold Editor.add_line. quiet.
  - apply no_delete_L_geoJSON. intros g x E. discriminate.
  - apply no_delete_editable.
Qed.

Lemma no_delete_add_point (f : JSON) : no_delete (Editor.add_point h f).
Proof.
  unfold Editor.add_point. quiet.
  - apply no_delete_L_geoJSON. intros g x E. discriminate.
  - apply no_delete_editable.
Qed.

Lemma no_delete_add_polygon (f : JSON) : no_delete (Editor.add_polygon h f).
Proof.
  unfold Editor.add_polygon. quiet.
  - apply no_delete_L_geoJSON. intros g x E. injection E as <-. apply no_delete_style.
  - apply no_delete_editable.
Qed.

Lemma no_delete_classify (f : JSON) (acc : list JSON * list JSON) :
  no_delete (Editor.classify h f acc).
Proof.
  unfold Editor.classify. quiet. apply no_delete_add_line.
Qed.

Lemma no_delete_render (features : Value) : no_delete (Editor.render h features).
Proof.
  unfold Editor.render, fit_bounds. quiet.
  - apply no_delete_classify.
  - apply no_delete_add_point.
  - apply no_delete_add_polygon.
Qed.

Lemma no_delete_load : no_delete (Editor.loadPOIs h).
Proof.
  unfold Editor.loadPOIs, get_request. quiet. apply no_delete_render.
Qed.

Lemma no_delete_clear : no_delete Editor.clearLayers.
Proof. unfold Editor.clearLayers. quiet. Qed.

(** Running a quiet program sends no DELETE request and leaves only quiet
    calls suspended. *)
Lemma exec_no_delete : forall {A} (p : Prog A) (c : Config),
  no_delete p -> Forall quiet (snd c) ->
  deletes_of (trace (fst (fst (exec env p c)))) = deletes_of (trace (fst c))
  /\ Forall quiet (snd (fst (exec env p c)))
  /\ match snd (exec env p c) with
     | Suspended s => quiet s
     | Finished _ => True
     end.
Proof.
  intros A p.
  induction p as [A a | A e | A k IH | A g k IH | A msg k IH | A req k IH
                  | A k IH | A child IHc k IH]; intros c Hp Hq; cbn [exec no_delete] in *.
  - auto.
  - auto.
  - apply IH; auto.
  - destruct Hp as [Hg Hk].
    destruct (IH (g (fst c), snd c) Hk Hq) as (H1 & H2 & H3).
    cbn [fst snd] in H1. rewrite Hg in H1. auto.
  - set (b := user env (trace (fst c)) msg).
    destruct (IH b (log (Confirmed msg b) c) (Hp b) Hq) as (H1 & H2 & H3).
    unfold log in H1 at 2. cbn [fst trace set_trace] in H1.
    rewrite deletes_of_other in H1 by (intros r E; discriminate). auto.
  - destruct Hp as [Hm Hk]. cbn [fst snd log trace set_trace]. repeat split; auto.
    apply deletes_of_other. intros r E. injection E as <-. exact Hm.
  - cbn [fst snd]. auto.
  - destruct Hp as [Hc Hk].
    destruct (IHc c Hc Hq) as (H1 & H2 & H3).
    destruct (exec env child c) as [c1 st]. cbn [fst snd] in *.
    assert (Hq' : Forall quiet (snd (park st c1))).
    { destruct st as [r|s]; cbn [park snd]; [exact H2|].
      apply Forall_app. split; [exact H2 | constructor; [exact H3 | constructor]]. }
    destruct (IH (park st c1) Hk Hq') as (H4 & H5 & H6).
    repeat split; auto. rewrite H4, <- H1. destruct st; reflexivity.
Qed.

Lemma resume_quiet (c c' : Config) :
  resume env c c' -> Forall quiet (snd c) ->
  deletes_of (trace (fst c')) = deletes_of (trace (fst c)) /\ Forall quiet (snd c').
Proof.
  intros Hr Hq.
  destruct Hr as [w before req k after o c1 st He | w before k after c1 st He];
    cbn [fst snd] in *;
    apply Forall_app in Hq; destruct Hq as [Hb Ha];
    inversion Ha as [|s ss Hs Ha']; subst.
  - assert (Hq' : Forall quiet (snd (w, before ++ after)))
      by (apply Forall_app; auto).
    destruct (exec_no_delete (k o) (w, before ++ after) (Hs o) Hq') as (H1 & H2 & H3).
    rewrite He in *. cbn [fst snd] in *.
    split; [destruct st; exact H1|].
    destruct st as [r|s]; cbn [park snd]; [exact H2|].
    apply Forall_app. split; [exact H2 | constructor; [exact H3 | constructor]].
  - assert (Hq' : Forall quiet (snd (w, before ++ after)))
      by (apply Forall_app; auto).
    destruct (exec_no_delete k (w, before ++ after) Hs Hq') as (H1 & H2 & H3).
    rewrite He in *. cbn [fst snd] in *.
    split; [destruct st; exact H1|].
    destruct st as [r|s]; cbn [park snd]; [exact H2|].
    apply Forall_app. split; [exact H2 | constructor; [exact H3 | constructor]].
Qed.

Lemma resumes_quiet (c c' : Config) :
  resumes env c c' -> Forall quiet (snd c) ->
  deletes_of (trace (fst c')) = deletes_of (trace (fst c)) /\ Forall quiet (snd c').
Proof.
  induction 1 as [c | c1 c2 c3 Hr _ IH]; intros Hq; [auto|].
  destruct (resume_quiet c1 c2 Hr Hq) as [H1 H2].
  destruct (IH H2) as [H3 H4]. split; [congruence | exact H4].
Qed.

End QuietPrograms.

(* ================================================================== *)
(** * What the handlers leave suspended *)
(* ================================================================== *)

Section Calm.

Variables (env : Env) (h : Host).

Lemma no_delete_calm : forall {A} (p : Prog A), no_delete p -> calm p.
Proof.
  intros A p.
  induction p as [A a | A e | A k IH | A g k IH | A msg k IH | A req k IH
                  | A k IH | A child IHc k IH]; intros Hp; simpl in *; auto.
  - destruct Hp as [_ Hk]. auto.
  - destruct Hp as [_ Hk]. exact Hk.
  - destruct Hp as [Hc Hk]. auto.
Qed.

Lemma calm_bind_immediate : forall {A B} (p : Prog A) (f : A -> Prog B),
  immediate p -> calm p -> (forall a, calm (f a)) -> calm (bind p f).
Proof.
  intros A B p. revert B.
  induction p as [A a | A e | A k IH | A g k IH | A msg k IH | A req k IH
                  | A k IH | A child IHc k IH]; intros B f Hi Hp Hf; simpl in *; auto.
  - contradiction.
  - contradiction.
  - destruct Hp as [Hc Hk]. auto.
Qed.

Lemma immediate_bind : forall {A B} (p : Prog A) (f : A -> Prog B),
  immediate p -> (forall a, immediate (f a)) -> immediate (bind p f).
Proof.
  intros A B p. revert B.
  induction p as [A a | A e | A k IH | A g k IH | A msg k IH | A req k IH
                  | A k IH | A child IHc k IH]; intros B f Hi Hf; simpl in *; auto.
Qed.

Lemma calm_for_each {X} (xs : list X) (body : X -> Prog unit) :
  (forall x, immediate (body x) /\ calm (body x)) ->
  immediate (for_each xs body) /\ calm (for_each xs body).
Proof.
  intros Hb. induction xs as [|x xs [IHi IHc]]; [split; exact I|].
  cbn [for_each]. destruct (Hb x) as [Hi Hc]. split.
  - apply immediate_bind; auto.
  - apply calm_bind_immediate; auto.
Qed.

Lemma calm_deletePOI (poiId : Value) : calm (Editor.deletePOI h poiId).
Proof.
  unfold Editor.deletePOI. cbn [bind calm]. intros [|]; cbn [negb]; [|exact I].
  destruct (to_string poiId) as [id_text|e]; cbn [lift bind try_catch];
    [|cbn; auto].
  cbn [fetch bind try_catch calm]. intros o. quiet.
  - apply no_delete_clear.
  - apply no_delete_load.
Qed.

Lemma calm_on_draw_deleted (layers : list Layer) :
  calm (Editor.on_draw_deleted h layers).
Proof.
  unfold Editor.on_draw_deleted. apply calm_for_each. intros l.
  destruct (Editor.backend_id l) as [guard|e]; cbn [lift bind]; [|split; exact I].
  destruct (truthy guard); [|split; exact I].
  destruct (get_prop (feature l) "properties") as [props|e]; cbn [lift bind];
    [|split; exact I].
  destruct (get_prop props "id") as [id|e]; cbn [lift bind]; [|split; exact I].
  cbn [immediate calm]. split; [exact I|]. split; [apply calm_deletePOI | exact I].
Qed.

Lemma closeModal_immediate : immediate (Editor.closeModal h) /\ calm (Editor.closeModal h).
Proof.
  unfold Editor.closeModal. cbn. split; intros w; destruct (currentDrawing w); cbn; auto.
Qed.

Lemma calm_on_submit : calm (Editor.on_submit h).
Proof.
  unfold Editor.on_submit. cbn [gets bind calm]. intros w.
  destruct (currentDrawing w); [|cbn; auto].
  cbn [bind calm]. intros w1 w2 w3 w4.
  apply calm_bind_immediate.
  - unfold Editor.parse_properties.
    destruct (negb (String.eqb (trim (poi_properties (form w4))) EmptyString));
      [|exact I].
    destruct (JSON_parse h (poi_properties (form w4))); cbn; auto.
  - unfold Editor.parse_properties.
    destruct (negb (String.eqb (trim (poi_properties (form w4))) EmptyString));
      [|exact I].
    destruct (JSON_parse h (poi_properties (form w4))); cbn; auto.
  - intros [properties|]; [|exact I].
    cbn [gets bind calm fetch try_catch]. intros w5 o. quiet.
    + unfold Editor.closeModal. quiet.
    + apply no_delete_clear.
    + apply no_delete_load.
Qed.

Lemma calm_handler (p : Prog unit) : handler h p -> calm p.
Proof.
  intros [ | layer | layers | | on_backdrop].
  - cbn [Editor.on_load calm]. split; [|exact I].
    apply no_delete_calm, no_delete_load.
  - cbn. auto.
  - apply calm_on_draw_deleted.
  - apply calm_on_submit.
  - unfold Editor.window_onclick. destruct on_backdrop; [|exact I].
    apply closeModal_immediate.
Qed.

Lemma quiet_park (st : Paused unit) (c : Config) :
  Forall quiet (snd c) ->
  match st with Suspended s => quiet s | Finished _ => True end ->
  Forall quiet (snd (park st c)).
Proof.
  intros Hq Hs. destruct st as [r|s]; cbn [park snd]; [exact Hq|].
  apply Forall_app. split; [exact Hq | constructor; [exact Hs | constructor]].
Qed.

Lemma exec_calm : forall {A} (p : Prog A) (c : Config),
  calm p -> Forall quiet (snd c) ->
  Forall quiet (snd (fst (exec env p c)))
  /\ match snd (exec env p c) with
     | Suspended s => quiet s
     | Finished _ => True
     end.
Proof.
  intros A p.
  induction p as [A a | A e | A k IH | A g k IH | A msg k IH | A req k IH
                  | A k IH | A child IHc k IH]; intros c Hp Hq; cbn [exec calm] in *.
  - auto.
  - auto.
  - apply IH; auto.
  - apply IH; auto.
  - apply IH; auto.
  - cbn [fst snd quiet]. auto.
  - cbn [fst snd quiet]. auto.
  - destruct Hp as [Hc Hk].
    destruct (IHc c Hc Hq) as [H1 H2].
    destruct (exec env child c) as [c1 st]. cbn [fst snd] in *.
    apply IH; [exact Hk | now apply quiet_park].
Qed.

(** Whatever the page went through, the calls it has suspended send no
    DELETE request when they are resumed. *)
Lemma reachable_quiet (c : Config) :
  reachable env h c -> Forall quiet (snd c).
Proof.
  induction 1 as [w | c c' _ IH Ht]; [constructor|].
  destruct Ht as [p c c' st Hh He | c c' Hr | w w' pool _].
  - destruct (exec_calm p c (calm_handler p Hh) IH) as [H1 H2].
    rewrite He in H1, H2. now apply quiet_park.
  - exact (proj2 (resume_quiet env c c' Hr IH)).
  - exact IH.
Qed.

End Calm.

Section DeleteHandler.

Variables (env : Env) (h : Host).

Lemma deletePOI_confirmed_quiet (poiId : Value) (c : Config) :
  user env (trace (fst c)) confirm_text = true ->
  exists st,
    exec env (Editor.deletePOI h poiId) c
    = ((set_trace (trace (fst c)
                     ++ Confirmed confirm_text true :: confirmed_events poiId)
          (fst c), snd c), st)
    /\ match st with
       | Suspended s => quiet s
       | Finished r => r = Ok tt
       end.
Proof.
  intros Hu. unfold Editor.deletePOI, confirmed_events.
  rewrite delete_request_text. cbn [bind exec]. fold confirm_text.
  rewrite Hu. cbn [negb].
  destruct (to_string poiId) as [id_text|e];
    [cbn [lift fetch bind try_catch exec]
    | cbn [lift fetch bind try_catch exec console_error alert emit modify]].
  - eexists. split.
    + unfold log. cbn [fst snd trace set_trace]. rewrite <- app_assoc. reflexivity.
    + cbn [quiet]. intros o. cbn beta. quiet.
      * apply no_delete_clear.
      * apply no_delete_load.
  - eexists. split.
    + cbn [fst snd trace set_trace log]. rewrite <- !app_assoc. reflexivity.
    + reflexivity.
Qed.

Lemma guard_props (l : Layer) (id : Value) :
  Editor.backend_id l = Ok id -> truthy id = true ->
  exists props, get_prop (feature l) "properties" = Ok props
                /\ get_prop props "id" = Ok id.
Proof.
  unfold Editor.backend_id. intros Hb Ht.
  destruct (truthy (feature l)) eqn:Tf.
  - destruct (get_prop (feature l) "properties") as [props|e]; [|discriminate].
    exists props. split; [reflexivity | exact Hb].
  - injection Hb as <-. congruence.
Qed.

Lemma set_trace_same (w : World) : set_trace (trace w) w = w.
Proof. now destruct w. Qed.

Lemma on_draw_deleted_exec (layers : list Layer) :
  forall c, Forall guarded layers -> Forall quiet (snd c) ->
  exists pool',
    exec env (Editor.on_draw_deleted h layers) c
    = ((set_trace (deletion_trace env (trace (fst c)) layers) (fst c), pool'),
       Finished (Ok tt))
    /\ Forall quiet pool'.
Proof.
  induction layers as [|l layers IH]; intros [w pool] Hg Hq; cbn [fst snd] in *.
  - exists pool. cbn. rewrite set_trace_same. auto.
  - inversion Hg as [|l' ls' [id Hid] Hg']; subst.
    unfold Editor.on_draw_deleted. cbn [for_each].
    rewrite exec_bind, exec_bind, exec_lift, Hid. cbn [deletion_trace]. rewrite Hid.
    fold (Editor.on_draw_deleted h layers).
    destruct (truthy id) eqn:Ht.
    + destruct (guard_props l id Hid Ht) as (props & Hp & Hi).
      rewrite exec_bind, exec_lift, Hp, exec_bind, exec_lift, Hi. cbn [exec].
      destruct (user env (trace w) confirm_text) eqn:Hu.
      * destruct (deletePOI_confirmed_quiet id (w, pool) Hu) as (st & He & Hk).
        rewrite He. cbn [fst snd].
        match goal with |- context [exec env (Editor.on_draw_deleted h layers) ?c1] =>
          destruct (IH c1 Hg') as (pool' & Hr & Hq')
        end.
        { destruct st as [r|s]; cbn [park snd]; [exact Hq|].
          apply Forall_app. split; [exact Hq|].
          constructor; [exact Hk | constructor]. }
        rewrite Hr. exists pool'. split; [|exact Hq'].
        destruct st; reflexivity.
      * rewrite (deletePOI_declined env h id (w, pool) Hu).
        cbn [park log fst snd trace set_trace].
        match goal with |- context [exec env (Editor.on_draw_deleted h layers) ?c1] =>
          destruct (IH c1 Hg' Hq) as (pool' & Hr & Hq')
        end.
        rewrite Hr. exists pool'. split; [reflexivity | exact Hq'].
    + cbn [exec].
      destruct (IH (w, pool) Hg' Hq) as (pool' & Hr & Hq').
      rewrite Hr. exists pool'. split; [reflexivity | exact Hq'].
Qed.

Lemma deletes_of_request (t : list Event) (id : Value) :
  deletes_of (t ++ Confirmed confirm_text true :: confirmed_events id)
  = deletes_of t ++ delete_requests [id].
Proof.
  rewrite deletes_of_app. f_equal. unfold confirmed_events, delete_requests.
  cbn [flat_map]. rewrite delete_request_text.
  destruct (to_string id); reflexivity.
Qed.

Lemma delete_requests_cons (id : Value) (ids : list Value) :
  delete_requests (id :: ids) = delete_requests [id] ++ delete_requests ids.
Proof. unfold delete_requests. cbn [flat_map]. now rewrite app_nil_r. Qed.

Lemma deletion_trace_always (layers : list Layer) :
  (forall t, user env t confirm_text = true) ->
  Forall guarded layers ->
  forall t, deletes_of (deletion_trace env t layers)
            = deletes_of t ++ delete_requests (ids_of layers).
Proof.
  intros Hu. induction 1 as [|l layers [id Hid] _ IH]; intros t.
  - cbn. now rewrite app_nil_r.
  - cbn [deletion_trace ids_of flat_map]. rewrite Hid, Hu.
    destruct (truthy id).
    + cbn [app]. fold (ids_of layers).
      rewrite IH, deletes_of_request, (delete_requests_cons id (ids_of layers)),
        <- app_assoc.
      reflexivity.
    + apply IH.
Qed.

Lemma deletion_trace_never (layers : list Layer) :
  (forall t, user env t confirm_text = false) ->
  Forall guarded layers ->
  forall t, deletes_of (deletion_trace env t layers) = deletes_of t.
Proof.
  intros Hu. induction 1 as [|l layers [id Hid] _ IH]; intros t.
  - reflexivity.
  - cbn [deletion_trace]. rewrite Hid, Hu.
    destruct (truthy id).
    + rewrite IH. apply deletes_of_other. intros req E. discriminate.
    + apply IH.
Qed.

End DeleteHandler.

Section SubmitSuccess.

Variables (env : Env) (h : Host).

Lemma sent_log_request (req : Request) (c : Config) :
  sent (obs (log (Requested req) c)) = sent (obs c) ++ [req].
Proof. destruct c. obs_eq. Qed.

End SubmitSuccess.

Lemma nth_error_cycle (ks : list ShapeKind) :
  forall start i p,
    nth_error (cycle start ks) i = Some p ->
    exists k, nth_error ks i = Some k /\ p = tint (start + i) k.
Proof.
  induction ks as [|k ks IH]; intros start [|i] p H; cbn in H; try discriminate.
  - injection H as <-. exists k. now rewrite Nat.add_0_r.
  - destruct (IH (S start) i p H) as (k' & Hk & ->). exists k'.
    split; [exact Hk|]. f_equal. lia.
Qed.

Lemma palette_defined (i : nat) : exists col, palette i = Some col.
Proof.
  unfold palette.
  destruct (nth_error polygonColors (i mod 10)) as [col|] eqn:E; [now exists col|].
  apply nth_error_None in E. cbn [polygonColors List.length] in E.
  pose proof (Nat.mod_upper_bound i 10). lia.
Qed.

(* ================================================================== *)
(** * Further facts: requests, invariants and the overlay *)
(* ================================================================== *)

Section SubmitFailure.

Variables (env : Env) (h : Host).

Lemma parse_typed (w : World) pool properties :
  typed_properties h (poi_properties (form w)) = Ok properties ->
  run env (Editor.parse_properties h (poi_properties (form w))) (w, pool)
  = ((w, pool), Ok (Some properties)).
Proof.
  unfold typed_properties, Editor.parse_properties.
  destruct (String.eqb (trim (poi_properties (form w))) EmptyString); cbn [negb].
  - intros E. injection E as <-. reflexivity.
  - intros E. run_simp. rewrite E. reflexivity.
Qed.

Lemma submit_sends (w : World) pool drawing properties :
  currentDrawing w = Some drawing ->
  typed_properties h (poi_properties (form w)) = Ok properties ->
  run env (Editor.on_submit h) (w, pool)
  = run env
      (try_catch
         (bind (fetch (creation_request w properties)) (fun response =>
          bind (if negb (ok response)
                then Throw (Error ("HTTP error! status: " ++ show_Z (status response)))
                else Ret tt) (fun _ =>
          bind (response_json response) (fun created =>
          bind (console_log "POI created:" (Some created)) (fun _ =>
          bind (Editor.closeModal h) (fun _ =>
          bind (modify (set_currentDrawing None)) (fun _ =>
          bind Editor.clearLayers (fun _ =>
          bind (Editor.loadPOIs h) (fun _ =>
          alert "POI created successfully!")))))))))
         (fun error =>
            bind (console_error "Error creating POI:" error) (fun _ =>
            alert ("Failed to create POI: " ++ message error))))
      (w, pool).
Proof.
  intros Hc Hp. unfold Editor.on_submit.
  rewrite run_bind, run_gets. cbn [fst snd]. rewrite Hc.
  rewrite !run_bind, !run_gets. cbn [fst snd].
  rewrite !run_bind, !run_gets. cbn [fst snd].
  rewrite run_bind, run_gets. cbn [fst snd].
  rewrite run_bind, run_gets. cbn [fst snd].
  rewrite run_bind, (parse_typed w pool properties Hp).
  rewrite run_bind, run_gets. cbn [fst snd].
  unfold creation_request. rewrite Hc. reflexivity.
Qed.

Lemma submit_failure (w : World) pool drawing properties e :
  currentDrawing w = Some drawing ->
  typed_properties h (poi_properties (form w)) = Ok properties ->
  creation_error (server env (trace w) (creation_request w properties)) = Some e ->
  run env (Editor.on_submit h) (w, pool)
  = ((reported_failure (creation_request w properties) "Error creating POI:"
        "Failed to create POI: " e w, pool), Ok tt).
Proof.
  intros Hc Hp He. rewrite (submit_sends w pool drawing properties Hc Hp).
  rewrite run_try_catch, run_bind, run_fetch. cbn [fst snd].
  unfold creation_error, status_error in He.
  destruct (server env (trace w) (creation_request w properties)) as [e'|r].
  - injection He as ->. unfold console_error, alert. run_simp.
    unfold reported_failure, log. cbn [fst snd trace set_trace].
    now rewrite <- !app_assoc.
  - destruct (ok r); cbn [negb].
    + run_simp. destruct (json r) as [j|e']; [discriminate|]. injection He as ->.
      unfold console_error, alert. run_simp.
      unfold reported_failure, log. cbn [fst snd trace set_trace].
      now rewrite <- !app_assoc.
    + injection He as <-. unfold console_error, alert. run_simp.
      unfold reported_failure, log. cbn [fst snd trace set_trace].
      now rewrite <- !app_assoc.
Qed.

End SubmitFailure.


Ltac page :=
  cbn [fst snd trace set_trace set_colorIndex set_drawnItems set_polygonLayer
       set_lineLayer set_pointLayer set_currentDrawing set_form
       set_modal_display set_focused set_poi_count set_next_stamp
       pointLayer lineLayer polygonLayer drawnItems currentDrawing colorIndex
       poi_count modal_display focused form next_stamp].

Section More.

Variables (env : Env) (h : Host).

Lemma load_requests_editor (c : Config) :
  exists c', run env (Editor.loadPOIs h) c = (c', Ok tt)
    /\ requests_of (trace (fst c')) = requests_of (trace (fst c)) ++ [pois_request]
    /\ snd c' = snd c.
Proof.
  destruct (editor_load_outline env h c) as (c' & Hr & k & _ & Hs & Hw).
  exists c'. split; [exact Hr|]. split.
  - change (requests_of (trace (fst c'))) with (sent (obs c')). rewrite Hs.
    apply sent_log_request.
  - change (snd c') with (waiting (obs c')). now rewrite Hw.
Qed.

Lemma load_requests_viewer (c : Config) :
  exists c', run env (Viewer.loadPOIs h) c = (c', Ok tt)
    /\ requests_of (trace (fst c')) = requests_of (trace (fst c)) ++ [pois_request]
    /\ snd c' = snd c.
Proof.
  destruct (viewer_load_outline env h c) as (c' & Hr & k & _ & Hs & Hw).
  exists c'. split; [exact Hr|]. split.
  - change (requests_of (trace (fst c'))) with (sent (obs c')). rewrite Hs.
    apply sent_log_request.
  - change (snd c') with (waiting (obs c')). now rewrite Hw.
Qed.

Lemma delete_sends (poiId : Value) (req : Request) (w : World) pool :
  user env (trace w) confirm_text = true ->
  delete_request poiId = Ok req ->
  run env (Editor.deletePOI h poiId) (w, pool)
  = run env
      (try_catch
         (bind (fetch req) (fun response =>
          bind (if negb (ok response)
                then Throw (Error ("HTTP error! status: " ++ show_Z (status response)))
                else Ret tt) (fun _ =>
          bind (console_log "POI deleted:" poiId) (fun _ =>
          bind Editor.clearLayers (fun _ => Editor.loadPOIs h)))))
         (fun error =>
            bind (console_error "Error deleting POI:" error) (fun _ =>
            alert ("Failed to delete POI: " ++ message error))))
      (log (Confirmed confirm_text true) (w, pool)).
Proof.
  intros Hu Hr. rewrite delete_request_text in Hr.
  unfold Editor.deletePOI. rewrite run_bind. cbn [run fst].
  fold confirm_text. rewrite Hu. cbn [negb].
  destruct (to_string poiId) as [id_text|e]; [|discriminate].
  injection Hr as <-. reflexivity.
Qed.

(** An id that cannot be put in the url: the failure is reported, and no
    request is sent. *)
Lemma delete_unsent (poiId : Value) (e : Exn) (w : World) pool :
  user env (trace w) confirm_text = true ->
  delete_request poiId = Threw e ->
  run env (Editor.deletePOI h poiId) (w, pool)
  = ((set_trace (trace w ++ [Confirmed confirm_text true;
                             ConsoleError "Error deleting POI:" e;
                             Alerted ("Failed to delete POI: " ++ message e)]) w,
      pool), Ok tt).
Proof.
  intros Hu Hr. rewrite delete_request_text in Hr.
  unfold Editor.deletePOI. rewrite run_bind. cbn [run fst].
  fold confirm_text. rewrite Hu. cbn [negb].
  destruct (to_string poiId) as [id_text|e']; [discriminate|].
  injection Hr as <-. cbn [lift bind try_catch]. unfold console_error, alert.
  run_simp. unfold log. page. now rewrite <- !app_assoc.
Qed.

Lemma delete_success (poiId : Value) (req : Request) (w : World) pool :
  user env (trace w) confirm_text = true ->
  delete_request poiId = Ok req ->
  status_error (server env (trace w ++ [Confirmed confirm_text true]) req) = None ->
  run env (Editor.deletePOI h poiId) (w, pool)
  = run env (Editor.loadPOIs h) (cleared_after_delete poiId req w, pool).
Proof.
  intros Hu Hq He. rewrite (delete_sends poiId req w pool Hu Hq).
  rewrite run_try_catch, run_bind, run_fetch. unfold log. page.
  unfold status_error in He.
  destruct (server env (trace w ++ [Confirmed confirm_text true]) req)
    as [e'|r]; [discriminate|].
  destruct (ok r); [|discriminate]. cbn [negb]. run_simp.
  unfold console_log at 1. run_simp. unfold Editor.clearLayers. run_simp.
  unfold log. page.
  match goal with |- context [run env (Editor.loadPOIs h) ?c] => set (c1 := c) end.
  assert (E1 : c1 = (cleared_after_delete poiId req w, pool)).
  { subst c1. unfold cleared_after_delete. cbn. rewrite <- !app_assoc. reflexivity. }
  rewrite E1.
  destruct (editor_load_outline env h (cleared_after_delete poiId req w, pool))
    as (c2 & Hl & _).
  now rewrite Hl.
Qed.

End More.


Section Cancel.

Variables (env : Env) (h : Host).

Lemma removeLayer_fresh (l : Layer) (ls : list Layer) :
  Forall (fun x => stamp x <> stamp l) ls -> Editor.removeLayer l ls = ls.
Proof.
  induction 1 as [|x ls Hx _ IH]; [reflexivity|].
  unfold Editor.removeLayer in *. cbn [filter].
  destruct (Nat.eqb_spec (stamp x) (stamp l)) as [E|_]; [contradiction|].
  cbn [negb]. now rewrite IH.
Qed.

Lemma addLayer_fresh (l : Layer) (ls : list Layer) :
  Forall (fun x => stamp x <> stamp l) ls -> Editor.addLayer l ls = ls ++ [l].
Proof.
  intros H. unfold Editor.addLayer.
  replace (existsb (fun x => Nat.eqb (stamp x) (stamp l)) ls) with false;
    [reflexivity|].
  symmetry. induction H as [|x ls Hx _ IH]; [reflexivity|].
  cbn [existsb]. rewrite IH.
  now destruct (Nat.eqb_spec (stamp x) (stamp l)).
Qed.

Lemma removeLayer_app (l : Layer) (a b : list Layer) :
  Editor.removeLayer l (a ++ b) = Editor.removeLayer l a ++ Editor.removeLayer l b.
Proof. unfold Editor.removeLayer. apply filter_app. Qed.

Lemma removeLayer_addLayer (l : Layer) (ls : list Layer) :
  Forall (fun x => stamp x <> stamp l) ls ->
  Editor.removeLayer l (Editor.addLayer l ls) = ls.
Proof.
  intros H. rewrite (addLayer_fresh l ls H), removeLayer_app,
    (removeLayer_fresh l ls H).
  unfold Editor.removeLayer. cbn [filter]. rewrite Nat.eqb_refl. cbn [negb].
  apply app_nil_r.
Qed.

Lemma created_run (layer : Layer) (w : World) pool :
  run env (Editor.on_draw_created layer) (w, pool)
  = ((opened_for layer w, pool), Ok tt).
Proof. reflexivity. Qed.

Lemma closeModal_pending (drawing : Layer) (w : World) pool :
  currentDrawing w = Some drawing ->
  run env (Editor.closeModal h) (w, pool)
  = ((set_drawnItems (Editor.removeLayer drawing (drawnItems w)) (dismissed h w),
      pool), Ok tt).
Proof.
  intros Hc. unfold Editor.closeModal. run_simp. page. rewrite Hc. run_simp.
  unfold dismissed. destruct w. reflexivity.
Qed.

Lemma closeModal_idle (w : World) pool :
  currentDrawing w = None ->
  run env (Editor.closeModal h) (w, pool) = ((dismissed h w, pool), Ok tt).
Proof.
  intros Hc. unfold Editor.closeModal. run_simp. page. rewrite Hc. run_simp.
  unfold dismissed. destruct w. cbn in *. now subst.
Qed.

Lemma cancel_round_trip (layer : Layer) (w : World) pool :
  unseen layer w ->
  run env (Editor.window_onclick h true) (opened_for layer w, pool)
  = ((set_focused "poi-name" (dismissed h w), pool), Ok tt).
Proof.
  intros Hf. cbn [Editor.window_onclick].
  rewrite (closeModal_pending layer); [|reflexivity].
  unfold opened_for. page. rewrite (removeLayer_addLayer layer _ Hf).
  destruct w. reflexivity.
Qed.

End Cancel.


Section Ensures.

Variable env : Env.
Variable I : World -> Prop.

Lemma ensures_weaken : forall {A} (p : Prog A) (Q Q' : A -> Prop),
  (forall a, Q a -> Q' a) -> ensures I Q p -> ensures I Q' p.
Proof.
  intros A p.
  induction p as [A a | A e | A k IH | A g k IH | A msg k IH | A req k IH
                  | A k IH | A child IHc k IH]; intros Q Q' HQ H; cbn in *.
  - auto.
  - exact Logic.I.
  - intros w Hw. eapply IH; eauto.
  - destruct H as [H1 H2]. split; [exact H1 | eapply IH; eauto].
  - intros b. destruct (H b) as [H1 H2]. split; [exact H1 | eapply IH; eauto].
  - destruct H as [H1 H2]. split; [exact H1 | intros o; eapply IH; eauto].
  - eapply IH; eauto.
  - destruct H as [H1 H2]. split; [exact H1 | eapply IH; eauto].
Qed.

Lemma ensures_bind : forall {A B} (p : Prog A) (f : A -> Prog B)
    (Q : A -> Prop) (R : B -> Prop),
  ensures I Q p -> (forall a, Q a -> ensures I R (f a)) ->
  ensures I R (bind p f).
Proof.
  intros A B p. revert B.
  induction p as [A a | A e | A k IH | A g k IH | A msg k IH | A req k IH
                  | A k IH | A child IHc k IH]; intros B f Q R H Hf; cbn in *.
  - auto.
  - exact Logic.I.
  - intros w Hw. eapply IH; eauto.
  - destruct H as [H1 H2]. split; [exact H1 | eapply IH; eauto].
  - intros b. destruct (H b) as [H1 H2]. split; [exact H1 | eapply IH; eauto].
  - destruct H as [H1 H2]. split; [exact H1 | intros o; eapply IH; eauto].
  - eapply IH; eauto.
  - destruct H as [H1 H2]. split; [exact H1 | eapply IH; eauto].
Qed.

Lemma ensures_try_catch : forall {A} (p : Prog A) (handler : Exn -> Prog A)
    (Q : A -> Prop),
  ensures I Q p -> (forall e, ensures I Q (handler e)) ->
  ensures I Q (try_catch p handler).
Proof.
  intros A p.
  induction p as [A a | A e | A k IH | A g k IH | A msg k IH | A req k IH
                  | A k IH | A child IHc k IH]; intros handler Q H Hh; cbn in *.
  - auto.
  - apply Hh.
  - intros w Hw. eapply IH; eauto.
  - destruct H as [H1 H2]. split; [exact H1 | eapply IH; eauto].
  - intros b. destruct (H b) as [H1 H2]. split; [exact H1 | eapply IH; eauto].
  - destruct H as [H1 H2]. split; [exact H1 | intros o; eapply IH; eauto].
  - eapply IH; eauto.
  - destruct H as [H1 H2]. split; [exact H1 | eapply IH; eauto].
Qed.

Lemma ensures_lift {A} (r : result A) (Q : A -> Prop) :
  (forall a, r = Ok a -> Q a) -> ensures I Q (lift r).
Proof. destruct r; cbn; auto. Qed.

Lemma ensures_modify (f : World -> World) (Q : unit -> Prop) :
  (forall w, I w -> I (f w)) -> Q tt -> ensures I Q (modify f).
Proof. cbn. auto. Qed.

Lemma ensures_gets {A} (f : World -> A) (Q : A -> Prop) :
  (forall w, I w -> Q (f w)) -> ensures I Q (gets f).
Proof. cbn. auto. Qed.

Lemma ensures_for_each {X} (xs : list X) (body : X -> Prog unit) :
  (forall x, In x xs -> ensures I anything (body x)) ->
  ensures I anything (for_each xs body).
Proof.
  induction xs as [|x xs IH]; intros H; cbn [for_each].
  - exact Logic.I.
  - eapply ensures_bind; [apply H; now left|].
    intros _ _. apply IH. intros y Hy. apply H. now right.
Qed.

Lemma ensures_for_each_with {X S} (xs : list X) (body : X -> S -> Prog S)
    (Q : S -> Prop) :
  (forall x s, In x xs -> Q s -> ensures I Q (body x s)) ->
  forall s, Q s -> ensures I Q (for_each_with xs body s).
Proof.
  induction xs as [|x xs IH]; intros H s Hs; cbn [for_each_with].
  - exact Hs.
  - eapply ensures_bind; [apply H; [now left | exact Hs]|].
    intros s' Hs'. apply IH; [|exact Hs'].
    intros y t Hy. apply H. now right.
Qed.

Lemma keeps_park (st : Paused unit) (c : Config) :
  settled I anything st -> Forall (keeps I anything) (snd c) ->
  Forall (keeps I anything) (snd (park st c)).
Proof.
  intros Hs Hp. destruct st as [r|s]; cbn [park snd]; [exact Hp|].
  apply Forall_app. split; [exact Hp|]. constructor; [exact Hs | constructor].
Qed.

(** Soundness: synchronous execution. *)
Lemma exec_ensures : forall {A} (p : Prog A) (Q : A -> Prop) (c : Config),
  ensures I Q p -> I (fst c) ->
  I (fst (fst (exec env p c)))
  /\ settled I Q (snd (exec env p c))
  /\ (Forall (keeps I anything) (snd c) ->
      Forall (keeps I anything) (snd (fst (exec env p c)))).
Proof.
  intros A p.
  induction p as [A a | A e | A k IH | A g k IH | A msg k IH | A req k IH
                  | A k IH | A child IHc k IH]; intros Q c H Hi; cbn [exec].
  - cbn. auto.
  - cbn. auto.
  - apply IH; auto.
  - destruct H as [H1 H2]. apply (IH Q (g (fst c), snd c) H2). cbn. auto.
  - destruct (H (user env (trace (fst c)) msg)) as [H1 H2].
    apply (IH _ Q (log (Confirmed msg (user env (trace (fst c)) msg)) c) H2).
    apply H1. exact Hi.
  - destruct H as [H1 H2]. cbn [fst snd log settled keeps].
    repeat split; auto; apply H1; exact Hi.
  - cbn. auto.
  - destruct H as [H1 H2].
    destruct (IHc anything c H1 Hi) as (Hi1 & Hs1 & Hp1).
    destruct (exec env child c) as [c1 st]. cbn [fst snd] in *.
    assert (Hi2 : I (fst (park st c1))) by (destruct st; exact Hi1).
    destruct (IH Q (park st c1) H2 Hi2) as (Hi3 & Hs3 & Hp3).
    repeat split; auto.
    intros Hp. apply Hp3. apply keeps_park; auto.
Qed.

(** Soundness: execution to the end. *)
Lemma run_ensures : forall {A} (p : Prog A) (Q : A -> Prop) (c : Config),
  ensures I Q p -> I (fst c) ->
  I (fst (fst (run env p c)))
  /\ match snd (run env p c) with Ok a => Q a | Threw _ => True end
  /\ (Forall (keeps I anything) (snd c) ->
      Forall (keeps I anything) (snd (fst (run env p c)))).
Proof.
  intros A p.
  induction p as [A a | A e | A k IH | A g k IH | A msg k IH | A req k IH
                  | A k IH | A child IHc k IH]; intros Q c H Hi; cbn [run].
  - cbn. auto.
  - cbn. auto.
  - apply IH; auto.
  - destruct H as [H1 H2]. apply (IH Q (g (fst c), snd c) H2). cbn. auto.
  - destruct (H (user env (trace (fst c)) msg)) as [H1 H2].
    apply (IH _ Q (log (Confirmed msg (user env (trace (fst c)) msg)) c) H2).
    apply H1. exact Hi.
  - destruct H as [H1 H2].
    apply (IH _ Q (log (Requested req) c) (H2 _)). apply H1. exact Hi.
  - apply IH; auto.
  - destruct H as [H1 H2].
    destruct (exec_ensures child anything c H1 Hi) as (Hi1 & Hs1 & Hp1).
    destruct (exec env child c) as [c1 st]. cbn [fst snd] in *.
    assert (Hi2 : I (fst (park st c1))) by (destruct st; exact Hi1).
    destruct (IH Q (park st c1) H2 Hi2) as (Hi3 & Hs3 & Hp3).
    repeat split; auto.
    intros Hp. apply Hp3. apply keeps_park; auto.
Qed.

(** Soundness: the event loop. *)
Lemma resume_ensures (c c' : Config) :
  resume env c c' -> I (fst c) -> Forall (keeps I anything) (snd c) ->
  I (fst c') /\ Forall (keeps I anything) (snd c').
Proof.
  intros Hr Hi Hp. destruct Hr as [w before req k after o c1 st He
                                  | w before k after c1 st He];
    cbn [fst snd] in *; apply Forall_app in Hp; destruct Hp as [Hb Ha];
    inversion Ha as [|s rest Hs Ha']; subst; cbn [keeps] in Hs.
  - pose proof (exec_ensures (k o) anything (w, before ++ after) (Hs o) Hi) as H.
    rewrite He in H. cbn [fst snd] in H. destruct H as (H1 & H2 & H3).
    split; [destruct st; exact H1|].
    apply keeps_park; [exact H2|]. apply H3, Forall_app. now split.
  - pose proof (exec_ensures k anything (w, before ++ after) Hs Hi) as H.
    rewrite He in H. cbn [fst snd] in H. destruct H as (H1 & H2 & H3).
    split; [destruct st; exact H1|].
    apply keeps_park; [exact H2|]. apply H3, Forall_app. now split.
Qed.

Lemma resumes_ensures (c c' : Config) :
  resumes env c c' -> I (fst c) -> Forall (keeps I anything) (snd c) ->
  I (fst c') /\ Forall (keeps I anything) (snd c').
Proof.
  induction 1 as [c|c1 c2 c3 Hr _ IH]; intros Hi Hp; [auto|].
  destruct (resume_ensures c1 c2 Hr Hi Hp) as [Hi2 Hp2]. auto.
Qed.

End Ensures.


Section EnsuresMore.

Variable h : Host.
Variable I : World -> Prop.

Lemma ensures_bind_lift {A B} (r : result A) (f : A -> Prog B) (R : B -> Prop) :
  (forall a, r = Ok a -> ensures I R (f a)) -> ensures I R (bind (lift r) f).
Proof. destruct r; cbn; auto. Qed.

Lemma ensures_bind_gets {A B} (g : World -> A) (f : A -> Prog B) (R : B -> Prop) :
  (forall w, I w -> ensures I R (f (g w))) -> ensures I R (bind (gets g) f).
Proof. cbn. auto. Qed.

Lemma ensures_bind_modify {B} (g : World -> World) (f : unit -> Prog B)
    (R : B -> Prop) :
  (forall w, I w -> I (g w)) -> ensures I R (f tt) ->
  ensures I R (bind (modify g) f).
Proof. cbn. auto. Qed.

Lemma ensures_then {A B} (p : Prog A) (f : A -> Prog B) (R : B -> Prop) :
  ensures I anything p -> (forall a, ensures I R (f a)) ->
  ensures I R (bind p f).
Proof. intros Hp Hf. eapply ensures_bind; [exact Hp | auto]. Qed.

(** A page property that does not look at the trace, the colour cursor or
    Leaflet's id counter is kept by everything [L.geoJSON] does. *)
Hypothesis I_logged : forall ev w, I w -> I (logged ev w).
Hypothesis I_cursor : forall n w, I w -> I (set_colorIndex n w).
Hypothesis I_stamp : forall n w, I w -> I (set_next_stamp n w).

Lemma ensures_emit (ev : Event) : ensures I anything (emit ev).
Proof. cbn. split; [intros w; apply I_logged | exact Logic.I]. Qed.

Lemma ensures_style (x : Value) : ensures I anything (getPolygonStyle x).
Proof.
  cbn. intros w Hw. split; [|exact Logic.I]. intros w'. apply I_cursor.
Qed.

Lemma ensures_add_shape (opts : GeoJSONOptions) (sh : Shape) (acc : list Layer) :
  tame I opts -> Forall (wears opts) acc ->
  ensures I (Forall (wears opts)) (add_shape opts sh acc).
Proof.
  intros Ht Hacc. unfold add_shape.
  eapply ensures_bind with
    (Q := fun applied => match style opts with
                         | StyleFunction _ => True
                         | _ => applied = fixed_style opts (kind sh)
                         end).
  - unfold fixed_style, tame in *.
    destruct (has_setStyle (kind sh) opts);
      destruct (style opts) as [|s|f]; cbn [ensures]; auto.
    eapply ensures_then; [apply Ht | intros s; exact Logic.I].
  - intros applied Ha. cbn. intros w Hw. split; [intros w'; apply I_stamp|].
    apply Forall_app. split; [exact Hacc|]. constructor; [|constructor].
    unfold wears. cbn [options shape]. destruct (style opts); auto.
Qed.

Lemma ensures_L_geoJSON (geojson : Value) (opts : GeoJSONOptions) :
  tame I opts ->
  ensures I (fun g => source g = geojson /\ popup g = None /\ dressed opts g
                      /\ snd (geoJSON_shapes h geojson) = None)
    (L_geoJSON h geojson opts).
Proof.
  intros Ht. unfold L_geoJSON. destruct (geoJSON_shapes h geojson) as [shapes err].
  eapply ensures_bind with (Q := Forall (wears opts)).
  - apply ensures_for_each_with; [|constructor].
    intros sh acc _ Hacc. now apply ensures_add_shape.
  - intros layers Hl. destruct err; cbn; auto.
Qed.

Lemma tame_plain (opts : GeoJSONOptions) :
  (forall f, style opts <> StyleFunction f) -> tame I opts.
Proof.
  unfold tame. intros H. destruct (style opts) as [| |f]; auto.
  now destruct (H f).
Qed.

Lemma tame_polygon : tame I polygon_options.
Proof. intros x. apply ensures_style. Qed.

Lemma ensures_fit_bounds (members : nat) :
  ensures I (fun _ => False) (fit_bounds (S members)).
Proof. exact Logic.I. Qed.

End EnsuresMore.


Lemma presentable_tagged (f : JSON) : presentable f -> tagged f.
Proof.
  intros [html Hp]. unfold tagged, tag. unfold createPopupContent in Hp.
  destruct (get_prop (Some f) "properties") as [props|e]; [|discriminate].
  cbn [rbind] in *.
  destruct props as [[| b | z | s | items | fields]|];
    try discriminate; eexists; reflexivity.
Qed.

Lemma classes_cover (h : Host) (items : list JSON) :
  Forall tagged items ->
  Forall (renderable h) (filter (of_class Points) items) ->
  Forall (renderable h) (filter (of_class Lines) items) ->
  Forall (renderable h) (filter (of_class Polygons) items) ->
  Forall (renderable h) items.
Proof.
  intros Ht Hp Hl Hq. rewrite Forall_forall in *. intros f Hf.
  destruct (Ht f Hf) as [t Htag].
  destruct (class_of t) eqn:E.
  - apply Hp, filter_In. split; [exact Hf|].
    rewrite (of_class_tag Points f t Htag), E. reflexivity.
  - apply Hl, filter_In. split; [exact Hf|].
    rewrite (of_class_tag Lines f t Htag), E. reflexivity.
  - apply Hq, filter_In. split; [exact Hf|].
    rewrite (of_class_tag Polygons f t Htag), E. reflexivity.
Qed.

Lemma halves_cover {X} (P : X -> Prop) (keep : X -> bool) (xs : list X) :
  Forall P (filter keep xs) -> Forall P (filter (fun x => negb (keep x)) xs) ->
  Forall P xs.
Proof.
  intros H1 H2. rewrite Forall_forall in *. intros x Hx.
  destruct (keep x) eqn:E.
  - apply H1, filter_In. auto.
  - apply H2, filter_In. rewrite E. auto.
Qed.

Section Keeping.

Variables (h : Host) (I : World -> Prop).

Hypothesis keeps_cursor : forall n w, I w -> I (set_colorIndex n w).
Hypothesis keeps_stamp : forall n w, I w -> I (set_next_stamp n w).
Hypothesis keeps_point : forall f g w,
  shows g f -> dressed point_options g ->
  I w -> I (set_pointLayer (pointLayer w ++ [g]) w).
Hypothesis keeps_line : forall f g w,
  shows g f -> dressed path_options g ->
  I w -> I (set_lineLayer (lineLayer w ++ [g]) w).
Hypothesis keeps_polygon : forall f g w,
  shows g f -> I w -> I (set_polygonLayer (polygonLayer w ++ [g]) w).
Hypothesis keeps_attach : forall f l w,
  presentable f -> I w -> I (Editor.set_layer_feature (Some f) l w).
Hypothesis keeps_register : forall f l w,
  presentable f -> I w ->
  I (set_drawnItems
       (Editor.addLayer (Editor.attach (Some f) l l) (drawnItems w)) w).

Lemma keeps_style (x : Value) : ensures I anything (getPolygonStyle x).
Proof.
  cbn. intros w Hw. split; [|exact Logic.I]. intros w'. apply keeps_cursor.
Qed.

Lemma keeps_L_geoJSON (geojson : Value) (opts : GeoJSONOptions) :
  (forall f, style opts <> StyleFunction f) \/ opts = polygon_options ->
  ensures I (fun g => source g = geojson /\ popup g = None /\ dressed opts g
                      /\ snd (geoJSON_shapes h geojson) = None)
    (L_geoJSON h geojson opts).
Proof.
  intros Ho. apply ensures_L_geoJSON; [exact keeps_stamp|].
  destruct Ho as [Ho | ->].
  - now apply tame_plain.
  - intros x. apply keeps_style.
Qed.

Lemma shows_bound (g : Group) (f : JSON) (html : string) :
  source g = Some f -> createPopupContent (Some f) = Ok html ->
  shows (bindPopup g html) f.
Proof. intros Hs Hp. split; [exact Hs|]. exists html. now split. Qed.

Lemma rendered_well (f : JSON) (html : string) :
  createPopupContent (Some f) = Ok html ->
  snd (geoJSON_shapes h (Some f)) = None -> renderable h f.
Proof.
  intros Hp Hs. split; [apply presentable_tagged; now exists html|].
  split; [now exists html | exact Hs].
Qed.

Lemma ensures_done {A} (p : Prog A) (P : Prop) :
  P -> ensures I anything p -> ensures I (fun _ => P) p.
Proof. intros HP. apply ensures_weaken. auto. Qed.

Lemma keeps_make_editable (f : JSON) (l : Layer) :
  presentable f -> ensures I anything (Editor.make_editable f l).
Proof.
  intros Hf. unfold Editor.make_editable. cbn [bind modify ensures].
  repeat split; intros w Hw; [now apply keeps_attach | now apply keeps_register].
Qed.

Lemma keeps_editor_add_line (f : JSON) :
  ensures I (fun _ => renderable h f) (Editor.add_line h f).
Proof.
  unfold Editor.add_line.
  eapply ensures_bind; [apply keeps_L_geoJSON; left; intros x; discriminate|].
  intros g (Hs & _ & Hd & He). apply ensures_bind_lift. intros html Hp.
  apply ensures_bind_modify.
  - intros w. apply (keeps_line f); [now apply shows_bound | exact Hd].
  - apply ensures_done; [now apply (rendered_well f html)|].
    apply ensures_for_each. intros l _. apply keeps_make_editable. now exists html.
Qed.

Lemma keeps_editor_add_point (f : JSON) :
  ensures I (fun _ => renderable h f) (Editor.add_point h f).
Proof.
  unfold Editor.add_point.
  eapply ensures_bind; [apply keeps_L_geoJSON; left; intros x; discriminate|].
  intros g (Hs & _ & Hd & He). apply ensures_bind_lift. intros html Hp.
  apply ensures_bind_modify.
  - intros w. apply (keeps_point f); [now apply shows_bound | exact Hd].
  - apply ensures_done; [now apply (rendered_well f html)|].
    apply ensures_for_each. intros l _. apply keeps_make_editable. now exists html.
Qed.

Lemma keeps_editor_add_polygon (f : JSON) :
  ensures I (fun _ => renderable h f) (Editor.add_polygon h f).
Proof.
  unfold Editor.add_polygon.
  eapply ensures_bind; [apply keeps_L_geoJSON; now right|].
  intros g (Hs & _ & _ & He). apply ensures_bind_lift. intros html Hp.
  apply ensures_bind_modify.
  - intros w. apply (keeps_polygon f). now apply shows_bound.
  - apply ensures_done; [now apply (rendered_well f html)|].
    apply ensures_for_each. intros l _. apply keeps_make_editable. now exists html.
Qed.

Lemma keeps_viewer_add_point (f : JSON) :
  ensures I (fun _ => renderable h f) (Viewer.add_point h f).
Proof.
  unfold Viewer.add_point.
  eapply ensures_bind; [apply keeps_L_geoJSON; left; intros x; discriminate|].
  intros g (Hs & _ & Hd & He). apply ensures_bind_lift. intros html Hp.
  apply ensures_modify; [|now apply (rendered_well f html)].
  intros w. apply (keeps_point f); [now apply shows_bound | exact Hd].
Qed.

Lemma keeps_viewer_add_polygon (f : JSON) :
  ensures I (fun _ => renderable h f) (Viewer.add_polygon h f).
Proof.
  unfold Viewer.add_polygon.
  eapply ensures_bind; [apply keeps_L_geoJSON; now right|].
  intros g (Hs & _ & _ & He). apply ensures_bind_lift. intros html Hp.
  apply ensures_modify; [|now apply (rendered_well f html)].
  intros w. apply (keeps_polygon f). now apply shows_bound.
Qed.

(** One feature classified. *)
Lemma keeps_editor_classify (f : JSON) (acc : list JSON * list JSON) :
  ensures I (fun acc' => tagged f /\ acc' = sorted_editor [f] acc
                         /\ Forall (renderable h) (filter (of_class Lines) [f]))
    (Editor.classify h f acc).
Proof.
  unfold Editor.classify, sorted_editor. destruct acc as [points polygons].
  cbn [fst snd filter].
  apply ensures_bind_lift. intros props Hp. apply ensures_bind_lift. intros t Ht.
  assert (Htag : tag f = Ok t) by (unfold tag; rewrite Hp; exact Ht).
  rewrite !(of_class_tag _ f t Htag).
  destruct (strict_eq t (Some (JStr "ST_Point"))) eqn:E1.
  { rewrite (class_of_point t E1). cbn. rewrite app_nil_r.
    split; [now exists t | split; [reflexivity | constructor]]. }
  destruct (strict_eq t (Some (JStr "ST_LineString"))
            || strict_eq t (Some (JStr "ST_MultiLineString"))) eqn:E2.
  - rewrite (class_of_line t E1 E2). cbn [class_eqb]. rewrite !app_nil_r.
    eapply ensures_bind; [apply keeps_editor_add_line|].
    intros ? Hr. cbn. split; [now exists t|]. split; [reflexivity|].
    constructor; [exact Hr | constructor].
  - rewrite (class_of_polygon t E1 E2). cbn. rewrite app_nil_r.
    split; [now exists t | split; [reflexivity | constructor]].
Qed.

Lemma keeps_viewer_classify (f : JSON) (acc : list JSON * list JSON) :
  ensures I (fun acc' => tagged f /\ acc' = sorted_viewer [f] acc)
    (Viewer.classify f acc).
Proof.
  unfold Viewer.classify, sorted_viewer. destruct acc as [points polygons].
  cbn [fst snd filter].
  apply ensures_bind_lift. intros props Hp. apply ensures_bind_lift. intros t Ht.
  assert (Htag : tag f = Ok t) by (unfold tag; rewrite Hp; exact Ht).
  rewrite !(of_class_tag _ f t Htag).
  destruct (strict_eq t (Some (JStr "ST_Point"))) eqn:E1.
  - rewrite (class_of_point t E1). cbn. rewrite app_nil_r.
    split; [now exists t | reflexivity].
  - pose proof (class_of_not_point t E1) as Hn.
    destruct (class_of t); [congruence | |]; cbn; rewrite app_nil_r;
      (split; [now exists t | reflexivity]).
Qed.

Lemma sorted_editor_cons (f : JSON) (fs : list JSON) acc :
  sorted_editor fs (sorted_editor [f] acc) = sorted_editor (f :: fs) acc.
Proof.
  unfold sorted_editor. cbn [fst snd filter].
  destruct (of_class Points f), (of_class Polygons f);
    now rewrite <- ?app_assoc, ?app_nil_r.
Qed.

Lemma sorted_viewer_cons (f : JSON) (fs : list JSON) acc :
  sorted_viewer fs (sorted_viewer [f] acc) = sorted_viewer (f :: fs) acc.
Proof.
  unfold sorted_viewer. cbn [fst snd filter].
  destruct (of_class Points f); cbn [negb];
    now rewrite <- ?app_assoc, ?app_nil_r.
Qed.

Lemma keeps_editor_classify_all (items : list JSON) :
  forall acc,
  ensures I (fun acc' => Forall tagged items /\ acc' = sorted_editor items acc
                         /\ Forall (renderable h) (filter (of_class Lines) items))
    (for_each_with items (Editor.classify h) acc).
Proof.
  induction items as [|f items IH]; intros acc; cbn [for_each_with].
  - cbn. unfold sorted_editor. cbn. rewrite !app_nil_r.
    split; [constructor | split; [now destruct acc | constructor]].
  - eapply ensures_bind; [apply keeps_editor_classify|].
    intros acc1 (Ht & -> & Hl). eapply ensures_weaken; [|apply IH].
    intros acc2 (Hts & -> & Hls). split; [now constructor|].
    split; [apply sorted_editor_cons|].
    cbn [filter] in *. destruct (of_class Lines f); [|exact Hls].
    inversion Hl; subst. now constructor.
Qed.

Lemma keeps_viewer_classify_all (items : list JSON) :
  forall acc,
  ensures I (fun acc' => Forall tagged items /\ acc' = sorted_viewer items acc)
    (for_each_with items Viewer.classify acc).
Proof.
  induction items as [|f items IH]; intros acc; cbn [for_each_with].
  - cbn. unfold sorted_viewer. cbn. rewrite !app_nil_r.
    split; [constructor | now destruct acc].
  - eapply ensures_bind; [apply keeps_viewer_classify|].
    intros acc1 (Ht & ->). eapply ensures_weaken; [|apply IH].
    intros acc2 (Hts & ->). split; [now constructor|]. apply sorted_viewer_cons.
Qed.

Lemma ensures_for_each_all {X} (P : X -> Prop) (xs : list X)
    (body : X -> Prog unit) :
  (forall x, ensures I (fun _ => P x) (body x)) ->
  ensures I (fun _ => Forall P xs) (for_each xs body).
Proof.
  intros H. induction xs as [|x xs IH]; cbn [for_each].
  - cbn. constructor.
  - eapply ensures_bind; [apply H|]. intros ? Hx.
    eapply ensures_weaken; [|exact IH]. intros ? Hxs. now constructor.
Qed.

(** The three loops of the loader. *)
Lemma keeps_editor_loops (items : list JSON) :
  ensures I (fun _ => Forall (renderable h) items)
    (bind (for_each_with items (Editor.classify h) ([], [])) (fun sorted =>
     let (points, polygons) := sorted in
     bind (for_each points (Editor.add_point h)) (fun _ =>
     for_each polygons (Editor.add_polygon h)))).
Proof.
  eapply ensures_bind; [apply keeps_editor_classify_all|].
  intros sorted (Ht & -> & Hl). unfold sorted_editor. cbn [fst snd app].
  eapply ensures_bind; [apply ensures_for_each_all, keeps_editor_add_point|].
  intros ? Hp. eapply ensures_weaken;
    [|apply ensures_for_each_all, keeps_editor_add_polygon].
  intros ? Hq. now apply classes_cover.
Qed.

Lemma keeps_viewer_loops (items : list JSON) :
  ensures I (fun _ => Forall (renderable h) items)
    (bind (for_each_with items Viewer.classify ([], [])) (fun sorted =>
     let (points, polygons) := sorted in
     bind (for_each points (Viewer.add_point h)) (fun _ =>
     for_each polygons (Viewer.add_polygon h)))).
Proof.
  eapply ensures_bind; [apply keeps_viewer_classify_all|].
  intros sorted (Ht & ->). unfold sorted_viewer. cbn [fst snd app].
  eapply ensures_bind; [apply ensures_for_each_all, keeps_viewer_add_point|].
  intros ? Hp. eapply ensures_weaken;
    [|apply ensures_for_each_all, keeps_viewer_add_polygon].
  intros ? Hq. now apply (halves_cover _ (of_class Points)).
Qed.

Hypothesis keeps_logged : forall ev w, I w -> I (logged ev w).
Hypothesis keeps_count : forall s w, I w -> I (set_poi_count s w).

Lemma keeps_emit (ev : Event) : ensures I anything (emit ev).
Proof. cbn. split; [intros w; apply keeps_logged | exact Logic.I]. Qed.

Lemma keeps_bind_fetch {B} (req : Request) (f : Response -> Prog B)
    (R : B -> Prop) :
  (forall r, ensures I R (f r)) -> ensures I R (bind (fetch req) f).
Proof.
  intros Hf. cbn. split; [intros w; apply keeps_logged|].
  intros [e|r]; cbn; auto.
Qed.

Lemma keeps_bind_json {B} (r : Response) (f : JSON -> Prog B) (R : B -> Prop) :
  (forall j, json r = Ok j -> ensures I R (f j)) ->
  ensures I R (bind (response_json r) f).
Proof.
  intros Hf. unfold response_json. cbn [bind ensures].
  now apply ensures_bind_lift.
Qed.

(** A rendering never returns: it is given up on a feature, or ends on the
    error of [getBounds]. *)
Lemma keeps_editor_render (features : Value) :
  ensures I (fun _ => False) (Editor.render h features).
Proof.
  unfold Editor.render. apply ensures_bind_lift. intros items Hi.
  eapply ensures_bind; [apply keeps_editor_classify_all|].
  intros sorted (Ht & -> & Hl). unfold sorted_editor. cbn [fst snd app].
  eapply ensures_bind; [apply ensures_for_each_all, keeps_editor_add_point|].
  intros ? Hp.
  eapply ensures_bind; [apply ensures_for_each_all, keeps_editor_add_polygon|].
  intros ? Hq. exact Logic.I.
Qed.

Lemma keeps_viewer_render (features : Value) :
  ensures I (fun _ => False) (Viewer.render h features).
Proof.
  unfold Viewer.render. apply ensures_bind_lift. intros items Hi.
  eapply ensures_bind; [apply keeps_viewer_classify_all|].
  intros sorted (Ht & ->). unfold sorted_viewer. cbn [fst snd app].
  eapply ensures_bind; [apply ensures_for_each_all, keeps_viewer_add_point|].
  intros ? Hp.
  eapply ensures_bind; [apply ensures_for_each_all, keeps_viewer_add_polygon|].
  intros ? Hq. exact Logic.I.
Qed.

Lemma keeps_editor_load : ensures I anything (Editor.loadPOIs h).
Proof.
  unfold Editor.loadPOIs. apply ensures_try_catch.
  - apply keeps_bind_fetch. intros r. apply keeps_bind_json. intros geojson _.
    apply ensures_bind_lift. intros features _.
    apply ensures_bind_lift. intros empty _.
    destruct empty.
    + apply ensures_modify; [intros w; apply keeps_count | exact Logic.I].
    + apply ensures_bind_lift. intros len _.
      apply ensures_bind_lift. intros len_text _.
      apply ensures_bind_modify; [intros w; apply keeps_count|].
      eapply ensures_weaken; [|apply keeps_editor_render]. intros; exact Logic.I.
  - intros e. apply ensures_then; [apply keeps_emit|]. intros _.
    apply ensures_modify; [intros w; apply keeps_count | exact Logic.I].
Qed.

Lemma keeps_viewer_load : ensures I anything (Viewer.loadPOIs h).
Proof.
  unfold Viewer.loadPOIs. apply ensures_try_catch.
  - apply keeps_bind_fetch. intros r. apply keeps_bind_json. intros geojson _.
    apply ensures_bind_lift. intros features _.
    apply ensures_bind_lift. intros empty _.
    destruct empty.
    + apply ensures_modify; [intros w; apply keeps_count | exact Logic.I].
    + apply ensures_bind_lift. intros len _.
      apply ensures_bind_lift. intros len_text _.
      apply ensures_bind_modify; [intros w; apply keeps_count|].
      eapply ensures_weaken; [|apply keeps_viewer_render]. intros; exact Logic.I.
  - intros e. apply ensures_then; [apply keeps_emit|]. intros _.
    apply ensures_modify; [intros w; apply keeps_count | exact Logic.I].
Qed.

End Keeping.


Section Handling.

Variables (h : Host) (I : World -> Prop).

Hypothesis keeps_logged : forall ev w, I w -> I (logged ev w).
Hypothesis keeps_load : ensures I anything (Editor.loadPOIs h).
Hypothesis keeps_clear : ensures I anything Editor.clearLayers.
Hypothesis keeps_close : ensures I anything (Editor.closeModal h).
Hypothesis keeps_pending : forall w, I w -> I (set_currentDrawing None w).

Lemma keeps_check (r : Response) :
  ensures I anything
    (if negb (ok r)
     then Throw (Error ("HTTP error! status: " ++ show_Z (status r)))
     else Ret tt).
Proof. destruct (negb (ok r)); exact Logic.I. Qed.

Lemma keeps_report (what told : string) (e : Exn) :
  ensures I anything
    (bind (console_error what e) (fun _ => alert (told ++ message e))).
Proof.
  apply ensures_then; [apply keeps_emit, keeps_logged|].
  intros _. apply keeps_emit, keeps_logged.
Qed.

Lemma keeps_deletePOI (poiId : Value) :
  ensures I anything (Editor.deletePOI h poiId).
Proof.
  unfold Editor.deletePOI. cbn [bind ensures]. intros b.
  split; [intros w; apply keeps_logged|].
  destruct b; cbn [negb]; [|exact Logic.I].
  apply ensures_try_catch; [|intros e; apply keeps_report].
  apply ensures_bind_lift. intros id_text _.
  apply keeps_bind_fetch; [exact keeps_logged|]. intros r.
  apply ensures_then; [apply keeps_check|]. intros _.
  apply ensures_then; [apply keeps_emit, keeps_logged|]. intros _.
  apply ensures_then; [exact keeps_clear|]. intros _. exact keeps_load.
Qed.

Lemma keeps_on_draw_deleted (layers : list Layer) :
  ensures I anything (Editor.on_draw_deleted h layers).
Proof.
  unfold Editor.on_draw_deleted. apply ensures_for_each. intros l _.
  apply ensures_bind_lift. intros guard _.
  destruct (truthy guard); [|exact Logic.I].
  apply ensures_bind_lift. intros props _.
  apply ensures_bind_lift. intros id _.
  cbn [ensures]. split; [apply keeps_deletePOI | exact Logic.I].
Qed.

Lemma keeps_parse (text : string) :
  ensures I anything (Editor.parse_properties h text).
Proof.
  unfold Editor.parse_properties.
  destruct (negb (String.eqb (trim text) EmptyString)); [|exact Logic.I].
  apply ensures_try_catch.
  - apply ensures_bind_lift. intros j _. exact Logic.I.
  - intros e. apply ensures_then; [apply keeps_emit, keeps_logged|].
    intros _. exact Logic.I.
Qed.

Lemma keeps_on_submit : ensures I anything (Editor.on_submit h).
Proof.
  unfold Editor.on_submit. apply ensures_bind_gets. intros w Hw.
  destruct (currentDrawing w) as [drawing|]; [|apply keeps_emit, keeps_logged].
  apply ensures_bind_gets. intros w1 _.
  apply ensures_bind_gets. intros w2 _.
  apply ensures_bind_gets. intros w3 _.
  apply ensures_bind_gets. intros w4 _.
  apply ensures_then; [apply keeps_parse|]. intros [properties|]; [|exact Logic.I].
  apply ensures_bind_gets. intros w5 _.
  apply ensures_try_catch; [|intros e; apply keeps_report].
  apply keeps_bind_fetch; [exact keeps_logged|]. intros r.
  apply ensures_then; [apply keeps_check|]. intros _.
  apply keeps_bind_json. intros created _.
  apply ensures_then; [apply keeps_emit, keeps_logged|]. intros _.
  apply ensures_then; [exact keeps_close|]. intros _.
  apply ensures_bind_modify; [exact keeps_pending|].
  apply ensures_then; [exact keeps_clear|]. intros _.
  apply ensures_then; [exact keeps_load|]. intros _.
  apply keeps_emit, keeps_logged.
Qed.

(** The drawn shapes that keep [I] when the form opens for them. *)
Variable acceptable : Layer -> Prop.
Hypothesis keeps_created : forall layer,
  acceptable layer -> ensures I anything (Editor.on_draw_created layer).

Lemma keeps_handler (p : Prog unit) :
  handler h p ->
  (forall layer, p = Editor.on_draw_created layer -> acceptable layer) ->
  ensures I anything p.
Proof.
  intros [|layer|layers| |on_backdrop] Ha.
  - cbn [Editor.on_load ensures]. split; [exact keeps_load | exact Logic.I].
  - apply keeps_created, Ha. reflexivity.
  - apply keeps_on_draw_deleted.
  - apply keeps_on_submit.
  - destruct on_backdrop; [exact keeps_close | exact Logic.I].
Qed.

End Handling.


Section Guards.

Variable h : Host.

Lemma presentable_guarded (f : JSON) (l : Layer) :
  presentable f -> feature l = Some f -> guarded l.
Proof.
  intros [html Hp] Hf. unfold guarded, Editor.backend_id. rewrite Hf.
  destruct (truthy (Some f)); [|eexists; reflexivity].
  unfold createPopupContent in Hp.
  destruct (get_prop (Some f) "properties") as [props|e]; [|discriminate].
  cbn [rbind] in *.
  destruct props as [[| b | z | s | items | fields]|];
    try discriminate; eexists; reflexivity.
Qed.

Lemma guarded_attach (f : JSON) (target l : Layer) :
  presentable f -> guarded l -> guarded (Editor.attach (Some f) target l).
Proof.
  intros Hf Hl. unfold Editor.attach.
  destruct (Nat.eqb (stamp l) (stamp target)); [|exact Hl].
  now apply (presentable_guarded f).
Qed.

Lemma guarded_addLayer (l : Layer) (ls : list Layer) :
  guarded l -> Forall guarded ls -> Forall guarded (Editor.addLayer l ls).
Proof.
  intros Hl Hls. unfold Editor.addLayer.
  destruct (existsb (fun x => Nat.eqb (stamp x) (stamp l)) ls).
  - induction Hls as [|x ls Hx _ IH]; cbn [map]; constructor; auto.
    now destruct (Nat.eqb (stamp x) (stamp l)).
  - apply Forall_app. split; [exact Hls|]. now constructor.
Qed.

Lemma guarded_removeLayer (l : Layer) (ls : list Layer) :
  Forall guarded ls -> Forall guarded (Editor.removeLayer l ls).
Proof.
  intros H. unfold Editor.removeLayer. rewrite Forall_forall in *.
  intros x Hx. apply filter_In in Hx. apply H, Hx.
Qed.

Lemma guards_load : ensures overlay_guarded anything (Editor.loadPOIs h).
Proof.
  apply keeps_editor_load; unfold overlay_guarded; try (intros; assumption).
  - intros f l w Hf Hw. cbn [Editor.set_layer_feature drawnItems].
    rewrite Forall_forall in *. intros x Hx. apply in_map_iff in Hx.
    destruct Hx as (y & <- & Hy). apply guarded_attach; auto.
  - intros f l w Hf Hw. cbn [set_drawnItems drawnItems].
    apply guarded_addLayer; [|exact Hw].
    apply (presentable_guarded f); [exact Hf|].
    unfold Editor.attach. now rewrite Nat.eqb_refl.
Qed.

Lemma guards_clear : ensures overlay_guarded anything Editor.clearLayers.
Proof.
  unfold overlay_guarded. cbn. repeat split; intros; try assumption.
  constructor.
Qed.

Lemma guards_close : ensures overlay_guarded anything (Editor.closeModal h).
Proof.
  unfold overlay_guarded. cbn. repeat split; try (intros; assumption).
  intros w Hw. destruct (currentDrawing w); cbn; repeat split;
    try (intros; assumption).
  intros w' Hw'. now apply guarded_removeLayer.
Qed.

Lemma guards_created (layer : Layer) :
  guarded layer -> ensures overlay_guarded anything (Editor.on_draw_created layer).
Proof.
  intros Hl. unfold overlay_guarded. cbn. repeat split; try (intros; assumption).
  intros w Hw. now apply guarded_addLayer.
Qed.

Lemma guards_handler (p : Prog unit) :
  handler h p ->
  (forall layer, p = Editor.on_draw_created layer -> guarded layer) ->
  ensures overlay_guarded anything p.
Proof.
  apply keeps_handler with (acceptable := guarded).
  - intros; assumption.
  - apply guards_load.
  - apply guards_clear.
  - apply guards_close.
  - intros; assumption.
  - apply guards_created.
Qed.

End Guards.

Section Labels.

Variable h : Host.

Lemma labelled_attach (f : Value) (target : Layer) (gs : list Group) :
  Forall (fun g => exists f, shows g f) gs ->
  Forall (fun g => exists f, shows g f) (Editor.attach_in_groups f target gs).
Proof.
  intros H. unfold Editor.attach_in_groups. rewrite Forall_forall in *.
  intros g Hg. apply in_map_iff in Hg. destruct Hg as (g0 & <- & Hg0).
  exact (H g0 Hg0).
Qed.

Ltac labels :=
  unfold labelled; cbn [pointLayer lineLayer polygonLayer set_pointLayer
    set_lineLayer set_polygonLayer set_colorIndex set_next_stamp set_drawnItems
    set_poi_count logged set_trace Editor.set_layer_feature set_currentDrawing
    set_modal_display set_form set_focused];
  rewrite ?Forall_app in *.

Lemma labels_load_editor : ensures labelled anything (Editor.loadPOIs h).
Proof.
  apply keeps_editor_load; try (intros; assumption).
  - intros f g w Hg _. labels. intros (Hp & Hl & Hq). repeat split; auto.
    constructor; [now exists f | constructor].
  - intros f g w Hg _. labels. intros (Hp & Hl & Hq). repeat split; auto.
    constructor; [now exists f | constructor].
  - intros f g w Hg. labels. intros (Hp & Hl & Hq). repeat split; auto.
    constructor; [now exists f | constructor].
  - intros f l w _. labels. intros (Hp & Hl & Hq).
    repeat split; now apply labelled_attach.
Qed.

Lemma labels_load_viewer : ensures labelled anything (Viewer.loadPOIs h).
Proof.
  apply keeps_viewer_load; try (intros; assumption).
  - intros f g w Hg _. labels. intros (Hp & Hl & Hq). repeat split; auto.
    constructor; [now exists f | constructor].
  - intros f g w Hg. labels. intros (Hp & Hl & Hq). repeat split; auto.
    constructor; [now exists f | constructor].
Qed.

Lemma labels_clear : ensures labelled anything Editor.clearLayers.
Proof.
  cbn. repeat split; try (intros; assumption); intros w; labels;
    intros (Hp & Hl & Hq); repeat split; auto.
Qed.

Lemma labels_close : ensures labelled anything (Editor.closeModal h).
Proof.
  cbn. repeat split; try (intros; assumption).
  intros w Hw. destruct (currentDrawing w); cbn; repeat split;
    intros; assumption.
Qed.

Lemma labels_handler (p : Prog unit) :
  handler h p -> ensures labelled anything p.
Proof.
  intros Hp. apply keeps_handler with (h := h) (acceptable := fun _ => True).
  - intros; assumption.
  - apply labels_load_editor.
  - apply labels_clear.
  - apply labels_close.
  - intros; assumption.
  - intros layer _. cbn. repeat split; intros; assumption.
  - exact Hp.
  - intros; exact Logic.I.
Qed.

End Labels.


Section DeleteAny.

Variables (env : Env) (h : Host).

Lemma on_draw_deleted_any (layers : list Layer) :
  forall c, exists pool',
    exec env (Editor.on_draw_deleted h layers) c
    = ((set_trace (deletion_trace env (trace (fst c)) layers) (fst c), pool'),
       Finished (deletion_result layers)).
Proof.
  induction layers as [|l layers IH]; intros [w pool]; cbn [fst snd] in *.
  - exists pool. cbn. now rewrite set_trace_same.
  - unfold Editor.on_draw_deleted. cbn [for_each].
    rewrite exec_bind, exec_bind, exec_lift.
    cbn [deletion_trace deletion_result].
    fold (Editor.on_draw_deleted h layers).
    destruct (Editor.backend_id l) as [id|e] eqn:Hid.
    2:{ exists pool. now rewrite set_trace_same. }
    destruct (truthy id) eqn:Ht.
    + destruct (guard_props l id Hid Ht) as (props & Hp & Hi).
      rewrite exec_bind, exec_lift, Hp, exec_bind, exec_lift, Hi. cbn [exec].
      destruct (user env (trace w) confirm_text) eqn:Hu.
      * destruct (deletePOI_confirmed_quiet env h id (w, pool) Hu) as (st & He & _).
        rewrite He. cbn [fst snd].
        match goal with |- context [exec env (Editor.on_draw_deleted h layers) ?c1] =>
          destruct (IH c1) as (pool' & Hr)
        end.
        rewrite Hr. exists pool'. destruct st; reflexivity.
      * rewrite (deletePOI_declined env h id (w, pool) Hu).
        cbn [park log fst snd trace set_trace].
        match goal with |- context [exec env (Editor.on_draw_deleted h layers) ?c1] =>
          destruct (IH c1) as (pool' & Hr)
        end.
        rewrite Hr. exists pool'. reflexivity.
    + cbn [exec]. destruct (IH (w, pool)) as (pool' & Hr).
      rewrite Hr. exists pool'. reflexivity.
Qed.

Lemma deletion_result_guarded (layers : list Layer) :
  Forall guarded layers -> deletion_result layers = Ok tt.
Proof.
  induction 1 as [|l layers [id Hid] _ IH]; [reflexivity|].
  cbn [deletion_result]. now rewrite Hid.
Qed.

Lemma deletion_stops (before after : list Layer) (l : Layer) (e : Exn) :
  Forall guarded before -> Editor.backend_id l = Threw e ->
  deletion_result (before ++ l :: after) = Threw e
  /\ forall t, deletion_trace env t (before ++ l :: after)
               = deletion_trace env t before.
Proof.
  intros Hb Hl. induction Hb as [|x before [id Hid] _ [IH1 IH2]].
  - cbn. rewrite Hl. auto.
  - cbn [app deletion_result deletion_trace]. rewrite Hid. split; [exact IH1|].
    intros t. destruct (truthy id); [|apply IH2].
    destruct (user env t confirm_text); apply IH2.
Qed.

End DeleteAny.


Section Frames.

Variable h : Host.

Lemma labels_attach (f : Value) (target : Layer) (gs : list Group) :
  map label (Editor.attach_in_groups f target gs) = map label gs.
Proof. unfold Editor.attach_in_groups. rewrite map_map. reflexivity. Qed.

Lemma extends_refl (w : World) : extends_page w w.
Proof. repeat split; exists []; now rewrite app_nil_r. Qed.

Lemma more_app {X} (old cur more : list X) (x : X) :
  cur = old ++ more -> cur ++ [x] = old ++ (more ++ [x]).
Proof. intros ->. now rewrite app_assoc. Qed.

Lemma extends_load_editor (w0 : World) :
  ensures (extends_page w0) anything (Editor.loadPOIs h).
Proof.
  apply keeps_editor_load; try (intros; assumption).
  - intros f g w _ _ ([a Ha] & Hl & Hq). split; [|split; assumption].
    exists (a ++ [label g]). cbn [set_pointLayer pointLayer].
    rewrite map_app. now apply more_app.
  - intros f g w _ _ (Hp & [a Ha] & Hq). split; [assumption|]. split; [|assumption].
    exists (a ++ [label g]). cbn [set_lineLayer lineLayer].
    rewrite map_app. now apply more_app.
  - intros f g w _ (Hp & Hl & [a Ha]). split; [assumption|]. split; [assumption|].
    exists (a ++ [label g]). cbn [set_polygonLayer polygonLayer].
    rewrite map_app. now apply more_app.
  - intros f l w _ (Hp & Hl & Hq). unfold extends_page.
    cbn [Editor.set_layer_feature pointLayer lineLayer polygonLayer].
    now rewrite !labels_attach.
Qed.

Lemma extends_load_viewer (w0 : World) :
  ensures (extends_page w0) anything (Viewer.loadPOIs h).
Proof.
  apply keeps_viewer_load; try (intros; assumption).
  - intros f g w _ _ ([a Ha] & Hl & Hq). split; [|split; assumption].
    exists (a ++ [label g]). cbn [set_pointLayer pointLayer].
    rewrite map_app. now apply more_app.
  - intros f g w _ (Hp & Hl & [a Ha]). split; [assumption|]. split; [assumption|].
    exists (a ++ [label g]). cbn [set_polygonLayer polygonLayer].
    rewrite map_app. now apply more_app.
Qed.

Lemma silent_editor_loops (s : string) (t : list Event) (items : list JSON) :
  ensures (silent s t) anything
    (bind (for_each_with items (Editor.classify h) ([], [])) (fun sorted =>
     let (points, polygons) := sorted in
     bind (for_each points (Editor.add_point h)) (fun _ =>
     for_each polygons (Editor.add_polygon h)))).
Proof.
  eapply ensures_weaken; [|apply keeps_editor_loops; intros; assumption].
  intros; exact Logic.I.
Qed.

Lemma silent_viewer_loops (s : string) (t : list Event) (items : list JSON) :
  ensures (silent s t) anything
    (bind (for_each_with items Viewer.classify ([], [])) (fun sorted =>
     let (points, polygons) := sorted in
     bind (for_each points (Viewer.add_point h)) (fun _ =>
     for_each polygons (Viewer.add_polygon h)))).
Proof.
  eapply ensures_weaken; [|apply keeps_viewer_loops; intros; assumption].
  intros; exact Logic.I.
Qed.

Lemma silent_editor_render (s : string) (t : list Event) (features : Value) :
  ensures (silent s t) (fun _ => False) (Editor.render h features).
Proof. apply keeps_editor_render; intros; assumption. Qed.

Lemma silent_viewer_render (s : string) (t : list Event) (features : Value) :
  ensures (silent s t) (fun _ => False) (Viewer.render h features).
Proof. apply keeps_viewer_render; intros; assumption. Qed.

End Frames.


Section RenderFrame.

Variables (env : Env) (h : Host).

Lemma fits_of_app (a b : list Event) : fits_of (a ++ b) = fits_of a ++ fits_of b.
Proof.
  induction a as [|ev a IH]; [reflexivity|].
  destruct ev; cbn [app fits_of]; now rewrite IH.
Qed.

(** Rendering ends by throwing and touches neither the count text nor the
    trace. *)
Lemma editor_render_frame (features : Value) (c : Config) :
  exists c' e, run env (Editor.render h features) c = (c', Threw e)
    /\ poi_count (fst c') = poi_count (fst c)
    /\ trace (fst c') = trace (fst c).
Proof.
  pose proof (run_ensures env (silent (poi_count (fst c)) (trace (fst c)))
                _ _ c (silent_editor_render h _ _ features)
                (conj eq_refl eq_refl)) as ([Hc Ht] & Hp & _).
  destruct (run env (Editor.render h features) c) as [c' [u|e]];
    [destruct Hp|].
  exists c', e. auto.
Qed.

Lemma viewer_render_frame (features : Value) (c : Config) :
  exists c' e, run env (Viewer.render h features) c = (c', Threw e)
    /\ poi_count (fst c') = poi_count (fst c)
    /\ trace (fst c') = trace (fst c).
Proof.
  pose proof (run_ensures env (silent (poi_count (fst c)) (trace (fst c)))
                _ _ c (silent_viewer_render h _ _ features)
                (conj eq_refl eq_refl)) as ([Hc Ht] & Hp & _).
  destruct (run env (Viewer.render h features) c) as [c' [u|e]];
    [destruct Hp|].
  exists c', e. auto.
Qed.

End RenderFrame.


Section LoadFrame.

Variables (env : Env) (h : Host).

Ltac given_up :=
  unfold console_error; run_simp; eexists; split; [reflexivity|];
  right; eexists; unfold ended_on, log; page;
  rewrite <- ?app_assoc; split; reflexivity.

(** A load returns, and ends in one of two ways. *)
Lemma editor_load_trace (c : Config) :
  exists c', run env (Editor.loadPOIs h) c = (c', Ok tt)
    /\ (found_nothing (fst c) (fst c') \/ exists e, ended_on e (fst c) (fst c')).
Proof.
  unfold Editor.loadPOIs. rewrite run_try_catch, run_bind, run_fetch.
  fold pois_request.
  destruct (server env (trace (fst c)) pois_request) as [e|r]; [given_up|].
  rewrite run_bind, run_response_json.
  destruct (json r) as [geojson|e]; [|given_up].
  rewrite run_bind, run_lift.
  destruct (get_prop (Some geojson) "features") as [features|e]; [|given_up].
  rewrite run_bind, run_lift.
  destruct (no_features features) as [[|]|e]; [| |given_up].
  { rewrite run_modify. eexists. split; [reflexivity|]. left.
    unfold found_nothing, log. page. split; reflexivity. }
  rewrite run_bind, run_lift.
  destruct (get_prop features "length") as [len|e]; [|given_up].
  rewrite run_bind, run_lift.
  destruct (to_string len) as [len_text|e]; [|given_up].
  rewrite run_bind, run_modify.
  match goal with |- context [run env (Editor.render h _) ?c1] =>
    destruct (editor_render_frame env h features c1) as (c' & e & Hr & Hc & Ht)
  end.
  rewrite Hr. unfold console_error. run_simp. eexists. split; [reflexivity|].
  right. exists e. unfold ended_on, log. page. rewrite Ht. unfold log. page.
  rewrite <- app_assoc. split; reflexivity.
Qed.

Lemma viewer_load_trace (c : Config) :
  exists c', run env (Viewer.loadPOIs h) c = (c', Ok tt)
    /\ (found_nothing (fst c) (fst c') \/ exists e, ended_on e (fst c) (fst c')).
Proof.
  unfold Viewer.loadPOIs. rewrite run_try_catch, run_bind, run_fetch.
  fold pois_request.
  destruct (server env (trace (fst c)) pois_request) as [e|r]; [given_up|].
  rewrite run_bind, run_response_json.
  destruct (json r) as [geojson|e]; [|given_up].
  rewrite run_bind, run_lift.
  destruct (get_prop (Some geojson) "features") as [features|e]; [|given_up].
  rewrite run_bind, run_lift.
  destruct (no_features features) as [[|]|e]; [| |given_up].
  { rewrite run_modify. eexists. split; [reflexivity|]. left.
    unfold found_nothing, log. page. split; reflexivity. }
  rewrite run_bind, run_lift.
  destruct (get_prop features "length") as [len|e]; [|given_up].
  rewrite run_bind, run_lift.
  destruct (to_string len) as [len_text|e]; [|given_up].
  rewrite run_bind, run_modify.
  match goal with |- context [run env (Viewer.render h _) ?c1] =>
    destruct (viewer_render_frame env h features c1) as (c' & e & Hr & Hc & Ht)
  end.
  rewrite Hr. unfold console_error. run_simp. eexists. split; [reflexivity|].
  right. exists e. unfold ended_on, log. page. rewrite Ht. unfold log. page.
  rewrite <- app_assoc. split; reflexivity.
Qed.

(** A load that rendered every feature of a collection that is not empty
    ends on the error of [getBounds]. *)
Lemma editor_load_frame (c : Config) r fields items :
  server env (trace (fst c)) pois_request = Resolved r ->
  json r = Ok (JObj fields) ->
  lookup "features" fields = Some (JArr items) ->
  items <> [] ->
  Forall (renderable h) items ->
  exists c', run env (Editor.loadPOIs h) c = (c', Ok tt)
    /\ ended_on no_getLatLng (fst c) (fst c').
Proof.
  intros Hs Hj Hf Hne Hall.
  unfold Editor.loadPOIs. rewrite run_try_catch, run_bind, run_fetch.
  fold pois_request. rewrite Hs.
  rewrite run_bind, run_response_json, Hj, run_bind, run_lift.
  cbn [get_prop]. rewrite Hf, run_bind, run_lift, no_features_array.
  destruct items as [|f items]; [congruence|].
  rewrite run_bind, run_lift. cbn [get_prop String.eqb Ascii.eqb Bool.eqb].
  rewrite run_bind, run_lift. cbn [to_string json_to_string].
  rewrite run_bind, run_modify.
  match goal with |- context [run env (Editor.render h _) ?c1] =>
    destruct (editor_render_frame env h (Some (JArr (f :: items))) c1)
      as (c' & e & Hr & Hc & Ht);
    destruct (editor_render_spec env h (f :: items) c1) as (c2 & e2 & Hr2 & _ & He)
  end.
  destruct (He Hall) as [-> _]. rewrite Hr in Hr2. injection Hr2 as _ ->.
  rewrite Hr. unfold console_error. run_simp. eexists. split; [reflexivity|].
  unfold ended_on, log. page. rewrite Ht. unfold log. page.
  rewrite <- app_assoc. split; reflexivity.
Qed.

Lemma viewer_load_frame (c : Config) r fields items :
  server env (trace (fst c)) pois_request = Resolved r ->
  json r = Ok (JObj fields) ->
  lookup "features" fields = Some (JArr items) ->
  items <> [] ->
  Forall (renderable h) items ->
  exists c', run env (Viewer.loadPOIs h) c = (c', Ok tt)
    /\ ended_on no_getLatLng (fst c) (fst c').
Proof.
  intros Hs Hj Hf Hne Hall.
  unfold Viewer.loadPOIs. rewrite run_try_catch, run_bind, run_fetch.
  fold pois_request. rewrite Hs.
  rewrite run_bind, run_response_json, Hj, run_bind, run_lift.
  cbn [get_prop]. rewrite Hf, run_bind, run_lift, no_features_array.
  destruct items as [|f items]; [congruence|].
  rewrite run_bind, run_lift. cbn [get_prop String.eqb Ascii.eqb Bool.eqb].
  rewrite run_bind, run_lift. cbn [to_string json_to_string].
  rewrite run_bind, run_modify.
  match goal with |- context [run env (Viewer.render h _) ?c1] =>
    destruct (viewer_render_frame env h (Some (JArr (f :: items))) c1)
      as (c' & e & Hr & Hc & Ht);
    destruct (viewer_render_spec env h (f :: items) c1) as (c2 & e2 & Hr2 & _ & He)
  end.
  destruct (He Hall) as [-> _]. rewrite Hr in Hr2. injection Hr2 as _ ->.
  rewrite Hr. unfold console_error. run_simp. eexists. split; [reflexivity|].
  unfold ended_on, log. page. rewrite Ht. unfold log. page.
  rewrite <- app_assoc. split; reflexivity.
Qed.

End LoadFrame.

Lemma palette_NoDup : NoDup polygonColors.
Proof.
  unfold polygonColors.
  repeat (constructor; [cbn; intros H; repeat (destruct H as [H|H]; [discriminate|]); exact H|]).
  constructor.
Qed.

Lemma palette_injective (i j : nat) :
  palette i = palette j <-> i mod 10 = j mod 10.
Proof.
  unfold palette. split; [|now intros ->].
  intros H.
  assert (Hi : i mod 10 < List.length polygonColors)
    by (apply Nat.mod_upper_bound; discriminate).
  apply (proj1 (NoDup_nth_error polygonColors) palette_NoDup _ _ Hi H).
Qed.

Lemma getPolygonColor_run (env : Env) (w : World) pool :
  run env getPolygonColor (w, pool)
  = ((set_colorIndex (S (colorIndex w)) w, pool), Ok (palette (colorIndex w))).
Proof. reflexivity. Qed.


Section Stamps.

Variables (env : Env) (h : Host).

Lemma add_as_point (f : JSON) : Editor.add_point h f = add_as h Points f.
Proof. reflexivity. Qed.

Lemma add_as_line (f : JSON) : Editor.add_line h f = add_as h Lines f.
Proof. reflexivity. Qed.

Lemma add_as_polygon (f : JSON) : Editor.add_polygon h f = add_as h Polygons f.
Proof. reflexivity. Qed.

Lemma add_shape_stamped (cl : Class) (sh : Shape) (acc : list Layer) (w : World) pool :
  exists w' l,
    run env (add_shape (class_options cl) sh acc) (w, pool)
    = ((w', pool), Ok (acc ++ [l]))
    /\ stamp l = next_stamp w /\ next_stamp w' = S (next_stamp w)
    /\ same_layers w w' /\ untouched w w'.
Proof.
  unfold add_shape.
  destruct cl; cbn [class_options polygon_options style pointToLayer];
    destruct (has_setStyle (kind sh) _);
    eexists; eexists; (split; [reflexivity|]); repeat split.
Qed.

Lemma add_shapes_stamped (cl : Class) (shapes : list Shape) :
  forall acc w pool,
  exists w' layers,
    run env (for_each_with shapes (add_shape (class_options cl)) acc) (w, pool)
    = ((w', pool), Ok (acc ++ layers))
    /\ map stamp layers = seq (next_stamp w) (List.length shapes)
    /\ next_stamp w' = next_stamp w + List.length shapes
    /\ same_layers w w' /\ untouched w w'.
Proof.
  induction shapes as [|sh shapes IH]; intros acc w pool.
  - exists w, []. cbn. rewrite app_nil_r, Nat.add_0_r. repeat split.
  - cbn [for_each_with]. rewrite run_bind.
    destruct (add_shape_stamped cl sh acc w pool)
      as (w1 & l & Hr & Hs & Hn & (H1 & H2 & H3 & H4) & (U1 & U2 & U3)).
    rewrite Hr.
    destruct (IH (acc ++ [l]) w1 pool)
      as (w' & layers & Hr' & Hs' & Hn' & (G1 & G2 & G3 & G4) & (V1 & V2 & V3)).
    rewrite Hr'. exists w', (l :: layers). rewrite <- app_assoc.
    split; [reflexivity|]. cbn [map List.length seq].
    rewrite Hs, Hs', Hn, Hn'. split; [reflexivity|]. split; [lia|].
    split; repeat split; congruence.
Qed.

Lemma L_geoJSON_stamped (cl : Class) (v : Value) (w : World) pool :
  snd (geoJSON_shapes h v) = None ->
  exists w' layers,
    run env (L_geoJSON h v (class_options cl)) (w, pool)
    = ((w', pool), Ok (mkGroup v layers None))
    /\ map stamp layers = seq (next_stamp w) (List.length layers)
    /\ List.length layers = List.length (fst (geoJSON_shapes h v))
    /\ next_stamp w' = next_stamp w + List.length layers
    /\ same_layers w w' /\ untouched w w'.
Proof.
  intros He. unfold L_geoJSON.
  destruct (geoJSON_shapes h v) as [shapes err]. cbn [fst snd] in *. subst err.
  rewrite run_bind.
  destruct (add_shapes_stamped cl shapes [] w pool)
    as (w' & layers & Hr & Hs & Hn & Hl & Hu).
  rewrite Hr. cbn [app]. exists w', layers.
  assert (Hlen : List.length layers = List.length shapes).
  { rewrite <- (length_map stamp), Hs. apply length_seq. }
  rewrite Hlen. split; [reflexivity|]. split; [exact Hs|]. split; [reflexivity|].
  split; [exact Hn|]. split; [exact Hl | exact Hu].
Qed.

End Stamps.


Section Registering.

Variables (env : Env) (h : Host).

Lemma adopt_nothing (v : Value) (l : Layer) : adopt v [] l = l.
Proof. reflexivity. Qed.

Lemma adopt_attach (v : Value) (t : Layer) (stamps : list nat) (l : Layer) :
  adopt v stamps (Editor.attach v t l) = adopt v (stamp t :: stamps) l.
Proof.
  unfold adopt, Editor.attach. cbn [existsb].
  destruct (Nat.eqb (stamp l) (stamp t)); cbn [stamp orb].
  - now destruct (existsb (Nat.eqb (stamp l)) stamps).
  - reflexivity.
Qed.

Lemma adopt_groups_attach (v : Value) (t : Layer) (stamps : list nat) (gs : list Group) :
  adopt_in_groups v stamps (Editor.attach_in_groups v t gs)
  = adopt_in_groups v (stamp t :: stamps) gs.
Proof.
  unfold adopt_in_groups, Editor.attach_in_groups. rewrite map_map.
  apply map_ext. intros g. cbn [source children popup]. f_equal.
  rewrite map_map. apply map_ext. intros l. apply adopt_attach.
Qed.

Lemma adopt_groups_nothing (v : Value) (gs : list Group) :
  adopt_in_groups v [] gs = gs.
Proof.
  unfold adopt_in_groups. rewrite <- (map_id gs) at 2. apply map_ext.
  intros [s ch p]. cbn. f_equal. rewrite <- (map_id ch) at 2. reflexivity.
Qed.

Lemma attach_other (v : Value) (t : Layer) (ls : list Layer) :
  Forall (fun x => stamp x <> stamp t) ls -> map (Editor.attach v t) ls = ls.
Proof.
  induction 1 as [|x ls Hx _ IH]; [reflexivity|]. cbn [map]. rewrite IH.
  unfold Editor.attach. now destruct (Nat.eqb_spec (stamp x) (stamp t)).
Qed.

Lemma attach_self (v : Value) (t : Layer) : Editor.attach v t t = with_feature v t.
Proof. unfold Editor.attach. now rewrite Nat.eqb_refl. Qed.

(** The loop that registers the layers of a new group. *)
Lemma register_all (f : JSON) (ls : list Layer) :
  forall w pool,
  NoDup (map stamp ls) ->
  Forall (fun x => ~ In (stamp x) (map stamp ls)) (drawnItems w) ->
  exists w',
    run env (for_each ls (Editor.make_editable f)) (w, pool) = ((w', pool), Ok tt)
    /\ pointLayer w' = adopt_in_groups (Some f) (map stamp ls) (pointLayer w)
    /\ lineLayer w' = adopt_in_groups (Some f) (map stamp ls) (lineLayer w)
    /\ polygonLayer w' = adopt_in_groups (Some f) (map stamp ls) (polygonLayer w)
    /\ drawnItems w' = drawnItems w ++ map (with_feature (Some f)) ls
    /\ next_stamp w' = next_stamp w
    /\ currentDrawing w'
       = option_map (adopt (Some f) (map stamp ls)) (currentDrawing w)
    /\ modal_display w' = modal_display w /\ form w' = form w.
Proof.
  induction ls as [|l ls IH]; intros w pool Hnd Hd.
  - exists w. cbn [for_each run map]. rewrite !adopt_groups_nothing, app_nil_r.
    repeat split. now destruct (currentDrawing w).
  - cbn [for_each]. rewrite run_bind. unfold Editor.make_editable at 1. run_simp.
    cbn [map] in *. inversion Hnd as [|s ss Hnotin Hnd']; subst.
    assert (Hd1 : Forall (fun x => stamp x <> stamp l) (drawnItems w)).
    { eapply Forall_impl; [|exact Hd]. intros x Hx E. apply Hx. now left. }
    match goal with |- context [run env (for_each ls _) (?w1, pool)] =>
      destruct (IH w1 pool Hnd') as (w' & Hr & Hp & Hl & Hq & Hdr & Hn & Hc & Hm & Hfo)
    end.
    { cbn [set_drawnItems drawnItems Editor.set_layer_feature].
      rewrite (attach_other _ _ _ Hd1), attach_self.
      rewrite (addLayer_fresh _ (drawnItems w)) by exact Hd1.
      apply Forall_app. split.
      - eapply Forall_impl; [|exact Hd]. intros x Hx Hin. apply Hx. now right.
      - constructor; [exact Hnotin | constructor]. }
    exists w'. split; [exact Hr|].
    rewrite Hp, Hl, Hq, Hdr, Hn, Hc, Hm, Hfo.
    cbn [set_drawnItems drawnItems Editor.set_layer_feature pointLayer lineLayer
         polygonLayer next_stamp currentDrawing modal_display form].
    rewrite !adopt_groups_attach, (attach_other _ _ _ Hd1), attach_self.
    rewrite (addLayer_fresh _ (drawnItems w)) by exact Hd1.
    rewrite <- app_assoc. repeat split.
    destruct (currentDrawing w) as [d|]; [|reflexivity].
    cbn [option_map]. now rewrite adopt_attach.
Qed.

Lemma adopt_old (v : Value) (n : nat) (stamps : list nat) (ls : list Layer) :
  Forall (fun l => stamp l < n) ls -> Forall (fun s => n <= s) stamps ->
  map (adopt v stamps) ls = ls.
Proof.
  intros Hl Hs. induction Hl as [|l ls Hx _ IH]; [reflexivity|].
  cbn [map]. rewrite IH. f_equal. unfold adopt.
  replace (existsb (Nat.eqb (stamp l)) stamps) with false; [reflexivity|].
  symmetry. apply not_true_is_false. intros E. apply existsb_exists in E.
  destruct E as (s & Hin & E). apply Nat.eqb_eq in E.
  rewrite Forall_forall in Hs. specialize (Hs s Hin). lia.
Qed.

Lemma adopt_new (v : Value) (more : list nat) (ls : list Layer) :
  map (adopt v (map stamp ls ++ more)) ls = map (with_feature v) ls.
Proof.
  assert (H : forall stamps, (forall l, In l ls -> In (stamp l) stamps) ->
            map (adopt v stamps) ls = map (with_feature v) ls).
  { intros stamps Hin. apply map_ext_in. intros l Hl. unfold adopt.
    replace (existsb (Nat.eqb (stamp l)) stamps) with true; [reflexivity|].
    symmetry. apply existsb_exists. exists (stamp l). split; [now apply Hin|].
    apply Nat.eqb_refl. }
  apply H. intros l Hl. apply in_or_app. left. now apply in_map.
Qed.

Lemma adopt_groups_old (v : Value) (n : nat) (stamps : list nat) (gs : list Group) :
  Forall (fun l => stamp l < n) (rendered gs) -> Forall (fun s => n <= s) stamps ->
  adopt_in_groups v stamps gs = gs.
Proof.
  intros Hl Hs. unfold adopt_in_groups, rendered in *.
  induction gs as [|g gs IH]; [reflexivity|].
  cbn [flat_map map] in *. apply Forall_app in Hl. destruct Hl as [Hg Hgs].
  rewrite (IH Hgs), (adopt_old v n stamps _ Hg Hs). now destruct g.
Qed.

End Registering.


Section Adding.

Variables (env : Env) (h : Host).

Lemma stamped_parts (w : World) :
  stamped w <->
  Forall (fun l => stamp l < next_stamp w) (drawnItems w)
  /\ forall cl, Forall (fun l => stamp l < next_stamp w) (rendered (slot cl w)).
Proof.
  unfold stamped, rendered. rewrite !flat_map_app, !Forall_app. split.
  - intros (Hd & Hp & Hl & Hq). split; [exact Hd|]. now intros [].
  - intros (Hd & H). repeat split; [exact Hd | apply (H Points) | apply (H Lines)
                                    | apply (H Polygons)].
Qed.

Lemma rendered_app (a b : list Group) : rendered (a ++ b) = rendered a ++ rendered b.
Proof. apply flat_map_app. Qed.

Lemma rendered_one (g : Group) : rendered [g] = children g.
Proof. unfold rendered. cbn. apply app_nil_r. Qed.

Lemma slot_put_same (cl : Class) (g : Group) (w : World) :
  slot cl (put cl g w) = slot cl w ++ [g].
Proof. now destruct cl. Qed.

Lemma slot_put_other (cl cl' : Class) (g : Group) (w : World) :
  cl' <> cl -> slot cl' (put cl g w) = slot cl' w.
Proof. destruct cl, cl'; intros H; try reflexivity; now destruct H. Qed.

Lemma put_frame (cl : Class) (g : Group) (w : World) :
  drawnItems (put cl g w) = drawnItems w /\ next_stamp (put cl g w) = next_stamp w.
Proof. now destruct cl. Qed.

Lemma adopt_new_all (v : Value) (ls : list Layer) :
  map (adopt v (map stamp ls)) ls = map (with_feature v) ls.
Proof. rewrite <- (app_nil_r (map stamp ls)). apply adopt_new. Qed.

Lemma seq_bounds (n k : nat) : Forall (fun s => n <= s < n + k) (seq n k).
Proof. apply Forall_forall. intros s Hs. apply in_seq in Hs. lia. Qed.

Lemma adopt_older (v : Value) (n : nat) (stamps : list nat) (d : Layer) :
  stamp d < n -> Forall (fun s => n <= s) stamps -> adopt v stamps d = d.
Proof.
  intros Hd Hs.
  assert (H := adopt_old v n stamps [d] ltac:(now constructor) Hs).
  now injection H.
Qed.

Lemma add_as_spec (cl : Class) (f : JSON) (w : World) pool :
  renderable h f -> stamped w ->
  exists w' ls html,
    run env (add_as h cl f) (w, pool) = ((w', pool), Ok tt)
    /\ createPopupContent (Some f) = Ok html
    /\ slot cl w' = slot cl w ++ [mkGroup (Some f) ls (Some html)]
    /\ (forall cl', cl' <> cl -> slot cl' w' = slot cl' w)
    /\ drawnItems w' = drawnItems w ++ ls
    /\ Forall (fun l => feature l = Some f) ls
    /\ List.length ls = List.length (fst (geoJSON_shapes h (Some f)))
    /\ stamped w'
    /\ keeps_pending w w'
    /\ fresh_since w ls.
Proof.
  intros ([t Ht] & [html Hhtml] & Hshapes) Hw.
  apply stamped_parts in Hw. destruct Hw as [Hwd Hwg].
  unfold add_as. rewrite run_bind.
  destruct (L_geoJSON_stamped env h cl (Some f) w pool Hshapes)
    as (w1 & layers & Hr & Hst & Hlen & Hn & (S1 & S2 & S3 & S4) & (U1 & U2 & U3)).
  rewrite Hr, run_bind, run_lift, Hhtml, run_bind, run_modify. cbn [fst snd].
  set (g := bindPopup (mkGroup (Some f) layers None) html).
  assert (Hslots : forall cl', slot cl' w1 = slot cl' w) by (now intros []).
  assert (Hge : Forall (fun s => next_stamp w <= s) (map stamp layers)).
  { rewrite Hst. eapply Forall_impl; [|apply seq_bounds]. cbn. intros; lia. }
  destruct (register_all env f (children g) (put cl g w1) pool)
    as (w' & Hreg & Hp & Hl & Hq & Hd & Hn' & Hc & Hm & Hfo).
  { cbn [g bindPopup children]. rewrite Hst. apply seq_NoDup. }
  { destruct (put_frame cl g w1) as [-> _]. rewrite S4.
    cbn [g bindPopup children].
    eapply Forall_impl; [|exact Hwd]. cbn. intros x Hx Hin.
    rewrite Forall_forall in Hge. specialize (Hge _ Hin). lia. }
  rewrite Hreg. cbn [g bindPopup children] in *.
  exists w', (map (with_feature (Some f)) layers), html.
  split; [reflexivity|]. split; [reflexivity|].
  assert (Hslot' : forall cl', slot cl' w'
            = adopt_in_groups (Some f) (map stamp layers) (slot cl' (put cl g w1)))
    by (now intros []).
  assert (Hold : forall cl', adopt_in_groups (Some f) (map stamp layers) (slot cl' w)
                             = slot cl' w).
  { intros cl'. now apply adopt_groups_old with (n := next_stamp w). }
  assert (Hcl : slot cl w' = slot cl w ++ [mkGroup (Some f)
                  (map (with_feature (Some f)) layers) (Some html)]).
  { rewrite Hslot', slot_put_same, Hslots. unfold adopt_in_groups at 1.
    rewrite map_app. fold (adopt_in_groups (Some f) (map stamp layers) (slot cl w)).
    rewrite Hold. cbn [map g bindPopup source children popup].
    now rewrite adopt_new_all. }
  assert (Hother : forall cl', cl' <> cl -> slot cl' w' = slot cl' w).
  { intros cl' Hne. now rewrite Hslot', (slot_put_other cl cl' g w1 Hne), Hslots, Hold. }
  assert (Hdrawn : drawnItems w' = drawnItems w ++ map (with_feature (Some f)) layers).
  { rewrite Hd. destruct (put_frame cl g w1) as [-> _]. now rewrite S4. }
  split; [exact Hcl|]. split; [exact Hother|]. split; [exact Hdrawn|].
  split; [apply Forall_forall; intros l Hl'; apply in_map_iff in Hl';
          destruct Hl' as (x & <- & _); reflexivity|].
  split; [now rewrite length_map|].
  assert (Hnext : next_stamp w' = next_stamp w + List.length layers).
  { rewrite Hn'. destruct (put_frame cl g w1) as [_ ->]. exact Hn. }
  assert (Hnew : Forall (fun l => stamp l < next_stamp w')
                   (map (with_feature (Some f)) layers)).
  { rewrite Hnext. apply Forall_forall. intros l Hl'. apply in_map_iff in Hl'.
    destruct Hl' as (x & <- & Hx). cbn [with_feature stamp].
    assert (Hin : In (stamp x) (seq (next_stamp w) (List.length layers)))
      by (rewrite <- Hst; now apply in_map).
    apply in_seq in Hin. lia. }
  assert (Hmono : forall ls, Forall (fun l => stamp l < next_stamp w) ls ->
                             Forall (fun l => stamp l < next_stamp w') ls).
  { intros ls. apply Forall_impl. intros l. rewrite Hnext. lia. }
  assert (Hput : currentDrawing (put cl g w1) = currentDrawing w
                 /\ modal_display (put cl g w1) = modal_display w
                 /\ form (put cl g w1) = form w).
  { destruct cl; cbn; auto. }
  destruct Hput as (Q1 & Q2 & Q3).
  split; [|split].
  - apply stamped_parts. split.
    + rewrite Hdrawn. apply Forall_app. auto.
    + intros cl'. destruct (class_eqb cl' cl) eqn:E.
      * assert (cl' = cl) as -> by (destruct cl', cl; try discriminate; reflexivity).
        rewrite Hcl, rendered_app, rendered_one. cbn [children].
        apply Forall_app. auto.
      * rewrite Hother; [auto|]. intros ->. now destruct cl.
  - unfold keeps_pending. rewrite Hnext, Hm, Hfo, Q2, Q3.
    split; [lia|]. split; [reflexivity|]. split; [reflexivity|].
    intros d Hd1 Hd2. rewrite Hc, Q1, Hd1. cbn [option_map]. f_equal.
    now apply adopt_older with (n := next_stamp w).
  - unfold fresh_since. apply Forall_forall. intros l Hl'. apply in_map_iff in Hl'.
    destruct Hl' as (x & <- & Hx). cbn [with_feature stamp].
    rewrite Forall_forall in Hge. apply Hge. now apply in_map.
Qed.

End Adding.


Section Loops.

Variables (env : Env) (h : Host).

Lemma registers_nothing (cl : Class) (w : World) : registers cl [] w w.
Proof. unfold registers. cbn. rewrite !app_nil_r. auto. Qed.

Lemma registers_trans (cl : Class) (a b : list Group) (w1 w2 w3 : World) :
  registers cl a w1 w2 -> registers cl b w2 w3 -> registers cl (a ++ b) w1 w3.
Proof.
  intros (A1 & A2 & A3) (B1 & B2 & B3). unfold registers.
  rewrite B1, A1, B3, A3, rendered_app, !app_assoc. repeat split.
  intros cl' Hne. now rewrite B2, A2.
Qed.

Lemma keeps_pending_refl (w : World) : keeps_pending w w.
Proof. unfold keeps_pending. auto. Qed.

Lemma keeps_pending_trans (w1 w2 w3 : World) :
  keeps_pending w1 w2 -> keeps_pending w2 w3 -> keeps_pending w1 w3.
Proof.
  intros (A1 & A2 & A3 & A4) (B1 & B2 & B3 & B4). unfold keeps_pending.
  split; [lia|]. split; [congruence|]. split; [congruence|].
  intros d Hd Hs. apply B4; [now apply A4 | lia].
Qed.

Lemma keeps_pending_frame (w w' : World) :
  next_stamp w' = next_stamp w -> modal_display w' = modal_display w ->
  form w' = form w -> currentDrawing w' = currentDrawing w ->
  keeps_pending w w'.
Proof. unfold keeps_pending. intros -> -> -> ->. auto. Qed.

Lemma renders_nothing (w : World) : stamped w -> renders [] w w.
Proof.
  intros Hw. split; [exact Hw|]. split; [apply keeps_pending_refl | constructor].
Qed.

Lemma renders_trans (a b : list Group) (w1 w2 w3 : World) :
  renders a w1 w2 -> renders b w2 w3 -> renders (a ++ b) w1 w3.
Proof.
  intros (_ & A2 & A3) (B1 & B2 & B3). split; [exact B1|].
  split; [exact (keeps_pending_trans w1 w2 w3 A2 B2)|].
  unfold fresh_since in *. rewrite rendered_app. apply Forall_app.
  split; [exact A3|]. eapply Forall_impl; [|exact B3].
  intros l Hl. destruct A2 as [A2 _]. cbn in Hl. lia.
Qed.

Lemma add_as_registers (cl : Class) (f : JSON) (w : World) pool :
  renderable h f -> stamped w ->
  exists w' g,
    run env (add_as h cl f) (w, pool) = ((w', pool), Ok tt)
    /\ registers cl [g] w w' /\ owns g f /\ shows g f
    /\ List.length (children g) = List.length (fst (geoJSON_shapes h (Some f)))
    /\ renders [g] w w'.
Proof.
  intros Hf Hw.
  destruct (add_as_spec env h cl f w pool Hf Hw)
    as (w' & ls & html & Hr & Hh & Hs & Ho & Hd & Hfe & Hlen & Hst & Hk & Hfr).
  exists w', (mkGroup (Some f) ls (Some html)).
  split; [exact Hr|]. split.
  - unfold registers. rewrite rendered_one. auto.
  - split; [split; [reflexivity | exact Hfe]|].
    split; [split; [reflexivity | exists html; auto]|].
    split; [exact Hlen|]. unfold renders. rewrite rendered_one. auto.
Qed.

Lemma add_all_registers (cl : Class) (fs : list JSON) :
  forall w pool, Forall (renderable h) fs -> stamped w ->
  exists w' gs,
    run env (for_each fs (add_as h cl)) (w, pool) = ((w', pool), Ok tt)
    /\ registers cl gs w w' /\ Forall2 owns gs fs /\ renders gs w w'.
Proof.
  induction fs as [|f fs IH]; intros w pool Hall Hw.
  - exists w, []. split; [reflexivity|]. split; [apply registers_nothing|].
    split; [constructor | now apply renders_nothing].
  - inversion Hall as [|f' fs' Hf Hfs]; subst. cbn [for_each]. rewrite run_bind.
    destruct (add_as_registers cl f w pool Hf Hw)
      as (w1 & g & Hr & Hreg & Ho & _ & _ & Hw1).
    rewrite Hr.
    destruct (IH w1 pool Hfs (proj1 Hw1)) as (w' & gs & Hr' & Hreg' & Ho' & Hw').
    rewrite Hr'. exists w', (g :: gs). split; [reflexivity|].
    split; [exact (registers_trans cl [g] gs w w1 w' Hreg Hreg')|].
    split; [now constructor|].
    exact (renders_trans [g] gs w w1 w' Hw1 Hw').
Qed.

Lemma classify_registers (f : JSON) (pts pls : list JSON) (w : World) pool :
  renderable h f -> stamped w ->
  exists w' gs,
    run env (Editor.classify h f (pts, pls)) (w, pool)
    = ((w', pool), Ok (pts ++ filter (of_class Points) [f],
                       pls ++ filter (of_class Polygons) [f]))
    /\ registers Lines gs w w'
    /\ Forall2 owns gs (filter (of_class Lines) [f])
    /\ renders gs w w'.
Proof.
  intros Hf Hw. pose proof Hf as [[t Ht] _].
  cbn [filter]. rewrite !(of_class_tag _ f t Ht).
  unfold Editor.classify. run_simp.
  unfold tag in Ht.
  destruct (get_prop (Some f) "properties") as [props|e]; [|discriminate].
  cbn [rbind] in Ht. run_simp. rewrite Ht. run_simp.
  destruct (strict_eq t (Some (JStr "ST_Point"))) eqn:E1.
  { rewrite (class_of_point t E1). cbn [class_eqb run].
    exists w, []. rewrite app_nil_r. split; [reflexivity|].
    split; [apply registers_nothing|].
    split; [constructor | now apply renders_nothing]. }
  destruct (strict_eq t (Some (JStr "ST_LineString"))
            || strict_eq t (Some (JStr "ST_MultiLineString"))) eqn:E2.
  - rewrite (class_of_line t E1 E2). cbn [class_eqb]. rewrite !app_nil_r.
    rewrite run_bind, add_as_line.
    destruct (add_as_registers Lines f w pool Hf Hw)
      as (w' & g & Hr & Hreg & Ho & _ & _ & Hw').
    rewrite Hr. cbn [run]. exists w', [g]. split; [reflexivity|].
    split; [exact Hreg|]. split; [constructor; [exact Ho | constructor] | exact Hw'].
  - rewrite (class_of_polygon t E1 E2). cbn [class_eqb run].
    exists w, []. rewrite app_nil_r. split; [reflexivity|].
    split; [apply registers_nothing|].
    split; [constructor | now apply renders_nothing].
Qed.

Lemma filter_cons_app {X} (keep : X -> bool) (x : X) (xs : list X) :
  filter keep (x :: xs) = filter keep [x] ++ filter keep xs.
Proof. cbn [filter]. now destruct (keep x). Qed.

Lemma classify_all_registers (items : list JSON) :
  forall pts pls w pool, Forall (renderable h) items -> stamped w ->
  exists w' gs,
    run env (for_each_with items (Editor.classify h) (pts, pls)) (w, pool)
    = ((w', pool), Ok (pts ++ filter (of_class Points) items,
                       pls ++ filter (of_class Polygons) items))
    /\ registers Lines gs w w'
    /\ Forall2 owns gs (filter (of_class Lines) items)
    /\ renders gs w w'.
Proof.
  induction items as [|f items IH]; intros pts pls w pool Hall Hw.
  - exists w, []. cbn. rewrite !app_nil_r. split; [reflexivity|].
    split; [apply registers_nothing|].
    split; [constructor | now apply renders_nothing].
  - inversion Hall as [|f' fs' Hf Hfs]; subst. cbn [for_each_with].
    rewrite run_bind.
    destruct (classify_registers f pts pls w pool Hf Hw)
      as (w1 & g1 & Hr & Hreg & Ho & Hw1).
    rewrite Hr.
    destruct (IH (pts ++ filter (of_class Points) [f])
                 (pls ++ filter (of_class Polygons) [f]) w1 pool Hfs (proj1 Hw1))
      as (w' & gs & Hr' & Hreg' & Ho' & Hw').
    rewrite Hr'. exists w', (g1 ++ gs).
    rewrite !(filter_cons_app _ f items), !app_assoc.
    split; [reflexivity|].
    split; [exact (registers_trans Lines g1 gs w w1 w' Hreg Hreg')|].
    split; [now apply Forall2_app|].
    exact (renders_trans g1 gs w w1 w' Hw1 Hw').
Qed.

End Loops.


Section Registered.

Variables (env : Env) (h : Host).

Lemma stamped_frame (w w' : World) :
  drawnItems w' = drawnItems w -> pointLayer w' = pointLayer w ->
  lineLayer w' = lineLayer w -> polygonLayer w' = polygonLayer w ->
  next_stamp w' = next_stamp w -> stamped w -> stamped w'.
Proof. unfold stamped. now intros -> -> -> -> ->. Qed.

Lemma renders_frame (gs : list Group) (w0 w w' : World) :
  drawnItems w' = drawnItems w -> pointLayer w' = pointLayer w ->
  lineLayer w' = lineLayer w -> polygonLayer w' = polygonLayer w ->
  next_stamp w' = next_stamp w -> modal_display w' = modal_display w ->
  form w' = form w -> currentDrawing w' = currentDrawing w ->
  renders gs w0 w -> renders gs w0 w'.
Proof.
  intros E1 E2 E3 E4 E5 E6 E7 E8 (A & B & C). split.
  - revert A. now apply stamped_frame.
  - split; [|exact C].
    apply (keeps_pending_trans w0 w w' B). now apply keeps_pending_frame.
Qed.

Lemma renders_before (gs : list Group) (w0 w w' : World) :
  next_stamp w = next_stamp w0 -> modal_display w = modal_display w0 ->
  form w = form w0 -> currentDrawing w = currentDrawing w0 ->
  renders gs w w' -> renders gs w0 w'.
Proof.
  intros E5 E6 E7 E8 (A & B & C). split; [exact A|]. split.
  - apply (keeps_pending_trans w0 w w'); [|exact B].
    now apply keeps_pending_frame.
  - unfold fresh_since in *. now rewrite <- E5.
Qed.

Lemma editor_render_registers (items : list JSON) (w : World) pool :
  Forall (renderable h) items -> stamped w ->
  exists w' L P G,
    run env (Editor.render h (Some (JArr items))) (w, pool)
    = ((w', pool), Threw no_getLatLng)
    /\ loaded items L P G w w' /\ renders (L ++ P ++ G) w w'.
Proof.
  intros Hall Hw. unfold Editor.render. run_simp. cbn [as_array]. run_simp.
  destruct (classify_all_registers env h items [] [] w pool Hall Hw)
    as (w1 & L & Hr1 & (L1 & L2 & L3) & HL & Hw1).
  rewrite Hr1. cbn [app]. rewrite run_bind.
  change (Editor.add_point h) with (add_as h Points).
  destruct (add_all_registers env h Points (filter (of_class Points) items) w1 pool)
    as (w2 & P & Hr2 & (P1 & P2 & P3) & HP & Hw2);
    [now apply Forall_filter | exact (proj1 Hw1) |].
  rewrite Hr2, run_bind.
  change (Editor.add_polygon h) with (add_as h Polygons).
  destruct (add_all_registers env h Polygons (filter (of_class Polygons) items) w2 pool)
    as (w3 & G & Hr3 & (G1 & G2 & G3) & HG & Hw3);
    [now apply Forall_filter | exact (proj1 Hw2) |].
  rewrite Hr3, run_bind, fit_bounds_throws.
  assert (Hloaded : loaded items L P G w w3).
  { assert (GL := G2 Lines ltac:(discriminate)).
    assert (GP := G2 Points ltac:(discriminate)).
    assert (PL := P2 Lines ltac:(discriminate)).
    assert (PG := P2 Polygons ltac:(discriminate)).
    assert (LP := L2 Points ltac:(discriminate)).
    assert (LG := L2 Polygons ltac:(discriminate)).
    unfold loaded. cbn [slot] in *.
    rewrite GL, PL, L1, GP, P1, LP, G1, PG, LG, G3, P3, L3, <- !app_assoc.
    repeat split; assumption. }
  exists w3, L, P, G. split; [reflexivity|]. split; [exact Hloaded|].
  exact (renders_trans L (P ++ G) w w1 w3 Hw1 (renders_trans P G w1 w2 w3 Hw2 Hw3)).
Qed.

Lemma loaded_frame (items : list JSON) (L P G : list Group) (w0 w w' : World) :
  drawnItems w' = drawnItems w -> pointLayer w' = pointLayer w ->
  lineLayer w' = lineLayer w -> polygonLayer w' = polygonLayer w ->
  loaded items L P G w0 w -> loaded items L P G w0 w'.
Proof. unfold loaded. now intros -> -> -> ->. Qed.

Lemma loaded_before (items : list JSON) (L P G : list Group) (w0 w w' : World) :
  drawnItems w = drawnItems w0 -> pointLayer w = pointLayer w0 ->
  lineLayer w = lineLayer w0 -> polygonLayer w = polygonLayer w0 ->
  loaded items L P G w w' -> loaded items L P G w0 w'.
Proof. unfold loaded. now intros -> -> -> ->. Qed.

Lemma editor_load_registers (w : World) pool r fields items :
  server env (trace w) pois_request = Resolved r ->
  json r = Ok (JObj fields) ->
  lookup "features" fields = Some (JArr items) ->
  Forall (renderable h) items ->
  stamped w ->
  exists w' L P G,
    run env (Editor.loadPOIs h) (w, pool) = ((w', pool), Ok tt)
    /\ loaded items L P G w w' /\ renders (L ++ P ++ G) w w'.
Proof.
  intros Hs Hj Hf Hall Hw.
  unfold Editor.loadPOIs. rewrite run_try_catch, run_bind, run_fetch.
  fold pois_request. cbn [fst]. rewrite Hs.
  rewrite run_bind, run_response_json, Hj, run_bind, run_lift.
  cbn [get_prop]. rewrite Hf, run_bind, run_lift, no_features_array.
  destruct items as [|f items].
  - rewrite run_modify. unfold log. cbn [fst snd].
    eexists; exists [], [], []. split; [reflexivity|]. split.
    + unfold loaded. cbn. rewrite !app_nil_r. repeat split; constructor.
    + apply (renders_frame [] w w); try reflexivity. now apply renders_nothing.
  - rewrite run_bind, run_lift. cbn [get_prop String.eqb Ascii.eqb Bool.eqb].
    rewrite run_bind, run_lift. cbn [to_string json_to_string].
    rewrite run_bind, run_modify. unfold log. cbn [fst snd].
    match goal with |- context [run env (Editor.render h _) (?w1, pool)] =>
      destruct (editor_render_registers (f :: items) w1 pool Hall)
        as (w' & L & P & G & Hr & Hl & Hw')
    end.
    { revert Hw. apply stamped_frame; reflexivity. }
    rewrite Hr. unfold console_error. run_simp. unfold log. cbn [fst snd].
    eexists; exists L, P, G. split; [reflexivity|]. split.
    + apply (loaded_frame (f :: items) L P G w w'); try reflexivity.
      revert Hl. apply loaded_before; reflexivity.
    + apply (renders_frame (L ++ P ++ G) w w'); try reflexivity.
      revert Hw'. apply renders_before; reflexivity.
Qed.

Lemma owned_layers (gs : list Group) (fs : list JSON) :
  Forall2 owns gs fs ->
  Forall (fun l => exists f, In f fs /\ feature l = Some f) (rendered gs).
Proof.
  induction 1 as [|g f gs fs [_ Hg] _ IH]; [constructor|].
  unfold rendered. cbn [flat_map]. apply Forall_app. split.
  - eapply Forall_impl; [|exact Hg]. intros l Hl. exists f. split; [now left | exact Hl].
  - eapply Forall_impl; [|exact IH]. intros l (f' & Hin & Hl). exists f'.
    split; [now right | exact Hl].
Qed.

End Registered.


Section Failing.

Variables (env : Env) (h : Host).

(** A load of a collection that is not empty ends in its [catch] block. *)
Lemma editor_load_gives_up (c : Config) r fields items :
  server env (trace (fst c)) pois_request = Resolved r ->
  json r = Ok (JObj fields) ->
  lookup "features" fields = Some (JArr items) ->
  items <> [] ->
  exists c1 e,
    run env (Editor.loadPOIs h) c = ((gave_up e (fst c1), snd c1), Ok tt).
Proof.
  intros Hs Hj Hf Hn.
  unfold Editor.loadPOIs. rewrite run_try_catch, run_bind, run_fetch.
  fold pois_request. rewrite Hs.
  rewrite run_bind, run_response_json, Hj, run_bind, run_lift.
  cbn [get_prop]. rewrite Hf, run_bind, run_lift, no_features_array.
  destruct items as [|f items]; [congruence|].
  rewrite run_bind, run_lift. cbn [get_prop String.eqb Ascii.eqb Bool.eqb].
  rewrite run_bind, run_lift. cbn [to_string json_to_string].
  rewrite run_bind, run_modify.
  match goal with |- context [run env (Editor.render h ?v) ?c1] =>
    destruct (editor_render_frame env h v c1) as (c' & e & Hr & _)
  end.
  rewrite Hr. unfold console_error. run_simp. exists c', e. reflexivity.
Qed.

Lemma viewer_load_gives_up (c : Config) r fields items :
  server env (trace (fst c)) pois_request = Resolved r ->
  json r = Ok (JObj fields) ->
  lookup "features" fields = Some (JArr items) ->
  items <> [] ->
  exists c1 e,
    run env (Viewer.loadPOIs h) c = ((gave_up e (fst c1), snd c1), Ok tt).
Proof.
  intros Hs Hj Hf Hn.
  unfold Viewer.loadPOIs. rewrite run_try_catch, run_bind, run_fetch.
  fold pois_request. rewrite Hs.
  rewrite run_bind, run_response_json, Hj, run_bind, run_lift.
  cbn [get_prop]. rewrite Hf, run_bind, run_lift, no_features_array.
  destruct items as [|f items]; [congruence|].
  rewrite run_bind, run_lift. cbn [get_prop String.eqb Ascii.eqb Bool.eqb].
  rewrite run_bind, run_lift. cbn [to_string json_to_string].
  rewrite run_bind, run_modify.
  match goal with |- context [run env (Viewer.render h ?v) ?c1] =>
    destruct (viewer_render_frame env h v c1) as (c' & e & Hr & _)
  end.
  rewrite Hr. unfold console_error. run_simp. exists c', e. reflexivity.
Qed.

End Failing.

Section Styles.

Variable h : Host.

Lemma styles_attach (P : Layer -> Prop) (v : Value) (t : Layer) (gs : list Group) :
  (forall l, P l -> P (Editor.attach v t l)) ->
  Forall P (rendered gs) -> Forall P (rendered (Editor.attach_in_groups v t gs)).
Proof.
  intros HP. unfold rendered, Editor.attach_in_groups.
  induction gs as [|g gs IH]; cbn [map flat_map children]; [auto|].
  rewrite !Forall_app. intros [Hg Hgs]. split; [|auto].
  rewrite Forall_forall in *. intros l Hl. apply in_map_iff in Hl.
  destruct Hl as (x & <- & Hx). auto.
Qed.

Lemma rendered_snoc (gs : list Group) (g : Group) :
  rendered (gs ++ [g]) = rendered gs ++ children g.
Proof. unfold rendered. rewrite flat_map_app. cbn. now rewrite app_nil_r. Qed.

Lemma styles_load_editor : ensures class_styles anything (Editor.loadPOIs h).
Proof.
  apply keeps_editor_load; try (intros; assumption).
  - intros f g w _ Hd [Hp Hl]. split; [|exact Hl].
    cbn [set_pointLayer pointLayer]. rewrite rendered_snoc. apply Forall_app.
    split; [exact Hp|]. eapply Forall_impl; [|exact Hd].
    intros l Hw Hm. unfold wears in Hw. cbn in Hw. now rewrite Hw, Hm.
  - intros f g w _ Hd [Hp Hl]. split; [exact Hp|].
    cbn [set_lineLayer lineLayer]. rewrite rendered_snoc. apply Forall_app.
    split; [exact Hl|]. eapply Forall_impl; [|exact Hd].
    intros l Hw Hm. unfold wears in Hw. cbn in Hw. rewrite Hw, Hm. reflexivity.
  - intros f l w _ [Hp Hl]. split;
      cbn [Editor.set_layer_feature pointLayer lineLayer];
      (apply styles_attach; [|assumption]);
      intros x Hx; unfold Editor.attach;
      destruct (Nat.eqb (stamp x) (stamp l)); exact Hx.
Qed.

Lemma styles_load_viewer : ensures class_styles anything (Viewer.loadPOIs h).
Proof.
  apply keeps_viewer_load; try (intros; assumption).
  intros f g w _ Hd [Hp Hl]. split; [|exact Hl].
  cbn [set_pointLayer pointLayer]. rewrite rendered_snoc. apply Forall_app.
  split; [exact Hp|]. eapply Forall_impl; [|exact Hd].
  intros l Hw Hm. unfold wears in Hw. cbn in Hw. now rewrite Hw, Hm.
Qed.

End Styles.


Section Sessions.

Variables (env : Env) (h : Host) (I : World -> Prop).

(** A page property that a handler and everything it leaves suspended
    keep holds however the suspended calls are resumed. *)
Lemma session_keeps (p : Prog unit) (w : World) (c' c'' : Config)
    (st : Paused unit) :
  ensures I anything p -> I w ->
  exec env p (w, []) = (c', st) -> resumes env (park st c') c'' ->
  I (fst c'').
Proof.
  intros Hp Hw He Hr.
  pose proof (exec_ensures env I p anything (w, []) Hp Hw) as H.
  rewrite He in H. cbn [fst snd] in H. destruct H as (H1 & H2 & H3).
  refine (proj1 (resumes_ensures env I _ _ Hr _ _)).
  - destruct st; exact H1.
  - apply keeps_park; [exact H2 | apply H3; constructor].
Qed.

End Sessions.

Section StylesHandlers.

Variable h : Host.

Lemma styles_handler (p : Prog unit) :
  handler h p -> ensures class_styles anything p.
Proof.
  intros Hp. apply keeps_handler with (h := h) (acceptable := fun _ => True).
  - intros; assumption.
  - apply styles_load_editor.
  - cbn. split; [|split; [|split; [|split; [|split]]]]; try exact Logic.I;
      intros w [H1 H2]; split; try assumption; constructor.
  - cbn. split; [intros; assumption|]. split; [intros; assumption|].
    intros w Hw. destruct (currentDrawing w); cbn; [|exact Logic.I].
    split; [intros; assumption|]. split; [intros; assumption | exact Logic.I].
  - intros; assumption.
  - intros layer _. cbn. split; [intros; assumption|].
    split; [intros; assumption|]. split; [intros; assumption|].
    split; [intros; assumption | exact Logic.I].
  - exact Hp.
  - intros; exact Logic.I.
Qed.

End StylesHandlers.


Section Closed.

Variables (env : Env) (h : Host).

Lemma closed_load_editor (f : Form) :
  ensures (closed f) anything (Editor.loadPOIs h).
Proof.
  apply keeps_editor_load; try (intros; assumption).
  intros x l w _ (H1 & H2 & H3). unfold closed.
  cbn [Editor.set_layer_feature currentDrawing modal_display form].
  rewrite H1. auto.
Qed.

Lemma closed_after_load (f : Form) (c : Config) :
  closed f (fst c) ->
  exists c', run env (Editor.loadPOIs h) c = (c', Ok tt) /\ closed f (fst c').
Proof.
  intros Hc. destruct (editor_load_outline env h c) as (c' & Hr & _).
  exists c'. split; [exact Hr|].
  pose proof (run_ensures env (closed f) (Editor.loadPOIs h) anything c
                (closed_load_editor f) Hc) as (Hi & _).
  now rewrite Hr in Hi.
Qed.

End Closed.


Section Colours.

Variables (env : Env) (h : Host).

Lemma coloured_snoc (gs : list Group) (fs : list JSON) (g : Group) (f : JSON) :
  forall start,
  coloured start gs fs -> painted_as (start + List.length fs) g f ->
  coloured start (gs ++ [g]) (fs ++ [f]).
Proof.
  revert fs. induction gs as [|g0 gs IH]; intros [|f0 fs] start; cbn [coloured];
    try contradiction.
  - intros _ Hg. cbn [List.length] in Hg. rewrite Nat.add_0_r in Hg.
    cbn [app coloured]. auto.
  - intros [H0 Hrest] Hg. cbn [app coloured]. split; [exact H0|].
    apply IH; [exact Hrest|]. cbn [List.length] in Hg.
    now replace (S start + List.length fs) with (start + S (List.length fs)) by lia.
Qed.

Lemma painted_attach (i : nat) (v : Value) (t : Layer) (g : Group) (f : JSON) :
  painted_as i g f ->
  painted_as i (mkGroup (source g) (map (Editor.attach v t) (children g)) (popup g)) f.
Proof.
  intros (Hs & l & Hc & Hk & Ho). split; [exact Hs|].
  exists (Editor.attach v t l). cbn [children]. rewrite Hc. split; [reflexivity|].
  unfold Editor.attach. destruct (Nat.eqb (stamp l) (stamp t)); auto.
Qed.

Lemma coloured_attach (v : Value) (t : Layer) (gs : list Group) :
  forall fs start,
  coloured start gs fs -> coloured start (Editor.attach_in_groups v t gs) fs.
Proof.
  induction gs as [|g gs IH]; intros [|f fs] start; cbn [coloured];
    try contradiction; [auto|].
  intros [Hg Hrest]. cbn [Editor.attach_in_groups map coloured].
  split; [now apply painted_attach | now apply IH].
Qed.

Lemma coloured_length (gs : list Group) :
  forall fs start, coloured start gs fs -> List.length gs = List.length fs.
Proof.
  induction gs as [|g gs IH]; intros [|f fs] start; cbn [coloured];
    try contradiction; [reflexivity|].
  intros [_ H]. cbn [List.length]. f_equal. exact (IH fs (S start) H).
Qed.

Lemma coloured_nth (gs : list Group) :
  forall fs start i f,
  coloured start gs fs -> nth_error fs i = Some f ->
  exists g, nth_error gs i = Some g /\ painted_as (start + i) g f.
Proof.
  induction gs as [|g gs IH]; intros [|f0 fs] start i f; cbn [coloured];
    try contradiction.
  - intros _ H. destruct i; discriminate.
  - intros [Hg Hrest] Hi. destruct i as [|i]; cbn [nth_error] in *.
    + injection Hi as <-. exists g. now rewrite Nat.add_0_r.
    + destruct (IH fs (S start) i f Hrest Hi) as (g' & Hn & Hp).
      exists g'. split; [exact Hn|].
      now replace (start + S i) with (S start + i) by lia.
Qed.

Lemma merged_polygon_style (i : nat) :
  setStyle Path no_style
    (mkStyle None (nth_error polygonColors (i mod List.length polygonColors))
       (nth_error polygonColors (i mod List.length polygonColors))
       (Some 2%Z) (Some (4 # 5)%Q) (Some (1 # 2)%Q))
  = polygon_style i.
Proof.
  unfold polygon_style, palette, setStyle, merge_style, no_style.
  change (List.length polygonColors) with 10. cbn [radius fillColor color weight
    opacity fillOpacity].
  now destruct (nth_error polygonColors (i mod 10)).
Qed.

(** [L.geoJSON] on the polygon path, for a feature drawn as one path. *)
Lemma L_geoJSON_path (v : Value) (sh : Shape) (w : World) pool :
  geoJSON_shapes h v = ([sh], None) -> kind sh = Path ->
  run env (L_geoJSON h v polygon_options) (w, pool)
  = ((set_next_stamp (S (next_stamp w)) (set_colorIndex (S (colorIndex w)) w), pool),
     Ok (mkGroup v [mkLayer (next_stamp w) Path (shape_feature sh)
                      (shape_geometry sh) (polygon_style (colorIndex w))] None)).
Proof.
  intros Hs Hk. unfold L_geoJSON. rewrite Hs. cbn [for_each_with].
  unfold add_shape, polygon_options. cbn [style pointToLayer]. rewrite Hk.
  cbn [has_setStyle]. unfold getPolygonStyle, getPolygonColor.
  run_simp. cbn [app]. now rewrite merged_polygon_style.
Qed.

Lemma path_shapes (f : JSON) :
  renderable h f -> drawn_as_path h f ->
  exists sh, geoJSON_shapes h (Some f) = ([sh], None) /\ kind sh = Path.
Proof.
  intros (_ & _ & He) (sh & Hs & Hk). exists sh. split; [|exact Hk].
  destruct (geoJSON_shapes h (Some f)) as [shapes err]. cbn [fst snd] in *.
  now subst.
Qed.

Lemma editor_add_polygon_path (f : JSON) (w : World) pool (done : list JSON) :
  renderable h f -> drawn_as_path h f ->
  coloured 0 (polygonLayer w) done -> colorIndex w = List.length done ->
  exists w',
    run env (Editor.add_polygon h f) (w, pool) = ((w', pool), Ok tt)
    /\ coloured 0 (polygonLayer w') (done ++ [f])
    /\ colorIndex w' = List.length (done ++ [f]).
Proof.
  intros Hf Hp Hc Hi. destruct (path_shapes f Hf Hp) as (sh & Hs & Hk).
  destruct Hf as (_ & [html Hh] & _).
  unfold Editor.add_polygon. fold polygon_options.
  rewrite run_bind, (L_geoJSON_path (Some f) sh w pool Hs Hk).
  rewrite run_bind, run_lift, Hh, run_bind, run_modify. cbn [fst snd].
  cbn [bindPopup children for_each]. unfold Editor.make_editable. run_simp.
  eexists. split; [reflexivity|].
  cbn [polygonLayer colorIndex Editor.set_layer_feature set_drawnItems
       set_polygonLayer set_next_stamp set_colorIndex].
  split; [|rewrite length_app, Hi; cbn; lia].
  apply coloured_attach, coloured_snoc; [exact Hc|].
  split; [reflexivity|]. eexists. cbn [children source].
  split; [reflexivity|]. cbn [shape options]. rewrite Hi. auto.
Qed.

Lemma viewer_add_polygon_path (f : JSON) (w : World) pool (done : list JSON) :
  renderable h f -> drawn_as_path h f ->
  coloured 0 (polygonLayer w) done -> colorIndex w = List.length done ->
  exists w',
    run env (Viewer.add_polygon h f) (w, pool) = ((w', pool), Ok tt)
    /\ coloured 0 (polygonLayer w') (done ++ [f])
    /\ colorIndex w' = List.length (done ++ [f]).
Proof.
  intros Hf Hp Hc Hi. destruct (path_shapes f Hf Hp) as (sh & Hs & Hk).
  destruct Hf as (_ & [html Hh] & _).
  unfold Viewer.add_polygon. fold polygon_options.
  rewrite run_bind, (L_geoJSON_path (Some f) sh w pool Hs Hk).
  rewrite run_bind, run_lift, Hh, run_modify. cbn [fst snd].
  eexists. split; [reflexivity|].
  cbn [polygonLayer colorIndex set_polygonLayer set_next_stamp set_colorIndex].
  split; [|rewrite length_app, Hi; cbn; lia].
  apply coloured_snoc; [exact Hc|].
  split; [reflexivity|]. eexists. cbn [children source bindPopup].
  split; [reflexivity|]. cbn [shape options]. rewrite Hi. auto.
Qed.

Lemma polygons_loop (add : JSON -> Prog unit) (fs : list JSON) :
  (forall f w pool done,
     renderable h f -> drawn_as_path h f ->
     coloured 0 (polygonLayer w) done -> colorIndex w = List.length done ->
     exists w',
       run env (add f) (w, pool) = ((w', pool), Ok tt)
       /\ coloured 0 (polygonLayer w') (done ++ [f])
       /\ colorIndex w' = List.length (done ++ [f])) ->
  forall w pool done,
  Forall (renderable h) fs -> Forall (drawn_as_path h) fs ->
  coloured 0 (polygonLayer w) done -> colorIndex w = List.length done ->
  exists w',
    run env (for_each fs add) (w, pool) = ((w', pool), Ok tt)
    /\ coloured 0 (polygonLayer w') (done ++ fs)
    /\ colorIndex w' = List.length (done ++ fs).
Proof.
  intros Hadd. induction fs as [|f fs IH]; intros w pool done Hr Hp Hc Hi.
  - exists w. rewrite app_nil_r. auto.
  - inversion Hr as [|? ? Hf Hr']; inversion Hp as [|? ? Hpf Hp']; subst.
    cbn [for_each]. rewrite run_bind.
    destruct (Hadd f w pool done Hf Hpf Hc Hi) as (w1 & Hr1 & Hc1 & Hi1).
    rewrite Hr1.
    destruct (IH w1 pool (done ++ [f]) Hr' Hp' Hc1 Hi1) as (w' & Hr2 & Hc2 & Hi2).
    exists w'. rewrite <- app_assoc in Hc2, Hi2. auto.
Qed.

(** Rendering on a page without polygons and with the cursor at zero. *)
Lemma editor_render_coloured (items : list JSON) (w : World) pool :
  Forall (renderable h) items ->
  Forall (drawn_as_path h) (filter (of_class Polygons) items) ->
  polygonLayer w = [] -> colorIndex w = 0 ->
  exists w' e,
    run env (Editor.render h (Some (JArr items))) (w, pool) = ((w', pool), Threw e)
    /\ coloured 0 (polygonLayer w') (filter (of_class Polygons) items)
    /\ colorIndex w' = List.length (filter (of_class Polygons) items).
Proof.
  intros Hall Hpaths Hg Hi.
  unfold Editor.render. run_simp. cbn [as_array]. run_simp.
  pose proof (editor_classify_loop env h items [] [] (w, pool)) as Hc.
  destruct (run env (for_each_with items (Editor.classify h) ([], [])) (w, pool))
    as [c1 [[pts pls]|e]]; [|destruct Hc as [_ Hn]; contradiction].
  destruct Hc as (-> & -> & Ho1 & _). cbn [app].
  rewrite run_bind.
  pose proof (editor_points_loop env h (filter (of_class Points) items) c1) as Hp.
  destruct (run env (for_each (filter (of_class Points) items) (Editor.add_point h)) c1)
    as [c2 [u|e]];
    [|destruct Hp as [_ Hn]; destruct Hn; now apply Forall_filter].
  rewrite Ho1, extend_extend in Hp. clear Ho1.
  assert (Hg2 : polygonLayer (fst c2) = []).
  { apply (f_equal seen_polygons) in Hp. cbn in Hp. rewrite Hg in Hp.
    now destruct (polygonLayer (fst c2)). }
  assert (Hi2 : colorIndex (fst c2) = 0).
  { apply (f_equal cursor) in Hp. cbn in Hp. lia. }
  assert (Hw2 : snd c2 = pool).
  { apply (f_equal waiting) in Hp. exact Hp. }
  destruct c2 as [w2 pool2]. cbn [fst snd] in *. subst pool2.
  destruct (polygons_loop (Editor.add_polygon h) (filter (of_class Polygons) items)
              editor_add_polygon_path w2 pool [])
    as (w3 & Hr3 & Hc3 & Hi3);
    [now apply Forall_filter | exact Hpaths | now rewrite Hg2 | exact Hi2 |].
  rewrite run_bind, Hr3, run_bind, fit_bounds_throws.
  exists w3, no_getLatLng. auto.
Qed.

Lemma viewer_render_coloured (items : list JSON) (w : World) pool :
  Forall (renderable h) items ->
  Forall (drawn_as_path h) (filter (fun f => negb (of_class Points f)) items) ->
  polygonLayer w = [] -> colorIndex w = 0 ->
  exists w' e,
    run env (Viewer.render h (Some (JArr items))) (w, pool) = ((w', pool), Threw e)
    /\ coloured 0 (polygonLayer w')
         (filter (fun f => negb (of_class Points f)) items)
    /\ colorIndex w'
       = List.length (filter (fun f => negb (of_class Points f)) items).
Proof.
  intros Hall Hpaths Hg Hi.
  unfold Viewer.render. run_simp. cbn [as_array]. run_simp.
  pose proof (viewer_classify_loop env h items [] [] (w, pool)) as Hc.
  destruct (run env (for_each_with items Viewer.classify ([], [])) (w, pool))
    as [c1 [[pts pls]|e]]; [|destruct Hc as [_ Hn]; contradiction].
  destruct Hc as (-> & -> & -> & _). cbn [app].
  rewrite run_bind.
  pose proof (viewer_points_loop env h (filter (of_class Points) items) (w, pool))
    as Hp.
  destruct (run env (for_each (filter (of_class Points) items) (Viewer.add_point h))
              (w, pool)) as [c2 [u|e]];
    [|destruct Hp as [_ Hn]; destruct Hn; now apply Forall_filter].
  assert (Hg2 : polygonLayer (fst c2) = []).
  { apply (f_equal seen_polygons) in Hp. cbn in Hp. rewrite Hg in Hp.
    now destruct (polygonLayer (fst c2)). }
  assert (Hi2 : colorIndex (fst c2) = 0).
  { apply (f_equal cursor) in Hp. cbn in Hp. lia. }
  assert (Hw2 : snd c2 = pool).
  { apply (f_equal waiting) in Hp. exact Hp. }
  destruct c2 as [w2 pool2]. cbn [fst snd] in *. subst pool2.
  destruct (polygons_loop (Viewer.add_polygon h)
              (filter (fun f => negb (of_class Points f)) items)
              viewer_add_polygon_path w2 pool [])
    as (w3 & Hr3 & Hc3 & Hi3);
    [now apply Forall_filter | exact Hpaths | now rewrite Hg2 | exact Hi2 |].
  rewrite run_bind, Hr3, run_bind, fit_bounds_throws.
  exists w3, no_getLatLng. auto.
Qed.

(** The same for a whole load. *)
Lemma editor_load_coloured (w : World) pool r fields items :
  server env (trace w) pois_request = Resolved r ->
  json r = Ok (JObj fields) ->
  lookup "features" fields = Some (JArr items) ->
  Forall (renderable h) items ->
  Forall (drawn_as_path h) (filter (of_class Polygons) items) ->
  polygonLayer w = [] -> colorIndex w = 0 ->
  exists w',
    run env (Editor.loadPOIs h) (w, pool) = ((w', pool), Ok tt)
    /\ coloured 0 (polygonLayer w') (filter (of_class Polygons) items)
    /\ colorIndex w' = List.length (filter (of_class Polygons) items).
Proof.
  intros Hs Hj Hf Hall Hpaths Hg Hi.
  unfold Editor.loadPOIs. rewrite run_try_catch, run_bind, run_fetch.
  fold pois_request. cbn [fst]. rewrite Hs.
  rewrite run_bind, run_response_json, Hj, run_bind, run_lift.
  cbn [get_prop]. rewrite Hf, run_bind, run_lift, no_features_array.
  destruct items as [|f items].
  - rewrite run_modify. unfold log. cbn [fst snd].
    eexists. split; [reflexivity|]. cbn. rewrite Hg, Hi. split; [exact I | reflexivity].
  - rewrite run_bind, run_lift. cbn [get_prop String.eqb Ascii.eqb Bool.eqb].
    rewrite run_bind, run_lift. cbn [to_string json_to_string].
    rewrite run_bind, run_modify. unfold log. cbn [fst snd].
    match goal with |- context [run env (Editor.render h _) (?w1, pool)] =>
      destruct (editor_render_coloured (f :: items) w1 pool Hall Hpaths Hg Hi)
        as (w' & e & Hr & Hc & Hn)
    end.
    rewrite Hr. unfold console_error. run_simp. unfold log. cbn [fst snd].
    eexists. split; [reflexivity|]. split; [exact Hc | exact Hn].
Qed.

Lemma viewer_load_coloured (w : World) pool r fields items :
  server env (trace w) pois_request = Resolved r ->
  json r = Ok (JObj fields) ->
  lookup "features" fields = Some (JArr items) ->
  Forall (renderable h) items ->
  Forall (drawn_as_path h) (filter (fun f => negb (of_class Points f)) items) ->
  polygonLayer w = [] -> colorIndex w = 0 ->
  exists w',
    run env (Viewer.loadPOIs h) (w, pool) = ((w', pool), Ok tt)
    /\ coloured 0 (polygonLayer w')
         (filter (fun f => negb (of_class Points f)) items)
    /\ colorIndex w'
       = List.length (filter (fun f => negb (of_class Points f)) items).
Proof.
  intros Hs Hj Hf Hall Hpaths Hg Hi.
  unfold Viewer.loadPOIs. rewrite run_try_catch, run_bind, run_fetch.
  fold pois_request. cbn [fst]. rewrite Hs.
  rewrite run_bind, run_response_json, Hj, run_bind, run_lift.
  cbn [get_prop]. rewrite Hf, run_bind, run_lift, no_features_array.
  destruct items as [|f items].
  - rewrite run_modify. unfold log. cbn [fst snd].
    eexists. split; [reflexivity|]. cbn. rewrite Hg, Hi. split; [exact I | reflexivity].
  - rewrite run_bind, run_lift. cbn [get_prop String.eqb Ascii.eqb Bool.eqb].
    rewrite run_bind, run_lift. cbn [to_string json_to_string].
    rewrite run_bind, run_modify. unfold log. cbn [fst snd].
    match goal with |- context [run env (Viewer.render h _) (?w1, pool)] =>
      destruct (viewer_render_coloured (f :: items) w1 pool Hall Hpaths Hg Hi)
        as (w' & e & Hr & Hc & Hn)
    end.
    rewrite Hr. unfold console_error. run_simp. unfold log. cbn [fst snd].
    eexists. split; [reflexivity|]. split; [exact Hc | exact Hn].
Qed.

End Colours.


(** The DELETE requests of ids that can all be printed: one each. *)
Lemma delete_requests_printable (ids : list Value) :
  Forall printable ids ->
  delete_requests ids
  = map (fun id => mkRequest "DELETE" ("/api/pois/" ++ shown id) [] None) ids.
Proof.
  induction 1 as [|id ids [text Ht] _ IH]; [reflexivity|].
  rewrite delete_requests_cons, IH. unfold delete_requests, delete_request, shown.
  cbn [flat_map map]. rewrite Ht. reflexivity.
Qed.

(** The emptiness test of the loader answers yes for a value that is falsy
    or has the length zero. *)
Lemma no_features_none (features : Value) :
  truthy features = false \/ get_prop features "length" = Ok (Some (JNum 0)) ->
  no_features features = Ok true.
Proof.
  unfold no_features. intros [Ht|Hl].
  - now rewrite Ht.
  - destruct (truthy features); [|reflexivity]. cbn [negb]. now rewrite Hl.
Qed.

Section NoFeatures.

Variables (env : Env) (h : Host).

Lemma viewer_load_none (w : World) pool r geojson features :
  server env (trace w) pois_request = Resolved r ->
  json r = Ok geojson ->
  get_prop (Some geojson) "features" = Ok features ->
  truthy features = false \/ get_prop features "length" = Ok (Some (JNum 0)) ->
  run env (Viewer.loadPOIs h) (w, pool) = ((reported_empty w, pool), Ok tt).
Proof.
  intros Hs Hj Hf He. unfold Viewer.loadPOIs, pois_request in *.
  run_simp. rewrite Hs. run_simp. rewrite Hj. run_simp. rewrite Hf. run_simp.
  rewrite (no_features_none features He). reflexivity.
Qed.

Lemma editor_load_none (w : World) pool r geojson features :
  server env (trace w) pois_request = Resolved r ->
  json r = Ok geojson ->
  get_prop (Some geojson) "features" = Ok features ->
  truthy features = false \/ get_prop features "length" = Ok (Some (JNum 0)) ->
  run env (Editor.loadPOIs h) (w, pool) = ((reported_empty w, pool), Ok tt).
Proof.
  intros Hs Hj Hf He. unfold Editor.loadPOIs, pois_request in *.
  run_simp. rewrite Hs. run_simp. rewrite Hj. run_simp. rewrite Hf. run_simp.
  rewrite (no_features_none features He). reflexivity.
Qed.

End NoFeatures.

Lemma p_null_dec (p : JSON) : p = JNull \/ p <> JNull.
Proof. destruct p; (now left) || (right; discriminate). Qed.

(** The DELETE request of an id, when it can be written. *)
Lemma delete_request_shown (poiId : Value) (req : Request) :
  delete_request poiId = Ok req ->
  req = mkRequest "DELETE" ("/api/pois/" ++ shown poiId) [] None.
Proof.
  unfold delete_request, shown. destruct (to_string poiId) as [text|e];
    cbn [rbind]; [|discriminate]. now intros [= <-].
Qed.


Section Immediate.

Variables (env : Env) (h : Host).

Lemma exec_immediate : forall {A} (p : Prog A) (c : Config),
  immediate p ->
  exec env p c = (fst (run env p c), Finished (snd (run env p c))).
Proof.
  intros A p.
  induction p as [A a | A e | A k IH | A g k IH | A msg k IH | A req k IH
                  | A k IH | A child IHc k IH]; intros c H; cbn [exec run].
  - reflexivity.
  - reflexivity.
  - apply IH, H.
  - apply IH, H.
  - apply IH, H.
  - destruct H.
  - destruct H.
  - destruct (exec env child c) as [c1 st]. apply IH, H.
Qed.

Lemma immediate_try_catch : forall {A} (p : Prog A) (handler : Exn -> Prog A),
  immediate p -> (forall e, immediate (handler e)) ->
  immediate (try_catch p handler).
Proof.
  intros A p.
  induction p as [A a | A e | A k IH | A g k IH | A msg k IH | A req k IH
                  | A k IH | A child IHc k IH]; intros handler H Hh; cbn in *; auto.
Qed.

Lemma immediate_lift {A} (r : result A) : immediate (lift r).
Proof. destruct r; exact I. Qed.

Lemma immediate_for_each {X} (xs : list X) (body : X -> Prog unit) :
  (forall x, immediate (body x)) -> immediate (for_each xs body).
Proof.
  intros H. induction xs as [|x xs IH]; cbn [for_each]; [exact I|].
  apply immediate_bind; auto.
Qed.

Lemma immediate_for_each_with {X S} (xs : list X) (body : X -> S -> Prog S) :
  (forall x s, immediate (body x s)) ->
  forall s, immediate (for_each_with xs body s).
Proof.
  intros H. induction xs as [|x xs IH]; intros s; cbn [for_each_with]; [exact I|].
  apply immediate_bind; auto.
Qed.

Lemma immediate_L_geoJSON (v : Value) (opts : GeoJSONOptions) :
  (forall f, style opts <> StyleFunction f) \/ opts = polygon_options ->
  immediate (L_geoJSON h v opts).
Proof.
  intros Ho. unfold L_geoJSON. destruct (geoJSON_shapes h v) as [shapes err].
  apply immediate_bind.
  - apply immediate_for_each_with. intros sh acc. unfold add_shape.
    apply immediate_bind; [|intros applied; cbn; auto].
    destruct (has_setStyle (kind sh) opts); [|exact I].
    destruct Ho as [Ho | ->].
    + destruct (style opts) as [| s | f]; try exact I. now destruct (Ho f).
    + cbn. auto.
  - intros layers. destruct err; exact I.
Qed.

Lemma immediate_add_as (cl : Class) (f : JSON) : immediate (add_as h cl f).
Proof.
  unfold add_as. apply immediate_bind.
  - apply immediate_L_geoJSON.
    destruct cl; [left | left | now right]; intros x; discriminate.
  - intros g. apply immediate_bind; [apply immediate_lift|].
    intros html. apply immediate_bind; [cbn; auto|].
    intros _. apply immediate_for_each. intros l. cbn. auto.
Qed.

Lemma immediate_render (features : Value) : immediate (Editor.render h features).
Proof.
  unfold Editor.render. apply immediate_bind; [apply immediate_lift|].
  intros items. apply immediate_bind.
  - apply immediate_for_each_with. intros f [points polygons].
    unfold Editor.classify.
    apply immediate_bind; [apply immediate_lift|]. intros props.
    apply immediate_bind; [apply immediate_lift|]. intros t.
    destruct (strict_eq t (Some (JStr "ST_Point"))); [exact I|].
    destruct (strict_eq t (Some (JStr "ST_LineString"))
              || strict_eq t (Some (JStr "ST_MultiLineString"))); [|exact I].
    apply immediate_bind; [apply (immediate_add_as Lines) | intros u; exact I].
  - intros [points polygons]. apply immediate_bind.
    + apply immediate_for_each. intros f. apply (immediate_add_as Points).
    + intros _. apply immediate_bind.
      * apply immediate_for_each. intros f. apply (immediate_add_as Polygons).
      * intros _. exact I.
Qed.

(** The loader, stage by stage. *)
Lemma load_awaits :
  Editor.loadPOIs h = Await pois_request (answered (Editor.loadPOIs h)).
Proof. reflexivity. Qed.

Lemma load_yields (r : Response) :
  answered (Editor.loadPOIs h) (Resolved r)
  = Yield (ticked (answered (Editor.loadPOIs h) (Resolved r))).
Proof. reflexivity. Qed.

Lemma load_rest (r : Response) :
  ticked (answered (Editor.loadPOIs h) (Resolved r))
  = try_catch
      (bind (lift (json r)) (fun geojson =>
       bind (lift (get_prop (Some geojson) "features")) (fun features =>
       bind (lift (no_features features)) (fun empty =>
       if empty
       then modify (set_poi_count "No POIs found in database")
       else
         bind (lift (get_prop features "length")) (fun len =>
         bind (lift (to_string len)) (fun len_text =>
         bind (modify (set_poi_count ("Total POIs: " ++ len_text))) (fun _ =>
         Editor.render h features)))))))
      (fun error =>
         bind (console_error "Error loading POIs:" error) (fun _ =>
         modify (set_poi_count "Error loading POIs"))).
Proof. reflexivity. Qed.

Lemma immediate_load_rest (r : Response) :
  immediate (ticked (answered (Editor.loadPOIs h) (Resolved r))).
Proof.
  rewrite load_rest. apply immediate_try_catch.
  - apply immediate_bind; [apply immediate_lift|]. intros geojson.
    apply immediate_bind; [apply immediate_lift|]. intros features.
    apply immediate_bind; [apply immediate_lift|]. intros empty.
    destruct empty; [cbn; auto|].
    apply immediate_bind; [apply immediate_lift|]. intros len.
    apply immediate_bind; [apply immediate_lift|]. intros len_text.
    apply immediate_bind; [cbn; auto|]. intros _. apply immediate_render.
  - intros e. cbn. auto.
Qed.

Lemma load_rest_registers (w : World) pool r fields items :
  json r = Ok (JObj fields) ->
  lookup "features" fields = Some (JArr items) ->
  Forall (renderable h) items ->
  stamped w ->
  exists w' L P G,
    exec env (ticked (answered (Editor.loadPOIs h) (Resolved r))) (w, pool)
    = ((w', pool), Finished (Ok tt))
    /\ loaded items L P G w w' /\ stamped w'.
Proof.
  intros Hj Hf Hall Hw.
  rewrite (exec_immediate _ _ (immediate_load_rest r)), load_rest.
  rewrite run_try_catch, run_bind, run_lift, Hj, run_bind, run_lift.
  cbn [get_prop]. rewrite Hf, run_bind, run_lift, no_features_array.
  destruct items as [|f items].
  - rewrite run_modify. cbn [fst snd].
    eexists; exists [], [], []. split; [reflexivity|]. split.
    + unfold loaded. cbn. rewrite !app_nil_r. repeat split; constructor.
    + revert Hw. apply stamped_frame; reflexivity.
  - rewrite run_bind, run_lift. cbn [get_prop String.eqb Ascii.eqb Bool.eqb].
    rewrite run_bind, run_lift. cbn [to_string json_to_string].
    rewrite run_bind, run_modify. cbn [fst snd].
    match goal with |- context [run env (Editor.render h _) (?w1, pool)] =>
      destruct (editor_render_registers env h (f :: items) w1 pool Hall)
        as (w' & L & P & G & Hr & Hl & Hw')
    end.
    { revert Hw. apply stamped_frame; reflexivity. }
    rewrite Hr. unfold console_error. run_simp. unfold log. cbn [fst snd].
    eexists; exists L, P, G. split; [reflexivity|]. split.
    + apply (loaded_frame (f :: items) L P G w w'); try reflexivity.
      revert Hl. apply loaded_before; reflexivity.
    + generalize (proj1 Hw'). apply stamped_frame; reflexivity.
Qed.

End Immediate.


Section Unreadable.

Variables (env : Env) (h : Host).

Lemma run_for_each_with_app {X S} (xs ys : list X) (body : X -> S -> Prog S) :
  forall s c,
  run env (for_each_with (xs ++ ys) body s) c
  = match run env (for_each_with xs body s) c with
    | (c', Ok s') => run env (for_each_with ys body s') c'
    | (c', Threw e) => (c', Threw e)
    end.
Proof.
  induction xs as [|x xs IH]; intros s c; [reflexivity|].
  cbn [app for_each_with]. rewrite !run_bind.
  destruct (run env (body x s) c) as [c1 [s1|e]]; [apply IH | reflexivity].
Qed.

Lemma tag_dec (f : JSON) : tagged f \/ exists e, tag f = Threw e.
Proof.
  unfold tagged. destruct (tag f) as [t|e]; [left; now exists t | right; now exists e].
Qed.

Lemma viewer_classify_one (f : JSON) (acc : list JSON * list JSON) (c : Config) :
  exists r, run env (Viewer.classify f acc) c = (c, r)
            /\ (tagged f -> exists acc', r = Ok acc')
            /\ (~ tagged f -> exists e, r = Threw e).
Proof.
  unfold Viewer.classify, tagged, tag. destruct acc as [points polygons].
  run_simp.
  destruct (get_prop (Some f) "properties") as [props|e].
  - run_simp. cbn [rbind].
    destruct (get_prop props "geom_type") as [t|e].
    + destruct (strict_eq t (Some (JStr "ST_Point"))); cbn [run];
        eexists; (split; [reflexivity|]); split;
        try (intros _; eexists; reflexivity);
        intros Hn; destruct Hn; now exists t.
    + eexists. split; [reflexivity|]. split.
      * intros [t Ht]. discriminate.
      * intros _. now exists e.
  - eexists. split; [reflexivity|]. split.
    + intros [t Ht]. discriminate.
    + intros _. now exists e.
Qed.

Lemma editor_classify_unreadable (f : JSON) (acc : list JSON * list JSON)
    (c : Config) :
  ~ tagged f -> exists e, run env (Editor.classify h f acc) c = (c, Threw e).
Proof.
  intros Hn. unfold Editor.classify, tagged, tag in *.
  destruct acc as [points polygons]. run_simp.
  destruct (get_prop (Some f) "properties") as [props|e]; [|now exists e].
  run_simp. cbn [rbind] in Hn.
  destruct (get_prop props "geom_type") as [t|e]; [|now exists e].
  destruct Hn. now exists t.
Qed.

(** In the viewer every feature is classified before anything is
    rendered. *)
Lemma viewer_classify_stops (items : list JSON) :
  forall acc c, ~ Forall tagged items ->
  exists e, run env (for_each_with items Viewer.classify acc) c = (c, Threw e).
Proof.
  induction items as [|f items IH]; intros acc c Hn.
  - destruct Hn. constructor.
  - cbn [for_each_with]. rewrite run_bind.
    destruct (viewer_classify_one f acc c) as (r & Hr & Hok & Hbad).
    rewrite Hr. destruct (tag_dec f) as [Ht | [e He]].
    + destruct (Hok Ht) as [acc' ->]. apply IH.
      intros Hall. apply Hn. now constructor.
    + destruct Hbad as [e' ->]; [|now exists e'].
      intros [t Ht]. congruence.
Qed.

Lemma editor_load_partial (w : World) pool r fields before bad after :
  server env (trace w) pois_request = Resolved r ->
  json r = Ok (JObj fields) ->
  lookup "features" fields = Some (JArr (before ++ bad :: after)) ->
  Forall (renderable h) before ->
  ~ tagged bad ->
  stamped w ->
  exists w1 L e,
    run env (Editor.loadPOIs h) (w, pool) = ((gave_up e w1, pool), Ok tt)
    /\ registers Lines L w w1
    /\ Forall2 owns L (filter (of_class Lines) before).
Proof.
  intros Hs Hj Hf Hall Hn Hw.
  unfold Editor.loadPOIs. rewrite run_try_catch, run_bind, run_fetch.
  fold pois_request. cbn [fst]. rewrite Hs.
  rewrite run_bind, run_response_json, Hj, run_bind, run_lift.
  cbn [get_prop]. rewrite Hf, run_bind, run_lift, no_features_array.
  replace (match before ++ bad :: after with [] => true | _ :: _ => false end)
    with false by (now destruct before).
  rewrite run_bind, run_lift. cbn [get_prop String.eqb Ascii.eqb Bool.eqb].
  rewrite run_bind, run_lift. cbn [to_string json_to_string].
  rewrite run_bind, run_modify. unfold log. cbn [fst snd].
  unfold Editor.render. rewrite run_bind, run_lift. cbn [as_array].
  rewrite run_bind, run_for_each_with_app.
  match goal with |- context [run env (for_each_with before _ _) (?w0, pool)] =>
    destruct (classify_all_registers env h before [] [] w0 pool Hall)
      as (w1 & L & Hr & Hreg & Ho & Hw1)
  end.
  { revert Hw. apply stamped_frame; reflexivity. }
  rewrite Hr. cbn [for_each_with]. rewrite run_bind.
  match goal with |- context [run env (Editor.classify h bad ?a) ?c1] =>
    destruct (editor_classify_unreadable bad a c1 Hn) as [e He]
  end.
  rewrite He. unfold console_error. run_simp.
  exists w1, L, e. split; [reflexivity|]. split; [exact Hreg | exact Ho].
Qed.

End Unreadable.


(* ================================================================== *)
(** * The model at work *)
(* ================================================================== *)

Section Examples.

Local Open Scope string_scope.

Example show_Z_examples :
  show_Z 0 = "0" /\ show_Z 42 = "42" /\ show_Z (-3) = "-3".
Proof. repeat split. Qed.

Example to_string_examples :
  to_string None = Ok "undefined"
  /\ to_string (Some (JArr [JNum 1; JNull; JArr [JNum 2; JStr "x"]])) = Ok "1,,2,x"
  /\ to_string (Some (JObj [("a", JNum 1)])) = Ok "[object Object]"
  /\ to_string (Some (JObj [("toString", JNum 1)])) = Threw not_primitive
  /\ to_string (Some (JArr [JNum 1; JObj [("toString", JNull)]]))
     = Threw not_primitive.
Proof. repeat split. Qed.

Example stringify_example :
  JSON_stringify (JObj [("wifi", JBool true); ("tags", JArr [JStr "a"; JNum (-3)]);
                        ("none", JObj [])]) 2
  = "{" ++ newline ++ "  " ++ dq ++ "wifi" ++ dq ++ ": true," ++ newline
        ++ "  " ++ dq ++ "tags" ++ dq ++ ": [" ++ newline
        ++ "    " ++ dq ++ "a" ++ dq ++ "," ++ newline
        ++ "    -3" ++ newline
        ++ "  ]," ++ newline
        ++ "  " ++ dq ++ "none" ++ dq ++ ": {}" ++ newline
        ++ "}".
Proof. reflexivity. Qed.

Example stringify_compact_example :
  JSON_stringify (JObj [("name", JStr ("a" ++ dq ++ "b")); ("geometry", JNull)]) 0
  = "{" ++ dq ++ "name" ++ dq ++ ":" ++ dq ++ "a\" ++ dq ++ "b" ++ dq ++ ","
        ++ dq ++ "geometry" ++ dq ++ ":null}".
Proof. reflexivity. Qed.

Example trim_examples :
  trim ("  {} " ++ newline) = "{}"
  /\ trim (String (ascii_of_nat 194) (String (ascii_of_nat 160) " ")) = EmptyString
  /\ trim "a b" = "a b".
Proof. repeat split. Qed.

Example popup_example :
  createPopupContent
    (Some (JObj [("properties",
                   JObj [("id", JNum 7); ("name", JStr "Cafe");
                         ("address", JStr EmptyString);
                         ("geom_type", JStr "ST_Point")])]))
  = Ok ("<div class=" ++ dq ++ "popup-content" ++ dq ++ ">"
          ++ "<h3>Cafe</h3>"
          ++ "<p><strong>ID:</strong> 7</p>"
          ++ "<p><strong>Geometry:</strong> ST_Point</p>"
          ++ "</div>").
Proof. reflexivity. Qed.

Example palette_wraps :
  palette 0 = Some "#FF6B6B" /\ palette 9 = Some "#52B788"
  /\ palette 10 = Some "#FF6B6B" /\ palette 13 = Some "#FFA07A".
Proof. repeat split. Qed.

Example load_example :
  let page := fst (fst (run (constant_env true (serving demo_collection))
                          (Editor.loadPOIs demo_host) (blank_page, []))) in
  poi_count page = "Error loading POIs"
  /\ trace page = [Requested pois_request;
                   ConsoleError "Error loading POIs:" no_getLatLng]
  /\ List.length (pointLayer page) = 1
  /\ List.length (lineLayer page) = 2
  /\ List.length (polygonLayer page) = 2
  /\ List.length (drawnItems page) = 5
  /\ map (fun l => fillColor (options l)) (rendered (polygonLayer page))
     = [Some "#FF6B6B"; Some "#4ECDC4"]
  /\ colorIndex page = 2
  /\ requests_of (trace page) = [pois_request].
Proof. vm_compute. repeat split. Qed.

Example reload_example :
  let once := fst (run (constant_env true (serving demo_collection))
                     (Editor.loadPOIs demo_host) (blank_page, [])) in
  let twice := fst (run (constant_env true (serving demo_collection))
                      (bind Editor.clearLayers (fun _ => Editor.loadPOIs demo_host))
                      once) in
  paints (polygonLayer (fst twice)) = paints (polygonLayer (fst once))
  /\ List.length (drawnItems (fst twice)) = 5.
Proof. vm_compute. repeat split. Qed.

(** A MultiPoint in the polygon class: its feature group takes the first
    colour and keeps none itself; the polygon after it wears the second. *)
Example multipoint_takes_colour :
  let collection :=
    JObj [("type", JStr "FeatureCollection");
          ("features", JArr [demo_feature 1 "MultiPoint" "ST_MultiPoint";
                             demo_feature 2 "Polygon" "ST_Polygon"])] in
  let page := fst (fst (run (constant_env true (serving collection))
                          (Viewer.loadPOIs demo_host) (blank_page, []))) in
  map (fun l => (shape l, fillColor (options l))) (rendered (polygonLayer page))
  = [(Collection, None); (Path, Some "#4ECDC4")]
  /\ colorIndex page = 2.
Proof. vm_compute. repeat split. Qed.

End Examples.

(* ================================================================== *)
(** * The claims *)
(* ================================================================== *)

(** C1 (as amended).  The delete handler goes through the removed shapes
    in order.  A shape without id adds nothing to the trace.  A shape with
    an id gets the confirmation dialog, and one DELETE request to
    [/api/pois/{id}] when the user confirms, none when the user declines;
    an id that cannot be written into the URL sends none either, its call
    ending in the catch block.  The calls it leaves suspended send no
    further DELETE request, however the event loop resumes them. *)
Theorem delete_event_requests (env : Env) (h : Host) (layers : list Layer)
    (c : Config) :
  reachable env h c ->
  Forall guarded layers ->
  exists c',
    exec env (Editor.on_draw_deleted h layers) c = (c', Finished (Ok tt))
    /\ trace (fst c') = deletion_trace env (trace (fst c)) layers
    /\ ((forall t, user env t confirm_text = true) ->
        deletes_of (trace (fst c'))
        = deletes_of (trace (fst c)) ++ delete_requests (ids_of layers))
    /\ (Forall printable (ids_of layers) ->
        delete_requests (ids_of layers)
        = map (fun id => mkRequest "DELETE" ("/api/pois/" ++ shown id) [] None)
            (ids_of layers))
    /\ ((forall t, user env t confirm_text = false) ->
        deletes_of (trace (fst c')) = deletes_of (trace (fst c)))
    /\ (forall c'', resumes env c' c'' ->
        deletes_of (trace (fst c'')) = deletes_of (trace (fst c'))).
Proof.
  intros Hc Hg. pose proof (reachable_quiet env h c Hc) as Hq.
  destruct (on_draw_deleted_exec env h layers c Hg Hq) as (pool' & He & Hq').
  eexists. split; [exact He|]. cbn [fst trace set_trace]. repeat split.
  - intros Hu. now apply deletion_trace_always.
  - apply delete_requests_printable.
  - intros Hu. now apply deletion_trace_never.
  - intros c'' Hr. exact (proj1 (resumes_quiet env _ c'' Hr Hq')).
Qed.

Lemma delete_event_requests_witness :
  exists c',
    exec (constant_env true (serving empty_collection))
      (Editor.on_draw_deleted demo_host [stored; drawn]) (blank_page, [])
    = (c', Finished (Ok tt))
    /\ deletes_of (trace (fst c')) = [mkRequest "DELETE" "/api/pois/7" [] None].
Proof.
  destruct (delete_event_requests (constant_env true (serving empty_collection))
              demo_host [stored; drawn] (blank_page, []))
    as (c' & H1 & _ & H2 & _).
  - apply reachable_start.
  - repeat constructor; eexists; reflexivity.
  - exists c'. split; [exact H1|]. rewrite H2; [reflexivity|]. intros t. reflexivity.
Defined.

(** C1 as stated fails: the shape carries the backend id 7, the user
    declines the dialog, and no DELETE request is sent. *)
Lemma declined_shape_sends_no_delete :
  let after := exec (constant_env false (serving empty_collection))
                 (Editor.on_draw_deleted demo_host [stored]) (blank_page, []) in
  Editor.backend_id stored = Ok (Some (JNum 7))
  /\ snd after = Finished (Ok tt)
  /\ trace (fst (fst after)) = [Confirmed confirm_text false]
  /\ requests_of (trace (fst (fst after))) = []
  /\ snd (fst after) = [].
Proof. vm_compute. repeat split. Qed.

(** C2.  The submit handler alerts and returns, sending no request and
    changing nothing else on the page, when there is no pending drawing;
    and also when the properties text is not blank and does not parse: the
    pending shape stays in the overlay and the modal stays as it is. *)
Theorem submit_fails_fast (env : Env) (h : Host) (w : World)
    (pool : list (Suspension unit)) :
  (currentDrawing w = None ->
   run env (Editor.on_submit h) (w, pool)
   = ((alerted "No geometry drawn" w, pool), Ok tt))
  /\ (forall e,
        trim (poi_properties (form w)) <> EmptyString ->
        JSON_parse h (poi_properties (form w)) = Threw e ->
        exists msg,
          run env (Editor.on_submit h) (w, pool) = ((alerted msg w, pool), Ok tt)
          /\ (currentDrawing w <> None ->
              msg = "Invalid JSON in properties field"%string))
  /\ (forall msg,
        requests_of (trace (alerted msg w)) = requests_of (trace w)
        /\ trace (alerted msg w) = trace w ++ [Alerted msg]
        /\ drawnItems (alerted msg w) = drawnItems w
        /\ currentDrawing (alerted msg w) = currentDrawing w
        /\ modal_display (alerted msg w) = modal_display w).
Proof.
  split; [|split].
  - apply submit_without_drawing.
  - intros e Ht Hp. destruct (currentDrawing w) as [drawing|] eqn:Hc.
    + exists "Invalid JSON in properties field"%string. split; [|reflexivity].
      eapply submit_invalid_json; eauto.
    + exists "No geometry drawn"%string. split; [|congruence].
      now apply submit_without_drawing.
  - intros msg. repeat split. unfold alerted. cbn [trace set_trace].
    rewrite requests_of_app. cbn. apply app_nil_r.
Qed.

Lemma submit_fails_fast_witness :
  run (constant_env true (serving empty_collection)) (Editor.on_submit demo_host)
    (drawing_page "{invalid", [])
  = ((alerted "Invalid JSON in properties field" (drawing_page "{invalid"), []), Ok tt).
Proof.
  destruct (submit_fails_fast (constant_env true (serving empty_collection))
              demo_host (drawing_page "{invalid") []) as (_ & H & _).
  destruct (H (SyntaxError "Unexpected token")) as (msg & Hr & Hm).
  - vm_compute. discriminate.
  - reflexivity.
  - rewrite Hr, Hm; [reflexivity | discriminate].
Defined.

(** C3 (as amended).  After a creation POST answered by a 2xx response
    with a JSON body, the handler closes the form, empties every layer
    group and the overlay, runs one load, which sends the only GET, and
    then tells the user. *)
Theorem creation_reloads_once (env : Env) (h : Host) (w : World)
    (pool : list (Suspension unit)) (drawing : Layer) (r : Response)
    (created : JSON) :
  currentDrawing w = Some drawing ->
  properties_parse h (poi_properties (form w)) ->
  (forall req, method req = "POST"%string ->
               server env (trace w) req = Resolved r) ->
  ok r = true ->
  json r = Ok created ->
  exists req c2,
    method req = "POST"%string /\ url req = "/api/pois"%string /\
    (let cleared := closed_and_cleared h req created w in
     pointLayer cleared = [] /\ lineLayer cleared = [] /\
     polygonLayer cleared = [] /\ drawnItems cleared = [] /\
     currentDrawing cleared = None /\ colorIndex cleared = 0) /\
    run env (Editor.loadPOIs h) (closed_and_cleared h req created w, pool)
    = (c2, Ok tt) /\
    run env (Editor.on_submit h) (w, pool)
    = (log (Alerted "POI created successfully!") c2, Ok tt) /\
    requests_of (trace (fst c2))
    = requests_of (trace w) ++ [req; pois_request].
Proof.
  intros Hc Hp Hs Hok Hj.
  unfold Editor.on_submit. run_simp. rewrite Hc. run_simp.
  assert (Hparse : exists properties,
    run env (Editor.parse_properties h (poi_properties (form w))) (w, pool)
    = ((w, pool), Ok (Some properties))).
  { unfold Editor.parse_properties.
    destruct (String.eqb_spec (trim (poi_properties (form w))) EmptyString) as [E|E];
      cbn [negb].
    - exists JNull. reflexivity.
    - destruct Hp as [Hp|[j Hp]]; [contradiction|].
      exists j. run_simp. rewrite Hp. reflexivity. }
  destruct Hparse as [properties Hparse]. rewrite Hparse. run_simp. rewrite Hc.
  match goal with |- context [server env (trace w) ?q] => set (req := q) end.
  rewrite (Hs req eq_refl). run_simp. rewrite Hok. cbn [negb]. run_simp.
  rewrite Hj. run_simp. unfold console_log at 1. run_simp.
  unfold Editor.closeModal. run_simp. unfold log. cbn [fst snd currentDrawing
    set_trace set_modal_display set_form]. rewrite Hc. run_simp.
  unfold Editor.clearLayers. run_simp.
  match goal with |- context [run env (Editor.loadPOIs h) ?c] => set (c1 := c) end.
  destruct (editor_load_outline env h c1) as (c2 & Hl & Hst).
  exists req, c2. split; [reflexivity|]. split; [reflexivity|].
  split; [repeat split|].
  assert (E1 : c1 = (closed_and_cleared h req created w, pool)).
  { subst c1. unfold closed_and_cleared. cbn. rewrite <- app_assoc. reflexivity. }
  rewrite <- E1. split; [exact Hl|]. rewrite Hl. split.
  - unfold alert. now rewrite run_emit.
  - destruct Hst as (k & _ & Hsent & _).
    change (requests_of (trace (fst c2))) with (sent (obs c2)).
    rewrite Hsent, sent_log_request, E1. cbn [obs sent fst closed_and_cleared trace].
    rewrite requests_of_app. cbn [requests_of]. now rewrite <- app_assoc.
Qed.

Lemma creation_reloads_once_witness :
  exists req c2,
    run (constant_env true (serving empty_collection)) (Editor.on_submit demo_host)
      (drawing_page "{}", [])
    = (log (Alerted "POI created successfully!") c2, Ok tt)
    /\ requests_of (trace (fst c2)) = [req; pois_request].
Proof.
  destruct (creation_reloads_once (constant_env true (serving empty_collection))
              demo_host (drawing_page "{}") [] drawn
              (mkResponse true 200 (Ok empty_collection)) empty_collection)
    as (req & c2 & _ & _ & _ & _ & H1 & H2).
  - reflexivity.
  - right. exists (JObj []). reflexivity.
  - intros req _. reflexivity.
  - reflexivity.
  - reflexivity.
  - exists req, c2. split; [exact H1 | exact H2].
Defined.

(** C3 as stated fails: a 2xx response whose body is not JSON is followed
    by no reload; the overlay keeps the drawn shape and no GET is sent. *)
Lemma created_without_body_no_reload :
  let done := fst (fst (run (constant_env true created_without_body)
                          (Editor.on_submit demo_host) (drawing_page EmptyString, []))) in
  (exists r, created_without_body = Resolved r /\ ok r = true /\ status r = 201%Z)
  /\ (exists req, requests_of (trace done) = [req] /\ method req = "POST"%string)
  /\ drawnItems done = [drawn]
  /\ currentDrawing done = Some drawn
  /\ modal_display done = "block"%string
  /\ In (Alerted "Failed to create POI: Unexpected end of JSON input") (trace done).
Proof.
  vm_compute. split; [eexists; repeat split|].
  split; [eexists; split; reflexivity|].
  repeat split. right. right. left. reflexivity.
Qed.

(** C4.  When every feature of the fetched collection can be rendered, a
    load adds one group per feature, to the layer group that the feature's
    [geom_type] tag selects and to no other: "ST_Point" to the points,
    "ST_LineString" and "ST_MultiLineString" to the lines, every other tag
    to the polygons; in the viewer, "ST_Point" to the points and every
    other tag to the polygons. *)
Theorem loader_partitions_by_tag (env : Env) (h : Host) (w : World)
    (pool : list (Suspension unit)) (r : Response)
    (fields : list (string * JSON)) (items : list JSON) :
  server env (trace w) pois_request = Resolved r ->
  json r = Ok (JObj fields) ->
  lookup "features" fields = Some (JArr items) ->
  Forall (renderable h) items ->
  let editor := fst (fst (run env (Editor.loadPOIs h) (w, pool))) in
  let viewer := fst (fst (run env (Viewer.loadPOIs h) (w, pool))) in
  (map source (pointLayer editor)
   = map source (pointLayer w) ++ map Some (filter (of_class Points) items)
   /\ map source (lineLayer editor)
      = map source (lineLayer w) ++ map Some (filter (of_class Lines) items)
   /\ map source (polygonLayer editor)
      = map source (polygonLayer w) ++ map Some (filter (of_class Polygons) items))
  /\ (map source (pointLayer viewer)
      = map source (pointLayer w) ++ map Some (filter (of_class Points) items)
      /\ map source (polygonLayer viewer)
         = map source (polygonLayer w)
           ++ map Some (filter (fun f => of_class Lines f || of_class Polygons f) items))
  /\ (forall f, In f items ->
        exists t, tag f = Ok t
          /\ forall cl, of_class cl f = true <-> cl = class_of t).
Proof.
  intros Hs Hj Hf Hall editor viewer. split; [|split].
  - destruct (editor_load_renders env h (w, pool) r fields items Hs Hj Hf Hall)
      as (c' & Hr & Ho).
    subst editor. rewrite Hr. cbn [fst].
    pose proof (f_equal seen_points Ho) as H1.
    pose proof (f_equal seen_lines Ho) as H2.
    pose proof (f_equal seen_polygons Ho) as H3.
    cbn in H1, H2, H3. auto.
  - destruct (viewer_load_renders env h (w, pool) r fields items Hs Hj Hf Hall)
      as (c' & Hr & Ho).
    subst viewer. rewrite Hr. cbn [fst].
    pose proof (f_equal seen_points Ho) as H1.
    pose proof (f_equal seen_polygons Ho) as H3.
    cbn in H1, H3.
    rewrite filter_not_points in H3; [auto|].
    eapply Forall_impl; [|exact Hall]. intros f Hr'. now apply (renderable_tagged h).
  - intros f Hin. rewrite Forall_forall in Hall.
    destruct (Hall f Hin) as [[t Ht] _]. exists t. split; [exact Ht|].
    intros cl. rewrite (of_class_tag cl f t Ht).
    destruct (class_of t), cl; cbn; split; congruence.
Qed.

Lemma loader_partitions_by_tag_witness :
  map source (polygonLayer
    (fst (fst (run (constant_env true (serving demo_collection))
                 (Editor.loadPOIs demo_host) (blank_page, [])))))
  = map Some (filter (of_class Polygons) demo_items).
Proof.
  destruct (loader_partitions_by_tag (constant_env true (serving demo_collection))
              demo_host blank_page [] (mkResponse true 200 (Ok demo_collection))
              [("type", JStr "FeatureCollection"); ("features", JArr demo_items)]
              demo_items) as ((_ & _ & H) & _).
  - reflexivity.
  - reflexivity.
  - reflexivity.
  - repeat constructor; eexists; reflexivity.
  - exact H.
Defined.

(** C5.  A polygon render takes the palette colour at the cursor modulo 10
    and moves the cursor on by one; clearing the layers puts the cursor
    back to zero.  So after a clear and a load of a collection that can be
    rendered (in the viewer: after a load on a page without polygons and
    with the cursor at zero), whatever was on the page before: the layers
    that took a colour wear the palette colours 0, 1, 2, ... in order; and
    when every polygon is drawn as one path, the polygon layer holds one
    group per polygon of the collection, in order, the path of the [i]-th
    wearing the palette colour [i mod 10], and the cursor stands at the
    number of polygons. *)
Theorem polygon_colours_cycle (env : Env) (h : Host) (w : World)
    (pool : list (Suspension unit)) :
  (forall feature,
     run env (getPolygonStyle feature) (w, pool)
     = ((set_colorIndex (S (colorIndex w)) w, pool),
        Ok (mkStyle None (palette (colorIndex w)) (palette (colorIndex w))
              (Some 2%Z) (Some (4 # 5)%Q) (Some (1 # 2)%Q))))
  /\ (forall i, exists col,
        palette i = Some col /\ nth_error polygonColors (i mod 10) = Some col)
  /\ colorIndex (fst (fst (run env Editor.clearLayers (w, pool)))) = 0
  /\ (forall r fields items,
        server env (trace w) pois_request = Resolved r ->
        json r = Ok (JObj fields) ->
        lookup "features" fields = Some (JArr items) ->
        Forall (renderable h) items ->
        let polygons := filter (of_class Polygons) items in
        let editor :=
          fst (fst (run env (bind Editor.clearLayers (fun _ => Editor.loadPOIs h))
                      (w, pool))) in
        map source (polygonLayer editor) = map Some polygons
        /\ paints (polygonLayer editor) = cycle 0 (colours_taken h polygons)
        /\ (Forall (drawn_as_path h) polygons ->
            coloured 0 (polygonLayer editor) polygons
            /\ colorIndex editor = List.length polygons
            /\ forall i f, nth_error polygons i = Some f ->
                 exists g l,
                   nth_error (polygonLayer editor) i = Some g
                   /\ source g = Some f /\ children g = [l] /\ shape l = Path
                   /\ fillColor (options l) = palette i
                   /\ color (options l) = palette i))
  /\ (forall r fields items,
        colorIndex w = 0 -> polygonLayer w = [] ->
        server env (trace w) pois_request = Resolved r ->
        json r = Ok (JObj fields) ->
        lookup "features" fields = Some (JArr items) ->
        Forall (renderable h) items ->
        let polygons := filter (fun f => negb (of_class Points f)) items in
        let viewer := fst (fst (run env (Viewer.loadPOIs h) (w, pool))) in
        map source (polygonLayer viewer) = map Some polygons
        /\ paints (polygonLayer viewer) = cycle 0 (colours_taken h polygons)
        /\ (Forall (drawn_as_path h) polygons ->
            coloured 0 (polygonLayer viewer) polygons
            /\ colorIndex viewer = List.length polygons
            /\ forall i f, nth_error polygons i = Some f ->
                 exists g l,
                   nth_error (polygonLayer viewer) i = Some g
                   /\ source g = Some f /\ children g = [l] /\ shape l = Path
                   /\ fillColor (options l) = palette i
                   /\ color (options l) = palette i)).
Proof.
  split; [reflexivity|]. split.
  { intros i. destruct (palette_defined i) as [col Hc]. exists col. auto. }
  split; [reflexivity|]. split.
  - intros r fields items Hs Hj Hf Hall polygons editor.
    set (w0 := set_colorIndex 0
                 (set_drawnItems []
                    (set_polygonLayer [] (set_lineLayer [] (set_pointLayer [] w))))).
    assert (E : run env (bind Editor.clearLayers (fun _ => Editor.loadPOIs h))
                  (w, pool)
                = run env (Editor.loadPOIs h) (w0, pool)) by reflexivity.
    subst editor. rewrite E. clear E.
    destruct (editor_load_renders env h (w0, pool) r fields items Hs Hj Hf Hall)
      as (c' & Hr & Ho).
    rewrite Hr. cbn [fst].
    pose proof (f_equal seen_polygons Ho) as H1.
    pose proof (f_equal seen_paints Ho) as H2.
    cbn in H1, H2. split; [exact H1|]. split; [exact H2|].
    intros Hpaths.
    destruct (editor_load_coloured env h w0 pool r fields items Hs Hj Hf Hall Hpaths
                eq_refl eq_refl) as (w' & Hr' & Hc & Hn).
    rewrite Hr' in Hr. injection Hr as <-. cbn [fst].
    split; [exact Hc|]. split; [exact Hn|].
    intros i f Hi. destruct (coloured_nth _ _ 0 i f Hc Hi)
      as (g & Hg & Hsrc & l & Hch & Hk & Hopt).
    exists g, l. rewrite Hopt. cbn [polygon_style fillColor color]. auto 10.
  - intros r fields items Hi0 Hg0 Hs Hj Hf Hall polygons viewer.
    subst viewer.
    destruct (viewer_load_renders env h (w, pool) r fields items Hs Hj Hf Hall)
      as (c' & Hr & Ho).
    rewrite Hr. cbn [fst].
    pose proof (f_equal seen_polygons Ho) as H1.
    pose proof (f_equal seen_paints Ho) as H2.
    cbn in H1, H2. rewrite Hg0 in H1, H2. rewrite Hi0 in H2. cbn in H1, H2.
    assert (Hpol : filter (fun f => of_class Lines f || of_class Polygons f) items
                   = polygons).
    { symmetry. apply filter_not_points.
      eapply Forall_impl; [|exact Hall]. intros f Hf'.
      now apply (renderable_tagged h). }
    rewrite ?Hpol in H1, H2.
    split; [exact H1|]. split; [exact H2|].
    intros Hpaths.
    destruct (viewer_load_coloured env h w pool r fields items Hs Hj Hf Hall Hpaths
                Hg0 Hi0) as (w' & Hr' & Hc & Hn).
    rewrite Hr' in Hr. injection Hr as <-. cbn [fst].
    split; [exact Hc|]. split; [exact Hn|].
    intros i f Hi. destruct (coloured_nth _ _ 0 i f Hc Hi)
      as (g & Hg & Hsrc & l & Hch & Hk & Hopt).
    exists g, l. rewrite Hopt. cbn [polygon_style fillColor color]. auto 10.
Qed.

Lemma polygon_colours_cycle_witness :
  exists g l,
    nth_error
      (polygonLayer
         (fst (fst (run (constant_env true (serving demo_collection))
                      (Viewer.loadPOIs demo_host) (blank_page, []))))) 2
    = Some g
    /\ source g = Some (demo_feature 4 "MultiPolygon" "ST_MultiPolygon")
    /\ children g = [l]
    /\ fillColor (options l) = Some "#45B7D1"
    /\ color (options l) = Some "#45B7D1".
Proof.
  destruct (polygon_colours_cycle (constant_env true (serving demo_collection))
              demo_host blank_page []) as (_ & _ & _ & _ & H).
  destruct (H (mkResponse true 200 (Ok demo_collection))
              [("type", JStr "FeatureCollection"); ("features", JArr demo_items)]
              demo_items eq_refl eq_refl eq_refl eq_refl eq_refl)
    as (_ & _ & Hpaths).
  - repeat constructor; eexists; reflexivity.
  - destruct Hpaths as (_ & _ & Hnth).
    + repeat constructor; eexists; split; reflexivity.
    + destruct (Hnth 2 (demo_feature 4 "MultiPolygon" "ST_MultiPolygon") eq_refl)
        as (g & l & H1 & H2 & H3 & _ & H4 & H5).
      exists g, l. auto.
Defined.

(** C6 (as amended).  When the [features] of the fetched collection are
    missing or falsy, or have the length zero (an empty array), both
    loaders set the count text to "No POIs found in database", return, and
    add no layer to any layer group. *)
Theorem empty_collection_reports_none (env : Env) (h : Host) (w : World)
    (pool : list (Suspension unit)) (r : Response) (geojson : JSON)
    (features : Value) :
  server env (trace w) pois_request = Resolved r ->
  json r = Ok geojson ->
  get_prop (Some geojson) "features" = Ok features ->
  truthy features = false \/ get_prop features "length" = Ok (Some (JNum 0)) ->
  run env (Viewer.loadPOIs h) (w, pool) = ((reported_empty w, pool), Ok tt)
  /\ run env (Editor.loadPOIs h) (w, pool) = ((reported_empty w, pool), Ok tt)
  /\ poi_count (reported_empty w) = "No POIs found in database"%string
  /\ pointLayer (reported_empty w) = pointLayer w
  /\ lineLayer (reported_empty w) = lineLayer w
  /\ polygonLayer (reported_empty w) = polygonLayer w
  /\ drawnItems (reported_empty w) = drawnItems w.
Proof.
  intros Hs Hj Hf He. split; [|split].
  - eapply viewer_load_none; eauto.
  - eapply editor_load_none; eauto.
  - repeat split.
Qed.

Lemma empty_collection_reports_none_witness :
  run (constant_env true (serving empty_collection)) (Editor.loadPOIs demo_host)
    (blank_page, [])
  = ((reported_empty blank_page, []), Ok tt).
Proof.
  apply (empty_collection_reports_none (constant_env true (serving empty_collection))
           demo_host blank_page [] (mkResponse true 200 (Ok empty_collection))
           empty_collection (Some (JArr []))).
  - reflexivity.
  - reflexivity.
  - reflexivity.
  - right. reflexivity.
Defined.

(** C6 as stated fails: the collection has no [features] array but an
    object in its place; both loaders go on to [features.forEach], which
    is not a function, and end in the catch block with the count text
    "Error loading POIs". *)
Lemma features_object_reports_error :
  let collection :=
    JObj [("type", JStr "FeatureCollection"); ("features", JObj [])] in
  let editor := fst (fst (run (constant_env true (serving collection))
                            (Editor.loadPOIs demo_host) (blank_page, []))) in
  let viewer := fst (fst (run (constant_env true (serving collection))
                            (Viewer.loadPOIs demo_host) (blank_page, []))) in
  as_array (Some (JObj [])) "geojson.features.forEach"
  = Threw (TypeError "geojson.features.forEach is not a function")
  /\ poi_count editor = "Error loading POIs"%string
  /\ poi_count viewer = "Error loading POIs"%string
  /\ poi_count editor <> "No POIs found in database"%string
  /\ trace editor
     = [Requested pois_request;
        ConsoleError "Error loading POIs:"
          (TypeError "geojson.features.forEach is not a function")].
Proof. vm_compute. repeat split. discriminate. Qed.

(** C7.  When the fetch fails on the network or the body is not JSON, both
    loaders catch the failure, log it and set the status text to "Error
    loading POIs"; and [loadPOIs] never ends by throwing, in a run without
    interruption as along any path of its interactions. *)
Theorem load_failure_is_caught (env : Env) (h : Host) (w : World)
    (pool : list (Suspension unit)) (e : Exn) :
  fetch_failed (server env (trace w) pois_request) e ->
  run env (Viewer.loadPOIs h) (w, pool) = ((reported_error e w, pool), Ok tt)
  /\ run env (Editor.loadPOIs h) (w, pool) = ((reported_error e w, pool), Ok tt)
  /\ poi_count (reported_error e w) = "Error loading POIs"%string
  /\ trace (reported_error e w)
     = trace w ++ [Requested pois_request; ConsoleError "Error loading POIs:" e]
  /\ (forall c, snd (run env (Viewer.loadPOIs h) c) = Ok tt)
  /\ (forall c, snd (run env (Editor.loadPOIs h) c) = Ok tt)
  /\ never_throws (Viewer.loadPOIs h)
  /\ never_throws (Editor.loadPOIs h).
Proof.
  intros Hf. repeat split.
  - now apply viewer_load_failed.
  - now apply editor_load_failed.
  - apply viewer_load_never_throws.
  - apply editor_load_never_throws.
  - apply (load_never_throws h).
  - apply (load_never_throws h).
Qed.

Lemma load_failure_is_caught_witness :
  run (constant_env true (Rejected (TypeError "Failed to fetch")))
    (Editor.loadPOIs demo_host) (blank_page, [])
  = ((reported_error (TypeError "Failed to fetch") blank_page, []), Ok tt).
Proof.
  apply (load_failure_is_caught
           (constant_env true (Rejected (TypeError "Failed to fetch")))
           demo_host blank_page [] (TypeError "Failed to fetch")).
  left. reflexivity.
Defined.

(** C8 (as amended).  For a feature whose [properties] is an object and
    whose printed fields can be converted to text, the popup renderer
    returns the markup of the specification: the name (the default
    "Unnamed POI" when the name is absent), the type and address lines only
    for fields that are there, the identifier, the geometry tag, and the
    pretty-printed dump only for extra properties that are there and not
    empty.  When a printed field cannot be converted, the renderer throws
    the error of the conversion. *)
Theorem popup_markup_refines (feature : Value) (props : list (string * JSON)) :
  get_prop feature "properties" = Ok (Some (JObj props)) ->
  (printable_fields (JObj props) ->
   createPopupContent feature = Ok (popup_markup props))
  /\ (~ printable_fields (JObj props) ->
      createPopupContent feature = Threw not_primitive)
  /\ (lookup "name" props = None -> heading props = "<h3>Unnamed POI</h3>"%string)
  /\ (lookup "poi_type" props = None -> type_line props = EmptyString)
  /\ (lookup "address" props = None -> address_line props = EmptyString)
  /\ (type_line props <> EmptyString -> exists v, lookup "poi_type" props = Some v)
  /\ (address_line props <> EmptyString -> exists v, lookup "address" props = Some v)
  /\ (lookup "properties" props = None \/ lookup "properties" props = Some (JObj [])
      -> dump props = EmptyString)
  /\ (dump props <> EmptyString ->
      exists extra, lookup "properties" props = Some extra
                    /\ non_empty (Some extra) = true).
Proof.
  intros Hp. split; [now apply createPopupContent_object|].
  split.
  { apply (createPopupContent_fields feature (JObj props) Hp). discriminate. }
  unfold heading, shown_name, type_line, address_line, optional_line, dump.
  repeat split.
  - now intros ->.
  - now intros ->.
  - now intros ->.
  - destruct (lookup "poi_type" props) as [v|]; [now exists v | now intros []].
  - destruct (lookup "address" props) as [v|]; [now exists v | now intros []].
  - now intros [-> | ->].
  - destruct (lookup "properties" props) as [extra|]; [|now intros []].
    destruct (non_empty (Some extra)) eqn:E; [|now intros []].
    intros _. now exists extra.
Qed.

Lemma popup_markup_refines_witness :
  createPopupContent (Some (demo_feature 2 "Point" "ST_Point"))
  = Ok (popup_markup [("id", JNum 2); ("geom_type", JStr "ST_Point")]).
Proof.
  destruct (popup_markup_refines (Some (demo_feature 2 "Point" "ST_Point"))
              [("id", JNum 2); ("geom_type", JStr "ST_Point")] eq_refl) as [H _].
  apply H. repeat split; try discriminate; eexists; reflexivity.
Defined.

(** C8 as stated fails: the properties are an object whose [name] is an
    object with a [toString] key of its own; the template literal cannot
    convert it and the renderer throws. *)
Lemma popup_of_unprintable_name_throws :
  let props := [("id", JNum 1); ("name", JObj [("toString", JNum 1)]);
                ("geom_type", JStr "ST_Point")] in
  get_prop (Some (JObj [("properties", JObj props)])) "properties"
  = Ok (Some (JObj props))
  /\ truthy (lookup "name" props) = true
  /\ to_string (lookup "name" props) = Threw not_primitive
  /\ createPopupContent (Some (JObj [("properties", JObj props)]))
     = Threw (TypeError "Cannot convert object to primitive value").
Proof. vm_compute. repeat split. Qed.

(** C9.  For a removed shape with a backend id the first thing that
    happens is the confirmation dialog; when the user declines, [deletePOI]
    returns with the dialog as its only trace: no request, no layer clear,
    no reload. *)
Theorem declined_delete_does_nothing (env : Env) (h : Host) (layer : Layer)
    (id : Value) (c : Config) :
  Editor.backend_id layer = Ok id ->
  truthy id = true ->
  (exists evs,
     trace (fst (fst (exec env (Editor.on_draw_deleted h [layer]) c)))
     = trace (fst c)
       ++ Confirmed confirm_text (user env (trace (fst c)) confirm_text) :: evs)
  /\ (user env (trace (fst c)) confirm_text = false ->
      exec env (Editor.deletePOI h id) c
      = (log (Confirmed confirm_text false) c, Finished (Ok tt))
      /\ run env (Editor.deletePOI h id) c
         = (log (Confirmed confirm_text false) c, Ok tt)
      /\ exec env (Editor.on_draw_deleted h [layer]) c
         = (log (Confirmed confirm_text false) c, Finished (Ok tt))
      /\ requests_of (trace (fst (log (Confirmed confirm_text false) c)))
         = requests_of (trace (fst c))).
Proof.
  intros Hid Ht.
  destruct (guard_props layer id Hid Ht) as (props & Hp & Hi).
  assert (Hexec : exec env (Editor.on_draw_deleted h [layer]) c
                  = let (c1, st) := exec env (Editor.deletePOI h id) c in
                    (park st c1, Finished (Ok tt))).
  { unfold Editor.on_draw_deleted. cbn [for_each].
    rewrite !exec_bind, exec_lift, Hid, Ht, exec_bind, exec_lift, Hp,
      exec_bind, exec_lift, Hi.
    cbn [exec]. destruct (exec env (Editor.deletePOI h id) c) as [c1 st].
    reflexivity. }
  split.
  - rewrite Hexec.
    destruct (user env (trace (fst c)) confirm_text) eqn:Hu.
    + destruct (deletePOI_confirmed_quiet env h id c Hu) as (st & Hk & _).
      rewrite Hk. eexists. destruct st; cbn [park fst trace set_trace]; reflexivity.
    + rewrite (deletePOI_declined env h id c Hu).
      exists []. destruct c as [w pool]. reflexivity.
  - intros Hu. repeat split.
    + now apply deletePOI_declined.
    + now apply deletePOI_declined_run.
    + rewrite Hexec, (deletePOI_declined env h id c Hu). reflexivity.
    + destruct c as [w pool]. cbn. rewrite requests_of_app. cbn. apply app_nil_r.
Qed.

Lemma declined_delete_does_nothing_witness :
  exec (constant_env false (serving empty_collection))
    (Editor.deletePOI demo_host (Some (JNum 7))) (blank_page, [])
  = (log (Confirmed confirm_text false) (blank_page, []), Finished (Ok tt)).
Proof.
  destruct (declined_delete_does_nothing
              (constant_env false (serving empty_collection)) demo_host stored
              (Some (JNum 7)) (blank_page, [])) as [_ H].
  - reflexivity.
  - reflexivity.
  - destruct H as (H1 & _); [reflexivity | exact H1].
Defined.

(** C10 (as amended).  [createPopupContent] returns for every feature
    whose [properties] is an object with printed fields that can be
    converted to text; a missing [id] or [geom_type] prints as the text
    "undefined" in its line; it throws exactly when [feature.properties]
    is absent or holds a printed field that cannot be converted. *)
Theorem popup_total_on_properties (feature : Value) :
  (forall props, get_prop feature "properties" = Ok (Some (JObj props)) ->
     printable_fields (JObj props) ->
     createPopupContent feature = Ok (popup_markup props)
     /\ (lookup "id" props = None ->
         id_line props = "<p><strong>ID:</strong> undefined</p>"%string)
     /\ (lookup "geom_type" props = None ->
         geometry_line props = "<p><strong>Geometry:</strong> undefined</p>"%string))
  /\ ((exists e, createPopupContent feature = Threw e)
      <-> properties_absent feature
          \/ exists p, get_prop feature "properties" = Ok (Some p)
                       /\ ~ printable_fields p).
Proof.
  split.
  - intros props Hp Hprint. split; [now apply createPopupContent_object|].
    unfold id_line, geometry_line, line. split; now intros ->.
  - unfold properties_absent. split.
    + intros [e He].
      destruct (get_prop feature "properties") as [[p|]|e'] eqn:E;
        [|left; exact I|left; exact I].
      destruct (p_null_dec p) as [->|Hn]; [left; exact I|].
      right. exists p. split; [reflexivity|]. intros Hprint.
      destruct (createPopupContent_fields feature p E Hn) as [Hok _].
      destruct (Hok Hprint) as [html Hh]. congruence.
    + intros [Habs | (p & Hp & Hnot)].
      * revert Habs. unfold createPopupContent.
        destruct (get_prop feature "properties") as [[p|]|e']; cbn [rbind].
        -- destruct p; intros []. eexists. reflexivity.
        -- intros _. eexists. reflexivity.
        -- intros _. eexists. reflexivity.
      * destruct (p_null_dec p) as [->|Hn].
        -- unfold createPopupContent. rewrite Hp. eexists. reflexivity.
        -- exists not_primitive.
           exact (proj2 (createPopupContent_fields feature p Hp Hn) Hnot).
Qed.

Lemma popup_total_on_properties_witness :
  createPopupContent (Some (JObj [("properties", JObj [])]))
  = Ok (popup_markup [])
  /\ id_line [] = "<p><strong>ID:</strong> undefined</p>"%string
  /\ geometry_line [] = "<p><strong>Geometry:</strong> undefined</p>"%string.
Proof.
  destruct (popup_total_on_properties (Some (JObj [("properties", JObj [])])))
    as [H _].
  destruct (H [] eq_refl) as (H1 & H2 & H3).
  - repeat split; try discriminate; eexists; reflexivity.
  - split; [exact H1 | split; [apply H2 | apply H3]; reflexivity].
Defined.

(** C10 as stated fails: [feature.properties] is there, an object, and
    the renderer throws all the same, its [id] being an object with a
    [toString] key of its own. *)
Lemma popup_of_unprintable_id_throws :
  let props := [("id", JObj [("toString", JStr "x")]);
                ("geom_type", JStr "ST_Polygon")] in
  let feature := Some (JObj [("properties", JObj props)]) in
  get_prop feature "properties" = Ok (Some (JObj props))
  /\ ~ properties_absent feature
  /\ createPopupContent feature
     = Threw (TypeError "Cannot convert object to primitive value").
Proof. vm_compute. repeat split. intros []. Qed.

(* ================================================================== *)
(** * Further properties of the scripts *)
(* ================================================================== *)

(** X1.  When the creation request fails (the fetch is rejected, the
    status is not 2xx, or the 2xx body is not JSON), the submit handler
    logs the error and alerts "Failed to create POI: " with its message;
    nothing else on the page changes: the form stays open and filled, the
    drawn shape stays pending and in the overlay, no layer group is cleared
    and no other request is sent. *)
Theorem creation_failure_keeps_drawing (env : Env) (h : Host) (w : World)
    (pool : list (Suspension unit)) (drawing : Layer) (properties : JSON)
    (e : Exn) :
  currentDrawing w = Some drawing ->
  typed_properties h (poi_properties (form w)) = Ok properties ->
  creation_error (server env (trace w) (creation_request w properties)) = Some e ->
  run env (Editor.on_submit h) (w, pool)
  = ((reported_failure (creation_request w properties) "Error creating POI:"
        "Failed to create POI: " e w, pool), Ok tt).
Proof. apply submit_failure. Qed.

Lemma creation_failure_keeps_drawing_witness :
  let done := fst (fst (run (constant_env true (refusing 500))
                          (Editor.on_submit demo_host)
                          (drawing_page EmptyString, []))) in
  drawnItems done = [drawn] /\ currentDrawing done = Some drawn
  /\ modal_display done = "block"%string
  /\ In (Alerted "Failed to create POI: HTTP error! status: 500") (trace done).
Proof.
  rewrite (creation_failure_keeps_drawing (constant_env true (refusing 500))
             demo_host (drawing_page EmptyString) [] drawn JNull
             (Error "HTTP error! status: 500")); try reflexivity.
  cbn. repeat split. right. right. left. reflexivity.
Defined.

(** X2.  With a pending drawing and a properties text that is blank or
    parses, the submit handler sends exactly one POST to /api/pois, with
    the JSON content type and, as body, the JSON text of the object with
    the keys name, poi_type, address, geometry and properties (null for a
    blank text); it sends one GET of the collection after it when the
    creation succeeded and no other request otherwise, and it never
    throws. *)
Theorem creation_posts_form (env : Env) (h : Host) (w : World)
    (pool : list (Suspension unit)) (drawing : Layer) (properties : JSON) :
  currentDrawing w = Some drawing ->
  typed_properties h (poi_properties (form w)) = Ok properties ->
  exists c', run env (Editor.on_submit h) (w, pool) = (c', Ok tt)
    /\ snd c' = pool
    /\ requests_of (trace (fst c'))
       = requests_of (trace w) ++ creation_request w properties ::
           match creation_error (server env (trace w) (creation_request w properties)) with
           | Some _ => []
           | None => [pois_request]
           end.
Proof.
  intros Hc Hp.
  destruct (creation_error (server env (trace w) (creation_request w properties)))
    as [e|] eqn:He.
  - rewrite (submit_failure env h w pool drawing properties e Hc Hp He).
    eexists. split; [reflexivity|]. split; [reflexivity|].
    cbn [fst]. unfold reported_failure. cbn [trace set_trace].
    rewrite requests_of_app. reflexivity.
  - rewrite (submit_sends env h w pool drawing properties Hc Hp).
    rewrite run_try_catch, run_bind, run_fetch. cbn [fst snd].
    unfold creation_error, status_error in He.
    destruct (server env (trace w) (creation_request w properties)) as [e'|r];
      [discriminate|].
    destruct (ok r); [|discriminate]. cbn [negb]. run_simp.
    destruct (json r) as [created|e']; [|discriminate]. run_simp.
    unfold console_log at 1. run_simp.
    unfold Editor.closeModal. run_simp. unfold log. cbn [fst snd currentDrawing
      set_trace set_modal_display set_form]. rewrite Hc. run_simp.
    unfold Editor.clearLayers. run_simp.
    match goal with |- context [run env (Editor.loadPOIs h) ?c] => set (c1 := c) end.
    destruct (load_requests_editor env h c1) as (c2 & Hl & Hs & Hw).
    rewrite Hl. unfold alert. rewrite run_emit.
    eexists. split; [reflexivity|]. split.
    + unfold log. cbn [snd]. rewrite Hw. reflexivity.
    + unfold log. cbn [fst trace set_trace]. rewrite requests_of_app, Hs.
      subst c1. page. rewrite !requests_of_app.
      cbn [requests_of]. rewrite !app_nil_r, <- app_assoc. reflexivity.
Qed.

Lemma creation_posts_form_witness :
  exists c',
    run (constant_env true (serving empty_collection)) (Editor.on_submit demo_host)
      (drawing_page EmptyString, []) = (c', Ok tt)
    /\ requests_of (trace (fst c'))
       = [mkRequest "POST" "/api/pois" [("Content-Type", "application/json")]
            (Some ("{" ++ dq ++ "name" ++ dq ++ ":" ++ dq ++ "Cafe" ++ dq ++ ","
                   ++ dq ++ "poi_type" ++ dq ++ ":" ++ dq ++ "food" ++ dq ++ ","
                   ++ dq ++ "address" ++ dq ++ ":" ++ dq ++ dq ++ ","
                   ++ dq ++ "geometry" ++ dq ++ ":{" ++ dq ++ "type" ++ dq ++ ":"
                   ++ dq ++ "Polygon" ++ dq ++ "," ++ dq ++ "coordinates" ++ dq
                   ++ ":[]}," ++ dq ++ "properties" ++ dq ++ ":null}")%string);
          pois_request].
Proof.
  destruct (creation_posts_form (constant_env true (serving empty_collection))
              demo_host (drawing_page EmptyString) [] drawn JNull)
    as (c' & H1 & _ & H2); try reflexivity.
  exists c'. split; [exact H1|]. rewrite H2. reflexivity.
Defined.

(** X3.  A confirmed deletion answered with a 2xx status (whatever its
    body) logs "POI deleted:", empties the three layer groups and the
    overlay, resets the colour cursor and runs one load: the DELETE, sent
    to [/api/pois/] followed by the text of the id, is followed by exactly
    one GET of the collection.  The pending drawing, the form and the modal
    are not touched by the clearing. *)
Theorem confirmed_delete_reloads (env : Env) (h : Host) (w : World)
    (pool : list (Suspension unit)) (poiId : Value) (req : Request) :
  user env (trace w) confirm_text = true ->
  delete_request poiId = Ok req ->
  status_error (server env (trace w ++ [Confirmed confirm_text true]) req) = None ->
  req = mkRequest "DELETE" ("/api/pois/" ++ shown poiId) [] None
  /\ exists c2,
    run env (Editor.loadPOIs h) (cleared_after_delete poiId req w, pool) = (c2, Ok tt)
    /\ run env (Editor.deletePOI h poiId) (w, pool) = (c2, Ok tt)
    /\ requests_of (trace (fst c2))
       = requests_of (trace w) ++ [req; pois_request].
Proof.
  intros Hu Hq He. split; [now apply delete_request_shown|].
  destruct (load_requests_editor env h (cleared_after_delete poiId req w, pool))
    as (c2 & Hl & Hs & _).
  exists c2. split; [exact Hl|]. split.
  - rewrite (delete_success env h poiId req w pool Hu Hq He). exact Hl.
  - rewrite Hs. cbn [fst cleared_after_delete trace].
    rewrite requests_of_app. cbn [requests_of]. now rewrite <- app_assoc.
Qed.

Lemma confirmed_delete_reloads_witness :
  exists c2,
    run (constant_env true (Resolved (mkResponse true 204
           (Threw (SyntaxError "Unexpected end of JSON input")))))
      (Editor.deletePOI demo_host (Some (JNum 7))) (blank_page, []) = (c2, Ok tt)
    /\ requests_of (trace (fst c2))
       = [mkRequest "DELETE" "/api/pois/7" [] None; pois_request].
Proof.
  destruct (confirmed_delete_reloads
              (constant_env true (Resolved (mkResponse true 204
                 (Threw (SyntaxError "Unexpected end of JSON input")))))
              demo_host blank_page [] (Some (JNum 7))
              (mkRequest "DELETE" "/api/pois/7" [] None))
    as (_ & c2 & _ & H1 & H2); try reflexivity.
  exists c2. split; [exact H1 | exact H2].
Defined.

(** X4.  When a confirmed deletion fails (the fetch is rejected or the
    status is not 2xx), [deletePOI] logs the error and alerts "Failed to
    delete POI: " with its message; no layer is cleared and no load is
    run: the page is as before but for the dialog, the request and the
    report in its trace.  The same holds, without the request, when the
    id cannot be written into the URL. *)
Theorem failed_delete_keeps_page (env : Env) (h : Host) (w : World)
    (pool : list (Suspension unit)) (poiId : Value) :
  user env (trace w) confirm_text = true ->
  (forall req e,
     delete_request poiId = Ok req ->
     status_error (server env (trace w ++ [Confirmed confirm_text true]) req)
     = Some e ->
     run env (Editor.deletePOI h poiId) (w, pool)
     = ((reported_failure req "Error deleting POI:" "Failed to delete POI: " e
           (set_trace (trace w ++ [Confirmed confirm_text true]) w), pool), Ok tt))
  /\ (forall e,
        delete_request poiId = Threw e ->
        run env (Editor.deletePOI h poiId) (w, pool)
        = ((set_trace (trace w ++ [Confirmed confirm_text true;
                                   ConsoleError "Error deleting POI:" e;
                                   Alerted ("Failed to delete POI: " ++ message e)])
              w, pool), Ok tt)).
Proof.
  intros Hu. split; [|intros e Hq; now apply delete_unsent].
  intros req e Hq He. rewrite (delete_sends env h poiId req w pool Hu Hq).
  rewrite run_try_catch, run_bind, run_fetch. unfold log. page.
  unfold status_error in He.
  destruct (server env (trace w ++ [Confirmed confirm_text true]) req) as [e'|r].
  - injection He as ->. unfold console_error, alert. run_simp.
    unfold reported_failure, log. page. now rewrite <- !app_assoc.
  - destruct (ok r); [discriminate|]. injection He as <-. cbn [negb].
    unfold console_error, alert. run_simp.
    unfold reported_failure, log. page. now rewrite <- !app_assoc.
Qed.

Lemma failed_delete_keeps_page_witness :
  trace (fst (fst (run (constant_env true (refusing 404))
                     (Editor.deletePOI demo_host (Some (JNum 7)))
                     (blank_page, []))))
  = [Confirmed confirm_text true;
     Requested (mkRequest "DELETE" "/api/pois/7" [] None);
     ConsoleError "Error deleting POI:" (Error "HTTP error! status: 404");
     Alerted "Failed to delete POI: HTTP error! status: 404"].
Proof.
  destruct (failed_delete_keeps_page (constant_env true (refusing 404)) demo_host
              blank_page [] (Some (JNum 7)) eq_refl) as [H _].
  rewrite (H (mkRequest "DELETE" "/api/pois/7" [] None)
             (Error "HTTP error! status: 404") eq_refl eq_refl).
  reflexivity.
Defined.

(** X5.  Drawing a shape and then dismissing the form by a click on the
    backdrop leaves the overlay as it was before the shape was drawn: the
    shape is added to the overlay and held as pending with the form open,
    and the click removes exactly that shape, resets the form, hides the
    modal and forgets the pending shape; nothing is sent.  A click on the
    backdrop while nothing is pending only hides the modal and resets the
    form, and a click anywhere else changes nothing. *)
Theorem cancel_discards_drawing (env : Env) (h : Host) (w : World)
    (pool : list (Suspension unit)) (layer : Layer) :
  unseen layer w ->
  run env (Editor.on_draw_created layer) (w, pool)
  = ((opened_for layer w, pool), Ok tt)
  /\ drawnItems (opened_for layer w) = drawnItems w ++ [layer]
  /\ run env (Editor.window_onclick h true) (opened_for layer w, pool)
     = ((set_focused "poi-name" (dismissed h w), pool), Ok tt)
  /\ drawnItems (dismissed h w) = drawnItems w
  /\ currentDrawing (dismissed h w) = None
  /\ trace (dismissed h w) = trace w
  /\ (currentDrawing w = None ->
      run env (Editor.window_onclick h true) (w, pool)
      = ((dismissed h w, pool), Ok tt))
  /\ run env (Editor.window_onclick h false) (w, pool) = ((w, pool), Ok tt).
Proof.
  intros Hf. split; [apply created_run|].
  split; [exact (addLayer_fresh layer (drawnItems w) Hf)|].
  split; [now apply cancel_round_trip|].
  split; [reflexivity|]. split; [reflexivity|]. split; [reflexivity|].
  split; [|reflexivity].
  intros Hc. cbn [Editor.window_onclick]. now apply closeModal_idle.
Qed.

Lemma cancel_discards_drawing_witness :
  drawnItems (fst (fst (run (constant_env true (serving empty_collection))
                          (Editor.window_onclick demo_host true)
                          (opened_for drawn blank_page, [])))) = [].
Proof.
  destruct (cancel_discards_drawing (constant_env true (serving empty_collection))
              demo_host blank_page [] drawn) as (_ & _ & H & _).
  - constructor.
  - rewrite H. reflexivity.
Defined.

(** X6.  Every run of [loadPOIs], in the editor and in the viewer, sends
    exactly one request, the GET of /api/pois, whatever the backend
    answers and whether rendering succeeds or not; it returns normally and
    leaves no call suspended. *)
Theorem load_sends_one_request (env : Env) (h : Host) (c : Config) :
  (exists c', run env (Editor.loadPOIs h) c = (c', Ok tt)
     /\ requests_of (trace (fst c')) = requests_of (trace (fst c)) ++ [pois_request]
     /\ snd c' = snd c)
  /\ (exists c', run env (Viewer.loadPOIs h) c = (c', Ok tt)
        /\ requests_of (trace (fst c')) = requests_of (trace (fst c)) ++ [pois_request]
        /\ snd c' = snd c).
Proof.
  split; [apply load_requests_editor | apply load_requests_viewer].
Qed.

(** X7.  The delete handler stops at the first removed shape whose
    feature has no properties object: reading [properties.id] throws, the
    handler ends with that error, and the shapes after it get neither a
    dialog nor a DELETE request; what was asked and sent for the shapes
    before it stays. *)
Theorem delete_event_stops_early (env : Env) (h : Host)
    (before after : list Layer) (l : Layer) (e : Exn) (c : Config) :
  Forall guarded before ->
  Editor.backend_id l = Threw e ->
  exists pool',
    exec env (Editor.on_draw_deleted h (before ++ l :: after)) c
    = ((set_trace (deletion_trace env (trace (fst c)) before) (fst c), pool'),
       Finished (Threw e)).
Proof.
  intros Hb Hl.
  destruct (on_draw_deleted_any env h (before ++ l :: after) c) as [pool' He].
  destruct (deletion_stops env before after l e Hb Hl) as [Hr Ht].
  rewrite Hr, Ht in He. now exists pool'.
Qed.

Lemma delete_event_stops_early_witness :
  exists pool',
    exec (constant_env true (serving empty_collection))
      (Editor.on_draw_deleted demo_host [drawn; bare; stored]) (blank_page, [])
    = ((blank_page, pool'),
       Finished (Threw (TypeError
         "Cannot read properties of undefined (reading 'id')"))).
Proof.
  destruct (delete_event_stops_early (constant_env true (serving empty_collection))
              demo_host [drawn] [stored] bare
              (TypeError "Cannot read properties of undefined (reading 'id')")
              (blank_page, [])) as [pool' H].
  - repeat constructor. eexists. reflexivity.
  - reflexivity.
  - exists pool'. exact H.
Defined.


(** X8.  Every shape the editor puts into the overlay has a guard
    [layer.feature && layer.feature.properties.id] that can be evaluated:
    starting from an overlay of such shapes, after any handler of the
    script (the draw control handing over shapes without a broken
    feature) and however the calls it leaves suspended are resumed, the
    overlay still holds only such shapes; so the delete handler runs to
    its end, without throwing, for any shapes removed from the overlay. *)
Theorem overlay_stays_guarded (env : Env) (h : Host) (p : Prog unit)
    (w : World) (c' c'' : Config) (st : Paused unit) :
  handler h p ->
  (forall layer, p = Editor.on_draw_created layer -> guarded layer) ->
  overlay_guarded w ->
  exec env p (w, []) = (c', st) ->
  resumes env (park st c') c'' ->
  overlay_guarded (fst c'')
  /\ forall layers, incl layers (drawnItems (fst c'')) ->
       exists c3, exec env (Editor.on_draw_deleted h layers) c''
                  = (c3, Finished (Ok tt)).
Proof.
  intros Hp Ha Hw He Hr.
  assert (Hg : overlay_guarded (fst c'')).
  { apply (session_keeps env overlay_guarded p w c' c'' st); auto.
    now apply guards_handler with (h := h). }
  split; [exact Hg|]. intros layers Hin.
  destruct (on_draw_deleted_any env h layers c'') as [pool' Hd].
  rewrite deletion_result_guarded in Hd; [eexists; exact Hd|].
  apply Forall_forall. intros l Hl.
  exact (proj1 (Forall_forall _ _) Hg l (Hin l Hl)).
Qed.

Lemma overlay_stays_guarded_witness :
  exists c3,
    exec (constant_env true (serving empty_collection))
      (Editor.on_draw_deleted demo_host [drawn]) (opened_for drawn blank_page, [])
    = (c3, Finished (Ok tt)).
Proof.
  destruct (overlay_stays_guarded (constant_env true (serving empty_collection))
              demo_host (Editor.on_draw_created drawn) blank_page
              (opened_for drawn blank_page, []) (opened_for drawn blank_page, [])
              (Finished (Ok tt))) as [_ H].
  - constructor.
  - intros layer E. injection E as E _.
    apply (f_equal (fun f => currentDrawing (f blank_page))) in E.
    injection E as <-. eexists. reflexivity.
  - constructor.
  - reflexivity.
  - apply resumes_refl.
  - apply H. intros l Hl. exact Hl.
Defined.


(** X9.  Every group in the point, line and polygon layer groups carries
    the popup that [createPopupContent] builds for the feature the group
    was made from: no handler of the editor, and no load of the viewer,
    adds a group without it, however the suspended calls are resumed. *)
Theorem groups_keep_popups (env : Env) (h : Host) (p : Prog unit)
    (w : World) (c' c'' : Config) (st : Paused unit) :
  handler h p \/ p = Viewer.on_load h ->
  labelled w ->
  exec env p (w, []) = (c', st) ->
  resumes env (park st c') c'' ->
  labelled (fst c'').
Proof.
  intros Hp Hw He Hr.
  apply (session_keeps env labelled p w c' c'' st); auto.
  destruct Hp as [Hp | ->].
  - now apply labels_handler with (h := h).
  - cbn [Viewer.on_load ensures]. split; [apply labels_load_viewer | exact Logic.I].
Qed.

Lemma demo_items_renderable : Forall (renderable demo_host) demo_items.
Proof. repeat constructor; eexists; reflexivity. Qed.

(** The first load of the editor, its response being the demo collection:
    the event loop takes the page to the page of an uninterrupted load. *)
Lemma demo_load_resumes :
  let env := constant_env true (serving demo_collection) in
  resumes env (fst (exec env (Editor.on_load demo_host) (blank_page, [])))
    (fst (fst (run env (Editor.loadPOIs demo_host) (blank_page, []))), []).
Proof.
  intros env.
  set (r := mkResponse true 200 (Ok demo_collection)).
  set (k := answered (Editor.loadPOIs demo_host)).
  set (w1 := logged (Requested pois_request) blank_page).
  change (fst (exec env (Editor.on_load demo_host) (blank_page, [])))
    with (w1, [OnFetch pois_request k]).
  eapply resumes_step.
  { apply (@resume_fetch env w1 [] pois_request k [] (Resolved r) (w1, [])
             (Suspended (OnTick (ticked (k (Resolved r)))))).
    reflexivity. }
  cbn [park fst snd app].
  eapply resumes_step.
  { apply (@resume_tick env w1 [] (ticked (k (Resolved r))) []
             (fst (fst (run env (Editor.loadPOIs demo_host) (blank_page, []))), [])
             (Finished (Ok tt))).
    vm_compute. reflexivity. }
  cbn [park]. apply resumes_refl.
Qed.

Lemma groups_keep_popups_witness :
  let env := constant_env true (serving demo_collection) in
  exists c'',
    resumes env (fst (exec env (Editor.on_load demo_host) (blank_page, []))) c''
    /\ map source (pointLayer (fst c'')) = [Some (demo_feature 2 "Point" "ST_Point")]
    /\ List.length (lineLayer (fst c'')) = 2
    /\ List.length (polygonLayer (fst c'')) = 2
    /\ labelled (fst c'').
Proof.
  intros env.
  exists (fst (fst (run env (Editor.loadPOIs demo_host) (blank_page, []))), []).
  split; [exact demo_load_resumes|]. split; [reflexivity|].
  split; [reflexivity|]. split; [reflexivity|].
  apply (groups_keep_popups env demo_host (Editor.on_load demo_host) blank_page
           (fst (exec env (Editor.on_load demo_host) (blank_page, [])))
           _ (Finished (Ok tt))).
  - left. constructor.
  - constructor.
  - reflexivity.
  - exact demo_load_resumes.
Defined.

(** X10.  A load whose collection holds features, all of which can be
    rendered, does not end with the count text "Total POIs: n".  The
    features are rendered, one group each in the layer group of its class,
    and then the bounds of the feature group of the layer groups are asked
    for, which throws: the load ends in its catch block, with the error in
    the console and the count text "Error loading POIs".  In the editor
    and in the viewer. *)
Theorem load_of_features_reports_error (env : Env) (h : Host) (c : Config)
    (r : Response) (fields : list (string * JSON)) (items : list JSON) :
  server env (trace (fst c)) pois_request = Resolved r ->
  json r = Ok (JObj fields) ->
  lookup "features" fields = Some (JArr items) ->
  items <> [] ->
  Forall (renderable h) items ->
  (let w' := fst (fst (run env (Editor.loadPOIs h) c)) in
   poi_count w' = "Error loading POIs"%string
   /\ trace w' = trace (fst c)
                  ++ [Requested pois_request;
                      ConsoleError "Error loading POIs:" no_getLatLng]
   /\ map source (pointLayer w')
      = map source (pointLayer (fst c)) ++ map Some (filter (of_class Points) items)
   /\ map source (lineLayer w')
      = map source (lineLayer (fst c)) ++ map Some (filter (of_class Lines) items)
   /\ map source (polygonLayer w')
      = map source (polygonLayer (fst c))
        ++ map Some (filter (of_class Polygons) items))
  /\ (let w' := fst (fst (run env (Viewer.loadPOIs h) c)) in
      poi_count w' = "Error loading POIs"%string
      /\ trace w' = trace (fst c)
                     ++ [Requested pois_request;
                         ConsoleError "Error loading POIs:" no_getLatLng]
      /\ map source (pointLayer w')
         = map source (pointLayer (fst c))
           ++ map Some (filter (of_class Points) items)
      /\ map source (polygonLayer w')
         = map source (polygonLayer (fst c))
           ++ map Some (filter (fun f => negb (of_class Points f)) items)).
Proof.
  intros Hs Hj Hf Hne Hall. split.
  - destruct (editor_load_frame env h c r fields items Hs Hj Hf Hne Hall)
      as (c' & Hr & Hc & Ht).
    destruct (editor_load_renders env h c r fields items Hs Hj Hf Hall)
      as (c2 & Hr2 & Ho).
    rewrite Hr in *. injection Hr2 as <-. cbn [fst].
    pose proof (f_equal seen_points Ho) as H1.
    pose proof (f_equal seen_lines Ho) as H2.
    pose proof (f_equal seen_polygons Ho) as H3.
    cbn in H1, H2, H3. auto.
  - destruct (viewer_load_frame env h c r fields items Hs Hj Hf Hne Hall)
      as (c' & Hr & Hc & Ht).
    destruct (viewer_load_renders env h c r fields items Hs Hj Hf Hall)
      as (c2 & Hr2 & Ho).
    rewrite Hr in *. injection Hr2 as <-. cbn [fst].
    pose proof (f_equal seen_points Ho) as H1.
    pose proof (f_equal seen_polygons Ho) as H3.
    cbn in H1, H3. auto.
Qed.

Lemma load_of_features_reports_error_witness :
  let w' := fst (fst (run (constant_env true (serving demo_collection))
                        (Editor.loadPOIs demo_host) (blank_page, []))) in
  poi_count w' = "Error loading POIs"%string
  /\ trace w' = [Requested pois_request;
                 ConsoleError "Error loading POIs:"
                   (TypeError "layer.getLatLng is not a function")]
  /\ map source (polygonLayer w')
     = [Some (demo_feature 1 "Polygon" "ST_Polygon");
        Some (demo_feature 4 "MultiPolygon" "ST_MultiPolygon")].
Proof.
  destruct (load_of_features_reports_error
              (constant_env true (serving demo_collection))
              demo_host (blank_page, [])
              (mkResponse true 200 (Ok demo_collection))
              [("type", JStr "FeatureCollection"); ("features", JArr demo_items)]
              demo_items) as [H _];
    [reflexivity | reflexivity | reflexivity | discriminate
    | exact demo_items_renderable |].
  destruct H as (H1 & H2 & _ & _ & H5).
  split; [exact H1|]. split; [exact H2 | exact H5].
Defined.

(** X11.  No load fits the view.  The feature group that [loadPOIs] builds
    to fit the map holds the layer groups of the page, three in the editor
    and two in the viewer; asking it for its bounds throws on the first of
    them, so [fitBounds] is never called: whatever the page holds and
    whatever the backend answers, the [fitBounds] calls of the trace are
    the same after a load as before. *)
Theorem load_never_fits_view (env : Env) (h : Host) (c : Config) :
  getBounds_isValid 3 = Threw no_getLatLng
  /\ getBounds_isValid 2 = Threw no_getLatLng
  /\ fits_of (trace (fst (fst (run env (Editor.loadPOIs h) c))))
     = fits_of (trace (fst c))
  /\ fits_of (trace (fst (fst (run env (Viewer.loadPOIs h) c))))
     = fits_of (trace (fst c)).
Proof.
  split; [reflexivity|]. split; [reflexivity|]. split.
  - destruct (editor_load_trace env h c) as (c' & Hr & [[_ Ht] | [e [_ Ht]]]);
      rewrite Hr; cbn [fst]; rewrite Ht, fits_of_app; cbn; apply app_nil_r.
  - destruct (viewer_load_trace env h c) as (c' & Hr & [[_ Ht] | [e [_ Ht]]]);
      rewrite Hr; cbn [fst]; rewrite Ht, fits_of_app; cbn; apply app_nil_r.
Qed.

(** X12.  A load never removes or reorders what is rendered: whatever the
    backend answers and whether rendering succeeds or stops on an error,
    each layer group afterwards starts with the groups it had before, in
    order, with their features and popups. *)
Theorem load_never_removes (env : Env) (h : Host) (c : Config) :
  extends_page (fst c) (fst (fst (run env (Editor.loadPOIs h) c)))
  /\ extends_page (fst c) (fst (fst (run env (Viewer.loadPOIs h) c))).
Proof.
  split.
  - exact (proj1 (run_ensures env (extends_page (fst c)) _ anything c
                    (extends_load_editor h (fst c)) (extends_refl (fst c)))).
  - exact (proj1 (run_ensures env (extends_page (fst c)) _ anything c
                    (extends_load_viewer h (fst c)) (extends_refl (fst c)))).
Qed.

(** X13.  Two calls of [getPolygonColor] return the same colour exactly
    when their cursors agree modulo 10: the ten colours of the palette are
    pairwise distinct, so ten polygons rendered in a row all differ. *)
Theorem palette_colours_distinct (env : Env) (w1 w2 : World)
    (pool1 pool2 : list (Suspension unit)) :
  snd (run env getPolygonColor (w1, pool1)) = snd (run env getPolygonColor (w2, pool2))
  <-> colorIndex w1 mod 10 = colorIndex w2 mod 10.
Proof.
  rewrite !getPolygonColor_run. cbn [snd]. split.
  - intros E. apply palette_injective. congruence.
  - intros E. f_equal. now apply palette_injective.
Qed.


(** X14.  A load of the editor registers every layer it renders in the
    editable overlay, with the feature it was rendered from attached: on a
    page whose layers all have Leaflet ids handed out before, the load
    adds one group per feature to the layer group of its class, in the
    order of the collection, sets [layer.feature] of each layer of the
    group to that feature, and appends the layers to the overlay, lines
    first, then points, then polygons.  On a page that held nothing (the
    page at start, or after [clearLayers]) the overlay is then exactly
    what the three layer groups show, and every overlay layer carries a
    feature of the collection. *)
Theorem load_registers_layers (env : Env) (h : Host) (w : World)
    (pool : list (Suspension unit)) (r : Response)
    (fields : list (string * JSON)) (items : list JSON) :
  server env (trace w) pois_request = Resolved r ->
  json r = Ok (JObj fields) ->
  lookup "features" fields = Some (JArr items) ->
  Forall (renderable h) items ->
  stamped w ->
  exists w' L P G,
    run env (Editor.loadPOIs h) (w, pool) = ((w', pool), Ok tt)
    /\ loaded items L P G w w'
    /\ stamped w'
    /\ (drawnItems w = [] -> pointLayer w = [] -> lineLayer w = [] ->
        polygonLayer w = [] ->
        drawnItems w'
        = rendered (lineLayer w') ++ rendered (pointLayer w')
            ++ rendered (polygonLayer w')
        /\ Forall (fun l => exists f, In f items /\ feature l = Some f)
             (drawnItems w')).
Proof.
  intros Hs Hj Hf Hall Hw.
  destruct (editor_load_registers env h w pool r fields items Hs Hj Hf Hall Hw)
    as (w' & L & P & G & Hr & Hl & Hw').
  exists w', L, P, G. split; [exact Hr|]. split; [exact Hl|]. split; [exact (proj1 Hw')|].
  intros Ed Ep El Eg. destruct Hl as (H1 & H2 & H3 & H4 & H5 & H6 & H7).
  rewrite H1, H2, H3, H4, Ed, Ep, El, Eg. cbn [app]. split; [reflexivity|].
  assert (Hsub : forall cl fs, Forall (fun l => exists f, In f (filter (of_class cl) items)
                                         /\ feature l = Some f) fs ->
                 Forall (fun l => exists f, In f items /\ feature l = Some f) fs).
  { intros cl fs. apply Forall_impl. intros l (f & Hin & Hfe). exists f.
    split; [|exact Hfe]. apply filter_In in Hin. apply Hin. }
  rewrite !Forall_app. repeat split.
  - apply (Hsub Lines). now apply owned_layers.
  - apply (Hsub Points). now apply owned_layers.
  - apply (Hsub Polygons). now apply owned_layers.
Qed.

Lemma load_registers_layers_witness :
  let w' := fst (fst (run (constant_env true (serving demo_collection))
                        (Editor.loadPOIs demo_host) (blank_page, []))) in
  drawnItems w'
  = rendered (lineLayer w') ++ rendered (pointLayer w') ++ rendered (polygonLayer w').
Proof.
  destruct (load_registers_layers (constant_env true (serving demo_collection))
              demo_host blank_page []
              (mkResponse true 200 (Ok demo_collection))
              [("type", JStr "FeatureCollection"); ("features", JArr demo_items)]
              demo_items) as (w' & L & P & G & Hr & _ & _ & H);
    [reflexivity | reflexivity | reflexivity | exact demo_items_renderable
    | constructor |].
  cbv zeta. rewrite Hr. cbn [fst]. now apply H.
Defined.

(** X15.  Every marker of the point layer group is the circle marker the
    scripts configure (radius 8, fill #3388ff, white stroke of weight 2,
    opacity 1, fill opacity 0.8), and every path of the line layer group
    has the line style (stroke #00ff00, weight 4, opacity 0.8): no handler
    of the editor, and no load of the viewer, adds a layer styled
    otherwise, however the suspended calls are resumed. *)
Theorem layers_keep_class_styles (env : Env) (h : Host) (p : Prog unit)
    (w : World) (c' c'' : Config) (st : Paused unit) :
  handler h p \/ p = Viewer.on_load h ->
  class_styles w ->
  exec env p (w, []) = (c', st) ->
  resumes env (park st c') c'' ->
  class_styles (fst c'').
Proof.
  intros Hp Hw He Hr.
  apply (session_keeps env class_styles p w c' c'' st); auto.
  destruct Hp as [Hp | ->].
  - now apply styles_handler with (h := h).
  - cbn [Viewer.on_load ensures]. split; [apply styles_load_viewer | exact Logic.I].
Qed.

Lemma layers_keep_class_styles_witness :
  let env := constant_env true (serving demo_collection) in
  exists c'',
    resumes env (fst (exec env (Editor.on_load demo_host) (blank_page, []))) c''
    /\ map options (rendered (pointLayer (fst c''))) = [circle_options]
    /\ map options (rendered (lineLayer (fst c''))) = [line_options; line_options]
    /\ class_styles (fst c'').
Proof.
  intros env.
  exists (fst (fst (run env (Editor.loadPOIs demo_host) (blank_page, []))), []).
  split; [exact demo_load_resumes|]. split; [reflexivity|]. split; [reflexivity|].
  apply (layers_keep_class_styles env demo_host (Editor.on_load demo_host) blank_page
           (fst (exec env (Editor.on_load demo_host) (blank_page, [])))
           _ (Finished (Ok tt))).
  - left. constructor.
  - split; constructor.
  - reflexivity.
  - exact demo_load_resumes.
Defined.

(** X16.  When the collection holds a feature that cannot be rendered (its
    properties cannot be read, its popup cannot be written, or Leaflet
    rejects its GeoJSON), the load gives up: the error is logged, the count text ends as "Error loading
    POIs" although "Total POIs" had been written, and [loadPOIs] returns
    normally; the groups rendered before the failing feature stay on the
    map. *)
Theorem unrenderable_feature_fails_load (env : Env) (h : Host) (c : Config)
    (r : Response) (fields : list (string * JSON)) (items : list JSON) :
  server env (trace (fst c)) pois_request = Resolved r ->
  json r = Ok (JObj fields) ->
  lookup "features" fields = Some (JArr items) ->
  ~ Forall (renderable h) items ->
  (exists c1 e,
     run env (Editor.loadPOIs h) c = ((gave_up e (fst c1), snd c1), Ok tt)
     /\ extends_page (fst c) (fst c1))
  /\ (exists c1 e,
        run env (Viewer.loadPOIs h) c = ((gave_up e (fst c1), snd c1), Ok tt)
        /\ extends_page (fst c) (fst c1)).
Proof.
  intros Hs Hj Hf Hnot.
  assert (Hn : items <> []) by (intros ->; apply Hnot; constructor).
  split.
  - destruct (editor_load_gives_up env h c r fields items Hs Hj Hf Hn)
      as (c1 & e & Hr).
    exists c1, e. split; [exact Hr|].
    pose proof (proj1 (run_ensures env (extends_page (fst c)) _ anything c
                         (extends_load_editor h (fst c)) (extends_refl (fst c)))) as H.
    rewrite Hr in H. exact H.
  - destruct (viewer_load_gives_up env h c r fields items Hs Hj Hf Hn)
      as (c1 & e & Hr).
    exists c1, e. split; [exact Hr|].
    pose proof (proj1 (run_ensures env (extends_page (fst c)) _ anything c
                         (extends_load_viewer h (fst c)) (extends_refl (fst c)))) as H.
    rewrite Hr in H. exact H.
Qed.

Lemma unrenderable_feature_fails_load_witness :
  let w' := fst (fst (run (constant_env true (serving broken_collection))
                        (Editor.loadPOIs demo_host) (blank_page, []))) in
  poi_count w' = "Error loading POIs"%string
  /\ map source (lineLayer w') = [Some (demo_feature 3 "LineString" "ST_LineString")].
Proof.
  destruct (unrenderable_feature_fails_load
              (constant_env true (serving broken_collection)) demo_host
              (blank_page, []) (mkResponse true 200 (Ok broken_collection))
              [("type", JStr "FeatureCollection"); ("features", JArr broken_items)]
              broken_items)
    as [(c1 & e & Hr & _) _]; [reflexivity | reflexivity | reflexivity | |].
  - intros H. inversion H as [|x xs _ H2]; subst.
    inversion H2 as [|y ys [[t Ht] _] _]; subst. discriminate.
  - cbv zeta. split; [now rewrite Hr | reflexivity].
Defined.


(** X17.  [loadPOIs] is not reentrant.  When a second load is started
    while the first still waits for its response, and both responses then
    arrive with the same collection, nothing is cleared in between: the
    second rendering is added after the first, so every feature ends up
    with two groups in its layer group and every layer twice in the
    overlay. *)
Theorem overlapping_loads_render_twice (env : Env) (h : Host) (w : World)
    (r : Response) (fields : list (string * JSON)) (items : list JSON)
    (c1 c2 : Config) (s1 s2 : Suspension unit) :
  json r = Ok (JObj fields) ->
  lookup "features" fields = Some (JArr items) ->
  Forall (renderable h) items ->
  stamped w ->
  exec env (Editor.loadPOIs h) (w, []) = (c1, Suspended s1) ->
  exec env (Editor.loadPOIs h) (park (Suspended s1) c1) = (c2, Suspended s2) ->
  exists c'' w1 L P G L' P' G',
    resumes env (park (Suspended s2) c2) c''
    /\ snd c'' = []
    /\ loaded items L P G w w1
    /\ loaded items L' P' G' w1 (fst c'').
Proof.
  intros Hj Hf Hall Hw He1 He2.
  rewrite load_awaits in He1, He2. cbn [exec] in He1. injection He1 as <- <-.
  cbn [park log fst snd app exec] in He2. injection He2 as <- <-.
  cbn [park log fst snd app].
  set (k := answered (Editor.loadPOIs h)).
  set (w2 := set_trace _ _).
  assert (Hw2 : stamped w2) by (revert Hw; apply stamped_frame; reflexivity).
  destruct (load_rest_registers env h w2 [OnFetch pois_request k] r fields items
              Hj Hf Hall Hw2) as (w3 & L & P & G & Hx1 & Hl1 & Hw3).
  destruct (load_rest_registers env h w3 [] r fields items Hj Hf Hall Hw3)
    as (w4 & L' & P' & G' & Hx2 & Hl2 & Hw4).
  exists (w4, []), w3, L, P, G, L', P', G'.
  split; [|split; [reflexivity | split; [exact Hl1 | exact Hl2]]].
  eapply resumes_step.
  { apply (@resume_fetch env w2 [] pois_request k [OnFetch pois_request k]
             (Resolved r) (w2, [OnFetch pois_request k])
             (Suspended (OnTick (ticked (k (Resolved r)))))).
    subst k. rewrite load_yields. reflexivity. }
  cbn [park fst snd app].
  eapply resumes_step.
  { apply (@resume_tick env w2 [OnFetch pois_request k] (ticked (k (Resolved r))) []
             (w3, [OnFetch pois_request k]) (Finished (Ok tt))).
    rewrite app_nil_r. exact Hx1. }
  cbn [park].
  eapply resumes_step.
  { apply (@resume_fetch env w3 [] pois_request k [] (Resolved r) (w3, [])
             (Suspended (OnTick (ticked (k (Resolved r)))))).
    subst k. rewrite load_yields. reflexivity. }
  cbn [park fst snd app].
  eapply resumes_step.
  { apply (@resume_tick env w3 [] (ticked (k (Resolved r))) [] (w4, [])
             (Finished (Ok tt))).
    exact Hx2. }
  cbn [park]. apply resumes_refl.
Qed.

Lemma overlapping_loads_render_twice_witness :
  let env := constant_env true (serving demo_collection) in
  let s := OnFetch pois_request (answered (Editor.loadPOIs demo_host)) in
  let c2 : Config := (logged (Requested pois_request)
                        (logged (Requested pois_request) blank_page), [s]) in
  exists c'' w1 L P G L' P' G',
    resumes env (park (Suspended s) c2) c''
    /\ snd c'' = []
    /\ loaded demo_items L P G blank_page w1
    /\ loaded demo_items L' P' G' w1 (fst c'').
Proof.
  intros env s c2.
  pose (c1 := (logged (Requested pois_request) blank_page, []) : Config).
  apply (overlapping_loads_render_twice env demo_host blank_page
           (mkResponse true 200 (Ok demo_collection))
           [("type", JStr "FeatureCollection"); ("features", JArr demo_items)]
           demo_items c1 c2 s s).
  - reflexivity.
  - reflexivity.
  - exact demo_items_renderable.
  - constructor.
  - reflexivity.
  - reflexivity.
Defined.


(** X18.  In the viewer every feature is classified before anything is
    rendered: when the [properties.geom_type] tag of some feature of the
    collection cannot be read, the load renders nothing at all.  The page
    ends as it was, but for the request and the console line in its trace
    and the count text "Error loading POIs". *)
Theorem unreadable_feature_blanks_viewer (env : Env) (h : Host) (w : World)
    (pool : list (Suspension unit)) (r : Response)
    (fields : list (string * JSON)) (items : list JSON) :
  server env (trace w) pois_request = Resolved r ->
  json r = Ok (JObj fields) ->
  lookup "features" fields = Some (JArr items) ->
  ~ Forall tagged items ->
  exists e,
    run env (Viewer.loadPOIs h) (w, pool)
    = ((gave_up e (logged (Requested pois_request) w), pool), Ok tt).
Proof.
  intros Hs Hj Hf Hn.
  unfold Viewer.loadPOIs. rewrite run_try_catch, run_bind, run_fetch.
  fold pois_request. cbn [fst]. rewrite Hs.
  rewrite run_bind, run_response_json, Hj, run_bind, run_lift.
  cbn [get_prop]. rewrite Hf, run_bind, run_lift, no_features_array.
  destruct items as [|f items]; [destruct Hn; constructor|].
  rewrite run_bind, run_lift. cbn [get_prop String.eqb Ascii.eqb Bool.eqb].
  rewrite run_bind, run_lift. cbn [to_string json_to_string].
  rewrite run_bind, run_modify.
  unfold Viewer.render. rewrite run_bind, run_lift. cbn [as_array].
  rewrite run_bind.
  match goal with |- context [run env (for_each_with _ Viewer.classify ?a) ?c1] =>
    destruct (viewer_classify_stops env (f :: items) a c1 Hn) as [e He]
  end.
  rewrite He. unfold console_error. run_simp. exists e. reflexivity.
Qed.

Lemma unreadable_feature_blanks_viewer_witness :
  let w' := fst (fst (run (constant_env true (serving broken_collection))
                        (Viewer.loadPOIs demo_host) (blank_page, []))) in
  pointLayer w' = [] /\ polygonLayer w' = []
  /\ poi_count w' = "Error loading POIs"%string.
Proof.
  destruct (unreadable_feature_blanks_viewer
              (constant_env true (serving broken_collection)) demo_host
              blank_page [] (mkResponse true 200 (Ok broken_collection))
              [("type", JStr "FeatureCollection"); ("features", JArr broken_items)]
              broken_items) as [e He];
    [reflexivity | reflexivity | reflexivity | |].
  - intros H. inversion H as [|x xs _ H2]; subst.
    inversion H2 as [|y ys [t Ht] _]; subst. discriminate.
  - cbv zeta. rewrite He. repeat split.
Defined.

(** X19.  In the editor the lines are rendered while the features are
    classified, the points and polygons only afterwards: when the tag of a
    feature cannot be read, the load has rendered the lines that come
    before it in the collection, registered in the overlay with their
    features, and nothing else; no point and no polygon of the collection
    is rendered, wherever it stands. *)
Theorem unreadable_feature_keeps_lines (env : Env) (h : Host) (w : World)
    (pool : list (Suspension unit)) (r : Response)
    (fields : list (string * JSON)) (before after : list JSON) (bad : JSON) :
  server env (trace w) pois_request = Resolved r ->
  json r = Ok (JObj fields) ->
  lookup "features" fields = Some (JArr (before ++ bad :: after)) ->
  Forall (renderable h) before ->
  ~ tagged bad ->
  stamped w ->
  exists w1 L e,
    run env (Editor.loadPOIs h) (w, pool) = ((gave_up e w1, pool), Ok tt)
    /\ lineLayer w1 = lineLayer w ++ L
    /\ Forall2 owns L (filter (of_class Lines) before)
    /\ pointLayer w1 = pointLayer w
    /\ polygonLayer w1 = polygonLayer w
    /\ drawnItems w1 = drawnItems w ++ rendered L.
Proof.
  intros Hs Hj Hf Hall Hn Hw.
  destruct (editor_load_partial env h w pool r fields before bad after
              Hs Hj Hf Hall Hn Hw) as (w1 & L & e & Hr & (H1 & H2 & H3) & Ho).
  exists w1, L, e. split; [exact Hr|]. split; [exact H1|]. split; [exact Ho|].
  split; [exact (H2 Points ltac:(discriminate))|].
  split; [exact (H2 Polygons ltac:(discriminate)) | exact H3].
Qed.

Lemma unreadable_feature_keeps_lines_witness :
  let w' := fst (fst (run (constant_env true (serving broken_collection))
                        (Editor.loadPOIs demo_host) (blank_page, []))) in
  exists L, lineLayer w' = L
            /\ Forall2 owns L [demo_feature 3 "LineString" "ST_LineString"]
            /\ pointLayer w' = [] /\ polygonLayer w' = [].
Proof.
  destruct (unreadable_feature_keeps_lines
              (constant_env true (serving broken_collection)) demo_host
              blank_page [] (mkResponse true 200 (Ok broken_collection))
              [("type", JStr "FeatureCollection"); ("features", JArr broken_items)]
              [demo_feature 3 "LineString" "ST_LineString"] [] (JObj []))
    as (w1 & L & e & Hr & H1 & H2 & H3 & H4 & _);
    [reflexivity | reflexivity | reflexivity | | | constructor |].
  - repeat constructor; eexists; reflexivity.
  - intros [t Ht]. discriminate.
  - cbv zeta. rewrite Hr. cbn [fst gave_up lineLayer pointLayer polygonLayer
      set_poi_count set_trace].
    exists L. rewrite H1, H3, H4. repeat split. exact H2.
Defined.

(** X20.  The summary line of the loader ("Loaded ... points ...") is
    never written.  The statements of [loadPOIs] that render the features
    always end by throwing before they reach it, leaving the count text
    and the trace as they found them; so every load, whatever the page
    holds and whatever the backend answers, returns normally and leaves
    one of two marks: the count text "No POIs found in database" and the
    request in the trace, or the count text "Error loading POIs" and the
    request and one console error in the trace.  In the editor and in the
    viewer. *)
Theorem load_never_logs_summary (env : Env) (h : Host) (c : Config) :
  (exists c', run env (Editor.loadPOIs h) c = (c', Ok tt)
     /\ (found_nothing (fst c) (fst c') \/ exists e, ended_on e (fst c) (fst c')))
  /\ (exists c', run env (Viewer.loadPOIs h) c = (c', Ok tt)
        /\ (found_nothing (fst c) (fst c') \/ exists e, ended_on e (fst c) (fst c')))
  /\ (forall features,
        exists c' e, run env (Editor.render h features) c = (c', Threw e)
          /\ poi_count (fst c') = poi_count (fst c)
          /\ trace (fst c') = trace (fst c))
  /\ (forall features,
        exists c' e, run env (Viewer.render h features) c = (c', Threw e)
          /\ poi_count (fst c') = poi_count (fst c)
          /\ trace (fst c') = trace (fst c)).
Proof.
  split; [apply editor_load_trace|]. split; [apply viewer_load_trace|].
  split; intros features.
  - apply editor_render_frame.
  - apply viewer_render_frame.
Qed.


(** X21.  A confirmed, successful deletion while a drawn shape waits in
    the creation form: [clearLayers] takes the shape off the overlay, but
    [currentDrawing], the form and the modal are left as they were.  After
    the reload the overlay holds the rendered layers only, none of them
    with the Leaflet id of the pending shape, the shape is still pending,
    and cancelling the form then removes nothing from the overlay. *)
Theorem reload_drops_pending_shape (env : Env) (h : Host) (w : World)
    (pool : list (Suspension unit)) (poiId : Value) (req : Request) (d : Layer)
    (r : Response) (fields : list (string * JSON)) (items : list JSON) :
  stamped w ->
  currentDrawing w = Some d ->
  In d (drawnItems w) ->
  user env (trace w) confirm_text = true ->
  delete_request poiId = Ok req ->
  status_error (server env (trace w ++ [Confirmed confirm_text true]) req)
  = None ->
  server env (trace (cleared_after_delete poiId req w)) pois_request = Resolved r ->
  json r = Ok (JObj fields) ->
  lookup "features" fields = Some (JArr items) ->
  Forall (renderable h) items ->
  exists w' L P G,
    run env (Editor.deletePOI h poiId) (w, pool) = ((w', pool), Ok tt)
    /\ drawnItems w' = rendered L ++ rendered P ++ rendered G
    /\ Forall2 owns L (filter (of_class Lines) items)
    /\ Forall2 owns P (filter (of_class Points) items)
    /\ Forall2 owns G (filter (of_class Polygons) items)
    /\ unseen d w'
    /\ currentDrawing w' = Some d
    /\ modal_display w' = modal_display w
    /\ form w' = form w
    /\ run env (Editor.closeModal h) (w', pool) = ((dismissed h w', pool), Ok tt).
Proof.
  intros Hw Hc Hin Hu Hq He Hs Hj Hf Hall.
  assert (Hd : stamp d < next_stamp w).
  { unfold stamped in Hw. rewrite Forall_app in Hw. destruct Hw as [Hw _].
    rewrite Forall_forall in Hw. exact (Hw d Hin). }
  destruct (editor_load_registers env h (cleared_after_delete poiId req w) pool
              r fields items Hs Hj Hf Hall)
    as (w' & L & P & G & Hr & Hl & _ & Hk & Hfr); [constructor|].
  destruct Hl as (_ & _ & _ & H4 & H5 & H6 & H7).
  destruct Hk as (_ & K2 & K3 & K4).
  cbn [cleared_after_delete drawnItems app] in H4.
  assert (Hun : unseen d w').
  { unfold unseen. rewrite H4, <- !rendered_app.
    eapply Forall_impl; [|exact Hfr].
    intros l Hl. cbn [cleared_after_delete next_stamp] in Hl. lia. }
  assert (Hcur : currentDrawing w' = Some d) by (apply K4; [exact Hc | exact Hd]).
  exists w', L, P, G.
  split; [rewrite (delete_success env h poiId req w pool Hu Hq He); exact Hr|].
  split; [exact H4|]. split; [exact H5|]. split; [exact H6|]. split; [exact H7|].
  split; [exact Hun|]. split; [exact Hcur|].
  split; [exact K2|]. split; [exact K3|].
  rewrite (closeModal_pending env h d w' pool Hcur).
  rewrite (removeLayer_fresh d (drawnItems w') Hun).
  unfold dismissed. destruct w'. reflexivity.
Qed.

Lemma reload_drops_pending_shape_witness :
  let w' := fst (fst (run (constant_env true (serving demo_collection))
                        (Editor.deletePOI demo_host (Some (JNum 7)))
                        (drawing_page EmptyString, []))) in
  currentDrawing w' = Some drawn /\ modal_display w' = "block"
  /\ unseen drawn w'.
Proof.
  destruct (reload_drops_pending_shape (constant_env true (serving demo_collection))
              demo_host (drawing_page EmptyString) [] (Some (JNum 7))
              (mkRequest "DELETE" "/api/pois/7" [] None) drawn
              (mkResponse true 200 (Ok demo_collection))
              [("type", JStr "FeatureCollection"); ("features", JArr demo_items)]
              demo_items)
    as (w' & L & P & G & Hr & _ & _ & _ & _ & Hun & Hcur & Hm & _);
    [ repeat constructor | reflexivity | now left | reflexivity | reflexivity
    | reflexivity | reflexivity | reflexivity | reflexivity
    | exact demo_items_renderable |].
  cbv zeta. rewrite Hr. cbn [fst]. split; [exact Hcur|]. split; [exact Hm | exact Hun].
Defined.


(** X22.  A creation answered with a 2xx status and a JSON body closes
    the modal, resets the form to its defaults and leaves no shape
    pending, and the handler ends with the alert "POI created
    successfully!" whatever became of the reload: [loadPOIs] reports its
    own failures, so the success alert is shown even when the collection
    could not be fetched or rendered again. *)
Theorem creation_success_closes_form (env : Env) (h : Host) (w : World)
    (pool : list (Suspension unit)) (drawing : Layer) (properties : JSON) :
  currentDrawing w = Some drawing ->
  typed_properties h (poi_properties (form w)) = Ok properties ->
  creation_error (server env (trace w) (creation_request w properties)) = None ->
  exists w' t,
    run env (Editor.on_submit h) (w, pool) = ((w', pool), Ok tt)
    /\ currentDrawing w' = None
    /\ modal_display w' = "none"
    /\ form w' = form_defaults h
    /\ trace w' = t ++ [Alerted "POI created successfully!"].
Proof.
  intros Hc Hp He.
  rewrite (submit_sends env h w pool drawing properties Hc Hp).
  rewrite run_try_catch, run_bind, run_fetch. cbn [fst snd].
  unfold creation_error, status_error in He.
  destruct (server env (trace w) (creation_request w properties)) as [e'|r];
    [discriminate|].
  destruct (ok r); [|discriminate]. cbn [negb]. run_simp.
  destruct (json r) as [created|e']; [|discriminate]. run_simp.
  unfold console_log at 1. run_simp.
  unfold Editor.closeModal. run_simp. unfold log. cbn [fst snd currentDrawing
    set_trace set_modal_display set_form]. rewrite Hc. run_simp.
  unfold Editor.clearLayers. run_simp.
  match goal with |- context [run env (Editor.loadPOIs h) ?c] => set (c1 := c) end.
  destruct (closed_after_load env h (form_defaults h) c1) as (c2 & Hl & H1 & H2 & H3).
  { subst c1. repeat split. }
  destruct (load_requests_editor env h c1) as (c2' & Hl' & _ & Hw).
  rewrite Hl in Hl'. injection Hl' as <-.
  rewrite Hl. unfold alert. rewrite run_emit.
  exists (fst (log (Alerted "POI created successfully!") c2)), (trace (fst c2)).
  split.
  - unfold log. cbn [fst snd]. rewrite Hw. subst c1. reflexivity.
  - unfold log. cbn [fst]. page. auto.
Qed.

Lemma creation_success_closes_form_witness :
  let w' := fst (fst (run offline_after_post (Editor.on_submit demo_host)
                        (drawing_page EmptyString, []))) in
  modal_display w' = "none" /\ currentDrawing w' = None
  /\ poi_count w' = "Error loading POIs"
  /\ In (Alerted "POI created successfully!") (trace w').
Proof.
  destruct (creation_success_closes_form offline_after_post demo_host
              (drawing_page EmptyString) [] drawn JNull)
    as (w' & t & Hr & Hc & Hm & _ & Ht); [reflexivity | reflexivity | reflexivity |].
  cbv zeta. rewrite Hr. cbn [fst]. split; [exact Hm|]. split; [exact Hc|]. split.
  - apply (f_equal (fun c => poi_count (fst (fst c)))) in Hr. cbn [fst] in Hr.
    rewrite <- Hr. reflexivity.
  - rewrite Ht. apply in_or_app. right. now left.
Defined.

